(** * STOWAGEMASTER: the stowage optimisation engine, embedded and verified

    A shallow embedding of the data model ([models/cargo.py], [models/ship.py],
    [models/plan.py]) and of the two solvers ([optimizer/advanced_optimizer.py],
    [optimizer/genetic_optimizer.py]) together with the greedy solver, the
    validators and the scorers of [optimizer/stowage_optimizer.py].

    Conventions of the embedding.
    - Python floats are read as exact rationals ([Q]); every literal of the
      source (0.001, 0.65, 0.05, ...) is the rational it denotes.
    - A Python [dict] is an association list in insertion order: iteration
      order decides ties in the solvers, and assigning to an existing key
      keeps the key's position.
    - Mutation of [plan] and [available_tanks] is explicit state passing.
    - A raised exception is [None] in an [option] result.
    - The [while] loop of the greedy solver runs on an iteration budget; its
      result is [Returned], [Raised] or [OutOfFuel], and the budget is shown
      to suffice.
    - [uuid.uuid4()] and [datetime.now()] are read from an explicit
      environment [Env]; the module [random] is a tape of draws [Rng]. *)

From Stdlib Require Import String List Bool Arith ZArith QArith Qabs Qminmax Lia Lqa
  Permutation.
Import ListNotations.
Open Scope Q_scope.

(** ** Rational comparisons as the source writes them *)

Definition Qleb (x y : Q) : bool := Qle_bool x y.
Definition Qltb (x y : Q) : bool := negb (Qle_bool y x).
Definition Qgtb (x y : Q) : bool := Qltb y x.
Definition Qgeb (x y : Q) : bool := Qleb y x.

(** Python's [min(a, b, c)]. *)
Definition Qmin3 (a b c : Q) : Q := Qmin (Qmin a b) c.

(** The literal [0.001] used all over the solvers. *)
Definition eps : Q := 1 # 1000.

(** Python's [int(x)] on a float: truncation towards zero. *)
Definition py_int (x : Q) : Z := Z.quot (Qnum x) (Zpos (Qden x)).

(** [option.get(default)], the shape of [dict.get(key, default)]. *)
Definition or_default {A} (d : A) (o : option A) : A :=
  match o with Some x => x | None => d end.

(** ** Ordered dictionaries *)

Section Dict.
Context {V : Type}.

Fixpoint dict_get (k : string) (d : list (string * V)) : option V :=
  match d with
  | [] => None
  | (k', v) :: r => if String.eqb k k' then Some v else dict_get k r
  end.

(** [d[k] = v]: replaces in place, appends a new key at the end. *)
Fixpoint dict_set (k : string) (v : V) (d : list (string * V)) : list (string * V) :=
  match d with
  | [] => [(k, v)]
  | (k', v') :: r =>
      if String.eqb k k' then (k', v) :: r else (k', v') :: dict_set k v r
  end.

Fixpoint dict_del (k : string) (d : list (string * V)) : list (string * V) :=
  match d with
  | [] => []
  | (k', v') :: r => if String.eqb k k' then r else (k', v') :: dict_del k r
  end.

Definition dict_mem (k : string) (d : list (string * V)) : bool :=
  match dict_get k d with Some _ => true | None => false end.

Definition dict_keys (d : list (string * V)) : list string := map fst d.
Definition dict_values (d : list (string * V)) : list V := map snd d.
End Dict.

(** Membership of a string in a Python list or set of strings. *)
Definition str_in (k : string) (l : list string) : bool :=
  existsb (String.eqb k) l.

(** ** The environment of object construction *)

(** [datetime]: its [strftime('%Y%m%d_%H%M%S')] rendering and the microseconds. *)
Record datetime := mkDatetime { stamp : string; micros : Z }.

(** What [uuid.uuid4()] and [datetime.now()] return at a construction site. *)
Record Env := mkEnv { env_uuid4 : string; env_now : datetime }.

(** ** models/cargo.py *)

(** JSON-like values, the contents of the dictionaries of [to_dict]. *)
#[warnings="-register-all"]
Inductive JValue :=
| JNull
| JBool (b : bool)
| JNum (q : Q)
| JStr (s : string)
| JList (l : list JValue)
| JDict (d : list (string * JValue)).

(** [data.get(k)]: a missing key and a stored [None] both read as [None]. *)
Definition jget (k : string) (d : list (string * JValue)) : option JValue :=
  match dict_get k d with
  | Some JNull => None
  | o => o
  end.

Record Receiver := mkReceiver { r_name : string }.

Definition Receiver_to_dict (r : Receiver) : JValue :=
  JDict [("name"%string, JStr (r_name r))].

Definition Receiver_from_dict (v : JValue) : option Receiver :=
  match v with
  | JDict d => match dict_get "name" d with
               | Some (JStr n) => Some (mkReceiver n)
               | _ => None
               end
  | _ => None
  end.

Record Cargo := mkCargo {
  cargo_type : string;
  quantity : option Q;
  receivers : list Receiver;
  unique_id : string;
  is_mandatory : bool;
  ton : option Q;
  density : option Q
}.

(** [Cargo.__post_init__], run by the dataclass constructor on the arguments
    it was given; [e] supplies the identifier [uuid4()] would return. *)
Definition Cargo_post_init (e : Env) (c : Cargo) : Cargo :=
  let uid := if String.eqb (unique_id c) "" then env_uuid4 e else unique_id c in
  let quantity_unset :=
    match quantity c with None => true | Some q => Qeq_bool q 0 end in
  let q' :=
    match ton c, density c with
    | Some t, Some d =>
        if quantity_unset && Qgtb d 0 then Some (t / d) else quantity c
    | _, _ => quantity c
    end in
  mkCargo (cargo_type c) q' (receivers c) uid (is_mandatory c) (ton c) (density c).

(** The constructor call [Cargo(cargo_type=..., quantity=..., ...)]. *)
Definition Cargo_new (e : Env) (cargo_type : string) (quantity : option Q)
    (receivers : list Receiver) (unique_id : string) (is_mandatory : bool)
    (ton density : option Q) : Cargo :=
  Cargo_post_init e
    (mkCargo cargo_type quantity receivers unique_id is_mandatory ton density).

Definition jnum_opt (o : option Q) : JValue :=
  match o with Some q => JNum q | None => JNull end.

Definition Cargo_to_dict (c : Cargo) : JValue :=
  JDict [ ("unique_id"%string, JStr (unique_id c));
          ("cargo_type"%string, JStr (cargo_type c));
          ("quantity"%string, jnum_opt (quantity c));
          ("receivers"%string, JList (map Receiver_to_dict (receivers c)));
          ("is_mandatory"%string, JBool (is_mandatory c));
          ("ton"%string, jnum_opt (ton c));
          ("density"%string, jnum_opt (density c)) ].

Fixpoint all_some {A} (l : list (option A)) : option (list A) :=
  match l with
  | [] => Some []
  | Some x :: r => match all_some r with Some r' => Some (x :: r') | None => None end
  | None :: _ => None
  end.

(** A numeric field read with [data.get(k)]: absent/None, a number, or a value
    of another type, which this embedding does not follow further. *)
Definition jnum_field (k : string) (d : list (string * JValue)) : option (option Q) :=
  match jget k d with
  | None => Some None
  | Some (JNum q) => Some (Some q)
  | Some _ => None
  end.

(** [Cargo.from_dict]; [None] is the [KeyError] of a missing ['cargo_type']
    (or ['name'] of a receiver), or a field of a type the model leaves out. *)
Definition Cargo_from_dict (e : Env) (v : JValue) : option Cargo :=
  match v with
  | JDict data =>
      let rs_data := match dict_get "receivers" data with
                     | Some (JList l) => Some l
                     | None => Some []
                     | Some _ => None
                     end in
      match rs_data with
      | None => None
      | Some l =>
      match all_some (map Receiver_from_dict l) with
      | None => None
      | Some receivers =>
      match jnum_field "quantity" data, jnum_field "ton" data, jnum_field "density" data with
      | Some oq, Some ot, Some od =>
          let original_quantity := match oq with None => Some 0 | Some q => Some q end in
          let uid := match dict_get "unique_id" data with
                     | Some (JStr s) => Some s
                     | None => Some ""%string
                     | Some _ => None
                     end in
          let mand := match dict_get "is_mandatory" data with
                      | Some (JBool b) => Some b
                      | None => Some false
                      | Some _ => None
                      end in
          match dict_get "cargo_type" data, uid, mand with
          | Some (JStr ct), Some u, Some m =>
              Some (Cargo_new e ct original_quantity receivers u m ot od)
          | _, _, _ => None
          end
      | _, _, _ => None
      end
      end
      end
  | _ => None
  end.

(** The engine reads [cargo.quantity] as a float. *)
Definition cq (c : Cargo) : Q := or_default 0 (quantity c).

(** [==] on receivers, the dataclass equality: equal names. *)
Definition Receiver_eqb (a b : Receiver) : bool := String.eqb (r_name a) (r_name b).

Definition set_receivers (c : Cargo) (rs : list Receiver) : Cargo :=
  mkCargo (cargo_type c) (quantity c) rs (unique_id c) (is_mandatory c) (ton c) (density c).

(** [Cargo.add_receiver]: [if receiver not in self.receivers: append]. *)
Definition add_receiver (c : Cargo) (receiver : Receiver) : Cargo :=
  if existsb (fun r => Receiver_eqb r receiver) (receivers c) then c
  else set_receivers c (receivers c ++ [receiver]).

(** [Cargo.get_receiver_names] *)
Definition get_receiver_names (c : Cargo) : string :=
  match receivers c with
  | [] => "Genel"%string
  | rs => String.concat ", " (map r_name rs)
  end.

(** ** models/ship.py *)

Record Tank := mkTank { t_id : string; t_name : string; volume : Q }.

Record Ship := mkShip { s_name : string; tanks : list Tank; s_id : string }.

Definition Qsum (l : list Q) : Q := fold_left Qplus l 0.

Definition get_total_capacity (s : Ship) : Q := Qsum (map volume (tanks s)).

Definition get_tank_by_id (s : Ship) (tank_id : string) : option Tank :=
  find (fun t => String.eqb (t_id t) tank_id) (tanks s).

Inductive Side := port | starboard.
Inductive Position := bow | mid | stern.

Definition Side_eqb (a b : Side) : bool :=
  match a, b with port, port | starboard, starboard => true | _, _ => false end.

Record PosInfo := mkPos {
  row_number : nat;
  side : Side;
  position : Position;
  index : nat
}.

Fixpoint index_of (tank_id : string) (l : list Tank) (i : nat) : option nat :=
  match l with
  | [] => None
  | t :: r => if String.eqb (t_id t) tank_id then Some i else index_of tank_id r (S i)
  end.

Definition total_rows_of (s : Ship) : nat := (length (tanks s) + 1) / 2.

Definition get_tank_position_info (s : Ship) (tank_id : string) : option PosInfo :=
  match get_tank_by_id s tank_id with
  | None => None
  | Some _ =>
      match index_of tank_id (tanks s) 0 with
      | None => None
      | Some tank_index =>
          let row := (tank_index / 2 + 1)%nat in
          let sd := if Nat.even tank_index then port else starboard in
          let total_rows := total_rows_of s in
          let pos := if Nat.eqb row 1 then bow
                     else if Nat.eqb row total_rows then stern else mid in
          Some (mkPos row sd pos tank_index)
      end
  end.

(** [Ship.get_tank_pairs]: the rows that have both a port and a starboard tank. *)
Fixpoint pairs_of (l : list Tank) : list (Tank * Tank) :=
  match l with
  | p :: s :: r => (p, s) :: pairs_of r
  | _ => []
  end.

Definition get_tank_pairs (s : Ship) : list (Tank * Tank) := pairs_of (tanks s).

Definition Position_eqb (a b : Position) : bool :=
  match a, b with bow, bow | mid, mid | stern, stern => true | _, _ => false end.

(** [Ship.is_bow_tank]: [info and info['position'] == 'bow']; the result is
    Python's [None] when the tank is unknown. *)
Definition is_bow_tank (s : Ship) (tank_id : string) : option bool :=
  match get_tank_position_info s tank_id with
  | None => None
  | Some info => Some (Position_eqb (position info) bow)
  end.

(** [Ship.is_stern_tank] *)
Definition is_stern_tank (s : Ship) (tank_id : string) : option bool :=
  match get_tank_position_info s tank_id with
  | None => None
  | Some info => Some (Position_eqb (position info) stern)
  end.

(** [Tank.__post_init__]: [if not self.id: self.id = str(uuid.uuid4())]. *)
Definition Tank_post_init (e : Env) (t : Tank) : Tank :=
  if String.eqb (t_id t) "" then mkTank (env_uuid4 e) (t_name t) (volume t) else t.

(** [Tank.to_dict] *)
Definition Tank_to_dict (t : Tank) : JValue :=
  JDict [ ("id"%string, JStr (t_id t));
          ("name"%string, JStr (t_name t));
          ("volume"%string, JNum (volume t)) ].

(** [data.get('id', '')]: a missing key reads as the empty string, and a
    stored [None] is as false as the empty string for [__post_init__]. *)
Definition jid_field (data : list (string * JValue)) : option string :=
  match dict_get "id" data with
  | Some (JStr s) => Some s
  | Some JNull | None => Some ""%string
  | Some _ => None
  end.

(** [Tank.from_dict]; [None] is the [KeyError] of a missing ['name'] or
    ['volume'], or a field of a type the model leaves out. *)
Definition Tank_from_dict (e : Env) (v : JValue) : option Tank :=
  match v with
  | JDict data =>
      match jid_field data, dict_get "name" data, dict_get "volume" data with
      | Some id, Some (JStr name), Some (JNum volume) =>
          Some (Tank_post_init e (mkTank id name volume))
      | _, _, _ => None
      end
  | _ => None
  end.

(** [Ship.__post_init__] *)
Definition Ship_post_init (e : Env) (s : Ship) : Ship :=
  if String.eqb (s_id s) "" then mkShip (s_name s) (tanks s) (env_uuid4 e) else s.

(** [Ship.to_dict] *)
Definition Ship_to_dict (s : Ship) : JValue :=
  JDict [ ("id"%string, JStr (s_id s));
          ("name"%string, JStr (s_name s));
          ("tanks"%string, JList (map Tank_to_dict (tanks s))) ].

(** [[Tank.from_dict(tank_data) for tank_data in ...]]; [envs i] is the
    construction environment of the [i]-th tank. *)
Fixpoint tanks_from_dicts (envs : nat -> Env) (i : nat) (l : list JValue)
    : option (list Tank) :=
  match l with
  | [] => Some []
  | v :: r =>
      match Tank_from_dict (envs i) v with
      | None => None
      | Some t =>
          match tanks_from_dicts envs (S i) r with
          | None => None
          | Some ts => Some (t :: ts)
          end
      end
  end.

(** [Ship.from_dict]; [None] is a [KeyError] (of a tank, or of a missing
    ['name']), or a field of a type the model leaves out. *)
Definition Ship_from_dict (e : Env) (envs : nat -> Env) (v : JValue) : option Ship :=
  match v with
  | JDict data =>
      let tanks_data := match dict_get "tanks" data with
                        | Some (JList l) => Some l
                        | None => Some []
                        | Some _ => None
                        end in
      match tanks_data with
      | None => None
      | Some l =>
          match tanks_from_dicts envs 0 l with
          | None => None
          | Some tanks =>
              match jid_field data, dict_get "name" data with
              | Some id, Some (JStr name) => Some (Ship_post_init e (mkShip name tanks id))
              | _, _ => None
              end
          end
      end
  | _ => None
  end.

(** ** models/plan.py *)

Record TankAssignment := mkAssignment {
  a_tank_id : string;
  a_cargo : Cargo;
  quantity_loaded : Q
}.

Record StowagePlan := mkPlan {
  ship_name : string;
  ship_profile_id : string;
  cargo_requests : list Cargo;
  assignments : list (string * TankAssignment);
  excluded_tanks : list string;
  created_date : datetime;
  plan_name : string;
  notes : option string;
  p_id : string
}.

(** The constructor as the solvers call it: ship name, profile id, cargo
    requests and plan name given; [__post_init__] draws [id] and
    [created_date] from the environment and defaults an empty name. *)
Definition StowagePlan_new (e : Env) (ship_name ship_profile_id : string)
    (cargo_requests : list Cargo) (plan_name : string) : StowagePlan :=
  let created := env_now e in
  let name := if String.eqb plan_name ""
              then ("Plan_" ++ stamp created)%string else plan_name in
  mkPlan ship_name ship_profile_id cargo_requests [] [] created name None (env_uuid4 e).

Definition set_assignments (p : StowagePlan) (a : list (string * TankAssignment)) : StowagePlan :=
  mkPlan (ship_name p) (ship_profile_id p) (cargo_requests p) a (excluded_tanks p)
         (created_date p) (plan_name p) (notes p) (p_id p).

Definition add_assignment (p : StowagePlan) (tank_id : string) (a : TankAssignment) : StowagePlan :=
  set_assignments p (dict_set tank_id a (assignments p)).

Definition get_assignment (p : StowagePlan) (tank_id : string) : option TankAssignment :=
  dict_get tank_id (assignments p).

Definition remove_assignment (p : StowagePlan) (tank_id : string) : StowagePlan :=
  set_assignments p (dict_del tank_id (assignments p)).

Definition get_total_loaded (p : StowagePlan) : Q :=
  Qsum (map quantity_loaded (dict_values (assignments p))).

Definition get_cargo_total_loaded (p : StowagePlan) (cargo_unique_id : string) : Q :=
  fold_left
    (fun total a =>
       if String.eqb (unique_id (a_cargo a)) cargo_unique_id
       then total + quantity_loaded a else total)
    (dict_values (assignments p)) 0.

(** [TankAssignment.to_dict] *)
Definition TankAssignment_to_dict (a : TankAssignment) : JValue :=
  JDict [ ("tank_id"%string, JStr (a_tank_id a));
          ("cargo"%string, Cargo_to_dict (a_cargo a));
          ("quantity_loaded"%string, JNum (quantity_loaded a)) ].

(** [TankAssignment.from_dict]; [None] is the [KeyError] of a missing key, a
    failure of [Cargo.from_dict], or a field of a type the model leaves out. *)
Definition TankAssignment_from_dict (e : Env) (v : JValue) : option TankAssignment :=
  match v with
  | JDict data =>
      match dict_get "tank_id" data, dict_get "cargo" data,
            dict_get "quantity_loaded" data with
      | Some (JStr tank_id), Some cargo_data, Some (JNum q) =>
          match Cargo_from_dict e cargo_data with
          | Some cargo => Some (mkAssignment tank_id cargo q)
          | None => None
          end
      | _, _, _ => None
      end
  | _ => None
  end.

(** What the fixed assignments add to the loaded total of a cargo:
    [for tank_id, assignment in fixed_assignments.items(): ...]. *)
Definition add_fixed_loaded (fixed : list (string * TankAssignment))
    (cargo_unique_id : string) (total_loaded : Q) : Q :=
  fold_left
    (fun total '(tank_id, assignment) =>
       if String.eqb (unique_id (a_cargo assignment)) cargo_unique_id
       then total + quantity_loaded assignment else total)
    fixed total_loaded.

(** The loop of [StowagePlan.get_remaining_cargos]; [envs i] is the
    construction environment of the copy of the [i]-th requested cargo. *)
Fixpoint remaining_cargos_from (envs : nat -> Env) (i : nat) (p : StowagePlan)
    (fixed : list (string * TankAssignment)) (l : list Cargo) : list Cargo :=
  match l with
  | [] => []
  | cargo :: rest =>
      let total_loaded := get_cargo_total_loaded p (unique_id cargo) in
      let total_loaded := add_fixed_loaded fixed (unique_id cargo) total_loaded in
      let remaining := cq cargo - total_loaded in
      if Qgtb remaining eps then
        Cargo_new (envs i) (cargo_type cargo) (Some remaining)
                  (map (fun r => mkReceiver (r_name r)) (receivers cargo))
                  (unique_id cargo) (is_mandatory cargo) (ton cargo) (density cargo)
        :: remaining_cargos_from envs (S i) p fixed rest
      else remaining_cargos_from envs (S i) p fixed rest
  end.

(** [StowagePlan.get_remaining_cargos] *)
Definition get_remaining_cargos (envs : nat -> Env) (p : StowagePlan)
    (fixed_assignments : option (list (string * TankAssignment))) : list Cargo :=
  remaining_cargos_from envs 0 p (or_default [] fixed_assignments) (cargo_requests p).

(** [StowagePlan.get_remaining_tanks] *)
Definition get_remaining_tanks (p : StowagePlan) (ship : Ship)
    (fixed_assignments : option (list (string * TankAssignment)))
    (excluded_tanks : option (list string)) : list Tank :=
  let fixed_assignments := or_default [] fixed_assignments in
  let excluded_tanks := or_default [] excluded_tanks in
  let fixed_tank_ids := dict_keys fixed_assignments in
  filter (fun tank => negb (str_in (t_id tank) fixed_tank_ids)
                      && negb (str_in (t_id tank) excluded_tanks))
         (tanks ship).

(** ** Validators and scorers of optimizer/stowage_optimizer.py *)

(** The message of a validator: empty, or the over-capacity sentence with the
    two totals it formats. *)
Inductive Message :=
| NoMessage
| OverCapacity (total_cargo_quantity total_capacity : Q)
| FarOverCapacity (total_cargo_quantity total_capacity : Q).

Definition Message_is_empty (m : Message) : bool :=
  match m with NoMessage => true | _ => false end.

Module StowageOptimizer.

Definition validate_plan (ship : Ship) (cargo_requests : list Cargo) : bool * Message :=
  let total_cargo_quantity := Qsum (map cq cargo_requests) in
  let total_capacity := get_total_capacity ship in
  if Qgtb total_cargo_quantity total_capacity
  then (false, OverCapacity total_cargo_quantity total_capacity)
  else if Nat.ltb (length (tanks ship)) (length cargo_requests)
  then (true, NoMessage)
  else (true, NoMessage).

(** [score_plan], the composite score. *)
Definition score_plan (plan : StowagePlan) (ship : Ship) : Q :=
  if Nat.eqb (length (tanks ship)) 0 then 0 else
  let total_requested := Qsum (map cq (cargo_requests plan)) in
  let total_loaded := get_total_loaded plan in
  let completion_rate :=
    if Qgtb total_requested 0 then total_loaded / total_requested * 100 else 0 in
  let completion_score := completion_rate * (4 # 10) in
  let total_capacity := get_total_capacity ship in
  let tank_utilization :=
    if Qgtb total_capacity 0 then total_loaded / total_capacity * 100 else 0 in
  let utilization_score := tank_utilization * (3 # 10) in
  let fill_rates :=
    flat_map (fun tank =>
      match get_assignment plan (t_id tank) with
      | Some a => [ if Qgtb (volume tank) 0
                    then quantity_loaded a / volume tank * 100 else 0 ]
      | None => []
      end) (tanks ship) in
  let avg_fill_rate :=
    match fill_rates with
    | [] => 0
    | _ => Qsum fill_rates / inject_Z (Z.of_nat (length fill_rates))
    end in
  let fill_score := avg_fill_rate * (2 # 10) in
  let empty_tanks :=
    length (filter (fun tank =>
      match get_assignment plan (t_id tank) with None => true | Some _ => false end)
      (tanks ship)) in
  let empty_penalty :=
    inject_Z (Z.of_nat empty_tanks) / inject_Z (Z.of_nat (length (tanks ship)))
    * 100 * (1 # 10) in
  let empty_score := 10 - empty_penalty in
  let total_score := completion_score + utilization_score + fill_score + empty_score in
  Qmin total_score 100.

End StowageOptimizer.

(** ** Settings bag: every key is optional, read with [settings.get(key, default)] *)

Record Settings := mkSettings {
  min_utilization : option Q;
  faz1_single_tank_tolerance : option Q;
  faz2_two_tank_tolerance : option Q;
  faz2_asymmetric_tolerance_factor : option Q;
  faz3_three_tank_tolerance : option Q;
  faz4_four_tank_tolerance : option Q;
  faz5_five_tank_tolerance : option Q;
  mandatory_retry_increment : option Q;
  mandatory_max_relaxation : option Q;
  ga_population_size : option nat;
  ga_max_generations : option nat;
  ga_crossover_rate : option Q;
  ga_mutation_rate : option Q;
  ga_tournament_size : option nat;
  ga_use_elitism : option bool;
  ga_elitism_count : option nat;
  ga_symmetry_penalty_coef : option Q;
  ga_trim_penalty_coef : option Q;
  ga_operational_penalty_coef : option Q;
  ga_receiver_tolerance : option Q;
  ga_ideal_lcg_position : option Q;
  ga_convergence_threshold : option Q;
  ga_convergence_generations : option nat
}.

(** The empty bag: every [get] falls back to its default. *)
Definition no_settings : Settings :=
  mkSettings None None None None None None None None None None None None
             None None None None None None None None None None None.

(** [StorageManager.get_default_settings], what the solvers load when they are
    called with [settings=None]. *)
Definition get_default_settings : Settings :=
  mkSettings (Some (65 # 100)) (Some (5 # 100)) (Some (5 # 100)) (Some (2 # 10))
             (Some (4 # 100)) (Some (4 # 100)) (Some (4 # 100))
             (Some (1 # 100)) (Some (35 # 100))
             (Some 500%nat) (Some 2000%nat) (Some (90 # 100)) (Some (11 # 100))
             (Some 3%nat) (Some true) (Some 5%nat)
             (Some 3000) (Some 1500) (Some 100) (Some (3 # 100))
             None (Some (1 # 10000)) (Some 60%nat).

(** ** Loops of the source *)

(** [for i, x in enumerate(l): for j, y in enumerate(l[i+1:], start=i+1): ...]
    the body sees the element and the rest of the list after it. *)
Fixpoint fold_tails {A S : Type} (f : S -> A -> list A -> S) (l : list A) (s : S) : S :=
  match l with
  | [] => s
  | x :: r => fold_tails f r (f s x r)
  end.

(** [available_tanks[k] -= q] (the key is present at every site of the source). *)
Definition dict_sub (k : string) (q : Q) (d : list (string * Q)) : list (string * Q) :=
  match dict_get k d with
  | Some v => dict_set k (v - q) d
  | None => d
  end.

(** [sorted(l, key=...)] is stable; [before x y] says that [x]'s key comes
    strictly before [y]'s in the requested order (for [reverse=True]: is
    strictly greater), so elements with equal keys keep their input order. *)
Fixpoint insert_sorted {A : Type} (before : A -> A -> bool) (x : A) (l : list A) : list A :=
  match l with
  | [] => [x]
  | y :: r => if before x y then x :: y :: r else y :: insert_sorted before x r
  end.

Definition sorted_by {A : Type} (before : A -> A -> bool) (l : list A) : list A :=
  fold_left (fun acc x => insert_sorted before x acc) l [].

(** ** [Ship.get_tank_pairs], statement by statement *)

(** The inner dictionary of a row: what is stored under ["port"] and under
    ["starboard"]. *)
Definition RowGroup : Type := (option Tank * option Tank)%type.

(** [tank_groups], keyed by row number, in insertion order. *)
Fixpoint groups_get (row : nat) (g : list (nat * RowGroup)) : option RowGroup :=
  match g with
  | [] => None
  | (row', v) :: r => if Nat.eqb row row' then Some v else groups_get row r
  end.

Fixpoint groups_set (row : nat) (v : RowGroup) (g : list (nat * RowGroup))
    : list (nat * RowGroup) :=
  match g with
  | [] => [(row, v)]
  | (row', v') :: r =>
      if Nat.eqb row row' then (row', v) :: r else (row', v') :: groups_set row v r
  end.

(** The first loop: [for idx, tank in enumerate(self.tanks)]. *)
Definition tank_groups_of (l : list Tank) : list (nat * RowGroup) :=
  fst (fold_left
         (fun '(tank_groups, idx) tank =>
            let row_number := (idx / 2 + 1)%nat in
            let tank_groups :=
              match groups_get row_number tank_groups with
              | None => groups_set row_number (None, None) tank_groups
              | Some _ => tank_groups
              end in
            let '(p, sb) := or_default (None, None) (groups_get row_number tank_groups) in
            let group := if Nat.even idx then (Some tank, sb) else (p, Some tank) in
            (groups_set row_number group tank_groups, S idx))
         l ([], 0%nat)).

(** The second loop: [for row_number in sorted(tank_groups.keys())]. *)
Definition get_tank_pairs_by_rows (s : Ship) : list (Tank * Tank) :=
  let tank_groups := tank_groups_of (tanks s) in
  flat_map (fun row_number =>
              match groups_get row_number tank_groups with
              | Some (Some p, Some sb) => [(p, sb)]
              | _ => []
              end)
           (sorted_by Nat.ltb (map fst tank_groups)).

(** ** optimizer/advanced_optimizer.py *)

Module AdvancedStowageOptimizer.

(** A deviation, or [float('inf')]. *)
Inductive Dev := Fin (d : Q) | Inf.

Definition dev_gt (d : Dev) (tol : Q) : bool :=
  match d with Inf => true | Fin x => Qgtb x tol end.

Definition dev_lt (d best : Dev) : bool :=
  match d, best with
  | Fin x, Fin y => Qltb x y
  | Fin _, Inf => true
  | Inf, _ => false
  end.

Definition _calculate_tolerance_deviation (quantity total_capacity : Q) : Dev :=
  if Qleb total_capacity 0 then Inf
  else Fin (Qabs (quantity - total_capacity) / total_capacity).

Definition _check_min_utilization (quantity tank_volume min_util : Q) : bool :=
  if Qleb tank_volume 0 then false
  else Qgeb (quantity / tank_volume) min_util.

Definition _get_mid_section_rows (ship : Ship) : nat * nat :=
  let total_rows := total_rows_of ship in
  if Nat.leb total_rows 2 then (1%nat, total_rows)
  else (Nat.max 2 (total_rows / 3 + 1),
        Nat.min (total_rows - 1) (total_rows * 2 / 3 + 1)).

(** [r in range(lo, hi)]. *)
Definition in_range (lo hi r : nat) : bool := Nat.leb lo r && Nat.ltb r hi.

Definition _is_bow_or_stern_only (tank_ids : list string) (ship : Ship) : bool :=
  match tank_ids with
  | [] => false
  | _ =>
      let total_rows := total_rows_of ship in
      let bow_rows := in_range 1 (Nat.min 4 (total_rows + 1)) in
      let stern_start := Nat.max 1 (total_rows - 2) in
      let stern_rows := in_range stern_start (total_rows + 1) in
      let '(bow_count, stern_count, mid_count) :=
        fold_left
          (fun '(b, s, m) tank_id =>
             match get_tank_position_info ship tank_id with
             | Some pos_info =>
                 let row_num := row_number pos_info in
                 if bow_rows row_num then (S b, s, m)
                 else if stern_rows row_num then (b, S s, m)
                 else (b, s, S m)
             | None => (b, s, m)
             end)
          tank_ids (0, 0, 0)%nat in
      Nat.eqb bow_count (length tank_ids) || Nat.eqb stern_count (length tank_ids)
  end.

Definition _is_all_same_side (tank_ids : list string) (ship : Ship) : bool :=
  match tank_ids with
  | [] => false
  | first :: rest =>
      match get_tank_position_info ship first with
      | None => false
      | Some first_pos =>
          forallb (fun tank_id =>
                     match get_tank_position_info ship tank_id with
                     | Some p => Side_eqb (side p) (side first_pos)
                     | None => false
                     end) rest
      end
  end.

Definition _get_tank_available_capacity (tank_id : string) (plan : StowagePlan)
    (available_tanks : list (string * Q)) (ship : Ship) : Q :=
  match get_tank_by_id ship tank_id with
  | None => 0
  | Some tank =>
      match get_assignment plan tank_id with
      | Some existing_assignment =>
          let already_loaded := quantity_loaded existing_assignment in
          Qmax 0 (volume tank - already_loaded)
      | None =>
          Qmin (or_default 0 (dict_get tank_id available_tanks)) (volume tank)
      end
  end.

(** The solver state threaded through the phases: the plan being built and
    the [available_tanks] dictionary. *)
Definition St : Type := StowagePlan * list (string * Q).

(** A chosen tank set with its quantities ([best_pair], [best_triplet],
    [best_combination], [best_solution] of the source). *)
Definition Cand : Type := list (string * Q).

(** [plan.add_assignment(tid, TankAssignment(tid, cargo, qty))] followed by
    [available_tanks[tid] -= qty]. *)
Definition place (cargo : Cargo) (st : St) (tq : string * Q) : St :=
  let '(plan, available_tanks) := st in
  let '(tid, qty) := tq in
  (add_assignment plan tid (mkAssignment tid cargo qty),
   dict_sub tid qty available_tanks).

Definition place_all (cargo : Cargo) (best : Cand) (st : St) : St :=
  fold_left (place cargo) best st.

(** *** FAZ 1 *)

Definition faz1_best (ship : Ship) (available_tanks : list (string * Q))
    (remaining_qty tolerance min_util : Q) : option string * Dev :=
  fold_left
    (fun (acc : option string * Dev) '(tank_id, available_vol) =>
       let '(best_tank_id, best_deviation) := acc in
       if Qltb available_vol (remaining_qty * (1 - tolerance)) then acc else
       match get_tank_by_id ship tank_id with
       | None => acc
       | Some tank =>
           let deviation := _calculate_tolerance_deviation remaining_qty (volume tank) in
           if dev_gt deviation tolerance then acc else
           if negb (_check_min_utilization remaining_qty (volume tank) min_util) then acc else
           if dev_lt deviation best_deviation then (Some tank_id, deviation) else acc
       end)
    available_tanks (None, Inf).

Definition faz1_cargo (ship : Ship) (min_util tolerance : Q) (st : St) (cargo : Cargo) : St :=
  let '(plan, available_tanks) := st in
  let remaining_qty := cq cargo in
  match fst (faz1_best ship available_tanks remaining_qty tolerance min_util) with
  | None => st
  | Some best_tank_id =>
      if String.eqb best_tank_id "" then st else
      match get_tank_by_id ship best_tank_id with
      | None => st
      | Some tank =>
          let actual_available :=
            _get_tank_available_capacity best_tank_id plan available_tanks ship in
          let qty_to_load := Qmin3 remaining_qty actual_available (volume tank) in
          let qty_to_load :=
            match get_assignment plan best_tank_id with
            | Some existing_assignment =>
                let total_loaded := quantity_loaded existing_assignment + qty_to_load in
                if Qgtb total_loaded (volume tank)
                then Qmax 0 (volume tank - quantity_loaded existing_assignment)
                else qty_to_load
            | None => qty_to_load
            end in
          if Qgtb qty_to_load eps then
            let plan := add_assignment plan best_tank_id
                          (mkAssignment best_tank_id cargo qty_to_load) in
            let available_tanks := dict_sub best_tank_id qty_to_load available_tanks in
            let available_tanks :=
              if Qltb (or_default 0 (dict_get best_tank_id available_tanks)) eps
              then dict_set best_tank_id 0 available_tanks
              else available_tanks in
            (plan, available_tanks)
          else st
      end
  end.

Definition _faz1_single_tank (plan : StowagePlan) (cargos : list Cargo)
    (available_tanks : list (string * Q)) (ship : Ship) (settings : Settings)
    (override_tolerance : option Q) : St :=
  let min_util := or_default (65 # 100) (min_utilization settings) in
  let tolerance :=
    match override_tolerance with
    | Some t => t
    | None => or_default (5 # 100) (faz1_single_tank_tolerance settings)
    end in
  fold_left (faz1_cargo ship min_util tolerance) cargos (plan, available_tanks).

(** *** FAZ 2 *)

(** The two-tank split the source repeats for every pair: half each, the
    second tank takes the remainder, swap roles if it cannot, final clamp. *)
Definition distribute_two (remaining_qty a1 v1 a2 v2 : Q) : Q * Q :=
  let qty1 := Qmin3 (remaining_qty / 2) a1 v1 in
  let qty2 := Qmin3 (remaining_qty - qty1) a2 v2 in
  let '(qty1, qty2) :=
    if Qltb qty2 (remaining_qty - qty1 - eps)
    then let qty2' := Qmin3 (remaining_qty / 2) a2 v2 in
         (Qmin3 (remaining_qty - qty2') a1 v1, qty2')
    else (qty1, qty2) in
  (Qmin3 qty1 a1 v1, Qmin3 qty2 a2 v2).

Inductive BestType := symmetric | partial_symmetric | asymmetric.

(** [best_pair], [best_deviation], [best_type]. *)
Definition Acc2 : Type := option Cand * Dev * option BestType.

(** One candidate pair from the availability lookup to the update of the
    best pair; the same lines in 2A, 2B and 2C. *)
Definition try_two (plan : StowagePlan) (available_tanks : list (string * Q))
    (ship : Ship) (remaining_qty min_util tol : Q) (kind : BestType)
    (tid1 : string) (tank1 : Tank) (tid2 : string) (tank2 : Tank) (acc : Acc2) : Acc2 :=
  let '(best_pair, best_deviation, best_type) := acc in
  let tank1_available := _get_tank_available_capacity tid1 plan available_tanks ship in
  let tank2_available := _get_tank_available_capacity tid2 plan available_tanks ship in
  let total_cap := volume tank1 + volume tank2 in
  let deviation := _calculate_tolerance_deviation remaining_qty total_cap in
  if dev_gt deviation tol then acc else
  let '(qty1, qty2) :=
    distribute_two remaining_qty tank1_available (volume tank1)
                   tank2_available (volume tank2) in
  if negb (_check_min_utilization qty1 (volume tank1) min_util) then acc else
  if negb (_check_min_utilization qty2 (volume tank2) min_util) then acc else
  if dev_lt deviation best_deviation
  then (Some [(tid1, qty1); (tid2, qty2)], deviation, Some kind)
  else acc.

Definition faz2_2A (plan : StowagePlan) (available_tanks : list (string * Q))
    (ship : Ship) (remaining_qty min_util symmetric_tolerance : Q) (acc : Acc2) : Acc2 :=
  fold_left
    (fun acc '(port_tank, starboard_tank) =>
       let port_id := t_id port_tank in
       let starboard_id := t_id starboard_tank in
       if negb (dict_mem port_id available_tanks)
          || negb (dict_mem starboard_id available_tanks) then acc else
       try_two plan available_tanks ship remaining_qty min_util symmetric_tolerance
               symmetric port_id port_tank starboard_id starboard_tank acc)
    (get_tank_pairs ship) acc.

Definition faz2_2B (plan : StowagePlan) (available_tanks : list (string * Q))
    (ship : Ship) (remaining_qty min_util symmetric_tolerance : Q) (acc : Acc2) : Acc2 :=
  fold_tails
    (fun acc '(port1, star1) rest =>
       fold_left
         (fun acc '(port2, star2) =>
            fold_left
              (fun acc '(tank1_id, tank2_id) =>
                 if negb (dict_mem tank1_id available_tanks)
                    || negb (dict_mem tank2_id available_tanks) then acc else
                 match get_tank_by_id ship tank1_id, get_tank_by_id ship tank2_id with
                 | Some tank1, Some tank2 =>
                     try_two plan available_tanks ship remaining_qty min_util
                             symmetric_tolerance partial_symmetric
                             tank1_id tank1 tank2_id tank2 acc
                 | _, _ => acc
                 end)
              [(t_id port1, t_id star2); (t_id star1, t_id port2)] acc)
         rest acc)
    (get_tank_pairs ship) acc.

Definition faz2_2C (plan : StowagePlan) (available_tanks : list (string * Q))
    (ship : Ship) (remaining_qty min_util asymmetric_tolerance : Q) (acc : Acc2) : Acc2 :=
  let all_tanks :=
    map (fun tid => (tid, get_tank_by_id ship tid)) (dict_keys available_tanks) in
  fold_tails
    (fun acc '(tid1, otank1) rest =>
       match otank1, get_tank_position_info ship tid1 with
       | Some tank1, Some pos1 =>
           fold_left
             (fun acc '(tid2, otank2) =>
                match otank2, get_tank_position_info ship tid2 with
                | Some tank2, Some pos2 =>
                    if negb (Side_eqb (side pos2) (side pos1)) then acc else
                    try_two plan available_tanks ship remaining_qty min_util
                            asymmetric_tolerance asymmetric tid1 tank1 tid2 tank2 acc
                | _, _ => acc
                end)
             rest acc
       | _, _ => acc
       end)
    all_tanks acc.

Definition faz2_best (plan : StowagePlan) (available_tanks : list (string * Q))
    (ship : Ship) (remaining_qty min_util symmetric_tolerance asymmetric_tolerance : Q)
    : Acc2 :=
  let acc := faz2_2A plan available_tanks ship remaining_qty min_util
                     symmetric_tolerance (None, Inf, None) in
  let acc :=
    match snd acc with
    | Some symmetric => acc
    | _ => faz2_2B plan available_tanks ship remaining_qty min_util
                   symmetric_tolerance acc
    end in
  match snd acc with
  | None => faz2_2C plan available_tanks ship remaining_qty min_util
                    asymmetric_tolerance acc
  | Some _ => acc
  end.

Definition faz2_cargo (ship : Ship) (min_util symmetric_tolerance asymmetric_tolerance : Q)
    (st : St) (cargo : Cargo) : St :=
  let '(plan, available_tanks) := st in
  match fst (fst (faz2_best plan available_tanks ship (cq cargo) min_util
                            symmetric_tolerance asymmetric_tolerance)) with
  | Some best_pair => place_all cargo best_pair st
  | None => st
  end.

Definition _faz2_two_tank (plan : StowagePlan) (cargos : list Cargo)
    (available_tanks : list (string * Q)) (ship : Ship) (settings : Settings)
    (override_tolerance : option Q) : St :=
  let min_util := or_default (65 # 100) (min_utilization settings) in
  let symmetric_tolerance :=
    match override_tolerance with
    | Some t => t
    | None => or_default (5 # 100) (faz2_two_tank_tolerance settings)
    end in
  let asymmetric_factor := or_default (2 # 10) (faz2_asymmetric_tolerance_factor settings) in
  let asymmetric_tolerance := symmetric_tolerance * asymmetric_factor in
  fold_left (faz2_cargo ship min_util symmetric_tolerance asymmetric_tolerance)
            cargos (plan, available_tanks).

(** *** FAZ 3 *)

Definition Acc : Type := option Cand * Dev.

(** [sides = {pos1['side'], pos2['side'], pos3['side']}; len(sides) == 1]. *)
Definition all_same_side3 (p1 p2 p3 : PosInfo) : bool :=
  Side_eqb (side p1) (side p2) && Side_eqb (side p2) (side p3).

Definition distribute_three (remaining_qty a1 v1 a2 v2 a3 v3 : Q) : Q * Q * Q :=
  let qty_per_tank := remaining_qty / 3 in
  let qty1 := Qmin3 qty_per_tank a1 v1 in
  let qty2 := Qmin3 qty_per_tank a2 v2 in
  let qty3 := Qmin3 qty_per_tank a3 v3 in
  let total_assigned := qty1 + qty2 + qty3 in
  let '(qty1, qty2, qty3) :=
    if Qltb total_assigned (remaining_qty - eps) then
      let remaining := remaining_qty - total_assigned in
      let '(qty1, remaining) :=
        if Qgtb (a1 - qty1) eps
        then let add := Qmin3 remaining (a1 - qty1) (Qmax 0 (v1 - qty1)) in
             (qty1 + add, remaining - add)
        else (qty1, remaining) in
      let '(qty2, remaining) :=
        if Qgtb (a2 - qty2) eps && Qgtb remaining eps
        then let add := Qmin3 remaining (a2 - qty2) (Qmax 0 (v2 - qty2)) in
             (qty2 + add, remaining - add)
        else (qty2, remaining) in
      let qty3 :=
        if Qgtb (a3 - qty3) eps && Qgtb remaining eps
        then qty3 + Qmin3 remaining (a3 - qty3) (Qmax 0 (v3 - qty3))
        else qty3 in
      (qty1, qty2, qty3)
    else (qty1, qty2, qty3) in
  (Qmin3 qty1 a1 v1, Qmin3 qty2 a2 v2, Qmin3 qty3 a3 v3).

Definition faz3_best (plan : StowagePlan) (available_tanks : list (string * Q))
    (ship : Ship) (remaining_qty min_util tolerance : Q) : Acc :=
  let tank_list :=
    map (fun tid => (tid, get_tank_by_id ship tid)) (dict_keys available_tanks) in
  fold_tails
    (fun acc '(tid1, otank1) rest1 =>
       match otank1 with
       | None => acc
       | Some tank1 =>
       fold_tails
         (fun acc '(tid2, otank2) rest2 =>
            match otank2 with
            | None => acc
            | Some tank2 =>
            fold_left
              (fun (acc : Acc) '(tid3, otank3) =>
                 match otank3 with
                 | None => acc
                 | Some tank3 =>
                     let same_side :=
                       match get_tank_position_info ship tid1,
                             get_tank_position_info ship tid2,
                             get_tank_position_info ship tid3 with
                       | Some pos1, Some pos2, Some pos3 => all_same_side3 pos1 pos2 pos3
                       | _, _, _ => false
                       end in
                     if same_side then acc else
                     let a1 := _get_tank_available_capacity tid1 plan available_tanks ship in
                     let a2 := _get_tank_available_capacity tid2 plan available_tanks ship in
                     let a3 := _get_tank_available_capacity tid3 plan available_tanks ship in
                     let total_cap := volume tank1 + volume tank2 + volume tank3 in
                     let deviation := _calculate_tolerance_deviation remaining_qty total_cap in
                     if dev_gt deviation tolerance then acc else
                     let '(qty1, qty2, qty3) :=
                       distribute_three remaining_qty a1 (volume tank1)
                                        a2 (volume tank2) a3 (volume tank3) in
                     if negb (_check_min_utilization qty1 (volume tank1) min_util) then acc else
                     if negb (_check_min_utilization qty2 (volume tank2) min_util) then acc else
                     if negb (_check_min_utilization qty3 (volume tank3) min_util) then acc else
                     if dev_lt deviation (snd acc)
                     then (Some [(tid1, qty1); (tid2, qty2); (tid3, qty3)], deviation)
                     else acc
                 end)
              rest2 acc
            end)
         rest1 acc
       end)
    tank_list (None, Inf).

Definition faz3_cargo (ship : Ship) (min_util tolerance : Q) (st : St) (cargo : Cargo) : St :=
  let '(plan, available_tanks) := st in
  match fst (faz3_best plan available_tanks ship (cq cargo) min_util tolerance) with
  | Some best_triplet => place_all cargo best_triplet st
  | None => st
  end.

Definition _faz3_three_tank (plan : StowagePlan) (cargos : list Cargo)
    (available_tanks : list (string * Q)) (ship : Ship) (settings : Settings)
    (override_tolerance : option Q) : St :=
  let min_util := or_default (65 # 100) (min_utilization settings) in
  let tolerance :=
    match override_tolerance with
    | Some t => t
    | None => or_default (4 # 100) (faz3_three_tank_tolerance settings)
    end in
  fold_left (faz3_cargo ship min_util tolerance) cargos (plan, available_tanks).

(** *** FAZ 4 *)

(** [row_nums]: the set of row numbers of the tanks that have a position. *)
Definition row_set (ship : Ship) (tank_ids : list string) : list nat :=
  nodup Nat.eq_dec
    (flat_map (fun tid => match get_tank_position_info ship tid with
                          | Some pos => [row_number pos]
                          | None => []
                          end) tank_ids).

Definition faz4_best (plan : StowagePlan) (available_tanks : list (string * Q))
    (ship : Ship) (remaining_qty min_util tolerance : Q) : Acc :=
  fold_tails
    (fun acc '(port1, star1) rest =>
       let port1_id := t_id port1 in
       let star1_id := t_id star1 in
       if negb (dict_mem port1_id available_tanks)
          || negb (dict_mem star1_id available_tanks) then acc else
       fold_left
         (fun (acc : Acc) '(port2, star2) =>
            let port2_id := t_id port2 in
            let star2_id := t_id star2 in
            if negb (dict_mem port2_id available_tanks)
               || negb (dict_mem star2_id available_tanks) then acc else
            let tank_ids := [port1_id; star1_id; port2_id; star2_id] in
            if _is_bow_or_stern_only tank_ids ship then acc else
            let outside_mid :=
              match row_set ship tank_ids with
              | [r] => let '(mid_start, mid_end) := _get_mid_section_rows ship in
                       negb (in_range mid_start (mid_end + 1) r)
              | _ => false
              end in
            if outside_mid then acc else
            let pair1_cap := volume port1 + volume star1 in
            let pair2_cap := volume port2 + volume star2 in
            let total_cap := pair1_cap + pair2_cap in
            let deviation := _calculate_tolerance_deviation remaining_qty total_cap in
            if dev_gt deviation tolerance then acc else
            let port1_available := _get_tank_available_capacity port1_id plan available_tanks ship in
            let star1_available := _get_tank_available_capacity star1_id plan available_tanks ship in
            let port2_available := _get_tank_available_capacity port2_id plan available_tanks ship in
            let star2_available := _get_tank_available_capacity star2_id plan available_tanks ship in
            let qty1 := remaining_qty * (pair1_cap / total_cap) in
            let qty2 := remaining_qty - qty1 in
            let '(port1_qty, star1_qty) :=
              distribute_two qty1 port1_available (volume port1)
                             star1_available (volume star1) in
            if negb (_check_min_utilization port1_qty (volume port1) min_util) then acc else
            if negb (_check_min_utilization star1_qty (volume star1) min_util) then acc else
            let '(port2_qty, star2_qty) :=
              distribute_two qty2 port2_available (volume port2)
                             star2_available (volume star2) in
            if negb (_check_min_utilization port2_qty (volume port2) min_util) then acc else
            if negb (_check_min_utilization star2_qty (volume star2) min_util) then acc else
            if dev_lt deviation (snd acc)
            then (Some [(port1_id, port1_qty); (star1_id, star1_qty);
                        (port2_id, port2_qty); (star2_id, star2_qty)], deviation)
            else acc)
         rest acc)
    (get_tank_pairs ship) (None, Inf).

Definition faz4_cargo (ship : Ship) (min_util tolerance : Q) (st : St) (cargo : Cargo) : St :=
  let '(plan, available_tanks) := st in
  match fst (faz4_best plan available_tanks ship (cq cargo) min_util tolerance) with
  | Some best_combination => place_all cargo best_combination st
  | None => st
  end.

Definition _faz4_four_tank (plan : StowagePlan) (cargos : list Cargo)
    (available_tanks : list (string * Q)) (ship : Ship) (settings : Settings)
    (override_tolerance : option Q) : St :=
  let min_util := or_default (65 # 100) (min_utilization settings) in
  let tolerance :=
    match override_tolerance with
    | Some t => t
    | None => or_default (4 # 100) (faz4_four_tank_tolerance settings)
    end in
  fold_left (faz4_cargo ship min_util tolerance) cargos (plan, available_tanks).

(** *** FAZ 5 *)

Definition distribute_three_of_five (qty_3 a1 v1 a2 v2 a3 v3 : Q) : Q * Q * Q :=
  let qty1 := Qmin3 (qty_3 / 3) a1 v1 in
  let qty2 := Qmin3 (qty_3 / 3) a2 v2 in
  let qty3 := Qmin3 (qty_3 - qty1 - qty2) a3 v3 in
  let '(qty1, qty2, qty3) :=
    if Qltb qty3 (qty_3 - qty1 - qty2 - eps) then
      let qty3 := Qmin3 (qty_3 / 3) a3 v3 in
      let remaining_triplet := qty_3 - qty3 in
      let qty1 := Qmin3 (remaining_triplet / 2) a1 v1 in
      let qty2 := Qmin3 (remaining_triplet - qty1) a2 v2 in
      if Qltb qty2 (remaining_triplet - qty1 - eps) then
        let qty2 := Qmin3 (remaining_triplet / 2) a2 v2 in
        let qty1 := Qmin3 (remaining_triplet - qty2) a1 v1 in
        (qty1, qty2, qty3)
      else (qty1, qty2, qty3)
    else (qty1, qty2, qty3) in
  (Qmin3 qty1 a1 v1, Qmin3 qty2 a2 v2, Qmin3 qty3 a3 v3).

Definition opposite (s : Side) : Side :=
  match s with port => starboard | starboard => port end.

Definition faz5_best (plan : StowagePlan) (available_tanks : list (string * Q))
    (ship : Ship) (remaining_qty min_util tolerance : Q) : Acc :=
  let tank_list :=
    map (fun tid => (tid, get_tank_by_id ship tid)) (dict_keys available_tanks) in
  let tank_pairs := get_tank_pairs ship in
  fold_tails
    (fun acc '(tid1, otank1) rest1 =>
       match otank1 with
       | None => acc
       | Some tank1 =>
       fold_tails
         (fun acc '(tid2, otank2) rest2 =>
            match otank2 with
            | None => acc
            | Some tank2 =>
            fold_left
              (fun (acc : Acc) '(tid3, otank3) =>
                 match otank3 with
                 | None => acc
                 | Some tank3 =>
                     let required_side :=
                       match get_tank_position_info ship tid1,
                             get_tank_position_info ship tid2,
                             get_tank_position_info ship tid3 with
                       | Some pos1, Some pos2, Some pos3 =>
                           if all_same_side3 pos1 pos2 pos3
                           then Some (opposite (side pos1)) else None
                       | _, _, _ => None
                       end in
                     fold_left
                       (fun (acc : Acc) '(port_tank, starboard_tank) =>
                          let port_id := t_id port_tank in
                          let starboard_id := t_id starboard_tank in
                          if str_in port_id [tid1; tid2; tid3]
                             || str_in starboard_id [tid1; tid2; tid3] then acc else
                          if negb (dict_mem port_id available_tanks)
                             || negb (dict_mem starboard_id available_tanks) then acc else
                          let side_ok :=
                            match required_side with
                            | None => true
                            | Some rs =>
                                match get_tank_position_info ship
                                        (match rs with port => port_id
                                                     | starboard => starboard_id end) with
                                | Some pos_pair => Side_eqb (side pos_pair) rs
                                | None => false
                                end
                            end in
                          if negb side_ok then acc else
                          let triplet_cap := volume tank1 + volume tank2 + volume tank3 in
                          let pair_cap := volume port_tank + volume starboard_tank in
                          let total_cap := triplet_cap + pair_cap in
                          let deviation := _calculate_tolerance_deviation remaining_qty total_cap in
                          if dev_gt deviation tolerance then acc else
                          let a1 := _get_tank_available_capacity tid1 plan available_tanks ship in
                          let a2 := _get_tank_available_capacity tid2 plan available_tanks ship in
                          let a3 := _get_tank_available_capacity tid3 plan available_tanks ship in
                          let port_available :=
                            _get_tank_available_capacity port_id plan available_tanks ship in
                          let starboard_available :=
                            _get_tank_available_capacity starboard_id plan available_tanks ship in
                          let qty_3 := remaining_qty * (triplet_cap / total_cap) in
                          let qty_2 := remaining_qty - qty_3 in
                          let '(qty1, qty2, qty3) :=
                            distribute_three_of_five qty_3 a1 (volume tank1)
                              a2 (volume tank2) a3 (volume tank3) in
                          let '(port_qty, starboard_qty) :=
                            distribute_two qty_2 port_available (volume port_tank)
                              starboard_available (volume starboard_tank) in
                          if negb (_check_min_utilization qty1 (volume tank1) min_util
                                   && _check_min_utilization qty2 (volume tank2) min_util
                                   && _check_min_utilization qty3 (volume tank3) min_util
                                   && _check_min_utilization port_qty (volume port_tank) min_util
                                   && _check_min_utilization starboard_qty
                                        (volume starboard_tank) min_util)
                          then acc else
                          if dev_lt deviation (snd acc)
                          then (Some [(tid1, qty1); (tid2, qty2); (tid3, qty3);
                                      (port_id, port_qty); (starboard_id, starboard_qty)],
                                deviation)
                          else acc)
                       tank_pairs acc
                 end)
              rest2 acc
            end)
         rest1 acc
       end)
    tank_list (None, Inf).

Definition faz5_cargo (ship : Ship) (min_util tolerance : Q) (st : St) (cargo : Cargo) : St :=
  let '(plan, available_tanks) := st in
  match fst (faz5_best plan available_tanks ship (cq cargo) min_util tolerance) with
  | Some best_solution => place_all cargo best_solution st
  | None => st
  end.

Definition _faz5_five_tank (plan : StowagePlan) (cargos : list Cargo)
    (available_tanks : list (string * Q)) (ship : Ship) (settings : Settings)
    (override_tolerance : option Q) : St :=
  let min_util := or_default (65 # 100) (min_utilization settings) in
  let tolerance :=
    match override_tolerance with
    | Some t => t
    | None => or_default (4 # 100) (faz5_five_tank_tolerance settings)
    end in
  fold_left (faz5_cargo ship min_util tolerance) cargos (plan, available_tanks).

(** *** FAZ 6 *)

Definition pair_free (available_tanks : list (string * Q)) (pr : Tank * Tank) : bool :=
  dict_mem (t_id (fst pr)) available_tanks && dict_mem (t_id (snd pr)) available_tanks.

Definition faz6_best (plan : StowagePlan) (available_tanks : list (string * Q))
    (ship : Ship) (remaining_qty min_util tolerance : Q) : Acc :=
  fold_tails
    (fun acc '(port1, star1) rest1 =>
       if negb (pair_free available_tanks (port1, star1)) then acc else
       fold_tails
         (fun acc '(port2, star2) rest2 =>
            if negb (pair_free available_tanks (port2, star2)) then acc else
            fold_left
              (fun (acc : Acc) '(port3, star3) =>
                 if negb (pair_free available_tanks (port3, star3)) then acc else
                 let total_cap := volume port1 + volume star1 + volume port2 + volume star2
                                  + volume port3 + volume star3 in
                 let deviation := _calculate_tolerance_deviation remaining_qty total_cap in
                 if dev_gt deviation tolerance then acc else
                 let av tid := _get_tank_available_capacity tid plan available_tanks ship in
                 let qty_per_pair := remaining_qty / 3 in
                 let '(p1_qty, s1_qty) :=
                   distribute_two qty_per_pair (av (t_id port1)) (volume port1)
                                  (av (t_id star1)) (volume star1) in
                 let '(p2_qty, s2_qty) :=
                   distribute_two qty_per_pair (av (t_id port2)) (volume port2)
                                  (av (t_id star2)) (volume star2) in
                 let '(p3_qty, s3_qty) :=
                   distribute_two qty_per_pair (av (t_id port3)) (volume port3)
                                  (av (t_id star3)) (volume star3) in
                 if negb (_check_min_utilization p1_qty (volume port1) min_util
                          && _check_min_utilization s1_qty (volume star1) min_util
                          && _check_min_utilization p2_qty (volume port2) min_util
                          && _check_min_utilization s2_qty (volume star2) min_util
                          && _check_min_utilization p3_qty (volume port3) min_util
                          && _check_min_utilization s3_qty (volume star3) min_util)
                 then acc else
                 if dev_lt deviation (snd acc)
                 then (Some [(t_id port1, p1_qty); (t_id star1, s1_qty);
                             (t_id port2, p2_qty); (t_id star2, s2_qty);
                             (t_id port3, p3_qty); (t_id star3, s3_qty)], deviation)
                 else acc)
              rest2 acc)
         rest1 acc)
    (get_tank_pairs ship) (None, Inf).

Definition faz6_cargo (ship : Ship) (min_util tolerance : Q) (st : St) (cargo : Cargo) : St :=
  let '(plan, available_tanks) := st in
  match fst (faz6_best plan available_tanks ship (cq cargo) min_util tolerance) with
  | Some best_combination => place_all cargo best_combination st
  | None => st
  end.

Definition _faz6_six_tank (plan : StowagePlan) (cargos : list Cargo)
    (available_tanks : list (string * Q)) (ship : Ship) (settings : Settings)
    (override_tolerance : option Q) : St :=
  let min_util := or_default (65 # 100) (min_utilization settings) in
  let tolerance :=
    match override_tolerance with
    | Some t => t
    | None => or_default (5 # 100) (faz2_two_tank_tolerance settings)
    end in
  fold_left (faz6_cargo ship min_util tolerance) cargos (plan, available_tanks).

(** *** FAZ 7 *)

Definition faz7_cargo (ship : Ship) (min_util : Q) (st : St) (cargo : Cargo) : St :=
  let '(plan, available_tanks) := st in
  let remaining_qty := cq cargo in
  let sorted_tanks :=
    sorted_by (fun x y => Qgtb (snd (fst x)) (snd (fst y)))
      (map (fun '(tid, vol) => (tid, vol, get_tank_by_id ship tid))
           (filter (fun '(tid, vol) => Qgtb vol eps) available_tanks)) in
  let '(plan, available_tanks, _) :=
    fold_left
      (fun (acc : StowagePlan * list (string * Q) * Q) '(tank_id, available_vol, otank) =>
         let '(plan, available_tanks, remaining_qty) := acc in
         if Qltb remaining_qty eps then acc else
         match otank with
         | None => acc
         | Some tank =>
             let qty_to_place := Qmin3 remaining_qty available_vol (volume tank) in
             if negb (_check_min_utilization qty_to_place (volume tank) min_util) then acc else
             (add_assignment plan tank_id (mkAssignment tank_id cargo qty_to_place),
              dict_sub tank_id qty_to_place available_tanks,
              remaining_qty - qty_to_place)
         end)
      sorted_tanks (plan, available_tanks, remaining_qty) in
  (plan, available_tanks).

Definition _faz7_multi_tank (plan : StowagePlan) (cargos : list Cargo)
    (available_tanks : list (string * Q)) (ship : Ship) (settings : Settings) : St :=
  let min_util := or_default (65 # 100) (min_utilization settings) in
  fold_left (faz7_cargo ship min_util) cargos (plan, available_tanks).

(** *** FAZ 0 *)

Inductive Phase := F1 | F2 | F3 | F4 | F5 | F6 | F7.

(** The phase chosen from [estimated_tanks], with the tolerance of the attempt. *)
Definition run_estimated (estimated_tanks : Z) (plan : StowagePlan) (cargos : list Cargo)
    (available_tanks : list (string * Q)) (ship : Ship) (settings : Settings)
    (tolerance : Q) : St :=
  if Z.eqb estimated_tanks 1
  then _faz1_single_tank plan cargos available_tanks ship settings (Some tolerance)
  else if Z.eqb estimated_tanks 2
  then _faz2_two_tank plan cargos available_tanks ship settings (Some tolerance)
  else if Z.eqb estimated_tanks 3
  then _faz3_three_tank plan cargos available_tanks ship settings (Some tolerance)
  else if Z.eqb estimated_tanks 4
  then _faz4_four_tank plan cargos available_tanks ship settings (Some tolerance)
  else if Z.eqb estimated_tanks 5
  then _faz5_five_tank plan cargos available_tanks ship settings (Some tolerance)
  else if Z.eqb estimated_tanks 6
  then _faz6_six_tank plan cargos available_tanks ship settings (Some tolerance)
  else _faz7_multi_tank plan cargos available_tanks ship settings.

(** [faz_func(temp_plan, [cargo], temp_available, ship, settings, max_relaxation)]
    of the fall-back loop: six positional arguments, one more than
    [_faz7_multi_tank] accepts, so that call raises [TypeError]. *)
Definition call_with_tolerance (faz_func : Phase) (plan : StowagePlan)
    (cargos : list Cargo) (available_tanks : list (string * Q)) (ship : Ship)
    (settings : Settings) (tolerance : Q) : option St :=
  match faz_func with
  | F1 => Some (_faz1_single_tank plan cargos available_tanks ship settings (Some tolerance))
  | F2 => Some (_faz2_two_tank plan cargos available_tanks ship settings (Some tolerance))
  | F3 => Some (_faz3_three_tank plan cargos available_tanks ship settings (Some tolerance))
  | F4 => Some (_faz4_four_tank plan cargos available_tanks ship settings (Some tolerance))
  | F5 => Some (_faz5_five_tank plan cargos available_tanks ship settings (Some tolerance))
  | F6 => Some (_faz6_six_tank plan cargos available_tanks ship settings (Some tolerance))
  | F7 => None
  end.

(** [[tid for tid, ass in temp_plan.assignments.items()
      if ass.cargo.unique_id == cargo.unique_id]] *)
Definition assigned_tank_ids_of (temp_plan : StowagePlan) (cargo : Cargo) : list string :=
  map fst (filter (fun '(tid, ass) =>
                     String.eqb (unique_id (a_cargo ass)) (unique_id cargo))
                  (assignments temp_plan)).

(** [for tank_id, assignment in temp_plan.assignments.items():
       plan.add_assignment(tank_id, assignment)] *)
Definition copy_assignments (temp_plan plan : StowagePlan) : StowagePlan :=
  fold_left (fun p '(tank_id, assignment) => add_assignment p tank_id assignment)
            (assignments temp_plan) plan.

Definition max_of_values (available_tanks : list (string * Q)) : Q :=
  match dict_values available_tanks with
  | [] => 0
  | v :: vs => fold_left Qmax vs v
  end.

(** The attempts at growing tolerance for one mandatory cargo.  [placed] is
    a local variable of [_faz0_mandatory_cargo] that is first assigned inside
    this loop, after [if max_tank_vol <= 0: break]: [None] is an unbound
    [placed], and a loop that breaks there, or that has no attempt to run,
    leaves [placed] as it found it.  Every attempt builds its [temp_plan]
    anew; its identifier and date never leave the attempt. *)
Fixpoint faz0_attempts (e : Env) (ship : Ship) (settings : Settings) (cargo : Cargo)
    (retry_increment max_relaxation : Q) (placed : option bool) (st : St)
    (attempts : list nat) : option bool * St :=
  match attempts with
  | [] => (placed, st)
  | attempt :: rest =>
      let '(plan, available_tanks) := st in
      let remaining_qty := cq cargo in
      let tolerance := 0 + inject_Z (Z.of_nat attempt) * retry_increment in
      let max_tank_vol := max_of_values available_tanks in
      if Qleb max_tank_vol 0 then (placed, st) else
      let estimated_tanks := Z.max 1 (py_int (remaining_qty / max_tank_vol + (1 # 2))) in
      let placed := Some false in
      let temp_plan :=
        StowagePlan_new e (ship_name plan) (ship_profile_id plan) [cargo] "temp" in
      let '(temp_plan, temp_available) :=
        run_estimated estimated_tanks temp_plan [cargo] available_tanks ship settings
                      tolerance in
      let loaded := get_cargo_total_loaded temp_plan (unique_id cargo) in
      if Qgeb loaded (remaining_qty - eps) then
        let assigned_tank_ids := assigned_tank_ids_of temp_plan cargo in
        if Z.eqb estimated_tanks 4
           && Nat.eqb (length assigned_tank_ids) 4
           && _is_bow_or_stern_only assigned_tank_ids ship
        then faz0_attempts e ship settings cargo retry_increment max_relaxation
                           placed st rest
        else (Some true, (copy_assignments temp_plan plan, temp_available))
      else if Qgeb tolerance max_relaxation then (placed, st)
      else faz0_attempts e ship settings cargo retry_increment max_relaxation
                         placed st rest
  end.

(** The fall-back over all phases at [max_relaxation]. *)
Fixpoint faz0_fallback (e : Env) (ship : Ship) (settings : Settings) (cargo : Cargo)
    (max_relaxation : Q) (st : St) (phases : list Phase) : option St :=
  match phases with
  | [] => Some st
  | faz_func :: rest =>
      let '(plan, available_tanks) := st in
      let remaining_qty := cq cargo in
      let temp_plan :=
        StowagePlan_new e (ship_name plan) (ship_profile_id plan) [cargo] "temp" in
      match call_with_tolerance faz_func temp_plan [cargo] available_tanks ship settings
                                max_relaxation with
      | None => None
      | Some (temp_plan, temp_available) =>
          let loaded := get_cargo_total_loaded temp_plan (unique_id cargo) in
          if Qgeb loaded (remaining_qty - eps) then
            let assigned_tank_ids := assigned_tank_ids_of temp_plan cargo in
            if Nat.eqb (length assigned_tank_ids) 4
               && _is_bow_or_stern_only assigned_tank_ids ship
            then faz0_fallback e ship settings cargo max_relaxation st rest
            else Some (copy_assignments temp_plan plan, temp_available)
          else faz0_fallback e ship settings cargo max_relaxation st rest
      end
  end.

(** The body of [for cargo in mandatory_cargos]; the state carries [placed]
    from one cargo to the next.  [None] is an exception: the
    [ZeroDivisionError] of [max_relaxation / retry_increment], the
    [UnboundLocalError] of [if not placed] when no attempt has assigned
    [placed] yet, or the [TypeError] of the fall-back. A [placed] left [True]
    by an earlier cargo skips the fall-back. *)
Definition faz0_cargo (e : Env) (ship : Ship) (settings : Settings)
    (retry_increment max_relaxation : Q) (acc : option bool * St) (cargo : Cargo)
    : option (option bool * St) :=
  let '(placed, st) := acc in
  if Qeq_bool retry_increment 0 then None else
  let n := (py_int (max_relaxation / retry_increment) + 1)%Z in
  let '(placed, st) :=
    faz0_attempts e ship settings cargo retry_increment max_relaxation placed st
                  (seq 0 (Z.to_nat n)) in
  match placed with
  | None => None
  | Some true => Some (placed, st)
  | Some false =>
      match faz0_fallback e ship settings cargo max_relaxation st
                          [F1; F2; F3; F4; F5; F6; F7] with
      | Some st => Some (placed, st)
      | None => None
      end
  end.

Fixpoint fold_option {A S : Type} (f : S -> A -> option S) (l : list A) (s : S) : option S :=
  match l with
  | [] => Some s
  | x :: r => match f s x with Some s' => fold_option f r s' | None => None end
  end.

Definition _faz0_mandatory_cargo (e : Env) (plan : StowagePlan)
    (mandatory_cargos : list Cargo) (available_tanks : list (string * Q))
    (ship : Ship) (settings : Settings) : option St :=
  let retry_increment := or_default (1 # 100) (mandatory_retry_increment settings) in
  let max_relaxation := or_default (35 # 100) (mandatory_max_relaxation settings) in
  match fold_option (faz0_cargo e ship settings retry_increment max_relaxation)
                    mandatory_cargos (None, (plan, available_tanks)) with
  | Some (placed, st) => Some st
  | None => None
  end.

(** *** The cascade *)

(** [[c for c in remaining_regular
      if plan.get_cargo_total_loaded(c.unique_id) < c.quantity - 0.001]] *)
Definition still_remaining (plan : StowagePlan) (remaining_regular : list Cargo) : list Cargo :=
  filter (fun c => Qltb (get_cargo_total_loaded plan (unique_id c)) (cq c - eps))
         remaining_regular.

Definition initial_available (ship : Ship) (excluded : list string) : list (string * Q) :=
  fold_left (fun available_tanks tank =>
               if str_in (t_id tank) excluded then available_tanks
               else dict_set (t_id tank) (volume tank) available_tanks)
            (tanks ship) [].

Definition optimize_advanced (e : Env) (ship : Ship) (cargo_requests : list Cargo)
    (excluded_tanks : option (list string))
    (fixed_assignments : option (list (string * TankAssignment)))
    (settings : option Settings) : option StowagePlan :=
  let settings := or_default get_default_settings settings in
  let plan := StowagePlan_new e (s_name ship) (s_id ship) cargo_requests "Yeni Plan" in
  let fixed_assignments := or_default [] fixed_assignments in
  let fixed_tank_ids := dict_keys fixed_assignments in
  let excluded := (or_default [] excluded_tanks ++ fixed_tank_ids)%list in
  let available_tanks := initial_available ship excluded in
  let mandatory_cargos := filter is_mandatory cargo_requests in
  let regular_cargos := filter (fun c => negb (is_mandatory c)) cargo_requests in
  let after_faz0 :=
    match mandatory_cargos with
    | [] => Some (plan, available_tanks)
    | _ => _faz0_mandatory_cargo e plan mandatory_cargos available_tanks ship settings
    end in
  match after_faz0 with
  | None => None
  | Some (plan, available_tanks) =>
      let remaining_regular := regular_cargos in
      let '(plan, available_tanks) :=
        _faz1_single_tank plan remaining_regular available_tanks ship settings None in
      let remaining_regular := still_remaining plan remaining_regular in
      let '(plan, available_tanks) :=
        _faz2_two_tank plan remaining_regular available_tanks ship settings None in
      let remaining_regular := still_remaining plan remaining_regular in
      let '(plan, available_tanks) :=
        _faz3_three_tank plan remaining_regular available_tanks ship settings None in
      let remaining_regular := still_remaining plan remaining_regular in
      let '(plan, available_tanks) :=
        _faz4_four_tank plan remaining_regular available_tanks ship settings None in
      let remaining_regular := still_remaining plan remaining_regular in
      let '(plan, available_tanks) :=
        _faz5_five_tank plan remaining_regular available_tanks ship settings None in
      let remaining_regular := still_remaining plan remaining_regular in
      let '(plan, available_tanks) :=
        _faz6_six_tank plan remaining_regular available_tanks ship settings None in
      let remaining_regular := still_remaining plan remaining_regular in
      let '(plan, available_tanks) :=
        _faz7_multi_tank plan remaining_regular available_tanks ship settings in
      Some plan
  end.

(** *** Retry mechanism *)

Definition _calculate_simple_score (plan : StowagePlan) (ship : Ship) : Q :=
  let total_requested := Qsum (map cq (cargo_requests plan)) in
  let total_loaded := get_total_loaded plan in
  let completion_rate :=
    if Qgtb total_requested 0 then total_loaded / total_requested * 100 else 0 in
  let completion_score := completion_rate * (6 # 10) in
  let total_capacity := get_total_capacity ship in
  let utilization :=
    if Qgtb total_capacity 0 then total_loaded / total_capacity * 100 else 0 in
  let utilization_score := utilization * (4 # 10) in
  Qmin (completion_score + utilization_score) 100.

Definition bool_gt (a b : bool) : bool := a && negb b.

Definition receiver_count (c : Cargo) : Z := Z.of_nat (length (receivers c)).

(** The five orderings; every one is [sorted(..., reverse=True)] except
    ['quantity_small_first']. *)
Definition strategies : list (string * (list Cargo -> list Cargo)) :=
  [ ("default"%string,
     sorted_by (fun x y => Qgtb (cq x) (cq y)));
    ("receiver_count"%string,
     sorted_by (fun x y => Z.gtb (receiver_count x) (receiver_count y)));
    ("mandatory_first"%string,
     sorted_by (fun x y =>
       bool_gt (negb (is_mandatory x)) (negb (is_mandatory y))
       || (Bool.eqb (negb (is_mandatory x)) (negb (is_mandatory y))
           && Qgtb (cq x) (cq y))));
    ("quantity_small_first"%string,
     sorted_by (fun x y => Qltb (cq x) (cq y)));
    ("mixed"%string,
     sorted_by (fun x y =>
       bool_gt (is_mandatory x) (is_mandatory y)
       || (Bool.eqb (is_mandatory x) (is_mandatory y)
           && (Z.gtb (- receiver_count x) (- receiver_count y)
               || (Z.eqb (- receiver_count x) (- receiver_count y)
                   && Qgtb (cq x) (cq y)))))) ].

(** The loop over the strategies: [best_plan] and [best_score]; a strategy
    that raises is skipped.  [envs i] is the construction environment of
    the [i]-th call of [optimize_advanced]. *)
Fixpoint retry_loop (envs : nat -> Env) (i : nat) (ship : Ship)
    (cargo_requests : list Cargo) (excluded_tanks : option (list string))
    (fixed_assignments : option (list (string * TankAssignment)))
    (settings : option Settings)
    (strats : list (string * (list Cargo -> list Cargo)))
    (best : option StowagePlan * Q) : option StowagePlan * Q :=
  match strats with
  | [] => best
  | (strategy_name, sort_func) :: rest =>
      let sorted_cargos := sort_func cargo_requests in
      let best :=
        match optimize_advanced (envs i) ship sorted_cargos excluded_tanks
                                fixed_assignments settings with
        | Some plan =>
            let score := _calculate_simple_score plan ship in
            if Qgtb score (snd best) then (Some plan, score) else best
        | None => best
        end in
      retry_loop envs (S i) ship cargo_requests excluded_tanks fixed_assignments
                 settings rest best
  end.

Definition optimize_with_fixed_and_retry (envs : nat -> Env) (ship : Ship)
    (cargo_requests : list Cargo) (excluded_tanks : option (list string))
    (fixed_assignments : option (list (string * TankAssignment)))
    (num_retries : nat) (settings : option Settings) : option StowagePlan :=
  let tried := firstn num_retries strategies in
  match fst (retry_loop envs 0 ship cargo_requests excluded_tanks fixed_assignments
                        settings tried (None, - (1))) with
  | Some best_plan => Some best_plan
  | None => optimize_advanced (envs (length tried)) ship cargo_requests excluded_tanks
                              fixed_assignments settings
  end.

End AdvancedStowageOptimizer.

(** ** optimizer/stowage_optimizer.py: the greedy solver

    The solver of class [StowageOptimizer]: [optimize], [optimize_with_sort]
    and their helpers (its validator and its scorer are in module
    [StowageOptimizer] above). *)

(** What a loop that may not terminate comes to: a value, an exception, or
    the iteration budget of the model used up. *)
Inductive Outcome (A : Type) :=
| Returned (a : A)
| Raised
| OutOfFuel.
Arguments Returned {A} a.
Arguments Raised {A}.
Arguments OutOfFuel {A}.

Module GreedyOptimizer.

(** [_find_optimal_tank]; [best_score] starts at [float('inf')], here [None]. *)
Definition _find_optimal_tank (quantity : Q) (available_tanks : list (string * Q))
    (ship : Ship) (prefer_exact_fit : bool) : option string * Q :=
  let MIN_UTILIZATION := 65 # 100 in
  let '(best_tank_id, best_score, best_waste_ratio) :=
    fold_left
      (fun '(best_tank_id, best_score, best_waste_ratio) '(tank_id, available_volume) =>
         if Qltb available_volume quantity
         then (best_tank_id, best_score, best_waste_ratio) else
         match get_tank_by_id ship tank_id with
         | None => (best_tank_id, best_score, best_waste_ratio)
         | Some tank =>
             let utilization :=
               if Qgtb (volume tank) 0 then quantity / volume tank else 0 in
             if Qltb utilization MIN_UTILIZATION
             then (best_tank_id, best_score, best_waste_ratio) else
             let waste := available_volume - quantity in
             let waste_ratio :=
               if Qgtb available_volume 0 then waste / available_volume else 1 in
             let score :=
               if prefer_exact_fit then
                 if Qleb waste_ratio (1 # 100) then waste_ratio * (1 # 10)
                 else waste_ratio * 100
               else waste_ratio + (1 - utilization) * (1 # 2) in
             if match best_score with
                | None => true
                | Some best => Qltb score best
                end
             then (Some tank_id, Some score, waste_ratio)
             else (best_tank_id, best_score, best_waste_ratio)
         end)
      available_tanks (None, None, 1) in
  (best_tank_id, best_waste_ratio).

Definition _find_largest_available_tank (available_tanks : list (string * Q))
    (ship : Ship) : option string :=
  fst (fold_left
         (fun '(best_tank_id, max_volume) '(tank_id, available_volume) =>
            if Qgtb available_volume max_volume && Qgtb available_volume eps
            then (Some tank_id, available_volume)
            else (best_tank_id, max_volume))
         available_tanks (None, 0)).

(** One pass through the body of [while remaining_quantity > 0.001]. *)
Inductive Step :=
| Continue (plan : StowagePlan) (available_tanks : list (string * Q))
           (remaining_quantity : Q)
| Break (available_tanks : list (string * Q))
| Raise.

(** The assignment at the end of the body:
    [if tank_utilization >= 0.65: ... else: break]. *)
Definition load_or_break (cargo : Cargo) (plan : StowagePlan)
    (available_tanks : list (string * Q)) (remaining_quantity : Q)
    (best_tank_id : string) (quantity_to_load tank_utilization : Q) : Step :=
  if Qgeb tank_utilization (65 # 100) then
    let assignment := mkAssignment best_tank_id cargo quantity_to_load in
    Continue (add_assignment plan best_tank_id assignment)
             (dict_sub best_tank_id quantity_to_load available_tanks)
             (remaining_quantity - quantity_to_load)
  else Break available_tanks.

Definition loop_body (ship : Ship) (cargo : Cargo) (plan : StowagePlan)
    (available_tanks : list (string * Q)) (remaining_quantity : Q) : Step :=
  let '(best_tank_id, waste_ratio) :=
    _find_optimal_tank remaining_quantity available_tanks ship true in
  let best_tank_id :=
    match best_tank_id with
    | None => fst (_find_optimal_tank remaining_quantity available_tanks ship false)
    | Some _ => best_tank_id
    end in
  let best_tank_id :=
    match best_tank_id with
    | None => _find_largest_available_tank available_tanks ship
    | Some _ => best_tank_id
    end in
  match best_tank_id with
  | None => Break available_tanks
  | Some best_tank_id =>
      match dict_get best_tank_id available_tanks, get_tank_by_id ship best_tank_id with
      | Some available, Some tank =>
          let quantity_to_load := Qmin remaining_quantity available in
          let tank_utilization :=
            if Qgtb (volume tank) 0 then quantity_to_load / volume tank else 0 in
          if Qltb tank_utilization (65 # 100) then
            let original_volume := available in
            let available_tanks := dict_set best_tank_id 0 available_tanks in
            let alt_tank_id :=
              fst (_find_optimal_tank remaining_quantity available_tanks ship false) in
            let available_tanks := dict_set best_tank_id original_volume available_tanks in
            match alt_tank_id with
            | None => Break available_tanks
            | Some alt_tank_id =>
                if String.eqb alt_tank_id "" then Break available_tanks else
                let best_tank_id := alt_tank_id in
                match dict_get best_tank_id available_tanks,
                      get_tank_by_id ship best_tank_id with
                | Some available, Some tank =>
                    let quantity_to_load := Qmin remaining_quantity available in
                    let tank_utilization :=
                      if Qgtb (volume tank) 0 then quantity_to_load / volume tank
                      else 0 in
                    load_or_break cargo plan available_tanks remaining_quantity
                                  best_tank_id quantity_to_load tank_utilization
                | _, _ => Raise
                end
            end
          else
            load_or_break cargo plan available_tanks remaining_quantity
                          best_tank_id quantity_to_load tank_utilization
      | _, _ => Raise
      end
  end.

(** [while remaining_quantity > 0.001: ...] for one cargo; every pass through
    the body uses one unit of [fuel]. *)
Fixpoint load_cargo (fuel : nat) (ship : Ship) (cargo : Cargo) (plan : StowagePlan)
    (available_tanks : list (string * Q)) (remaining_quantity : Q)
    : Outcome (StowagePlan * list (string * Q)) :=
  if Qgtb remaining_quantity eps then
    match fuel with
    | O => OutOfFuel
    | S fuel' =>
        match loop_body ship cargo plan available_tanks remaining_quantity with
        | Continue plan available_tanks remaining_quantity =>
            load_cargo fuel' ship cargo plan available_tanks remaining_quantity
        | Break available_tanks => Returned (plan, available_tanks)
        | Raise => Raised
        end
    end
  else Returned (plan, available_tanks).

(** [for cargo in sorted_cargo: ...] *)
Fixpoint load_cargos (fuel : nat) (ship : Ship) (sorted_cargo : list Cargo)
    (plan : StowagePlan) (available_tanks : list (string * Q)) : Outcome StowagePlan :=
  match sorted_cargo with
  | [] => Returned plan
  | cargo :: rest =>
      match load_cargo fuel ship cargo plan available_tanks (cq cargo) with
      | Returned (plan, available_tanks) => load_cargos fuel ship rest plan available_tanks
      | Raised => Raised
      | OutOfFuel => OutOfFuel
      end
  end.

(** [{tank.id: tank.volume for tank in ship.tanks if tank.id not in excluded}] *)
Definition available_of (ship : Ship) (excluded : list string) : list (string * Q) :=
  fold_left (fun available_tanks tank =>
               if str_in (t_id tank) excluded then available_tanks
               else dict_set (t_id tank) (volume tank) available_tanks)
            (tanks ship) [].

(** [optimize_with_sort]; [before x y] says that the key of [x] is greater
    than the key of [y] (the sort is [reverse=True]), and [fuel] bounds the
    passes of the [while] loop of each cargo. *)
Definition optimize_with_sort (fuel : nat) (e : Env) (ship : Ship)
    (cargo_requests : list Cargo) (before : Cargo -> Cargo -> bool)
    (excluded_tanks : option (list string)) : Outcome StowagePlan :=
  let plan := StowagePlan_new e (s_name ship) (s_id ship) cargo_requests "Yeni Plan" in
  let excluded := or_default [] excluded_tanks in
  let available_tanks := available_of ship excluded in
  let sorted_cargo := sorted_by before cargo_requests in
  load_cargos fuel ship sorted_cargo plan available_tanks.

(** The key of [optimize]:
    [(c.quantity, -len(c.receivers) if c.receivers else 0)], greatest first. *)
Definition default_before (x y : Cargo) : bool :=
  Qgtb (cq x) (cq y)
  || (Qeq_bool (cq x) (cq y)
      && Z.gtb (- Z.of_nat (length (receivers x))) (- Z.of_nat (length (receivers y)))).

(** [optimize]: the same loop as [optimize_with_sort], on the default key. *)
Definition optimize (fuel : nat) (e : Env) (ship : Ship) (cargo_requests : list Cargo)
    (excluded_tanks : option (list string)) : Outcome StowagePlan :=
  let plan := StowagePlan_new e (s_name ship) (s_id ship) cargo_requests "Yeni Plan" in
  let excluded := or_default [] excluded_tanks in
  let available_tanks := available_of ship excluded in
  let sorted_cargo := sorted_by default_before cargo_requests in
  load_cargos fuel ship sorted_cargo plan available_tanks.

(** The loop of [get_unfulfilled_cargo]; [envs i] is the construction
    environment of the copy made for the [i]-th requested cargo. *)
Fixpoint unfulfilled_from (envs : nat -> Env) (i : nat) (plan : StowagePlan)
    (l : list Cargo) : list Cargo :=
  match l with
  | [] => []
  | cargo :: rest =>
      let total_loaded := get_cargo_total_loaded plan (unique_id cargo) in
      let remaining := cq cargo - total_loaded in
      if Qgtb remaining eps then
        Cargo_new (envs i) (cargo_type cargo) (Some remaining) (receivers cargo)
                  ""%string false None None
        :: unfulfilled_from envs (S i) plan rest
      else unfulfilled_from envs (S i) plan rest
  end.

Definition get_unfulfilled_cargo (envs : nat -> Env) (plan : StowagePlan) : list Cargo :=
  unfulfilled_from envs 0 plan (cargo_requests plan).

End GreedyOptimizer.

(** ** The module [random] *)

(** The random source is a tape of draws; an exhausted tape keeps giving 0.
    Every function of [random] the optimizer calls consumes draws from it. *)
Definition Rng : Type := list N.

Definition draw (r : Rng) : N * Rng :=
  match r with
  | [] => (0%N, [])
  | x :: r' => (x, r')
  end.

(** [random.randint(0, n - 1)], for [n > 0]. *)
Definition randbelow (n : nat) (r : Rng) : nat * Rng :=
  let '(x, r') := draw r in (N.to_nat (x mod N.of_nat n), r').

(** [random.random()]: 53 random bits scaled into [0, 1). *)
Definition random_unit (r : Rng) : Q * Rng :=
  let '(x, r') := draw r in
  (Z.of_N (x mod 9007199254740992) # 9007199254740992, r').

Fixpoint remove_nth {A : Type} (i : nat) (l : list A) : list A :=
  match l, i with
  | [], _ => []
  | _ :: r, O => r
  | x :: r, S i' => x :: remove_nth i' r
  end.

(** [random.sample(pool, k)] for [k <= len(pool)]: distinct positions. *)
Fixpoint random_sample (pool : list nat) (k : nat) (r : Rng) : list nat * Rng :=
  match k with
  | O => ([], r)
  | S k' =>
      match pool with
      | [] => ([], r)
      | _ =>
          let '(i, r) := randbelow (length pool) r in
          let '(xs, r) := random_sample (remove_nth i pool) k' r in
          (nth i pool O :: xs, r)
      end
  end.

(** [random.choice(seq)] for a non-empty [seq]. *)
Definition random_choice {A : Type} (d : A) (l : list A) (r : Rng) : A * Rng :=
  let '(i, r) := randbelow (length l) r in (nth i l d, r).

(** [l[i] = x] for [0 <= i < len(l)]. *)
Fixpoint set_nth {A : Type} (i : nat) (x : A) (l : list A) : list A :=
  match l, i with
  | [], _ => []
  | _ :: r, O => x :: r
  | y :: r, S i' => y :: set_nth i' x r
  end.

(** ** optimizer/genetic_optimizer.py *)

(** A gene: [(cargo_unique_id or None, quantity)]. *)
Definition Gene : Type := option string * Q.

Definition empty_gene : Gene := (None, 0).

(** [cargo_id == cargo.unique_id] on a gene's cargo id. *)
Definition is_cargo (cargo_id : option string) (uid : string) : bool :=
  match cargo_id with Some c => String.eqb c uid | None => false end.

Definition is_none (cargo_id : option string) : bool :=
  match cargo_id with Some _ => false | None => true end.

(** The lengths of [genes] and [tank_ids] agree at every construction of the
    optimizer, so the [ValueError] of [__post_init__] is not modelled. *)
Record Chromosome := mkChromosome {
  genes : list Gene;
  tank_ids : list string
}.

(** [Chromosome.get_tank_assignment]; the index is a Python [int]. *)
Definition get_tank_assignment (c : Chromosome) (tank_index : Z) : Gene :=
  if (0 <=? tank_index)%Z && (tank_index <? Z.of_nat (length (genes c)))%Z
  then nth (Z.to_nat tank_index) (genes c) empty_gene
  else (None, 0).

(** [Chromosome.set_tank_assignment] *)
Definition set_tank_assignment (c : Chromosome) (tank_index : Z)
    (cargo_id : option string) (quantity : Q) : Chromosome :=
  if (0 <=? tank_index)%Z && (tank_index <? Z.of_nat (length (genes c)))%Z
  then mkChromosome (set_nth (Z.to_nat tank_index) (cargo_id, quantity) (genes c))
                    (tank_ids c)
  else c.

Module GeneticOptimizer.

(** The attributes of a [GeneticOptimizer] instance. *)
Record t := mk {
  ship : Ship;
  cargo_requests : list Cargo;
  excluded_tanks : list string;
  settings : Settings;
  mandatory_cargos : list Cargo;
  regular_cargos : list Cargo;
  mandatory_assignments : list (string * TankAssignment);
  available_tanks : list Tank;
  self_tank_ids : list string;
  tank_volumes : list (string * Q);
  population_size : nat;
  max_generations : nat;
  crossover_rate : Q;
  mutation_rate : Q;
  tournament_size : nat;
  use_elitism : bool;
  elitism_count : nat;
  symmetry_penalty_coef : Q;
  trim_penalty_coef : Q;
  operational_penalty_coef : Q;
  receiver_tolerance : Q;
  total_rows : nat;
  ideal_lcg_position : Q;
  best_fitness_history : list Q;
  convergence_threshold : Q;
  convergence_generations : nat
}.

Definition set_mandatory_assignments (self : t) (m : list (string * TankAssignment)) : t :=
  mk (ship self) (cargo_requests self) (excluded_tanks self) (settings self)
     (mandatory_cargos self) (regular_cargos self) m (available_tanks self)
     (self_tank_ids self) (tank_volumes self) (population_size self)
     (max_generations self) (crossover_rate self) (mutation_rate self)
     (tournament_size self) (use_elitism self) (elitism_count self)
     (symmetry_penalty_coef self) (trim_penalty_coef self)
     (operational_penalty_coef self) (receiver_tolerance self) (total_rows self)
     (ideal_lcg_position self) (best_fitness_history self)
     (convergence_threshold self) (convergence_generations self).

Definition set_tank_volumes (self : t) (tv : list (string * Q)) : t :=
  mk (ship self) (cargo_requests self) (excluded_tanks self) (settings self)
     (mandatory_cargos self) (regular_cargos self) (mandatory_assignments self)
     (available_tanks self) (self_tank_ids self) tv (population_size self)
     (max_generations self) (crossover_rate self) (mutation_rate self)
     (tournament_size self) (use_elitism self) (elitism_count self)
     (symmetry_penalty_coef self) (trim_penalty_coef self)
     (operational_penalty_coef self) (receiver_tolerance self) (total_rows self)
     (ideal_lcg_position self) (best_fitness_history self)
     (convergence_threshold self) (convergence_generations self).

(** [GeneticOptimizer.__init__] *)
Definition init (ship : Ship) (cargo_requests : list Cargo)
    (excluded_tanks : option (list string))
    (fixed_assignments : option (list (string * TankAssignment)))
    (settings : option Settings) : t :=
  let fixed_assignments := or_default [] fixed_assignments in
  let fixed_tank_ids := dict_keys fixed_assignments in
  let excluded := (or_default [] excluded_tanks ++ fixed_tank_ids)%list in
  let settings := or_default get_default_settings settings in
  let available := filter (fun tank => negb (str_in (t_id tank) excluded)) (tanks ship) in
  let tank_volumes :=
    fold_left (fun tv tank =>
                 if str_in (t_id tank) excluded then tv
                 else dict_set (t_id tank) (volume tank) tv)
              (tanks ship) [] in
  let total_rows := ((length (tanks ship) + 1) / 2)%nat in
  mk ship cargo_requests excluded settings
     (filter is_mandatory cargo_requests)
     (filter (fun c => negb (is_mandatory c)) cargo_requests)
     [] available (map t_id available) tank_volumes
     (or_default 500%nat (ga_population_size settings))
     (or_default 2000%nat (ga_max_generations settings))
     (or_default (90 # 100) (ga_crossover_rate settings))
     (or_default (11 # 100) (ga_mutation_rate settings))
     (or_default 3%nat (ga_tournament_size settings))
     (or_default true (ga_use_elitism settings))
     (or_default 5%nat (ga_elitism_count settings))
     (or_default 3000 (ga_symmetry_penalty_coef settings))
     (or_default 1500 (ga_trim_penalty_coef settings))
     (or_default 100 (ga_operational_penalty_coef settings))
     (or_default (3 # 100) (ga_receiver_tolerance settings))
     total_rows
     (or_default (inject_Z (Z.of_nat total_rows) / 2) (ga_ideal_lcg_position settings))
     []
     (or_default (1 # 10000) (ga_convergence_threshold settings))
     (or_default 60%nat (ga_convergence_generations settings)).

(** [self.tank_volumes[tank_id]] (every tank id of a chromosome is a key). *)
Definition tank_volume_of (self : t) (tank_id : string) : Q :=
  or_default 0 (dict_get tank_id (tank_volumes self)).

(** *** Mandatory placement *)

(** The greedy loop of one mandatory cargo over the sorted tanks; [None] is
    the [ZeroDivisionError] of [qty_to_place / tank.volume]. *)
Fixpoint place_mandatory_loop (cargo : Cargo) (min_util : Q)
    (sorted_tanks : list (string * Q * option Tank))
    (acc : list (string * TankAssignment) * list (string * Q) * Q)
    : option (list (string * TankAssignment) * list (string * Q) * Q) :=
  match sorted_tanks with
  | [] => Some acc
  | (tank_id, available_vol, otank) :: rest =>
      let '(massign, available_tanks, remaining_qty) := acc in
      if Qltb remaining_qty eps then Some acc else
      match otank with
      | None => place_mandatory_loop cargo min_util rest acc
      | Some tank =>
          let qty_to_place := Qmin3 remaining_qty available_vol (volume tank) in
          if Qeq_bool (volume tank) 0 then None else
          if Qltb (qty_to_place / volume tank) min_util
          then place_mandatory_loop cargo min_util rest acc else
          let massign := dict_set tank_id (mkAssignment tank_id cargo qty_to_place) massign in
          let available_tanks := dict_sub tank_id qty_to_place available_tanks in
          let available_tanks :=
            if Qltb (or_default 0 (dict_get tank_id available_tanks)) eps
            then dict_set tank_id 0 available_tanks else available_tanks in
          place_mandatory_loop cargo min_util rest
            (massign, available_tanks, remaining_qty - qty_to_place)
      end
  end.

(** [_place_mandatory_cargos]: the new [mandatory_assignments] and the
    updated [available_tanks]. *)
Definition _place_mandatory_cargos (self : t) (available_tanks : list (string * Q))
    (settings : Settings) : option (list (string * TankAssignment) * list (string * Q)) :=
  let min_util := or_default (65 # 100) (min_utilization settings) in
  AdvancedStowageOptimizer.fold_option
    (fun (acc : list (string * TankAssignment) * list (string * Q)) cargo =>
       let '(massign, available_tanks) := acc in
       let sorted_tanks :=
         sorted_by (fun x y => Qgtb (snd (fst x)) (snd (fst y)))
           (map (fun '(tid, vol) => (tid, vol, get_tank_by_id (ship self) tid))
                (filter (fun '(tid, vol) => Qgtb vol eps) available_tanks)) in
       match place_mandatory_loop cargo min_util sorted_tanks
                                  (massign, available_tanks, cq cargo) with
       | Some (massign, available_tanks, _) => Some (massign, available_tanks)
       | None => None
       end)
    (mandatory_cargos self) ([], available_tanks).

(** *** Random chromosomes *)

(** The [while remaining_qty > 0.001 and attempts < max_attempts] loop;
    [left] counts the attempts that remain. *)
Fixpoint sprinkle (self : t) (cargo : Cargo) (left : nat) (genes : list Gene)
    (remaining_qty : Q) (r : Rng) : list Gene * Rng :=
  match left with
  | O => (genes, r)
  | S left' =>
      if negb (Qgtb remaining_qty eps) then (genes, r) else
      let '(tank_idx, r) := randbelow (length (self_tank_ids self)) r in
      let tank_id := nth tank_idx (self_tank_ids self) ""%string in
      let tank_volume := tank_volume_of self tank_id in
      let '(current_cargo_id, current_qty) := nth tank_idx genes empty_gene in
      if is_none current_cargo_id || is_cargo current_cargo_id (unique_id cargo) then
        let '(available_space, current_qty) :=
          if is_none current_cargo_id then (tank_volume, 0)
          else (tank_volume - current_qty, current_qty) in
        let qty_to_add := Qmin remaining_qty available_space in
        if Qgtb qty_to_add eps
        then sprinkle self cargo left'
               (set_nth tank_idx (Some (unique_id cargo), current_qty + qty_to_add) genes)
               (remaining_qty - qty_to_add) r
        else sprinkle self cargo left' genes remaining_qty r
      else sprinkle self cargo left' genes remaining_qty r
  end.

Definition _create_random_chromosome (self : t) (r : Rng) : Chromosome * Rng :=
  let genes := map (fun _ => empty_gene) (self_tank_ids self) in
  let max_attempts := (length (self_tank_ids self) * 2)%nat in
  let '(genes, r) :=
    fold_left (fun '(genes, r) cargo => sprinkle self cargo max_attempts genes (cq cargo) r)
              (regular_cargos self) (genes, r) in
  (mkChromosome genes (self_tank_ids self), r).

(** *** Repair *)

(** The capacity pass: [for i, tank_id in enumerate(repaired.tank_ids)]. *)
Fixpoint cap_genes (self : t) (gs : list Gene) (tids : list string) : list Gene :=
  match gs, tids with
  | (cargo_id, quantity) :: gs', tank_id :: tids' =>
      let g :=
        if negb (is_none cargo_id) && Qgtb quantity 0 then
          let tank_volume := tank_volume_of self tank_id in
          if Qgtb quantity tank_volume then (cargo_id, tank_volume)
          else (cargo_id, quantity)
        else (cargo_id, quantity) in
      g :: cap_genes self gs' tids'
  | _, _ => gs
  end.

(** First loop of [_add_cargo_to_chromosome]: tanks that hold the cargo. *)
Fixpoint add_to_same (self : t) (cargo_id : string) (gs : list Gene)
    (tids : list string) (remaining : Q) : list Gene * Q :=
  match gs, tids with
  | (existing_cargo_id, existing_qty) :: gs', tank_id :: tids' =>
      let '(g, remaining) :=
        if is_cargo existing_cargo_id cargo_id && Qgtb remaining eps then
          let tank_volume := tank_volume_of self tank_id in
          let available := tank_volume - existing_qty in
          let to_add := Qmin remaining available in
          if Qgtb to_add eps
          then ((Some cargo_id, existing_qty + to_add), remaining - to_add)
          else ((existing_cargo_id, existing_qty), remaining)
        else ((existing_cargo_id, existing_qty), remaining) in
      let '(gs'', remaining) := add_to_same self cargo_id gs' tids' remaining in
      (g :: gs'', remaining)
  | _, _ => (gs, remaining)
  end.

(** Second loop of [_add_cargo_to_chromosome]: empty tanks. *)
Fixpoint add_to_empty (self : t) (cargo_id : string) (gs : list Gene)
    (tids : list string) (remaining : Q) : list Gene * Q :=
  match gs, tids with
  | (existing_cargo_id, existing_qty) :: gs', tank_id :: tids' =>
      let '(g, remaining) :=
        if is_none existing_cargo_id && Qgtb remaining eps then
          let tank_volume := tank_volume_of self tank_id in
          let to_add := Qmin remaining tank_volume in
          if Qgtb to_add eps
          then ((Some cargo_id, to_add), remaining - to_add)
          else ((existing_cargo_id, existing_qty), remaining)
        else ((existing_cargo_id, existing_qty), remaining) in
      let '(gs'', remaining) := add_to_empty self cargo_id gs' tids' remaining in
      (g :: gs'', remaining)
  | _, _ => (gs, remaining)
  end.

Definition _add_cargo_to_chromosome (self : t) (chromosome : Chromosome)
    (cargo_id : string) (quantity : Q) : Chromosome :=
  let '(gs, remaining) :=
    add_to_same self cargo_id (genes chromosome) (tank_ids chromosome) quantity in
  let '(gs, _) := add_to_empty self cargo_id gs (tank_ids chromosome) remaining in
  mkChromosome gs (tank_ids chromosome).

Fixpoint remove_from (cargo_id : string) (gs : list Gene) (remaining : Q) : list Gene :=
  match gs with
  | [] => []
  | (existing_cargo_id, existing_qty) :: gs' =>
      if is_cargo existing_cargo_id cargo_id && Qgtb remaining eps then
        let to_remove := Qmin remaining existing_qty in
        let new_qty := existing_qty - to_remove in
        (if Qltb new_qty eps then empty_gene else (Some cargo_id, new_qty))
          :: remove_from cargo_id gs' (remaining - to_remove)
      else (existing_cargo_id, existing_qty) :: remove_from cargo_id gs' remaining
  end.

Definition _remove_cargo_from_chromosome (chromosome : Chromosome)
    (cargo_id : string) (quantity : Q) : Chromosome :=
  mkChromosome (remove_from cargo_id (genes chromosome) quantity) (tank_ids chromosome).

(** [sum(qty for cargo_id, qty in repaired.genes if cargo_id == cargo.unique_id)] *)
Definition cargo_total (gs : list Gene) (uid : string) : Q :=
  Qsum (map snd (filter (fun g => is_cargo (fst g) uid) gs)).

(** The body of the loop over the regular cargos in [_repair_chromosome]. *)
Definition repair_cargo (self : t) (repaired : Chromosome) (cargo : Cargo) : Chromosome :=
  let total_loaded := cargo_total (genes repaired) (unique_id cargo) in
  let min_allowed := cq cargo * (1 - receiver_tolerance self) in
  let max_allowed := cq cargo * (1 + receiver_tolerance self) in
  if Qltb total_loaded min_allowed then
    _add_cargo_to_chromosome self repaired (unique_id cargo) (min_allowed - total_loaded)
  else if Qgtb total_loaded max_allowed then
    _remove_cargo_from_chromosome repaired (unique_id cargo) (total_loaded - max_allowed)
  else repaired.

Definition _repair_chromosome (self : t) (chromosome : Chromosome) : Chromosome :=
  let repaired :=
    mkChromosome (cap_genes self (genes chromosome) (tank_ids chromosome))
                 (tank_ids chromosome) in
  fold_left (repair_cargo self) (regular_cargos self) repaired.

Definition create_initial_population (self : t) (r : Rng) : list Chromosome * Rng :=
  fold_left
    (fun '(population, r) _ =>
       let '(chromosome, r) := _create_random_chromosome self r in
       ((population ++ [_repair_chromosome self chromosome])%list, r))
    (seq 0 (population_size self)) ([], r).

(** *** Fitness *)

(** [d[k].append(x)], creating the list on first use. *)
Definition dict_append {A : Type} (k : string) (x : A) (d : list (string * list A))
    : list (string * list A) :=
  dict_set k (or_default [] (dict_get k d) ++ [x])%list d.

(** Genes that count as loaded: [cargo_id is not None and qty > 0.001],
    with their index and tank id. *)
Fixpoint loaded_genes (gs : list Gene) (tids : list string) (i : nat)
    : list (nat * string * string * Q) :=
  match gs with
  | [] => []
  | (cargo_id, qty) :: gs' =>
      let tank_id := hd ""%string tids in
      match cargo_id with
      | Some c =>
          if Qgtb qty eps
          then (i, tank_id, c, qty) :: loaded_genes gs' (tl tids) (S i)
          else loaded_genes gs' (tl tids) (S i)
      | None => loaded_genes gs' (tl tids) (S i)
      end
  end.

Definition _all_tanks_same_side (self : t) (tank_ids : list string) : bool :=
  match tank_ids with
  | [] => false
  | first :: rest =>
      match get_tank_position_info (ship self) first with
      | None => false
      | Some first_pos =>
          forallb (fun tank_id =>
                     match get_tank_position_info (ship self) tank_id with
                     | Some p => Side_eqb (side p) (side first_pos)
                     | None => false
                     end) rest
      end
  end.

(** [self.tank_ids.index(x)] *)
Fixpoint list_index (x : string) (l : list string) (i : nat) : option nat :=
  match l with
  | [] => None
  | y :: r => if String.eqb y x then Some i else list_index x r (S i)
  end.

Definition _calculate_symmetry_penalty (self : t) (chromosome : Chromosome) : Q :=
  let tank_pairs := get_tank_pairs (ship self) in
  let cargo_tank_map :=
    fold_left (fun m '(i, tank_id, cargo_id, qty) => dict_append cargo_id tank_id m)
              (loaded_genes (genes chromosome) (tank_ids chromosome) 0) [] in
  let penalty :=
    fold_left
      (fun penalty '(cargo_id, tank_ids) =>
         if Nat.leb 2 (length tank_ids) && _all_tanks_same_side self tank_ids
         then penalty + symmetry_penalty_coef self * inject_Z (Z.of_nat (length tank_ids))
         else penalty)
      cargo_tank_map 0 in
  fold_left
    (fun penalty '(port_tank, starboard_tank) =>
       match list_index (t_id port_tank) (self_tank_ids self) 0,
             list_index (t_id starboard_tank) (self_tank_ids self) 0 with
       | Some port_idx, Some starboard_idx =>
           let port_qty := snd (nth port_idx (genes chromosome) empty_gene) in
           let starboard_qty := snd (nth starboard_idx (genes chromosome) empty_gene) in
           let weight_diff := Qabs (port_qty - starboard_qty) in
           let avg_weight := (port_qty + starboard_qty) / 2 in
           if Qgtb avg_weight eps then
             let imbalance_ratio := weight_diff / avg_weight in
             if Qgtb imbalance_ratio (1 # 10)
             then penalty + symmetry_penalty_coef self * imbalance_ratio * (1 # 10)
             else penalty
           else penalty
       | _, _ => penalty
       end)
    tank_pairs penalty.

Definition _calculate_trim_penalty (self : t) (chromosome : Chromosome) : Q :=
  if Nat.eqb (length (self_tank_ids self)) 0 then 0 else
  let '(total_weight, weighted_position) :=
    fold_left
      (fun '(total_weight, weighted_position) '(i, tank_id, cargo_id, qty) =>
         match get_tank_position_info (ship self) tank_id with
         | Some pos_info =>
             (total_weight + qty,
              weighted_position + qty * inject_Z (Z.of_nat (row_number pos_info)))
         | None => (total_weight, weighted_position)
         end)
      (loaded_genes (genes chromosome) (tank_ids chromosome) 0) (0, 0) in
  if Qltb total_weight eps then 0 else
  let actual_lcg := weighted_position / total_weight in
  let deviation := Qabs (actual_lcg - ideal_lcg_position self) in
  let normalized_deviation :=
    if Nat.ltb 0 (total_rows self)
    then deviation / inject_Z (Z.of_nat (total_rows self)) else 0 in
  trim_penalty_coef self * normalized_deviation.

Definition _calculate_operational_penalty (self : t) (chromosome : Chromosome) : Q :=
  let receiver_tank_count :=
    fold_left (fun m '(i, tank_id, cargo_id, qty) => dict_append cargo_id i m)
              (loaded_genes (genes chromosome) (tank_ids chromosome) 0) [] in
  fold_left
    (fun penalty '(cargo_id, tank_indices) =>
       let num_tanks := length tank_indices in
       if Nat.ltb 1 num_tanks
       then penalty + operational_penalty_coef self
                      * inject_Z (Z.of_nat ((num_tanks - 1) * (num_tanks - 1)))
       else penalty)
    receiver_tank_count 0.

Definition calculate_fitness (self : t) (chromosome : Chromosome) : Q :=
  let total_loaded := Qsum (map snd (genes chromosome)) in
  let symmetry_penalty := _calculate_symmetry_penalty self chromosome in
  let trim_penalty := _calculate_trim_penalty self chromosome in
  let operational_penalty := _calculate_operational_penalty self chromosome in
  total_loaded - symmetry_penalty - trim_penalty - operational_penalty.

(** *** Selection, crossover, mutation *)

Definition default_chromosome : Chromosome := mkChromosome [] [].

(** [tournament_selection]; [None] is the [IndexError] of an empty tournament. *)
Definition tournament_selection (self : t) (population : list Chromosome)
    (fitness_scores : list Q) (r : Rng) : option (Chromosome * Rng) :=
  let '(tournament_indices, r) :=
    random_sample (seq 0 (length population))
                  (Nat.min (tournament_size self) (length population)) r in
  match tournament_indices with
  | [] => None
  | first :: rest =>
      let '(best_idx, _) :=
        fold_left
          (fun '(best_idx, best_fitness) idx =>
             if Qgtb (nth idx fitness_scores 0) best_fitness
             then (idx, nth idx fitness_scores 0)
             else (best_idx, best_fitness))
          rest (first, nth first fitness_scores 0) in
      Some (nth best_idx population default_chromosome, r)
  end.

Definition two_point_crossover (self : t) (parent1 parent2 : Chromosome) (r : Rng)
    : Chromosome * Chromosome * Rng :=
  if Nat.ltb (length (genes parent1)) 2 then (parent1, parent2, r) else
  let '(point1, r) := randbelow (length (genes parent1)) r in
  let '(point2, r) := randbelow (length (genes parent1)) r in
  let '(point1, point2) :=
    if Nat.ltb point2 point1 then (point2, point1) else (point1, point2) in
  let slice (gs : list Gene) (a b : nat) := firstn (b - a) (skipn a gs) in
  let offspring1 :=
    mkChromosome (firstn point1 (genes parent1) ++ slice (genes parent2) point1 point2
                  ++ skipn point2 (genes parent1))%list (tank_ids parent1) in
  let offspring2 :=
    mkChromosome (firstn point1 (genes parent2) ++ slice (genes parent1) point1 point2
                  ++ skipn point2 (genes parent2))%list (tank_ids parent2) in
  (_repair_chromosome self offspring1, _repair_chromosome self offspring2, r).

Definition set_gene (c : Chromosome) (i : nat) (g : Gene) : Chromosome :=
  mkChromosome (set_nth i g (genes c)) (tank_ids c).

Definition _mutate_swap (chromosome : Chromosome) (r : Rng) : Chromosome * Rng :=
  if Nat.ltb (length (genes chromosome)) 2 then (chromosome, r) else
  let '(idxs, r) := random_sample (seq 0 (length (genes chromosome))) 2 r in
  let idx1 := nth 0 idxs O in
  let idx2 := nth 1 idxs O in
  let g1 := nth idx1 (genes chromosome) empty_gene in
  let g2 := nth idx2 (genes chromosome) empty_gene in
  (set_gene (set_gene chromosome idx1 g2) idx2 g1, r).

Definition _mutate_transfer (self : t) (chromosome : Chromosome) (r : Rng)
    : Chromosome * Rng :=
  let filled_tanks :=
    map (fun x => fst (fst (fst x)))
        (loaded_genes (genes chromosome) (tank_ids chromosome) 0) in
  match filled_tanks with
  | [] => (chromosome, r)
  | _ =>
      let '(source_idx, r) := random_choice O filled_tanks r in
      let '(source_cargo_id, source_qty) := nth source_idx (genes chromosome) empty_gene in
      if Qltb source_qty eps then (chromosome, r) else
      let '(target_idx, r) := randbelow (length (genes chromosome)) r in
      let '(target_cargo_id, target_qty) := nth target_idx (genes chromosome) empty_gene in
      let target_tank_id := nth target_idx (tank_ids chromosome) ""%string in
      let target_volume := tank_volume_of self target_tank_id in
      let transfer_amount := Qmin (source_qty * (3 # 10)) (target_volume - target_qty) in
      if Qgtb transfer_amount eps then
        let new_source_qty := source_qty - transfer_amount in
        let chromosome :=
          if Qltb new_source_qty eps
          then set_gene chromosome source_idx empty_gene
          else set_gene chromosome source_idx (source_cargo_id, new_source_qty) in
        let chromosome :=
          match source_cargo_id, target_cargo_id with
          | Some s, Some tg =>
              if String.eqb tg s
              then set_gene chromosome target_idx
                            (source_cargo_id, target_qty + transfer_amount)
              else chromosome
          | Some _, None =>
              set_gene chromosome target_idx (source_cargo_id, transfer_amount)
          | None, None =>
              set_gene chromosome target_idx
                       (source_cargo_id, target_qty + transfer_amount)
          | None, Some _ => chromosome
          end in
        (chromosome, r)
      else (chromosome, r)
  end.

Definition _mutate_shift (self : t) (chromosome : Chromosome) (r : Rng)
    : Chromosome * Rng :=
  let cargo_tanks :=
    fold_left (fun m '(i, tank_id, cargo_id, qty) => dict_append cargo_id (i, qty) m)
              (loaded_genes (genes chromosome) (tank_ids chromosome) 0) [] in
  let suitable_cargos :=
    map fst (filter (fun '(cargo_id, tks) => Nat.ltb 1 (length tks)) cargo_tanks) in
  match suitable_cargos with
  | [] => (chromosome, r)
  | _ =>
      let '(cargo_id, r) := random_choice ""%string suitable_cargos r in
      let tks := or_default [] (dict_get cargo_id cargo_tanks) in
      let '((source_idx, source_qty), r) := random_choice (O, 0) tks r in
      let '(target_idx, r) := randbelow (length (genes chromosome)) r in
      let target_tank_id := nth target_idx (tank_ids chromosome) ""%string in
      let target_volume := tank_volume_of self target_tank_id in
      let '(target_cargo_id, target_qty) := nth target_idx (genes chromosome) empty_gene in
      let shift_amount := Qmin (source_qty * (1 # 2)) (target_volume - target_qty) in
      if Qgtb shift_amount eps
         && (is_none target_cargo_id || is_cargo target_cargo_id cargo_id) then
        let new_source_qty := source_qty - shift_amount in
        let chromosome :=
          if Qltb new_source_qty eps
          then set_gene chromosome source_idx empty_gene
          else set_gene chromosome source_idx (Some cargo_id, new_source_qty) in
        let chromosome :=
          if is_cargo target_cargo_id cargo_id
          then set_gene chromosome target_idx (Some cargo_id, target_qty + shift_amount)
          else set_gene chromosome target_idx (Some cargo_id, shift_amount) in
        (chromosome, r)
      else (chromosome, r)
  end.

Inductive MutationType := swap | transfer | shift.

Definition mutate (self : t) (chromosome : Chromosome) (r : Rng) : Chromosome * Rng :=
  let '(mutation_type, r) := random_choice swap [swap; transfer; shift] r in
  let '(mutated, r) :=
    match mutation_type with
    | swap => _mutate_swap chromosome r
    | transfer => _mutate_transfer self chromosome r
    | shift => _mutate_shift self chromosome r
    end in
  (_repair_chromosome self mutated, r).

(** *** Plan construction *)

Definition _chromosome_to_plan (e : Env) (self : t) (chromosome : Chromosome) : StowagePlan :=
  let plan := StowagePlan_new e (s_name (ship self)) (s_id (ship self))
                              (cargo_requests self) "Genetik Algoritma Planı" in
  let plan :=
    fold_left (fun p '(tank_id, assignment) => add_assignment p tank_id assignment)
              (mandatory_assignments self) plan in
  let cargo_map :=
    fold_left (fun m cargo => dict_set (unique_id cargo) cargo m) (cargo_requests self) [] in
  fold_left
    (fun p '(i, tank_id, cargo_id, quantity) =>
       if dict_mem tank_id (mandatory_assignments self) then p else
       match dict_get cargo_id cargo_map with
       | Some cargo => add_assignment p tank_id (mkAssignment tank_id cargo quantity)
       | None => p
       end)
    (loaded_genes (genes chromosome) (tank_ids chromosome) 0) plan.

(** The inner loop of the post-fill over the sorted empty tanks; [None] is
    the [ZeroDivisionError] of [qty_to_place / tank.volume]. *)
Fixpoint fill_tanks (cargo : Cargo) (min_util : Q) (tks : list Tank)
    (plan : StowagePlan) (remaining_qty : Q) : option StowagePlan :=
  match tks with
  | [] => Some plan
  | tank :: rest =>
      if Qltb remaining_qty eps then Some plan else
      let qty_to_place := Qmin remaining_qty (volume tank) in
      if Qeq_bool (volume tank) 0 then None else
      if Qltb (qty_to_place / volume tank) min_util
      then fill_tanks cargo min_util rest plan remaining_qty
      else fill_tanks cargo min_util rest
             (add_assignment plan (t_id tank) (mkAssignment (t_id tank) cargo qty_to_place))
             (remaining_qty - qty_to_place)
  end.

(** The outer loop of the post-fill over the remaining cargos. *)
Fixpoint fill_cargos (min_util : Q) (empty_tanks : list Tank)
    (remaining_cargos : list (Cargo * Q)) (plan : StowagePlan) : option StowagePlan :=
  match remaining_cargos with
  | [] => Some plan
  | (cargo, remaining_qty) :: rest =>
      if Qltb remaining_qty eps then fill_cargos min_util empty_tanks rest plan else
      let available_empty_tanks :=
        filter (fun tank => match get_assignment plan (t_id tank) with
                            | None => true | Some _ => false end) empty_tanks in
      match available_empty_tanks with
      | [] => Some plan
      | _ =>
          let available_empty_tanks :=
            sorted_by (fun x y => Qltb (volume x) (volume y)) available_empty_tanks in
          match fill_tanks cargo min_util available_empty_tanks plan remaining_qty with
          | Some plan => fill_cargos min_util empty_tanks rest plan
          | None => None
          end
      end
  end.

Definition _fill_empty_tanks_with_remaining_cargo (self : t) (plan : StowagePlan)
    (settings : Settings) : option StowagePlan :=
  let min_util := or_default (65 # 100) (min_utilization settings) in
  let empty_tanks :=
    filter (fun tank =>
              negb (str_in (t_id tank) (excluded_tanks self))
              && match get_assignment plan (t_id tank) with
                 | None => true | Some _ => false end)
           (available_tanks self) in
  match empty_tanks with
  | [] => Some plan
  | _ =>
      let remaining_cargos :=
        flat_map (fun cargo =>
                    let total_loaded := get_cargo_total_loaded plan (unique_id cargo) in
                    let remaining := cq cargo - total_loaded in
                    if Qgtb remaining eps then [(cargo, remaining)] else [])
                 (regular_cargos self) in
      match remaining_cargos with
      | [] => Some plan
      | _ =>
          let remaining_cargos :=
            sorted_by (fun x y => Qgtb (snd x) (snd y)) remaining_cargos in
          fill_cargos min_util empty_tanks remaining_cargos plan
      end
  end.

(** *** The genetic loop *)

(** [max(range(len(scores)), key=lambda i: scores[i])]: the first index of
    the greatest score; [None] is the [ValueError] on an empty range. *)
Definition argmax_index (scores : list Q) : option nat :=
  match scores with
  | [] => None
  | s0 :: rest =>
      Some (fst (fst (fold_left
              (fun '(best_i, best_s, i) s =>
                 if Qgtb s best_s then (i, s, S i) else (best_i, best_s, S i))
              rest (O, s0, 1%nat))))
  end.

(** [while len(new_population) < self.population_size]; [slots] is the
    number of places still free. *)
Fixpoint breed (self : t) (population : list Chromosome) (fitness_scores : list Q)
    (slots : nat) (new_population : list Chromosome) (r : Rng)
    : option (list Chromosome * Rng) :=
  match slots with
  | O => Some (new_population, r)
  | S slots' =>
      match tournament_selection self population fitness_scores r with
      | None => None
      | Some (parent1, r) =>
      match tournament_selection self population fitness_scores r with
      | None => None
      | Some (parent2, r) =>
          let '(x, r) := random_unit r in
          let '(offspring1, offspring2, r) :=
            if Qltb x (crossover_rate self)
            then two_point_crossover self parent1 parent2 r
            else (parent1, parent2, r) in
          let '(x, r) := random_unit r in
          let '(offspring1, r) :=
            if Qltb x (mutation_rate self) then mutate self offspring1 r
            else (offspring1, r) in
          let '(x, r) := random_unit r in
          let '(offspring2, r) :=
            if Qltb x (mutation_rate self) then mutate self offspring2 r
            else (offspring2, r) in
          let new_population := (new_population ++ [offspring1])%list in
          match slots' with
          | O => Some (new_population, r)
          | S slots'' =>
              breed self population fitness_scores slots''
                    (new_population ++ [offspring2])%list r
          end
      end
      end
  end.

(** The state of the main loop. *)
Record Loop := mkLoop {
  l_population : list Chromosome;
  l_fitness_scores : list Q;
  l_best_chromosome : Chromosome;
  l_best_fitness : Q;
  l_history : list Q;
  l_rng : Rng
}.

(** [for generation in range(self.max_generations)], with its [break]. *)
Fixpoint evolve (self : t) (generations : nat) (s : Loop) : option Loop :=
  match generations with
  | O => Some s
  | S generations' =>
      let population := l_population s in
      let fitness_scores := l_fitness_scores s in
      let new_population :=
        if use_elitism self then
          let sorted_indices :=
            sorted_by (fun i j => Qgtb (nth i fitness_scores 0) (nth j fitness_scores 0))
                      (seq 0 (length population)) in
          map (fun i => nth i population default_chromosome)
              (firstn (Nat.min (elitism_count self) (length population)) sorted_indices)
        else [] in
      match breed self population fitness_scores
                  (population_size self - length new_population) new_population
                  (l_rng s) with
      | None => None
      | Some (new_population, r) =>
          let new_population := firstn (population_size self) new_population in
          let fitness_scores := map (calculate_fitness self) new_population in
          match argmax_index fitness_scores with
          | None => None
          | Some current_best_idx =>
              let current_best_fitness := nth current_best_idx fitness_scores 0 in
              let '(best_chromosome, best_fitness) :=
                if Qgtb current_best_fitness (l_best_fitness s)
                then (nth current_best_idx new_population default_chromosome,
                      current_best_fitness)
                else (l_best_chromosome s, l_best_fitness s) in
              let history := (l_history s ++ [best_fitness])%list in
              let cg := convergence_generations self in
              let converged :=
                Nat.leb cg (length history)
                && Qltb (last history 0
                         - nth (if Nat.eqb cg 0 then 0 else length history - cg)%nat
                               history 0)
                        (convergence_threshold self) in
              let s' := mkLoop new_population fitness_scores best_chromosome
                               best_fitness history r in
              if converged then Some s' else evolve self generations' s'
          end
      end
  end.

(** [GeneticOptimizer.optimize] *)
Definition optimize (e : Env) (self : t) (r : Rng) : option StowagePlan :=
  let available :=
    fold_left (fun d tank => dict_set (t_id tank) (volume tank) d)
              (available_tanks self) [] in
  let placed :=
    match mandatory_cargos self with
    | [] => Some (mandatory_assignments self, available)
    | _ => _place_mandatory_cargos self available (settings self)
    end in
  match placed with
  | None => None
  | Some (massign, available) =>
      let self := set_mandatory_assignments self massign in
      let self :=
        set_tank_volumes self
          (fold_left (fun tv '(tank_id, remaining_capacity) =>
                        if dict_mem tank_id tv then dict_set tank_id remaining_capacity tv
                        else tv)
                     available (tank_volumes self)) in
      match regular_cargos self with
      | [] =>
          let plan := StowagePlan_new e (s_name (ship self)) (s_id (ship self))
                                      (cargo_requests self) "Genetik Algoritma Planı" in
          Some (fold_left (fun p '(tank_id, assignment) => add_assignment p tank_id assignment)
                          (mandatory_assignments self) plan)
      | _ =>
          let '(population, r) := create_initial_population self r in
          let fitness_scores := map (calculate_fitness self) population in
          match argmax_index fitness_scores with
          | None => None
          | Some best_idx =>
              let best_chromosome := nth best_idx population default_chromosome in
              let best_fitness := nth best_idx fitness_scores 0 in
              match evolve self (max_generations self)
                           (mkLoop population fitness_scores best_chromosome
                                   best_fitness [best_fitness] r) with
              | None => None
              | Some s =>
                  let plan := _chromosome_to_plan e self (l_best_chromosome s) in
                  _fill_empty_tanks_with_remaining_cargo self plan (settings self)
              end
          end
      end
  end.

Definition validate_plan (ship : Ship) (cargo_requests : list Cargo) : bool * Message :=
  let total_cargo_quantity := Qsum (map cq cargo_requests) in
  let total_capacity := get_total_capacity ship in
  if Qgtb total_cargo_quantity (total_capacity * (11 # 10))
  then (false, FarOverCapacity total_cargo_quantity total_capacity)
  else (true, NoMessage).

End GeneticOptimizer.

(** ** Concrete ships, cargos and settings used by the examples *)

Module Examples.
Open Scope string_scope.

Definition env0 : Env := mkEnv "00000000-0000-4000-8000-000000000000"
                               (mkDatetime "20250101_120000" 0).
Definition env1 : Env := mkEnv "11111111-1111-4111-8111-111111111111"
                               (mkDatetime "20250101_120001" 0).

Definition tank (i : string) (v : Q) : Tank := mkTank i i v.
Definition regular (i : string) (q : Q) : Cargo := mkCargo i (Some q) [] i false None None.
Definition mandatory (i : string) (q : Q) : Cargo := mkCargo i (Some q) [] i true None None.

(** The default bag with another [min_utilization]. *)
Definition with_min_utilization (m : Q) : Settings :=
  mkSettings (Some m) None None None None None None None None None None None
             None None None None None None None None None None None.

(** A small genetic run: 4 chromosomes, 2 generations, 1 elite. *)
Definition small_ga : Settings :=
  mkSettings None None None None None None None None None (Some 4%nat) (Some 2%nat) None
             None None None (Some 1%nat) None None None None None None None.

(** One tank of 1000 and three of 520. *)
Definition ship_overload : Ship :=
  mkShip "overload" [tank "t0" 1000; tank "t1" 520; tank "t2" 520; tank "t3" 520] "s1".

(** Four rows: a small first row and three rows of 500. *)
Definition ship_four_rows : Ship :=
  mkShip "four rows"
         [tank "t0" 100; tank "t1" 100; tank "t2" 500; tank "t3" 500;
          tank "t4" 500; tank "t5" 500; tank "t6" 500; tank "t7" 500] "s2".

(** One row of two tanks of 100. *)
Definition ship_one_row : Ship :=
  mkShip "one row" [tank "t0" 100; tank "t1" 100] "s3".

(** Two rows: 100 and 70, then 50 and 50. *)
Definition ship_two_rows : Ship :=
  mkShip "two rows" [tank "t0" 100; tank "t1" 70; tank "t2" 50; tank "t3" 50] "s4".

(** A single tank of 100. *)
Definition ship_single : Ship := mkShip "single" [tank "t0" 100] "s5".

Definition ship_empty : Ship := mkShip "empty" [] "s6".

(** A chromosome over [ship_one_row] that holds 40 and 60 of cargo B. *)
Definition chromosome_B : Chromosome :=
  mkChromosome [(Some "B", 40); (Some "B", 60)] ["t0"; "t1"].

Definition ga_one_row : GeneticOptimizer.t :=
  GeneticOptimizer.init ship_one_row [regular "A" 100; regular "B" 50] None None None.
End Examples.

(** * Properties *)

(** ** Comparisons *)

Lemma Qleb_le x y : Qleb x y = true <-> x <= y.
Proof. apply Qle_bool_iff. Qed.

Lemma Qltb_lt x y : Qltb x y = true <-> x < y.
Proof.
  unfold Qltb. rewrite negb_true_iff. split; intro H.
  - apply Qnot_le_lt. intro Hle. apply Qle_bool_iff in Hle. congruence.
  - destruct (Qle_bool y x) eqn:E; auto.
    apply Qle_bool_iff in E. exfalso. apply (Qlt_not_le _ _ H E).
Qed.

Lemma Qltb_false x y : Qltb x y = false <-> y <= x.
Proof.
  unfold Qltb. rewrite negb_false_iff. apply Qle_bool_iff.
Qed.

Lemma Qleb_false x y : Qleb x y = false <-> y < x.
Proof.
  unfold Qleb. split; intro H.
  - apply Qnot_le_lt. intro Hle. apply Qle_bool_iff in Hle. congruence.
  - destruct (Qle_bool x y) eqn:E; auto.
    apply Qle_bool_iff in E. exfalso. apply (Qlt_not_le _ _ H E).
Qed.

Lemma Qgtb_gt x y : Qgtb x y = true <-> y < x.
Proof. apply Qltb_lt. Qed.

Lemma Qgeb_ge x y : Qgeb x y = true <-> y <= x.
Proof. apply Qleb_le. Qed.

Lemma Qmin3_le_3 a b c : Qmin3 a b c <= c.
Proof. apply Q.le_min_r. Qed.

Lemma Qmin3_le_2 a b c : Qmin3 a b c <= b.
Proof. eapply Qle_trans; [apply Q.le_min_l | apply Q.le_min_r]. Qed.

Lemma Qmin3_le_1 a b c : Qmin3 a b c <= a.
Proof. eapply Qle_trans; [apply Q.le_min_l | apply Q.le_min_l]. Qed.

Lemma Qmin3_glb a b c x : x <= a -> x <= b -> x <= c -> x <= Qmin3 a b c.
Proof. intros. unfold Qmin3. apply Q.min_glb; [apply Q.min_glb|]; assumption. Qed.

Lemma Qmin3_glb_lt a b c x : x < a -> x < b -> x < c -> x < Qmin3 a b c.
Proof. intros. unfold Qmin3. apply Q.min_glb_lt; [apply Q.min_glb_lt|]; assumption. Qed.

Lemma eps_pos : 0 < eps.
Proof. reflexivity. Qed.

Lemma Qdiv_pos_num q v m : 0 < v -> 0 < m -> m <= q / v -> 0 < q.
Proof.
  intros Hv Hm H.
  destruct (Qlt_le_dec 0 q) as [|Hq]; auto.
  exfalso.
  assert (q / v <= 0).
  { unfold Qdiv. rewrite <- (Qmult_0_l (/ v)). apply Qmult_le_compat_r; auto.
    apply Qlt_le_weak, Qinv_lt_0_compat; auto. }
  lra.
Qed.

(** ** Dictionaries *)

Lemma eqb_eq_str a b : String.eqb a b = true -> a = b.
Proof. apply String.eqb_eq. Qed.

Lemma dict_set_Forall {V} (P : string * V -> Prop) k v (d : list (string * V)) :
  Forall P d -> P (k, v) -> Forall P (dict_set k v d).
Proof.
  intros Hd Hk. induction d as [|[k' v'] d IH]; simpl.
  - constructor; auto.
  - inversion Hd; subst. destruct (String.eqb k k') eqn:E.
    + apply eqb_eq_str in E. subst. constructor; auto.
    + constructor; auto.
Qed.

Lemma dict_get_set_same {V} k v (d : list (string * V)) :
  dict_get k (dict_set k v d) = Some v.
Proof.
  induction d as [|[k' v'] d IH]; simpl.
  - rewrite String.eqb_refl. reflexivity.
  - destruct (String.eqb k k') eqn:E; simpl; rewrite E; auto.
Qed.

Lemma dict_keys_set_present {V} k v (d : list (string * V)) w :
  dict_get k d = Some w -> dict_keys (dict_set k v d) = dict_keys d.
Proof.
  unfold dict_keys.
  induction d as [|[k' v'] d IH]; simpl; intro H; [discriminate|].
  destruct (String.eqb k k') eqn:E; simpl; auto.
  f_equal. auto.
Qed.

Lemma dict_keys_set_incl {V} k v (d : list (string * V)) x :
  In x (dict_keys (dict_set k v d)) -> x = k \/ In x (dict_keys d).
Proof.
  induction d as [|[k' v'] d IH]; simpl.
  - intros [H|[]]; auto.
  - destruct (String.eqb k k') eqn:E; simpl; intros [H|H]; auto.
    destruct (IH H); auto.
Qed.

Lemma dict_get_In {V} k (d : list (string * V)) v :
  dict_get k d = Some v -> In (k, v) d.
Proof.
  induction d as [|[k' v'] d IH]; simpl; [discriminate|].
  destruct (String.eqb k k') eqn:E; intro H.
  - apply eqb_eq_str in E. inversion H; subst. auto.
  - auto.
Qed.

Lemma dict_mem_In {V} k (d : list (string * V)) :
  dict_mem k d = true -> In k (dict_keys d).
Proof.
  unfold dict_mem. destruct (dict_get k d) eqn:E; [|discriminate].
  intros _. apply dict_get_In in E. apply (in_map fst) in E. exact E.
Qed.

Lemma dict_sub_keys k q d x :
  In x (dict_keys (dict_sub k q d)) -> In x (dict_keys d).
Proof.
  unfold dict_sub. destruct (dict_get k d) eqn:E; auto.
  rewrite (dict_keys_set_present _ _ _ _ E). auto.
Qed.

Lemma str_in_In k l : str_in k l = true <-> In k l.
Proof.
  unfold str_in. rewrite existsb_exists. split.
  - intros [x [Hx E]]. apply eqb_eq_str in E. subst. auto.
  - intro H. exists k. split; auto. apply String.eqb_refl.
Qed.

(** ** Sums *)

Lemma fold_left_Qplus_acc (l : list Q) (a : Q) :
  fold_left Qplus l a == a + fold_left Qplus l 0.
Proof.
  revert a. induction l as [|x l IH]; intro a; simpl.
  - lra.
  - rewrite IH. rewrite (IH (0 + x)). lra.
Qed.

Lemma Qsum_cons x l : Qsum (x :: l) == x + Qsum l.
Proof.
  unfold Qsum. simpl. rewrite fold_left_Qplus_acc. lra.
Qed.

(** ** Cargo construction and (de)serialisation *)

Lemma receivers_round_trip (rs : list Receiver) :
  all_some (map Receiver_from_dict (map Receiver_to_dict rs)) = Some rs.
Proof.
  induction rs as [|[n] rs IH]; simpl; auto.
  rewrite IH. reflexivity.
Qed.

Lemma post_init_keeps_nonzero e c q :
  quantity c = Some q -> ~ q == 0 -> quantity (Cargo_post_init e c) = Some q.
Proof.
  intros Hq Hnz. unfold Cargo_post_init. simpl. rewrite Hq.
  assert (E : Qeq_bool q 0 = false).
  { destruct (Qeq_bool q 0) eqn:E; auto. apply Qeq_bool_eq in E. contradiction. }
  rewrite E. simpl. destruct (ton c); destruct (density c); reflexivity.
Qed.

Lemma post_init_derives e c t d :
  (quantity c = None \/ exists q, quantity c = Some q /\ q == 0) ->
  ton c = Some t -> density c = Some d -> 0 < d ->
  quantity (Cargo_post_init e c) = Some (t / d).
Proof.
  intros Hq Ht Hd Hpos. unfold Cargo_post_init. simpl. rewrite Ht, Hd.
  assert (Hg : Qgtb d 0 = true) by (apply Qgtb_gt; exact Hpos).
  rewrite Hg.
  destruct Hq as [Hq | [q [Hq Hz]]]; rewrite Hq; simpl.
  - reflexivity.
  - rewrite (Qeq_eq_bool _ _ Hz). reflexivity.
Qed.

Lemma from_dict_quantity e data c :
  Cargo_from_dict e (JDict data) = Some c ->
  exists oq ot od,
    jnum_field "quantity" data = Some oq /\
    jnum_field "ton" data = Some ot /\
    jnum_field "density" data = Some od /\
    quantity c =
      quantity (Cargo_post_init e
                  (mkCargo ""%string (Some (or_default 0 oq)) [] ""%string false ot od)).
Proof.
  unfold Cargo_from_dict.
  destruct (match dict_get "receivers" data with
            | Some (JList l) => Some l | Some _ => None | None => Some [] end);
    [|discriminate].
  destruct (all_some (map Receiver_from_dict l)); [|discriminate].
  destruct (jnum_field "quantity" data) as [oq|]; [|discriminate].
  destruct (jnum_field "ton" data) as [ot|]; [|discriminate].
  destruct (jnum_field "density" data) as [od|]; [|discriminate].
  destruct (dict_get "cargo_type" data) as [[| | |ct| |]|]; try discriminate.
  destruct (match dict_get "unique_id" data with
            | Some (JStr s) => Some s | Some _ => None | None => Some ""%string end);
    [|discriminate].
  destruct (match dict_get "is_mandatory" data with
            | Some (JBool b) => Some b | Some _ => None | None => Some false end);
    [|discriminate].
  intro H. inversion H; subst; clear H.
  exists oq, ot, od. repeat split; auto.
  unfold Cargo_new, Cargo_post_init. simpl.
  destruct oq; reflexivity.
Qed.

(** C8. A cargo constructed, or read back with [from_dict], with its
    quantity absent, [None] or zero and with a ton and a positive density
    gets [ton / density] as quantity; a quantity that is not zero is kept
    unchanged by the constructor and by [to_dict] followed by [from_dict]. *)
Theorem cargo_quantity_derived_or_preserved :
  (* construction derives the volume *)
  (forall e ct oq rs uid m t d,
      (oq = None \/ exists q, oq = Some q /\ q == 0) -> 0 < d ->
      quantity (Cargo_new e ct oq rs uid m (Some t) (Some d)) = Some (t / d)) /\
  (* deserialisation derives the volume *)
  (forall e data c t d,
      Cargo_from_dict e (JDict data) = Some c ->
      (jnum_field "quantity" data = Some None \/
       exists q, jnum_field "quantity" data = Some (Some q) /\ q == 0) ->
      jnum_field "ton" data = Some (Some t) ->
      jnum_field "density" data = Some (Some d) -> 0 < d ->
      quantity c = Some (t / d)) /\
  (* construction keeps a quantity that is not zero *)
  (forall e ct q rs uid m ot od,
      ~ q == 0 -> quantity (Cargo_new e ct (Some q) rs uid m ot od) = Some q) /\
  (* and so does the round trip *)
  (forall e c q,
      quantity c = Some q -> ~ q == 0 ->
      exists c', Cargo_from_dict e (Cargo_to_dict c) = Some c' /\ quantity c' = Some q).
Proof.
  repeat split.
  - intros e ct oq rs uid m t d Hq Hd. unfold Cargo_new.
    apply post_init_derives; auto.
  - intros e data c t d Hc Hq Ht Hd Hpos.
    destruct (from_dict_quantity _ _ _ Hc) as [oq [ot [od [Eq [Et [Ed Hquant]]]]]].
    rewrite Ht in Et. rewrite Hd in Ed. inversion Et; inversion Ed; subst.
    rewrite Hquant. apply post_init_derives; simpl; auto.
    right. destruct Hq as [Hq | [q [Hq Hz]]]; rewrite Hq in Eq; inversion Eq; subst.
    + exists 0. split; [reflexivity | reflexivity].
    + exists q. split; [reflexivity | exact Hz].
  - intros e ct q rs uid m ot od Hnz. unfold Cargo_new.
    apply post_init_keeps_nonzero; auto.
  - intros e c q Hq Hnz.
    unfold Cargo_to_dict, Cargo_from_dict. simpl.
    rewrite receivers_round_trip.
    unfold jnum_field, jget. simpl. rewrite Hq. simpl.
    destruct (ton c) as [t|]; destruct (density c) as [d|]; simpl;
      (eexists; split; [reflexivity|]);
      unfold Cargo_new; apply post_init_keeps_nonzero; auto.
Qed.

(** A cargo of 12 tons at density 3/2 with no volume gets 8; a cargo entered
    with volume 7 keeps it through the round trip. *)
Lemma cargo_quantity_derived_or_preserved_witness :
  quantity (Cargo_new Examples.env0 "oil" (Some 0) [] "c1" false (Some 12) (Some (3 # 2)))
    = Some (12 / (3 # 2)) /\
  (exists c', Cargo_from_dict Examples.env0
                (Cargo_to_dict (mkCargo "oil" (Some 7) [] "c1" false (Some 12) (Some (3 # 2))))
              = Some c' /\ quantity c' = Some 7).
Proof.
  split.
  - apply (proj1 cargo_quantity_derived_or_preserved).
    + right. exists 0. split; reflexivity.
    + reflexivity.
  - apply (proj2 (proj2 (proj2 cargo_quantity_derived_or_preserved))).
    + reflexivity.
    + intro H. discriminate H.
Defined.

(** ** Validators *)

(** C9, as the spec states it, fails: a ship without tanks and a cargo of
    quantity 0 validate in both validators, with an empty message. *)
Lemma validate_accepts_empty_ship :
  tanks Examples.ship_empty = [] /\
  cq (Examples.regular "A" 0) <= 0 /\
  StowageOptimizer.validate_plan Examples.ship_empty [Examples.regular "A" 0]
    = (true, NoMessage) /\
  GeneticOptimizer.validate_plan Examples.ship_empty [Examples.regular "A" 0]
    = (true, NoMessage).
Proof.
  repeat split. discriminate.
Qed.

(** C9, amended. Both validators compare totals only: the phase-solver
    validator rejects exactly when the total requested quantity exceeds the
    ship capacity, the GA validator exactly when it exceeds 1.1 times the
    capacity; the message is empty exactly when the input is accepted. *)
Theorem validate_checks_totals_only :
  forall ship cargos,
    (fst (StowageOptimizer.validate_plan ship cargos) = false <->
     get_total_capacity ship < Qsum (map cq cargos)) /\
    (fst (GeneticOptimizer.validate_plan ship cargos) = false <->
     get_total_capacity ship * (11 # 10) < Qsum (map cq cargos)) /\
    Message_is_empty (snd (StowageOptimizer.validate_plan ship cargos))
      = fst (StowageOptimizer.validate_plan ship cargos) /\
    Message_is_empty (snd (GeneticOptimizer.validate_plan ship cargos))
      = fst (GeneticOptimizer.validate_plan ship cargos).
Proof.
  intros ship cargos.
  unfold StowageOptimizer.validate_plan, GeneticOptimizer.validate_plan.
  destruct (Qgtb (Qsum (map cq cargos)) (get_total_capacity ship)) eqn:E1;
  destruct (Qgtb (Qsum (map cq cargos)) (get_total_capacity ship * (11 # 10))) eqn:E2;
  destruct (Nat.ltb (length (tanks ship)) (length cargos)); simpl;
  repeat split; auto; try discriminate; intros;
  try (apply Qgtb_gt; assumption);
  try (apply Qgtb_gt in H; congruence).
Qed.

(** ** Plans: last write wins *)

(** What an assignment contributes to the loaded total of a cargo. *)
Definition contribution (uid : string) (a : TankAssignment) : Q :=
  if String.eqb (unique_id (a_cargo a)) uid then quantity_loaded a else 0.

Definition loaded_step (uid : string) (total : Q) (a : TankAssignment) : Q :=
  if String.eqb (unique_id (a_cargo a)) uid then total + quantity_loaded a else total.

Lemma loaded_fold_acc uid (l : list TankAssignment) (acc : Q) :
  fold_left (loaded_step uid) l acc == acc + fold_left (loaded_step uid) l 0.
Proof.
  revert acc. induction l as [|a l IH]; intro acc; simpl.
  - lra.
  - rewrite IH. rewrite (IH (loaded_step uid 0 a)).
    unfold loaded_step. destruct (String.eqb _ _); lra.
Qed.

Lemma loaded_fold_cons uid a (l : list TankAssignment) :
  fold_left (loaded_step uid) (a :: l) 0
  == contribution uid a + fold_left (loaded_step uid) l 0.
Proof.
  simpl. rewrite loaded_fold_acc. unfold loaded_step, contribution.
  destruct (String.eqb _ _); lra.
Qed.

Lemma loaded_after_set uid tid b (d : list (string * TankAssignment)) a :
  dict_get tid d = Some a ->
  fold_left (loaded_step uid) (dict_values (dict_set tid b d)) 0
  == fold_left (loaded_step uid) (dict_values d) 0
     - contribution uid a + contribution uid b.
Proof.
  unfold dict_values.
  induction d as [|[k v] d IH]; simpl map; intro H; [discriminate|].
  simpl in H. simpl dict_set. destruct (String.eqb tid k) eqn:E.
  - inversion H; subst. simpl map. rewrite !loaded_fold_cons. lra.
  - simpl map. rewrite !loaded_fold_cons. rewrite (IH H). lra.
Qed.

(** C10. [add_assignment] keeps one assignment per tank and the last one
    written: assigning cargo [b] to a tank that holds another cargo [a]
    leaves [b] alone on the tank and takes [a]'s quantity on that tank out of
    [a]'s loaded total.  The phase solver reaches this: with a minimum
    utilisation of 1%, phase 1 loads 96 of cargo A into the only tank and
    keeps the tank, with 4 left, among the candidates; phase 7 then assigns 3
    of cargo B to it, and the returned plan holds B alone and nothing of A. *)
Theorem add_assignment_last_write_wins :
  (forall p tid a b,
      get_assignment p tid = Some a ->
      unique_id (a_cargo a) <> unique_id (a_cargo b) ->
      let p' := add_assignment p tid b in
      get_assignment p' tid = Some b /\
      dict_keys (assignments p') = dict_keys (assignments p) /\
      get_cargo_total_loaded p' (unique_id (a_cargo a))
        == get_cargo_total_loaded p (unique_id (a_cargo a)) - quantity_loaded a /\
      get_cargo_total_loaded p' (unique_id (a_cargo b))
        == get_cargo_total_loaded p (unique_id (a_cargo b)) + quantity_loaded b) /\
  (let ship := Examples.ship_single in
   let A := Examples.regular "A" 96 in
   let B := Examples.regular "B" 3 in
   let settings := Examples.with_min_utilization (1 # 100) in
   let plan0 := StowagePlan_new Examples.env0 (s_name ship) (s_id ship) [A; B] "Yeni Plan" in
   let after_faz1 :=
     AdvancedStowageOptimizer._faz1_single_tank plan0 [A; B] [("t0"%string, 100)] ship
                                                  settings None in
   get_assignment (fst after_faz1) "t0" = Some (mkAssignment "t0" A 96) /\
   (exists left, dict_get "t0" (snd after_faz1) = Some left /\ left == 4) /\
   exists plan,
     AdvancedStowageOptimizer.optimize_advanced Examples.env0 ship [A; B] None None
                                                (Some settings) = Some plan /\
     get_assignment plan "t0" = Some (mkAssignment "t0" B 3) /\
     get_cargo_total_loaded plan "A" == 0).
Proof.
  split.
  - intros p tid a b Ha Hne p'. subst p'.
    unfold get_assignment, add_assignment, get_cargo_total_loaded in *. simpl.
    split; [apply dict_get_set_same|].
    split; [eapply dict_keys_set_present; eauto|].
    change (fun total a0 =>
              if String.eqb (unique_id (a_cargo a0)) (unique_id (a_cargo a))
              then total + quantity_loaded a0 else total)
      with (loaded_step (unique_id (a_cargo a))).
    change (fun total a0 =>
              if String.eqb (unique_id (a_cargo a0)) (unique_id (a_cargo b))
              then total + quantity_loaded a0 else total)
      with (loaded_step (unique_id (a_cargo b))).
    rewrite !(loaded_after_set _ _ _ _ _ Ha). unfold contribution.
    rewrite !String.eqb_refl.
    assert (E1 : String.eqb (unique_id (a_cargo b)) (unique_id (a_cargo a)) = false).
    { apply String.eqb_neq. congruence. }
    assert (E2 : String.eqb (unique_id (a_cargo a)) (unique_id (a_cargo b)) = false).
    { apply String.eqb_neq. congruence. }
    rewrite E1, E2. split; lra.
  - cbv zeta. split; [vm_compute; reflexivity|].
    split; [eexists; split; [vm_compute; reflexivity | reflexivity]|].
    eexists. split; [vm_compute; reflexivity|].
    split; [reflexivity | vm_compute; reflexivity].
Qed.

Lemma add_assignment_last_write_wins_witness :
  let A := Examples.regular "A" 96 in
  let B := Examples.regular "B" 3 in
  let p := add_assignment
             (StowagePlan_new Examples.env0 "single" "s5" [A; B] "Yeni Plan")
             "t0" (mkAssignment "t0" A 96) in
  get_assignment p "t0" = Some (mkAssignment "t0" A 96) /\
  get_assignment (add_assignment p "t0" (mkAssignment "t0" B 3)) "t0"
    = Some (mkAssignment "t0" B 3) /\
  get_cargo_total_loaded (add_assignment p "t0" (mkAssignment "t0" B 3)) "A"
    == get_cargo_total_loaded p "A" - 96.
Proof.
  cbv zeta. split; [reflexivity|].
  destruct (proj1 add_assignment_last_write_wins
              (add_assignment
                 (StowagePlan_new Examples.env0 "single" "s5"
                    [Examples.regular "A" 96; Examples.regular "B" 3] "Yeni Plan")
                 "t0" (mkAssignment "t0" (Examples.regular "A" 96) 96))
              "t0"%string
              (mkAssignment "t0" (Examples.regular "A" 96) 96)
              (mkAssignment "t0" (Examples.regular "B" 3) 3)
              eq_refl
              ltac:(simpl; discriminate)) as [H1 [_ [H3 _]]].
  split; [exact H1 | exact H3].
Defined.

(** ** The phase solver on concrete ships *)

(** The plan as a table of (tank, cargo, quantity in lowest terms). *)
Definition plan_table (p : StowagePlan) : list (string * string * Q) :=
  map (fun '(tid, a) => (tid, unique_id (a_cargo a), Qred (quantity_loaded a)))
      (assignments p).

(** C3 (the code departs from the claim). On a ship with tanks of 1000, 520,
    520 and 520 a regular cargo of 1040 is loaded three times: phase 1 puts
    1000 of it into the first tank, the cargo stays pending because 40 are
    missing, and phase 2 starts again from the full 1040 and adds 520 + 520.
    The plan carries 2040 of a cargo of 1040. *)
Theorem phase_solver_reloads_partly_placed_cargo :
  let ship := Examples.ship_overload in
  let A := Examples.regular "A" 1040 in
  exists plan,
    AdvancedStowageOptimizer.optimize_advanced Examples.env0 ship [A] None None None
      = Some plan /\
    is_mandatory A = false /\
    plan_table plan = [("t0", "A", 1000); ("t2", "A", 520); ("t3", "A", 520)]%string /\
    get_cargo_total_loaded plan (unique_id A) == 2040 /\
    cq A < get_cargo_total_loaded plan (unique_id A).
Proof.
  cbv zeta. eexists. split; [vm_compute; reflexivity|].
  split; [reflexivity|].
  split; [vm_compute; reflexivity|].
  split; vm_compute; reflexivity.
Qed.

(** The rows of a list of tanks. *)
Definition rows_of (ship : Ship) (tank_ids : list string) : list nat :=
  flat_map (fun tid => match get_tank_position_info ship tid with
                       | Some p => [row_number p]
                       | None => []
                       end) tank_ids.

(** C4 (the code departs from the claim). On a ship of four rows the last
    three rows are rows 2, 3 and 4.  Phase 4 places a cargo of 2000 into the
    two tanks of row 2 and the two tanks of row 4: all four lie within the
    last three rows, yet [_is_bow_or_stern_only] answers [false], because it
    counts row 2 as a bow row only.  The mandatory path, whose acceptance
    check uses the same predicate, accepts the same four tanks. *)
Theorem four_tank_cargo_placed_in_last_three_rows :
  let ship := Examples.ship_four_rows in
  let A := Examples.regular "A" 2000 in
  let M := Examples.mandatory "M" 2000 in
  let four := ["t2"; "t3"; "t6"; "t7"]%string in
  total_rows_of ship = 4%nat /\
  rows_of ship four = [2; 2; 4; 4]%nat /\
  Forall (fun r => (total_rows_of ship - 2 <= r <= total_rows_of ship)%nat)
         (rows_of ship four) /\
  AdvancedStowageOptimizer._is_bow_or_stern_only four ship = false /\
  (exists plan,
      AdvancedStowageOptimizer.optimize_advanced Examples.env0 ship [A] None None None
        = Some plan /\
      AdvancedStowageOptimizer.assigned_tank_ids_of plan A = four) /\
  (exists plan,
      AdvancedStowageOptimizer.optimize_advanced Examples.env0 ship [M] None None None
        = Some plan /\
      AdvancedStowageOptimizer.assigned_tank_ids_of plan M = four).
Proof.
  cbv zeta. split; [reflexivity|]. split; [reflexivity|].
  split; [vm_compute; repeat constructor|].
  split; [reflexivity|].
  split; eexists; (split; [vm_compute; reflexivity | reflexivity]).
Qed.

(** ** The retry orchestrator *)

(** C6, as the spec states it, fails. For cargos of 100 and 98 on the ship
    with tanks 100, 70, 50, 50 every strategy loads everything, so the simple
    scores tie and the first strategy's plan is returned; the plan of the
    strategy 'quantity_small_first' fills its tanks better and has the higher
    composite score. *)
Lemma retry_does_not_maximise_composite_score :
  let ship := Examples.ship_two_rows in
  let cargos := [Examples.regular "A" 100; Examples.regular "B" 98] in
  exists returned name sort_func other,
    AdvancedStowageOptimizer.optimize_with_fixed_and_retry
      (fun _ => Examples.env0) ship cargos None None 5 None = Some returned /\
    In (name, sort_func) (firstn 5 AdvancedStowageOptimizer.strategies) /\
    AdvancedStowageOptimizer.optimize_advanced
      Examples.env0 ship (sort_func cargos) None None None = Some other /\
    StowageOptimizer.score_plan returned ship < StowageOptimizer.score_plan other ship.
Proof.
  cbv zeta. eexists. exists "quantity_small_first"%string. eexists. eexists.
  split; [vm_compute; reflexivity|].
  split; [simpl; right; right; right; left; reflexivity|].
  split; [vm_compute; reflexivity|].
  vm_compute. reflexivity.
Qed.

Section Retry.
Variable envs : nat -> Env.
Variable ship : Ship.
Variable cargo_requests : list Cargo.
Variable excluded_tanks : option (list string).
Variable fixed_assignments : option (list (string * TankAssignment)).
Variable settings : option Settings.

(** The plan of the strategy at position [j] of the list being tried. *)
Definition strategy_plan (j : nat) (sort_func : list Cargo -> list Cargo)
    : option StowagePlan :=
  AdvancedStowageOptimizer.optimize_advanced (envs j) ship (sort_func cargo_requests)
                                             excluded_tanks fixed_assignments settings.

Definition simple (p : StowagePlan) : Q :=
  AdvancedStowageOptimizer._calculate_simple_score p ship.

Lemma retry_loop_spec strats :
  forall i best,
    let res := AdvancedStowageOptimizer.retry_loop envs i ship cargo_requests
                 excluded_tanks fixed_assignments settings strats best in
    snd best <= snd res /\
    (res = best \/
     exists j name sort_func plan,
       nth_error strats j = Some (name, sort_func) /\
       strategy_plan (i + j) sort_func = Some plan /\
       snd best < simple plan /\
       res = (Some plan, simple plan) /\
       forall j' name' sort_func' plan',
         (j' < j)%nat ->
         nth_error strats j' = Some (name', sort_func') ->
         strategy_plan (i + j') sort_func' = Some plan' ->
         simple plan' < simple plan) /\
    (forall j name sort_func plan,
        nth_error strats j = Some (name, sort_func) ->
        strategy_plan (i + j) sort_func = Some plan ->
        simple plan <= snd res).
Proof.
  induction strats as [|[name sort_func] rest IH]; intros i best; simpl.
  - split; [apply Qle_refl|]. split; [left; reflexivity|].
    intros j ? ? ? H. destruct j; discriminate.
  - set (best' :=
           match AdvancedStowageOptimizer.optimize_advanced (envs i) ship
                   (sort_func cargo_requests) excluded_tanks fixed_assignments settings with
           | Some plan =>
               if Qgtb (AdvancedStowageOptimizer._calculate_simple_score plan ship) (snd best)
               then (Some plan, AdvancedStowageOptimizer._calculate_simple_score plan ship)
               else best
           | None => best
           end).
    destruct (IH (S i) best') as [Hmono [Hsel Hmax]].
    assert (Hstep : snd best <= snd best' /\
              (best' = best \/
               exists plan, strategy_plan i sort_func = Some plan /\
                            snd best < simple plan /\ best' = (Some plan, simple plan)) /\
              (forall plan, strategy_plan i sort_func = Some plan ->
                            simple plan <= snd best')).
    { unfold best', strategy_plan, simple.
      destruct (AdvancedStowageOptimizer.optimize_advanced (envs i) ship
                  (sort_func cargo_requests) excluded_tanks fixed_assignments settings)
        as [plan|] eqn:Eplan.
      - destruct (Qgtb (AdvancedStowageOptimizer._calculate_simple_score plan ship)
                       (snd best)) eqn:Eg.
        + apply Qgtb_gt in Eg. simpl. split; [apply Qlt_le_weak; exact Eg|].
          split; [right; exists plan; auto|].
          intros p Hp. inversion Hp; subst. apply Qle_refl.
        + apply Qltb_false in Eg. split; [apply Qle_refl|].
          split; [left; reflexivity|].
          intros p Hp. inversion Hp; subst. exact Eg.
      - split; [apply Qle_refl|]. split; [left; reflexivity|]. intros; discriminate. }
    destruct Hstep as [Hb [Hsel' Hmax']].
    split; [eapply Qle_trans; eauto|].
    split.
    + destruct Hsel as [Hres | [j [n [sf [plan [Hn [Hp [Hlt [Hres Hfirst]]]]]]]]].
      * rewrite Hres. destruct Hsel' as [Hb' | [plan [Hp [Hlt Hb']]]].
        -- left. exact Hb'.
        -- right. exists 0%nat, name, sort_func, plan. rewrite Nat.add_0_r.
           repeat split; auto. intros j' ? ? ? Hj'. inversion Hj'.
      * right. exists (S j), n, sf, plan. rewrite Nat.add_succ_r.
        split; [exact Hn|]. split; [exact Hp|].
        split; [eapply Qle_lt_trans; eauto|]. split; [exact Hres|].
        intros j' n' sf' plan' Hj' Hn' Hp'. destruct j' as [|j']; simpl in Hn'.
        -- inversion Hn'; subst. rewrite Nat.add_0_r in Hp'.
           eapply Qle_lt_trans; [apply Hmax'; exact Hp' | exact Hlt].
        -- rewrite Nat.add_succ_r in Hp'.
           apply (Hfirst j' n' sf' plan'); [apply PeanoNat.lt_S_n; exact Hj' | exact Hn' | exact Hp'].
    + intros j n sf plan Hn Hp. destruct j as [|j]; simpl in Hn.
      * inversion Hn; subst. rewrite Nat.add_0_r in Hp.
        eapply Qle_trans; [apply Hmax'; exact Hp | exact Hmono].
      * rewrite Nat.add_succ_r in Hp. eapply Hmax; eauto.
Qed.
End Retry.

(** C6, amended. [optimize_with_fixed_and_retry] scores the plan of every
    strategy it tries with the simple score
    [min(0.6 * completion% + 0.4 * ship_utilization%, 100)] and returns a plan
    whose simple score is above -1 and is the highest among the plans of the
    strategies that did not raise; on a tie it is the plan of the first such
    strategy: every strategy tried before it that returned a plan scores
    strictly less. When no strategy plan scores above -1 it returns the plan
    of one plain call on the cargos as given. *)
Theorem retry_returns_highest_simple_score :
  forall envs ship cargos excluded fixed num_retries settings result,
    AdvancedStowageOptimizer.optimize_with_fixed_and_retry
      envs ship cargos excluded fixed num_retries settings = Some result ->
    let tried := firstn num_retries AdvancedStowageOptimizer.strategies in
    (exists j name sort_func,
        nth_error tried j = Some (name, sort_func) /\
        strategy_plan envs ship cargos excluded fixed settings j sort_func = Some result /\
        - (1) < simple ship result /\
        (forall j' name' sort_func' plan',
            nth_error tried j' = Some (name', sort_func') ->
            strategy_plan envs ship cargos excluded fixed settings j' sort_func' = Some plan' ->
            simple ship plan' <= simple ship result) /\
        (forall j' name' sort_func' plan',
            (j' < j)%nat ->
            nth_error tried j' = Some (name', sort_func') ->
            strategy_plan envs ship cargos excluded fixed settings j' sort_func' = Some plan' ->
            simple ship plan' < simple ship result))
    \/
    ((forall j' name' sort_func' plan',
         nth_error tried j' = Some (name', sort_func') ->
         strategy_plan envs ship cargos excluded fixed settings j' sort_func' = Some plan' ->
         simple ship plan' <= - (1)) /\
     AdvancedStowageOptimizer.optimize_advanced
       (envs (length tried)) ship cargos excluded fixed settings = Some result).
Proof.
  intros envs ship cargos excluded fixed num_retries settings result H tried.
  unfold AdvancedStowageOptimizer.optimize_with_fixed_and_retry in H.
  fold tried in H.
  destruct (retry_loop_spec envs ship cargos excluded fixed settings tried 0%nat
              (None, - (1))) as [Hmono [Hsel Hmax]].
  simpl in Hmono, Hsel, Hmax.
  destruct Hsel as [Hres | [j [n [sf [plan [Hn [Hp [Hlt [Hres Hfirst]]]]]]]]].
  - rewrite Hres in H, Hmax. simpl in H, Hmax. right. split; auto.
  - rewrite Hres in H, Hmax. simpl in H, Hmax. inversion H; subst. left.
    exists j, n, sf. repeat split; auto.
Qed.

Lemma retry_returns_highest_simple_score_witness :
  exists result,
    AdvancedStowageOptimizer.optimize_with_fixed_and_retry
      (fun _ => Examples.env0) Examples.ship_two_rows
      [Examples.regular "A" 100; Examples.regular "B" 98] None None 5 None = Some result /\
    (forall j' name' sort_func' plan',
        nth_error (firstn 5 AdvancedStowageOptimizer.strategies) j'
          = Some (name', sort_func') ->
        strategy_plan (fun _ => Examples.env0) Examples.ship_two_rows
          [Examples.regular "A" 100; Examples.regular "B" 98] None None None j' sort_func'
          = Some plan' ->
        simple Examples.ship_two_rows plan' <= simple Examples.ship_two_rows result).
Proof.
  eexists. split; [vm_compute; reflexivity|].
  match goal with
  | |- forall j' name' sort_func' plan', _ -> _ -> _ <= simple _ ?r =>
      destruct (retry_returns_highest_simple_score
                  (fun _ => Examples.env0) Examples.ship_two_rows
                  [Examples.regular "A" 100; Examples.regular "B" 98] None None 5%nat None r
                  ltac:(vm_compute; reflexivity))
        as [[j [n [sf [_ [_ [_ [Hmax _]]]]]]] | [Hlow Hplain]]
  end.
  - exact Hmax.
  - intros j' name' sf' plan' Hn Hp.
    eapply Qle_trans; [eapply Hlow; eauto|]. vm_compute. discriminate.
Defined.

(** ** The GA repair operator *)

(** C5, as the spec states it, fails. Cargo A (100) comes before cargo B (50)
    and the two tanks hold 40 and 60 of B. The first repair finds no room for
    A, then trims B and empties the first tank; the second repair finds that
    tank empty and loads 97 of A into it. *)
Lemma repair_is_not_idempotent :
  let self := Examples.ga_one_row in
  let once := GeneticOptimizer._repair_chromosome self Examples.chromosome_B in
  let twice := GeneticOptimizer._repair_chromosome self once in
  map fst (genes once) = [None; Some "B"%string] /\
  map fst (genes twice) = [Some "A"%string; Some "B"%string] /\
  genes twice <> genes once.
Proof.
  cbv zeta. split; [vm_compute; reflexivity|]. split; [vm_compute; reflexivity|].
  intro H. apply (f_equal (map fst)) in H. vm_compute in H. discriminate H.
Qed.

Section Repair.
Variable self : GeneticOptimizer.t.

(** A gene respects the capacity of its tank. *)
Definition capped (g : Gene) (tank_id : string) : Prop :=
  fst g <> None -> 0 < snd g -> snd g <= GeneticOptimizer.tank_volume_of self tank_id.

(** Every gene that has a tank id respects that tank's capacity. *)
Fixpoint capped_list (gs : list Gene) (tids : list string) : Prop :=
  match gs, tids with
  | g :: gs', tid :: tids' => capped g tid /\ capped_list gs' tids'
  | _, _ => True
  end.

Lemma cap_genes_capped gs : forall tids,
  capped_list (GeneticOptimizer.cap_genes self gs tids) tids.
Proof.
  induction gs as [|[cid q] gs IH]; intros [|tid tids]; simpl; auto.
  split; [|apply IH].
  unfold capped. destruct cid as [c|]; simpl.
  - destruct (Qgtb q 0) eqn:E0; simpl.
    + destruct (Qgtb q (GeneticOptimizer.tank_volume_of self tid)) eqn:E1; simpl.
      * intros _ _. apply Qle_refl.
      * intros _ _. apply Qltb_false in E1. exact E1.
    + intros _ Hpos. apply Qltb_false in E0. lra.
  - intros H. congruence.
Qed.

Lemma cap_genes_length gs : forall tids,
  length (GeneticOptimizer.cap_genes self gs tids) = length gs.
Proof.
  induction gs as [|[cid q] gs IH]; intros [|tid tids]; simpl; auto.
Qed.

Lemma cap_genes_id gs : forall tids,
  capped_list gs tids -> GeneticOptimizer.cap_genes self gs tids = gs.
Proof.
  induction gs as [|[cid q] gs IH]; intros [|tid tids]; simpl; auto.
  intros [Hc Hrest]. rewrite (IH _ Hrest). f_equal.
  destruct cid as [c|]; simpl; auto.
  destruct (Qgtb q 0) eqn:E0; simpl; auto.
  destruct (Qgtb q (GeneticOptimizer.tank_volume_of self tid)) eqn:E1; auto.
  apply Qgtb_gt in E0. apply Qgtb_gt in E1.
  unfold capped in Hc. simpl in Hc.
  assert (q <= GeneticOptimizer.tank_volume_of self tid) by (apply Hc; [discriminate | exact E0]).
  lra.
Qed.

Lemma add_to_same_capped cargo_id gs : forall tids remaining,
  capped_list gs tids ->
  capped_list (fst (GeneticOptimizer.add_to_same self cargo_id gs tids remaining)) tids.
Proof.
  induction gs as [|[cid q] gs IH]; intros [|tid tids] remaining; simpl; auto.
  intros [Hc Hrest].
  destruct (is_cargo cid cargo_id && Qgtb remaining eps) eqn:E.
  - destruct (Qgtb (Qmin remaining (GeneticOptimizer.tank_volume_of self tid - q)) eps) eqn:E1.
    + specialize (IH tids (remaining
                           - Qmin remaining (GeneticOptimizer.tank_volume_of self tid - q))
                     Hrest).
      destruct (GeneticOptimizer.add_to_same self cargo_id gs tids _) as [gs'' r'].
      simpl in *. split; auto. unfold capped. simpl. intros _ _.
      pose proof (Q.le_min_r remaining (GeneticOptimizer.tank_volume_of self tid - q)). lra.
    + specialize (IH tids remaining Hrest).
      destruct (GeneticOptimizer.add_to_same self cargo_id gs tids remaining) as [gs'' r'].
      simpl in *. split; auto.
  - specialize (IH tids remaining Hrest).
    destruct (GeneticOptimizer.add_to_same self cargo_id gs tids remaining) as [gs'' r'].
    simpl in *. split; auto.
Qed.

Lemma add_to_same_length cargo_id gs : forall tids remaining,
  length (fst (GeneticOptimizer.add_to_same self cargo_id gs tids remaining)) = length gs.
Proof.
  induction gs as [|[cid q] gs IH]; intros [|tid tids] remaining; simpl; auto.
  destruct (is_cargo cid cargo_id && Qgtb remaining eps);
    [destruct (Qgtb (Qmin remaining (GeneticOptimizer.tank_volume_of self tid - q)) eps)|];
    match goal with
    | |- context [GeneticOptimizer.add_to_same self cargo_id gs tids ?r] =>
        specialize (IH tids r);
        destruct (GeneticOptimizer.add_to_same self cargo_id gs tids r); simpl in *; auto
    end.
Qed.

Lemma add_to_empty_capped cargo_id gs : forall tids remaining,
  capped_list gs tids ->
  capped_list (fst (GeneticOptimizer.add_to_empty self cargo_id gs tids remaining)) tids.
Proof.
  induction gs as [|[cid q] gs IH]; intros [|tid tids] remaining; simpl; auto.
  intros [Hc Hrest].
  destruct (is_none cid && Qgtb remaining eps) eqn:E.
  - destruct (Qgtb (Qmin remaining (GeneticOptimizer.tank_volume_of self tid)) eps) eqn:E1.
    + specialize (IH tids (remaining
                           - Qmin remaining (GeneticOptimizer.tank_volume_of self tid))
                     Hrest).
      destruct (GeneticOptimizer.add_to_empty self cargo_id gs tids _) as [gs'' r'].
      simpl in *. split; auto. unfold capped. simpl. intros _ _.
      apply Q.le_min_r.
    + specialize (IH tids remaining Hrest).
      destruct (GeneticOptimizer.add_to_empty self cargo_id gs tids remaining) as [gs'' r'].
      simpl in *. split; auto.
  - specialize (IH tids remaining Hrest).
    destruct (GeneticOptimizer.add_to_empty self cargo_id gs tids remaining) as [gs'' r'].
    simpl in *. split; auto.
Qed.

Lemma add_to_empty_length cargo_id gs : forall tids remaining,
  length (fst (GeneticOptimizer.add_to_empty self cargo_id gs tids remaining)) = length gs.
Proof.
  induction gs as [|[cid q] gs IH]; intros [|tid tids] remaining; simpl; auto.
  destruct (is_none cid && Qgtb remaining eps);
    [destruct (Qgtb (Qmin remaining (GeneticOptimizer.tank_volume_of self tid)) eps)|];
    match goal with
    | |- context [GeneticOptimizer.add_to_empty self cargo_id gs tids ?r] =>
        specialize (IH tids r);
        destruct (GeneticOptimizer.add_to_empty self cargo_id gs tids r); simpl in *; auto
    end.
Qed.

Lemma remove_from_capped cargo_id gs : forall tids remaining,
  capped_list gs tids ->
  capped_list (GeneticOptimizer.remove_from cargo_id gs remaining) tids.
Proof.
  induction gs as [|[cid q] gs IH]; intros [|tid tids] remaining; simpl; auto.
  - destruct (is_cargo cid cargo_id && Qgtb remaining eps); simpl; auto.
  - intros [Hc Hrest].
    destruct (is_cargo cid cargo_id && Qgtb remaining eps) eqn:E; simpl.
    + split; [|apply IH; auto].
      apply andb_true_iff in E. destruct E as [Ec Er]. apply Qgtb_gt in Er.
      destruct cid as [c|]; [|discriminate].
      destruct (Qltb (q - Qmin remaining q) eps) eqn:E1.
      * unfold capped, empty_gene. simpl. intros H. congruence.
      * unfold capped in *. simpl in *. intros _ Hpos.
        pose proof eps_pos.
        destruct (Q.min_spec remaining q) as [[Hlt Hm] | [Hle Hm]]; rewrite Hm in *.
        -- assert (q <= GeneticOptimizer.tank_volume_of self tid)
             by (apply Hc; [discriminate | lra]). lra.
        -- lra.
    + split; auto.
Qed.

Lemma remove_from_length cargo_id gs : forall remaining,
  length (GeneticOptimizer.remove_from cargo_id gs remaining) = length gs.
Proof.
  induction gs as [|[cid q] gs IH]; intros remaining; simpl; auto.
  destruct (is_cargo cid cargo_id && Qgtb remaining eps); simpl; rewrite IH; auto.
Qed.

(** The invariant of a repaired chromosome. *)
Definition chromosome_capped (c : Chromosome) : Prop :=
  capped_list (genes c) (tank_ids c).

Lemma repair_cargo_capped c cargo :
  chromosome_capped c -> chromosome_capped (GeneticOptimizer.repair_cargo self c cargo).
Proof.
  unfold chromosome_capped, GeneticOptimizer.repair_cargo. intro H.
  destruct (Qltb _ _).
  - unfold GeneticOptimizer._add_cargo_to_chromosome.
    pose proof (add_to_same_capped (unique_id cargo) (genes c) (tank_ids c)
                  (cq cargo * (1 - GeneticOptimizer.receiver_tolerance self)
                   - GeneticOptimizer.cargo_total (genes c) (unique_id cargo)) H) as H1.
    destruct (GeneticOptimizer.add_to_same self (unique_id cargo) (genes c) (tank_ids c) _)
      as [gs r1]. simpl in H1.
    pose proof (add_to_empty_capped (unique_id cargo) gs (tank_ids c) r1 H1) as H2.
    destruct (GeneticOptimizer.add_to_empty self (unique_id cargo) gs (tank_ids c) r1)
      as [gs' r2]. simpl in *. exact H2.
  - destruct (Qgtb _ _); auto.
    simpl. apply remove_from_capped. exact H.
Qed.

Lemma repair_cargo_shape c cargo :
  tank_ids (GeneticOptimizer.repair_cargo self c cargo) = tank_ids c /\
  length (genes (GeneticOptimizer.repair_cargo self c cargo)) = length (genes c).
Proof.
  unfold GeneticOptimizer.repair_cargo.
  destruct (Qltb _ _).
  - unfold GeneticOptimizer._add_cargo_to_chromosome.
    pose proof (add_to_same_length (unique_id cargo) (genes c) (tank_ids c)
                  (cq cargo * (1 - GeneticOptimizer.receiver_tolerance self)
                   - GeneticOptimizer.cargo_total (genes c) (unique_id cargo))) as H1.
    destruct (GeneticOptimizer.add_to_same self (unique_id cargo) (genes c) (tank_ids c) _)
      as [gs r1]. simpl in H1.
    pose proof (add_to_empty_length (unique_id cargo) gs (tank_ids c) r1) as H2.
    destruct (GeneticOptimizer.add_to_empty self (unique_id cargo) gs (tank_ids c) r1)
      as [gs' r2]. simpl in *. split; congruence.
  - destruct (Qgtb _ _); simpl; auto. split; auto. apply remove_from_length.
Qed.

Lemma repair_fold_capped cargos : forall c,
  chromosome_capped c ->
  chromosome_capped (fold_left (GeneticOptimizer.repair_cargo self) cargos c).
Proof.
  induction cargos as [|cargo cargos IH]; intros c H; simpl; auto.
  apply IH. apply repair_cargo_capped. exact H.
Qed.

Lemma repair_fold_shape cargos : forall c,
  tank_ids (fold_left (GeneticOptimizer.repair_cargo self) cargos c) = tank_ids c /\
  length (genes (fold_left (GeneticOptimizer.repair_cargo self) cargos c)) = length (genes c).
Proof.
  induction cargos as [|cargo cargos IH]; intros c; simpl; auto.
  destruct (IH (GeneticOptimizer.repair_cargo self c cargo)) as [H1 H2].
  destruct (repair_cargo_shape c cargo) as [H3 H4]. split; congruence.
Qed.

(** Whatever the chromosome, its repair respects every tank's capacity. *)
Lemma repair_capped c :
  chromosome_capped (GeneticOptimizer._repair_chromosome self c).
Proof.
  unfold GeneticOptimizer._repair_chromosome. apply repair_fold_capped.
  unfold chromosome_capped. simpl. apply cap_genes_capped.
Qed.

Lemma repair_shape c :
  tank_ids (GeneticOptimizer._repair_chromosome self c) = tank_ids c /\
  length (genes (GeneticOptimizer._repair_chromosome self c)) = length (genes c).
Proof.
  unfold GeneticOptimizer._repair_chromosome.
  destruct (repair_fold_shape (GeneticOptimizer.regular_cargos self)
              (mkChromosome (GeneticOptimizer.cap_genes self (genes c) (tank_ids c))
                            (tank_ids c))) as [H1 H2].
  simpl in *. rewrite cap_genes_length in H2. split; auto.
Qed.

(** Every regular cargo's loaded total lies in its tolerance band. *)
Definition within_band (c : Chromosome) : Prop :=
  forall cargo, In cargo (GeneticOptimizer.regular_cargos self) ->
    cq cargo * (1 - GeneticOptimizer.receiver_tolerance self)
      <= GeneticOptimizer.cargo_total (genes c) (unique_id cargo) /\
    GeneticOptimizer.cargo_total (genes c) (unique_id cargo)
      <= cq cargo * (1 + GeneticOptimizer.receiver_tolerance self).

Lemma repair_cargo_in_band c cargo :
  cq cargo * (1 - GeneticOptimizer.receiver_tolerance self)
    <= GeneticOptimizer.cargo_total (genes c) (unique_id cargo) ->
  GeneticOptimizer.cargo_total (genes c) (unique_id cargo)
    <= cq cargo * (1 + GeneticOptimizer.receiver_tolerance self) ->
  GeneticOptimizer.repair_cargo self c cargo = c.
Proof.
  intros Hlo Hhi. unfold GeneticOptimizer.repair_cargo.
  apply Qltb_false in Hlo. rewrite Hlo.
  apply Qltb_false in Hhi. unfold Qgtb. rewrite Hhi. reflexivity.
Qed.

Lemma repair_fold_in_band cargos c :
  (forall cargo, In cargo cargos ->
     cq cargo * (1 - GeneticOptimizer.receiver_tolerance self)
       <= GeneticOptimizer.cargo_total (genes c) (unique_id cargo) /\
     GeneticOptimizer.cargo_total (genes c) (unique_id cargo)
       <= cq cargo * (1 + GeneticOptimizer.receiver_tolerance self)) ->
  fold_left (GeneticOptimizer.repair_cargo self) cargos c = c.
Proof.
  induction cargos as [|cargo cargos IH]; intro H; simpl; auto.
  destruct (H cargo (or_introl eq_refl)) as [Hlo Hhi].
  rewrite (repair_cargo_in_band c cargo Hlo Hhi).
  apply IH. intros c' Hc'. apply H. right. exact Hc'.
Qed.
End Repair.

(** C5, amended. Repair leaves a repaired chromosome unchanged whenever the
    first application has brought every regular cargo's loaded total into its
    tolerance band [requested*(1 - tol), requested*(1 + tol)]: then applying
    repair twice equals applying it once. *)
Theorem repair_idempotent_when_in_band :
  forall self c,
    within_band self (GeneticOptimizer._repair_chromosome self c) ->
    GeneticOptimizer._repair_chromosome self (GeneticOptimizer._repair_chromosome self c)
    = GeneticOptimizer._repair_chromosome self c.
Proof.
  intros self c Hband.
  set (c1 := GeneticOptimizer._repair_chromosome self c) in *.
  unfold GeneticOptimizer._repair_chromosome at 1.
  assert (Hcap : chromosome_capped self c1) by apply repair_capped.
  rewrite (cap_genes_id self _ _ Hcap).
  replace (mkChromosome (genes c1) (tank_ids c1)) with c1 by (destruct c1; reflexivity).
  apply repair_fold_in_band. exact Hband.
Qed.

(** A chromosome that holds the full 100 of A and 50 of B is in band after
    one repair, and a second repair changes nothing. *)
Lemma repair_idempotent_when_in_band_witness :
  let c := mkChromosome [(Some "A"%string, 100); (Some "B"%string, 50)]
                        ["t0"%string; "t1"%string] in
  within_band Examples.ga_one_row
    (GeneticOptimizer._repair_chromosome Examples.ga_one_row c) /\
  GeneticOptimizer._repair_chromosome Examples.ga_one_row
    (GeneticOptimizer._repair_chromosome Examples.ga_one_row c)
  = GeneticOptimizer._repair_chromosome Examples.ga_one_row c.
Proof.
  cbv zeta.
  assert (H : within_band Examples.ga_one_row
                (GeneticOptimizer._repair_chromosome Examples.ga_one_row
                   (mkChromosome [(Some "A"%string, 100); (Some "B"%string, 50)]
                                 ["t0"%string; "t1"%string]))).
  { intros cargo Hin. simpl in Hin.
    destruct Hin as [<- | [<- | []]]; vm_compute; split; discriminate. }
  split; [exact H|].
  apply (repair_idempotent_when_in_band Examples.ga_one_row _ H).
Defined.

(** ** Invariants of the phase solver *)

Lemma fold_left_invariant {A S : Type} (P : S -> Prop) (f : S -> A -> S) (l : list A) :
  (forall s x, In x l -> P s -> P (f s x)) ->
  forall s, P s -> P (fold_left f l s).
Proof.
  induction l as [|x l IH]; intros Hf s Hs; simpl; auto.
  apply IH.
  - intros s' y Hy. apply Hf. right. exact Hy.
  - apply Hf; [left; reflexivity | exact Hs].
Qed.

Lemma fold_tails_invariant {A S : Type} (P : S -> Prop) (f : S -> A -> list A -> S)
    (Q' : A -> Prop) (l : list A) :
  Forall Q' l ->
  (forall s x r, Q' x -> Forall Q' r -> P s -> P (f s x r)) ->
  forall s, P s -> P (fold_tails f l s).
Proof.
  induction l as [|x l IH]; intros Hl Hf s Hs; simpl; auto.
  inversion Hl; subst. apply IH; auto.
Qed.

Lemma get_tank_by_id_In ship tid t :
  get_tank_by_id ship tid = Some t -> In t (tanks ship) /\ t_id t = tid.
Proof.
  unfold get_tank_by_id. intro H. apply find_some in H. destruct H as [H1 H2].
  apply eqb_eq_str in H2. auto.
Qed.

Lemma pairs_of_In_bounded n : forall l, (length l <= n)%nat ->
  forall p s, In (p, s) (pairs_of l) -> In p l /\ In s l.
Proof.
  induction n as [|n IH]; intros l Hlen p s H.
  - destruct l; [contradiction | simpl in Hlen; lia].
  - destruct l as [|x [|y r]]; simpl in H; try contradiction.
    destruct H as [H | H].
    + inversion H; subst. simpl. auto.
    + assert (Hr : (length r <= n)%nat) by (simpl in Hlen; lia).
      destruct (IH r Hr p s H). simpl. auto.
Qed.

Lemma pairs_of_In l p s : In (p, s) (pairs_of l) -> In p l /\ In s l.
Proof. apply (pairs_of_In_bounded (length l)). lia. Qed.

Lemma check_min_utilization_pos q v m :
  AdvancedStowageOptimizer._check_min_utilization q v m = true ->
  0 < m -> 0 < v /\ 0 < q.
Proof.
  unfold AdvancedStowageOptimizer._check_min_utilization.
  destruct (Qleb v 0) eqn:E; [discriminate|].
  intros H Hm. apply Qleb_false in E. apply Qgeb_ge in H.
  split; auto. apply (Qdiv_pos_num q v m); auto.
Qed.

Lemma distribute_two_le r a1 v1 a2 v2 q1 q2 :
  AdvancedStowageOptimizer.distribute_two r a1 v1 a2 v2 = (q1, q2) ->
  q1 <= v1 /\ q2 <= v2.
Proof.
  unfold AdvancedStowageOptimizer.distribute_two.
  destruct (if Qltb _ _ then _ else _) as [x y]. intro H. inversion H; subst.
  split; apply Qmin3_le_3.
Qed.

Lemma distribute_three_le r a1 v1 a2 v2 a3 v3 q1 q2 q3 :
  AdvancedStowageOptimizer.distribute_three r a1 v1 a2 v2 a3 v3 = (q1, q2, q3) ->
  q1 <= v1 /\ q2 <= v2 /\ q3 <= v3.
Proof.
  unfold AdvancedStowageOptimizer.distribute_three.
  destruct (if Qltb _ _ then _ else _) as [[x y] z]. intro H. inversion H; subst.
  repeat split; apply Qmin3_le_3.
Qed.

Lemma distribute_three_of_five_le r a1 v1 a2 v2 a3 v3 q1 q2 q3 :
  AdvancedStowageOptimizer.distribute_three_of_five r a1 v1 a2 v2 a3 v3 = (q1, q2, q3) ->
  q1 <= v1 /\ q2 <= v2 /\ q3 <= v3.
Proof.
  unfold AdvancedStowageOptimizer.distribute_three_of_five.
  destruct (if Qltb _ _ then _ else _) as [[x y] z]. intro H. inversion H; subst.
  repeat split; apply Qmin3_le_3.
Qed.

Ltac break_if :=
  match goal with
  | |- context [if ?b then _ else _] => destruct b eqn:?
  end.

Section PhaseInvariant.
Import AdvancedStowageOptimizer.

Variable ship : Ship.
Variable settings : Settings.
(** The tank ids the solver may use. *)
Variable K : string -> Prop.

Let minu : Q := or_default (65 # 100) (min_utilization settings).

(** A tank id the solver may use and, when the minimum utilisation is
    positive, a positive quantity within the volume of a tank of that id. *)
Definition good_qty (tid : string) (q : Q) : Prop :=
  K tid /\
  (0 < minu -> exists t, In t (tanks ship) /\ t_id t = tid /\ 0 < q /\ q <= volume t).

Definition plan_good (p : StowagePlan) : Prop :=
  Forall (fun ta : string * TankAssignment => good_qty (fst ta) (quantity_loaded (snd ta)))
         (assignments p).

Definition avail_good (d : list (string * Q)) : Prop :=
  forall tid, In tid (dict_keys d) -> K tid.

Definition st_good (st : St) : Prop := plan_good (fst st) /\ avail_good (snd st).

Definition cand_good (c : Cand) : Prop :=
  Forall (fun tq : string * Q => good_qty (fst tq) (snd tq)) c.

Definition best_good (b : option Cand) : Prop :=
  match b with Some c => cand_good c | None => True end.

Lemma good_from_check tid q t :
  K tid -> In t (tanks ship) -> t_id t = tid -> q <= volume t ->
  _check_min_utilization q (volume t) minu = true ->
  good_qty tid q.
Proof.
  intros HK Hin Hid Hle Hchk. split; auto. intro Hm.
  destruct (check_min_utilization_pos _ _ _ Hchk Hm) as [_ Hq].
  exists t. auto.
Qed.

Lemma add_assignment_good p tid a :
  plan_good p -> good_qty tid (quantity_loaded a) -> plan_good (add_assignment p tid a).
Proof.
  unfold plan_good, add_assignment. simpl. intros Hp Hg.
  apply dict_set_Forall; auto.
Qed.

Lemma dict_set_avail_good k v d :
  avail_good d -> K k -> avail_good (dict_set k v d).
Proof.
  intros Hd Hk tid Hin. apply dict_keys_set_incl in Hin. destruct Hin; subst; auto.
Qed.

Lemma dict_sub_avail_good k q d : avail_good d -> avail_good (dict_sub k q d).
Proof.
  intros Hd tid Hin. apply dict_sub_keys in Hin. auto.
Qed.

Lemma place_good cargo st tq :
  st_good st -> good_qty (fst tq) (snd tq) -> st_good (place cargo st tq).
Proof.
  destruct st as [plan avail]. destruct tq as [tid q]. intros [Hp Ha] Hg.
  simpl. split; simpl.
  - apply add_assignment_good; auto.
  - apply dict_sub_avail_good; auto.
Qed.

Lemma place_all_good cargo c : forall st,
  st_good st -> cand_good c -> st_good (place_all cargo c st).
Proof.
  unfold place_all. induction c as [|tq c IH]; intros st Hst Hc; simpl; auto.
  inversion Hc; subst. apply IH; auto. apply place_good; auto.
Qed.

Lemma avail_mem_K d tid : avail_good d -> dict_mem tid d = true -> K tid.
Proof. intros Hd Hm. apply Hd. apply dict_mem_In. exact Hm. Qed.

(** *** Phase 1 *)

Lemma faz1_best_key avail remaining tol : forall acc,
  (forall tid, fst acc = Some tid -> K tid) ->
  avail_good avail ->
  forall tid,
    fst (fold_left
           (fun (acc : option string * Dev) '(tank_id, available_vol) =>
              let '(best_tank_id, best_deviation) := acc in
              if Qltb available_vol (remaining * (1 - tol)) then acc else
              match get_tank_by_id ship tank_id with
              | None => acc
              | Some tank =>
                  let deviation := _calculate_tolerance_deviation remaining (volume tank) in
                  if dev_gt deviation tol then acc else
                  if negb (_check_min_utilization remaining (volume tank) minu) then acc else
                  if dev_lt deviation best_deviation then (Some tank_id, deviation) else acc
              end) avail acc) = Some tid -> K tid.
Proof.
  induction avail as [|[k v] avail IH]; intros acc Hacc Hav tid; simpl.
  - apply Hacc.
  - apply IH.
    + destruct acc as [b d]. intros tid'.
      repeat (break_if; try (apply Hacc)).
      destruct (get_tank_by_id ship k); [|apply Hacc].
      repeat (break_if; try (apply Hacc)).
      simpl. intro H. inversion H; subst. apply Hav. simpl. auto.
    + intros x Hx. apply Hav. simpl. auto.
Qed.

Lemma faz1_cargo_good tol st cargo :
  st_good st -> st_good (faz1_cargo ship minu tol st cargo).
Proof.
  destruct st as [plan avail]. intros [Hp Ha]. unfold faz1_cargo.
  destruct (fst (faz1_best ship avail (cq cargo) tol minu)) as [best|] eqn:Eb;
    [|split; auto].
  assert (HK : K best).
  { unfold faz1_best in Eb. eapply faz1_best_key; eauto. simpl. discriminate. }
  destruct (String.eqb best ""); [split; auto|].
  destruct (get_tank_by_id ship best) as [tank|] eqn:Et; [|split; auto].
  destruct (get_tank_by_id_In _ _ _ Et) as [Hin Hid].
  set (qty0 := Qmin3 (cq cargo) (_get_tank_available_capacity best plan avail ship)
                     (volume tank)).
  set (qty := match get_assignment plan best with
              | Some existing_assignment =>
                  if Qgtb (quantity_loaded existing_assignment + qty0) (volume tank)
                  then Qmax 0 (volume tank - quantity_loaded existing_assignment)
                  else qty0
              | None => qty0
              end).
  destruct (Qgtb qty eps) eqn:Eq; [|split; auto].
  apply Qgtb_gt in Eq. pose proof eps_pos as Heps.
  assert (Hle : qty <= volume tank).
  { assert (H0 : qty0 <= volume tank) by apply Qmin3_le_3.
    unfold qty in *. destruct (get_assignment plan best) as [ex|]; auto.
    destruct (Qgtb (quantity_loaded ex + qty0) (volume tank)) eqn:Eg; auto.
    apply Qgtb_gt in Eg.
    destruct (Q.max_spec 0 (volume tank - quantity_loaded ex)) as [[_ Hm] | [_ Hm]];
      rewrite Hm in *; lra. }
  assert (Hg : good_qty best qty).
  { split; auto. intros _. exists tank. repeat split; auto. lra. }
  split; simpl.
  - apply add_assignment_good; auto.
  - break_if.
    + apply dict_set_avail_good; auto. apply dict_sub_avail_good; auto.
    + apply dict_sub_avail_good; auto.
Qed.

Lemma faz1_good plan cargos avail tol :
  st_good (plan, avail) ->
  st_good (_faz1_single_tank plan cargos avail ship settings tol).
Proof.
  intro H. unfold _faz1_single_tank. apply fold_left_invariant; auto.
  intros s x _ Hs. apply faz1_cargo_good. exact Hs.
Qed.

(** *** Phase 2 *)

Definition acc2_good (acc : Acc2) : Prop := best_good (fst (fst acc)).

Definition acc_good (acc : Acc) : Prop := best_good (fst acc).

(** A tank of the ship under the id the solver uses for it. *)
Definition tank_of (tid : string) (t : Tank) : Prop :=
  In t (tanks ship) /\ t_id t = tid.

Lemma good_checked tid t q :
  K tid -> tank_of tid t -> q <= volume t ->
  negb (_check_min_utilization q (volume t) minu) = false ->
  good_qty tid q.
Proof.
  intros HK [Hin Hid] Hle Hchk. apply negb_false_iff in Hchk.
  eapply good_from_check; eauto.
Qed.

Lemma all_checked_5 c1 c2 c3 c4 c5 :
  negb (c1 && c2 && c3 && c4 && c5) = false ->
  negb c1 = false /\ negb c2 = false /\ negb c3 = false /\ negb c4 = false
  /\ negb c5 = false.
Proof. destruct c1, c2, c3, c4, c5; simpl; intro; try discriminate; auto. Qed.

Lemma all_checked_6 c1 c2 c3 c4 c5 c6 :
  negb (c1 && c2 && c3 && c4 && c5 && c6) = false ->
  negb c1 = false /\ negb c2 = false /\ negb c3 = false /\ negb c4 = false
  /\ negb c5 = false /\ negb c6 = false.
Proof. destruct c1, c2, c3, c4, c5, c6; simpl; intro; try discriminate; auto 7. Qed.

Lemma not_free_false (avail : list (string * Q)) a b :
  negb (dict_mem a avail) || negb (dict_mem b avail) = false ->
  dict_mem a avail = true /\ dict_mem b avail = true.
Proof.
  intro H. apply orb_false_iff in H. destruct H as [H1 H2].
  apply negb_false_iff in H1. apply negb_false_iff in H2. auto.
Qed.

(** Case analysis over the guards of a candidate: every [continue] leaves
    the accumulator as it was. *)
Ltac crunch :=
  repeat first
    [ assumption
    | match goal with
      | |- context [let '(_, _) := ?x in _] => destruct x eqn:?
      end
    | break_if ].

Ltac checked_facts :=
  subst;
  repeat match goal with
    | H : distribute_two _ _ _ _ _ = (_, _) |- _ =>
        apply distribute_two_le in H; destruct H
    | H : distribute_three _ _ _ _ _ _ _ = (_, _, _) |- _ =>
        apply distribute_three_le in H; destruct H as [? [? ?]]
    | H : distribute_three_of_five _ _ _ _ _ _ _ = (_, _, _) |- _ =>
        apply distribute_three_of_five_le in H; destruct H as [? [? ?]]
    | H : negb (_ && _ && _ && _ && _ && _) = false |- _ =>
        apply all_checked_6 in H; destruct H as [? [? [? [? [? ?]]]]]
    | H : negb (_ && _ && _ && _ && _) = false |- _ =>
        apply all_checked_5 in H; destruct H as [? [? [? [? ?]]]]
    | H : _ || _ = false |- _ =>
        apply not_free_false in H; destruct H
    end.

Ltac solve_good :=
  match goal with
  | H : negb (_check_min_utilization ?q (volume ?t) _) = false |- good_qty ?tid ?q =>
      apply (good_checked tid t q);
      [ first [ assumption | eapply avail_mem_K; eassumption ]
      | first [ assumption | apply get_tank_by_id_In; first [assumption | symmetry; assumption] ]
      | first [ assumption | apply Qmin3_le_3 ]
      | exact H ]
  end.

Lemma try_two_good plan avail remaining tol kind tid1 tank1 tid2 tank2 acc :
  K tid1 -> K tid2 -> tank_of tid1 tank1 -> tank_of tid2 tank2 ->
  acc2_good acc ->
  acc2_good (try_two plan avail ship remaining minu tol kind tid1 tank1 tid2 tank2 acc).
Proof.
  intros HK1 HK2 Ht1 Ht2 Hacc. unfold try_two.
  destruct acc as [[b d] ty].
  break_if; auto.
  destruct (distribute_two _ _ _ _ _) as [q1 q2] eqn:Ed.
  destruct (distribute_two_le _ _ _ _ _ _ _ Ed) as [Hq1 Hq2].
  repeat (break_if; auto).
  unfold acc2_good. simpl. repeat (apply Forall_cons; [simpl; solve_good|]); apply Forall_nil.
Qed.

Lemma pair_tanks p s :
  In (p, s) (get_tank_pairs ship) -> tank_of (t_id p) p /\ tank_of (t_id s) s.
Proof.
  intro H. apply pairs_of_In in H. destruct H. split; split; auto.
Qed.

Lemma faz2_2A_good plan avail remaining tol acc :
  avail_good avail -> acc2_good acc ->
  acc2_good (faz2_2A plan avail ship remaining minu tol acc).
Proof.
  intros Hav Hacc. unfold faz2_2A.
  apply fold_left_invariant; auto.
  intros s [p st] Hin Hs. destruct (pair_tanks _ _ Hin) as [Hp Hst].
  break_if; auto.
  match goal with H : _ || _ = false |- _ => destruct (not_free_false _ _ _ H) end.
  apply try_two_good; auto; eapply avail_mem_K; eauto.
Qed.

Lemma pairs_Forall :
  Forall (fun pr : Tank * Tank => tank_of (t_id (fst pr)) (fst pr)
                                  /\ tank_of (t_id (snd pr)) (snd pr))
         (get_tank_pairs ship).
Proof.
  apply Forall_forall. intros [p s] H. simpl. apply pair_tanks. exact H.
Qed.

Lemma faz2_2B_good plan avail remaining tol acc :
  avail_good avail -> acc2_good acc ->
  acc2_good (faz2_2B plan avail ship remaining minu tol acc).
Proof.
  intros Hav Hacc. unfold faz2_2B.
  eapply fold_tails_invariant; [apply pairs_Forall | | exact Hacc].
  intros s [p1 s1] rest _ _ Hs.
  apply fold_left_invariant; auto.
  intros s' [p2 s2] _ Hs'.
  apply fold_left_invariant; auto.
  intros s'' [tid1 tid2] _ Hs''.
  break_if; auto.
  match goal with H : _ || _ = false |- _ => destruct (not_free_false _ _ _ H) end.
  destruct (get_tank_by_id ship tid1) as [t1|] eqn:E1; auto.
  destruct (get_tank_by_id ship tid2) as [t2|] eqn:E2; auto.
  apply try_two_good; auto;
    try (eapply avail_mem_K; eauto); apply get_tank_by_id_In; auto.
Qed.

(** The list [(tid, ship.get_tank_by_id(tid)) for tid in available_tanks]. *)
Lemma tank_list_Forall avail :
  avail_good avail ->
  Forall (fun x : string * option Tank =>
            K (fst x) /\ snd x = get_tank_by_id ship (fst x))
         (map (fun tid => (tid, get_tank_by_id ship tid)) (dict_keys avail)).
Proof.
  intro Hav. apply Forall_forall. intros [tid ot] H.
  apply in_map_iff in H. destruct H as [k [E Hk]]. inversion E; subst. simpl.
  split; auto.
Qed.

Lemma faz2_2C_good plan avail remaining tol acc :
  avail_good avail -> acc2_good acc ->
  acc2_good (faz2_2C plan avail ship remaining minu tol acc).
Proof.
  intros Hav Hacc. unfold faz2_2C.
  eapply fold_tails_invariant; [apply tank_list_Forall; exact Hav | | exact Hacc].
  intros s [tid1 ot1] rest [HK1 E1] Hrest Hs. simpl in *.
  destruct ot1 as [t1|]; auto.
  destruct (get_tank_position_info ship tid1); auto.
  apply fold_left_invariant; auto.
  intros s' [tid2 ot2] Hin2 Hs'.
  rewrite Forall_forall in Hrest. destruct (Hrest _ Hin2) as [HK2 E2]. simpl in *.
  destruct ot2 as [t2|]; auto.
  destruct (get_tank_position_info ship tid2); auto.
  break_if; auto.
  apply try_two_good; auto; apply get_tank_by_id_In; auto.
Qed.

Lemma faz2_best_good plan avail remaining tol atol :
  avail_good avail ->
  acc2_good (faz2_best plan avail ship remaining minu tol atol).
Proof.
  intro Hav. unfold faz2_best.
  assert (HA : acc2_good (faz2_2A plan avail ship remaining minu tol (None, Inf, None))).
  { apply faz2_2A_good; auto. exact I. }
  set (a1 := faz2_2A plan avail ship remaining minu tol (None, Inf, None)) in *.
  assert (HB : acc2_good (match snd a1 with
                          | Some symmetric => a1
                          | _ => faz2_2B plan avail ship remaining minu tol a1
                          end)).
  { destruct (snd a1) as [[| |]|]; auto; apply faz2_2B_good; auto. }
  set (a2 := match snd a1 with
             | Some symmetric => a1
             | _ => faz2_2B plan avail ship remaining minu tol a1
             end) in *.
  destruct (snd a2); auto. apply faz2_2C_good; auto.
Qed.

Lemma faz2_cargo_good tol atol st cargo :
  st_good st -> st_good (faz2_cargo ship minu tol atol st cargo).
Proof.
  destruct st as [plan avail]. intros [Hp Ha]. unfold faz2_cargo.
  pose proof (faz2_best_good plan avail (cq cargo) tol atol Ha) as Hb.
  unfold acc2_good in Hb.
  destruct (fst (fst (faz2_best plan avail ship (cq cargo) minu tol atol))) as [c|].
  - apply place_all_good; [split; auto | exact Hb].
  - split; auto.
Qed.

Lemma faz2_good plan cargos avail tol :
  st_good (plan, avail) ->
  st_good (_faz2_two_tank plan cargos avail ship settings tol).
Proof.
  intro H. unfold _faz2_two_tank. apply fold_left_invariant; auto.
  intros s x _ Hs. apply faz2_cargo_good. exact Hs.
Qed.

(** *** Phases 3 to 7 *)

Lemma faz3_best_good plan avail remaining tol :
  avail_good avail ->
  acc_good (faz3_best plan avail ship remaining minu tol).
Proof.
  intros Hav. unfold faz3_best.
  eapply fold_tails_invariant; [apply tank_list_Forall; exact Hav | | exact I].
  intros s [tid1 ot1] rest1 [HK1 E1] Hrest1 Hs. simpl in *.
  destruct ot1 as [t1|]; auto.
  eapply fold_tails_invariant; [exact Hrest1 | | exact Hs].
  intros s2 [tid2 ot2] rest2 [HK2 E2] Hrest2 Hs2. simpl in *.
  destruct ot2 as [t2|]; auto.
  apply fold_left_invariant; auto.
  intros s3 [tid3 ot3] Hin3 Hs3.
  rewrite Forall_forall in Hrest2. destruct (Hrest2 _ Hin3) as [HK3 E3]. simpl in *.
  destruct ot3 as [t3|]; auto.
  crunch. checked_facts. unfold acc_good. simpl.
  repeat (apply Forall_cons; [simpl; solve_good|]); apply Forall_nil.
Qed.

Lemma faz3_cargo_good tol st cargo :
  st_good st -> st_good (faz3_cargo ship minu tol st cargo).
Proof.
  destruct st as [plan avail]. intros [Hp Ha]. unfold faz3_cargo.
  pose proof (faz3_best_good plan avail (cq cargo) tol Ha) as Hb.
  unfold acc_good in Hb.
  destruct (fst (faz3_best plan avail ship (cq cargo) minu tol)) as [c|].
  - apply place_all_good; [split; auto | exact Hb].
  - split; auto.
Qed.

Lemma faz3_good plan cargos avail tol :
  st_good (plan, avail) ->
  st_good (_faz3_three_tank plan cargos avail ship settings tol).
Proof.
  intro H. unfold _faz3_three_tank. apply fold_left_invariant; auto.
  intros s x _ Hs. apply faz3_cargo_good. exact Hs.
Qed.

Lemma faz4_best_good plan avail remaining tol :
  avail_good avail ->
  acc_good (faz4_best plan avail ship remaining minu tol).
Proof.
  intros Hav. unfold faz4_best.
  eapply fold_tails_invariant; [apply pairs_Forall | | exact I].
  intros s [p1 s1] rest [Hp1 Hs1] Hrest Hs. simpl in *.
  break_if; auto.
  apply fold_left_invariant; auto.
  intros s' [p2 s2] Hin2 Hs'.
  rewrite Forall_forall in Hrest. destruct (Hrest _ Hin2) as [Hp2 Hs2]. simpl in *.
  crunch. checked_facts. unfold acc_good. simpl.
  repeat (apply Forall_cons; [simpl; solve_good|]); apply Forall_nil.
Qed.

Lemma faz4_cargo_good tol st cargo :
  st_good st -> st_good (faz4_cargo ship minu tol st cargo).
Proof.
  destruct st as [plan avail]. intros [Hp Ha]. unfold faz4_cargo.
  pose proof (faz4_best_good plan avail (cq cargo) tol Ha) as Hb.
  unfold acc_good in Hb.
  destruct (fst (faz4_best plan avail ship (cq cargo) minu tol)) as [c|].
  - apply place_all_good; [split; auto | exact Hb].
  - split; auto.
Qed.

Lemma faz4_good plan cargos avail tol :
  st_good (plan, avail) ->
  st_good (_faz4_four_tank plan cargos avail ship settings tol).
Proof.
  intro H. unfold _faz4_four_tank. apply fold_left_invariant; auto.
  intros s x _ Hs. apply faz4_cargo_good. exact Hs.
Qed.

Lemma faz5_best_good plan avail remaining tol :
  avail_good avail ->
  acc_good (faz5_best plan avail ship remaining minu tol).
Proof.
  intros Hav. unfold faz5_best.
  eapply fold_tails_invariant; [apply tank_list_Forall; exact Hav | | exact I].
  intros s [tid1 ot1] rest1 [HK1 E1] Hrest1 Hs. simpl in *.
  destruct ot1 as [t1|]; auto.
  eapply fold_tails_invariant; [exact Hrest1 | | exact Hs].
  intros s2 [tid2 ot2] rest2 [HK2 E2] Hrest2 Hs2. simpl in *.
  destruct ot2 as [t2|]; auto.
  apply fold_left_invariant; auto.
  intros s3 [tid3 ot3] Hin3 Hs3.
  rewrite Forall_forall in Hrest2. destruct (Hrest2 _ Hin3) as [HK3 E3]. simpl in *.
  destruct ot3 as [t3|]; auto.
  apply fold_left_invariant; auto.
  intros s4 [p st] Hin4 Hs4. destruct (pair_tanks _ _ Hin4) as [Hp Hst].
  crunch. checked_facts. unfold acc_good. simpl.
  repeat (apply Forall_cons; [simpl; solve_good|]); apply Forall_nil.
Qed.

Lemma faz5_cargo_good tol st cargo :
  st_good st -> st_good (faz5_cargo ship minu tol st cargo).
Proof.
  destruct st as [plan avail]. intros [Hp Ha]. unfold faz5_cargo.
  pose proof (faz5_best_good plan avail (cq cargo) tol Ha) as Hb.
  unfold acc_good in Hb.
  destruct (fst (faz5_best plan avail ship (cq cargo) minu tol)) as [c|].
  - apply place_all_good; [split; auto | exact Hb].
  - split; auto.
Qed.

Lemma faz5_good plan cargos avail tol :
  st_good (plan, avail) ->
  st_good (_faz5_five_tank plan cargos avail ship settings tol).
Proof.
  intro H. unfold _faz5_five_tank. apply fold_left_invariant; auto.
  intros s x _ Hs. apply faz5_cargo_good. exact Hs.
Qed.

Lemma pair_free_K avail p s :
  avail_good avail -> negb (pair_free avail (p, s)) = false ->
  K (t_id p) /\ K (t_id s).
Proof.
  intros Hav H. apply negb_false_iff in H. unfold pair_free in H. simpl in H.
  apply andb_true_iff in H. destruct H. split; eapply avail_mem_K; eauto.
Qed.

Lemma faz6_best_good plan avail remaining tol :
  avail_good avail ->
  acc_good (faz6_best plan avail ship remaining minu tol).
Proof.
  intros Hav. unfold faz6_best.
  eapply fold_tails_invariant; [apply pairs_Forall | | exact I].
  intros s [p1 s1] rest1 [Hp1 Hs1] Hrest1 Hs. simpl in *.
  break_if; auto.
  match goal with H : negb (pair_free _ _) = false |- _ =>
    destruct (pair_free_K _ _ _ Hav H) as [K1 K2] end.
  eapply fold_tails_invariant; [exact Hrest1 | | exact Hs].
  intros s2 [p2 st2] rest2 [Hp2 Hs2] Hrest2 Hacc2. simpl in *.
  break_if; auto.
  match goal with H : negb (pair_free _ (p2, st2)) = false |- _ =>
    destruct (pair_free_K _ _ _ Hav H) as [K3 K4] end.
  apply fold_left_invariant; auto.
  intros s3 [p3 st3] Hin3 Hacc3.
  rewrite Forall_forall in Hrest2. destruct (Hrest2 _ Hin3) as [Hp3 Hs3]. simpl in *.
  break_if; auto.
  match goal with H : negb (pair_free _ (p3, st3)) = false |- _ =>
    destruct (pair_free_K _ _ _ Hav H) as [K5 K6] end.
  crunch. checked_facts. unfold acc_good. simpl.
  repeat (apply Forall_cons; [simpl; solve_good|]); apply Forall_nil.
Qed.

Lemma faz6_cargo_good tol st cargo :
  st_good st -> st_good (faz6_cargo ship minu tol st cargo).
Proof.
  destruct st as [plan avail]. intros [Hp Ha]. unfold faz6_cargo.
  pose proof (faz6_best_good plan avail (cq cargo) tol Ha) as Hb.
  unfold acc_good in Hb.
  destruct (fst (faz6_best plan avail ship (cq cargo) minu tol)) as [c|].
  - apply place_all_good; [split; auto | exact Hb].
  - split; auto.
Qed.

Lemma faz6_good plan cargos avail tol :
  st_good (plan, avail) ->
  st_good (_faz6_six_tank plan cargos avail ship settings tol).
Proof.
  intro H. unfold _faz6_six_tank. apply fold_left_invariant; auto.
  intros s x _ Hs. apply faz6_cargo_good. exact Hs.
Qed.

Lemma insert_sorted_In {A : Type} (before : A -> A -> bool) x (l : list A) y :
  In y (insert_sorted before x l) -> y = x \/ In y l.
Proof.
  induction l as [|z l IH]; simpl.
  - intros [H|[]]; auto.
  - destruct (before x z); simpl; intros [H|H]; auto.
    destruct (IH H); auto.
Qed.

Lemma sorted_by_acc_In {A : Type} (before : A -> A -> bool) (l : list A) :
  forall acc y,
    In y (fold_left (fun acc x => insert_sorted before x acc) l acc) ->
    In y l \/ In y acc.
Proof.
  induction l as [|x l IH]; intros acc y; simpl; auto.
  intro H. destruct (IH _ _ H) as [H1|H1]; auto.
  destruct (insert_sorted_In _ _ _ _ H1); subst; auto.
Qed.

Lemma sorted_by_In {A : Type} (before : A -> A -> bool) (l : list A) y :
  In y (sorted_by before l) -> In y l.
Proof.
  unfold sorted_by. intro H. destruct (sorted_by_acc_In _ _ _ _ H) as [H1|[]]; auto.
Qed.

Lemma faz7_cargo_good st cargo :
  st_good st -> st_good (faz7_cargo ship minu st cargo).
Proof.
  destruct st as [plan avail]. intros [Hp Ha]. unfold faz7_cargo.
  match goal with
  | |- context [fold_left ?f ?l ?a] =>
      assert (H : st_good (fst (fold_left f l a)));
        [apply (fold_left_invariant (fun acc => st_good (fst acc)))|]
  end.
  - intros [[p a] r] [[tid vol] ot] Hin Hs. simpl in Hs.
    apply sorted_by_In in Hin. apply in_map_iff in Hin.
    destruct Hin as [[k v] [E Hin]]. inversion E; subst.
    apply filter_In in Hin. destruct Hin as [Hin _].
    assert (HK : K tid) by (apply Ha; apply (in_map fst) in Hin; exact Hin).
    crunch.
    destruct (get_tank_by_id ship tid) as [t|] eqn:Et; [|exact Hs].
    crunch. simpl. destruct Hs as [Hp' Ha']. split; simpl.
    + apply add_assignment_good; auto. simpl. solve_good.
    + apply dict_sub_avail_good; auto.
  - split; auto.
  - destruct (fold_left _ _ _) as [[p a] r]. exact H.
Qed.

Lemma faz7_good plan cargos avail :
  st_good (plan, avail) ->
  st_good (_faz7_multi_tank plan cargos avail ship settings).
Proof.
  intro H. unfold _faz7_multi_tank. apply fold_left_invariant; auto.
  intros s x _ Hs. apply faz7_cargo_good. exact Hs.
Qed.

(** *** Phase 0 and the cascade *)

Lemma new_plan_good e n i cs pn : plan_good (StowagePlan_new e n i cs pn).
Proof. unfold plan_good. simpl. constructor. Qed.

Lemma copy_assignments_good temp plan :
  plan_good temp -> plan_good plan -> plan_good (copy_assignments temp plan).
Proof.
  unfold copy_assignments. intros Ht Hp.
  unfold plan_good in Ht. revert plan Hp.
  induction Ht as [|[tid a] l Hx Hl IH]; intros plan Hp; simpl; auto.
  apply IH. apply add_assignment_good; auto.
Qed.

Lemma run_estimated_good n plan cargos avail tol :
  st_good (plan, avail) ->
  st_good (run_estimated n plan cargos avail ship settings tol).
Proof.
  intro H. unfold run_estimated.
  repeat break_if;
    first [ apply faz1_good | apply faz2_good | apply faz3_good | apply faz4_good
          | apply faz5_good | apply faz6_good | apply faz7_good ]; exact H.
Qed.

Lemma call_with_tolerance_good ph plan cargos avail tol st' :
  st_good (plan, avail) ->
  call_with_tolerance ph plan cargos avail ship settings tol = Some st' ->
  st_good st'.
Proof.
  intros H E. destruct ph; simpl in E; inversion E; subst;
    first [ apply faz1_good | apply faz2_good | apply faz3_good | apply faz4_good
          | apply faz5_good | apply faz6_good ]; exact H.
Qed.

Lemma faz0_attempts_good e cargo inc maxr attempts : forall placed st,
  st_good st ->
  st_good (snd (faz0_attempts e ship settings cargo inc maxr placed st attempts)).
Proof.
  induction attempts as [|a attempts IH]; intros placed [plan avail] Hst; simpl; auto.
  break_if; auto.
  match goal with
  | |- context [run_estimated ?n ?p ?cs ?av ship settings ?tol] =>
      pose proof (run_estimated_good n p cs av tol) as Hrun;
      destruct (run_estimated n p cs av ship settings tol) as [tp ta]
  end.
  assert (Ht : st_good (tp, ta)).
  { apply Hrun. split; [apply new_plan_good | exact (proj2 Hst)]. }
  repeat break_if; simpl; auto.
  destruct Hst as [Hp Ha]. destruct Ht as [Htp Hta]. split; simpl; auto.
  apply copy_assignments_good; auto.
Qed.

Lemma faz0_fallback_good e cargo maxr phases : forall st st',
  st_good st ->
  faz0_fallback e ship settings cargo maxr st phases = Some st' ->
  st_good st'.
Proof.
  induction phases as [|ph phases IH]; intros [plan avail] st' Hst; simpl.
  - intro E. inversion E; subst. exact Hst.
  - match goal with
    | |- context [call_with_tolerance ?f ?p ?cs ?av ship settings ?tol] =>
        pose proof (call_with_tolerance_good f p cs av tol) as Hcall;
        destruct (call_with_tolerance f p cs av ship settings tol) as [[tp ta]|];
          [|discriminate]
    end.
    assert (Ht : st_good (tp, ta)).
    { eapply Hcall; [|reflexivity]. split; [apply new_plan_good | exact (proj2 Hst)]. }
    repeat break_if; try (apply IH; exact Hst).
    intro E. inversion E; subst.
    destruct Hst as [Hp Ha]. destruct Ht as [Htp Hta]. split; simpl; auto.
    apply copy_assignments_good; auto.
Qed.

Lemma faz0_cargo_good e inc maxr acc cargo acc' :
  st_good (snd acc) ->
  faz0_cargo e ship settings inc maxr acc cargo = Some acc' ->
  st_good (snd acc').
Proof.
  destruct acc as [placed0 st]. cbn [snd].
  intros Hst. unfold faz0_cargo. break_if; [discriminate|].
  match goal with
  | |- context [faz0_attempts ?e ship settings ?c ?i ?m ?p ?s ?l] =>
      pose proof (faz0_attempts_good e c i m l p s Hst) as Hatt;
      destruct (faz0_attempts e ship settings c i m p s l) as [placed st1]
  end.
  simpl in Hatt. destruct placed as [[|]|]; [| |discriminate].
  - intro E. inversion E; subst. exact Hatt.
  - destruct (faz0_fallback e ship settings cargo maxr st1 _) as [st2|] eqn:Ef;
      [|discriminate].
    intro E. inversion E; subst. cbn [snd].
    apply (faz0_fallback_good _ _ _ _ _ _ Hatt Ef).
Qed.

Lemma fold_option_invariant {A S : Type} (P : S -> Prop) (f : S -> A -> option S)
    (l : list A) :
  (forall s x s', P s -> f s x = Some s' -> P s') ->
  forall s s', P s -> fold_option f l s = Some s' -> P s'.
Proof.
  intro Hf. induction l as [|x l IH]; intros s s' Hs; simpl.
  - intro E. inversion E; subst. exact Hs.
  - destruct (f s x) as [s1|] eqn:E1; [|discriminate].
    apply IH. eapply Hf; eauto.
Qed.

Lemma faz0_good e plan cargos avail st' :
  st_good (plan, avail) ->
  _faz0_mandatory_cargo e plan cargos avail ship settings = Some st' ->
  st_good st'.
Proof.
  intro H. unfold _faz0_mandatory_cargo.
  match goal with
  | |- match fold_option ?f cargos ?s0 with _ => _ end = _ -> _ =>
      pose proof (fold_option_invariant
                    (fun acc : option bool * St => st_good (snd acc)) f cargos) as G;
      destruct (fold_option f cargos s0) as [[placed st]|] eqn:E; [|discriminate]
  end.
  intro E'. inversion E'; subst.
  apply (G (fun s x s' Hs => faz0_cargo_good _ _ _ s x s' Hs)
           (None, (plan, avail)) (placed, st') H E).
Qed.

(** The cascade of [optimize_advanced] after the tanks have been selected. *)
Lemma cascade_good plan avail cargos result :
  st_good (plan, avail) ->
  (let remaining_regular := cargos in
   let '(plan, avail) := _faz1_single_tank plan remaining_regular avail ship settings None in
   let remaining_regular := still_remaining plan remaining_regular in
   let '(plan, avail) := _faz2_two_tank plan remaining_regular avail ship settings None in
   let remaining_regular := still_remaining plan remaining_regular in
   let '(plan, avail) := _faz3_three_tank plan remaining_regular avail ship settings None in
   let remaining_regular := still_remaining plan remaining_regular in
   let '(plan, avail) := _faz4_four_tank plan remaining_regular avail ship settings None in
   let remaining_regular := still_remaining plan remaining_regular in
   let '(plan, avail) := _faz5_five_tank plan remaining_regular avail ship settings None in
   let remaining_regular := still_remaining plan remaining_regular in
   let '(plan, avail) := _faz6_six_tank plan remaining_regular avail ship settings None in
   let remaining_regular := still_remaining plan remaining_regular in
   let '(plan, avail) := _faz7_multi_tank plan remaining_regular avail ship settings in
   Some plan) = Some result ->
  plan_good result.
Proof.
  intro H0. cbv zeta.
  pose proof (faz1_good plan cargos avail None H0) as H1.
  destruct (_faz1_single_tank plan cargos avail ship settings None) as [p1 a1].
  pose proof (faz2_good p1 (still_remaining p1 cargos) a1 None H1) as H2.
  destruct (_faz2_two_tank p1 _ a1 ship settings None) as [p2 a2].
  set (r2 := still_remaining p2 (still_remaining p1 cargos)) in *.
  pose proof (faz3_good p2 r2 a2 None H2) as H3.
  destruct (_faz3_three_tank p2 r2 a2 ship settings None) as [p3 a3].
  set (r3 := still_remaining p3 r2) in *.
  pose proof (faz4_good p3 r3 a3 None H3) as H4.
  destruct (_faz4_four_tank p3 r3 a3 ship settings None) as [p4 a4].
  set (r4 := still_remaining p4 r3) in *.
  pose proof (faz5_good p4 r4 a4 None H4) as H5.
  destruct (_faz5_five_tank p4 r4 a4 ship settings None) as [p5 a5].
  set (r5 := still_remaining p5 r4) in *.
  pose proof (faz6_good p5 r5 a5 None H5) as H6.
  destruct (_faz6_six_tank p5 r5 a5 ship settings None) as [p6 a6].
  set (r6 := still_remaining p6 r5) in *.
  pose proof (faz7_good p6 r6 a6 H6) as H7.
  destruct (_faz7_multi_tank p6 r6 a6 ship settings) as [p7 a7].
  intro E. injection E as <-. exact (proj1 H7).
Qed.

End PhaseInvariant.

(** ** Random draws and list updates *)

Lemma randbelow_lt n r : (0 < n)%nat -> (fst (randbelow n r) < n)%nat.
Proof.
  intro Hn. unfold randbelow. destruct (draw r) as [x r']. simpl.
  assert (H : (x mod N.of_nat n < N.of_nat n)%N) by (apply N.mod_lt; lia).
  lia.
Qed.

Lemma remove_nth_In {A : Type} (l : list A) : forall i x,
  In x (remove_nth i l) -> In x l.
Proof.
  induction l as [|y l IH]; intros [|i] x; simpl; auto.
  intros [H|H]; auto. right. eapply IH; eauto.
Qed.

Lemma random_sample_In k : forall pool r x,
  In x (fst (random_sample pool k r)) -> In x pool.
Proof.
  induction k as [|k IH]; intros pool r x; simpl; [contradiction|].
  destruct pool as [|p pool]; [contradiction|].
  pose proof (randbelow_lt (length (p :: pool)) r ltac:(simpl; lia)) as Hlt.
  destruct (randbelow (length (p :: pool)) r) as [i r1]. simpl in Hlt.
  specialize (IH (remove_nth i (p :: pool)) r1 x).
  destruct (random_sample (remove_nth i (p :: pool)) k r1) as [xs r2].
  cbn [fst] in *. intros [H|H].
  - subst x. apply (nth_In (p :: pool) O). exact Hlt.
  - eapply remove_nth_In. apply IH. exact H.
Qed.

Lemma set_nth_length {A : Type} (l : list A) : forall i x,
  length (set_nth i x l) = length l.
Proof.
  induction l as [|y l IH]; intros [|i] x; simpl; auto.
Qed.

Lemma argmax_fold_lt (rest : list Q) : forall best_i best_s i,
  (best_i < i)%nat ->
  let res := fold_left
               (fun '(best_i, best_s, i) s =>
                  if Qgtb s best_s then (i, s, S i) else (best_i, best_s, S i))
               rest (best_i, best_s, i) in
  (fst (fst res) < i + length rest)%nat.
Proof.
  induction rest as [|s rest IH]; intros best_i best_s i Hlt; simpl.
  - lia.
  - destruct (Qgtb s best_s).
    + specialize (IH i s (S i) ltac:(lia)). simpl in IH. lia.
    + specialize (IH best_i best_s (S i) ltac:(lia)). simpl in IH. lia.
Qed.

Lemma argmax_index_lt scores i :
  GeneticOptimizer.argmax_index scores = Some i -> (i < length scores)%nat.
Proof.
  unfold GeneticOptimizer.argmax_index. destruct scores as [|s0 rest]; [discriminate|].
  intro H. inversion H; subst; clear H.
  pose proof (argmax_fold_lt rest 0%nat s0 1%nat ltac:(lia)) as Hlt.
  simpl in *. lia.
Qed.

Lemma In_firstn {A : Type} (l : list A) : forall n x, In x (firstn n l) -> In x l.
Proof.
  induction l as [|y l IH]; intros [|n] x; simpl; try tauto.
  intros [H|H]; auto. right. eapply IH; eauto.
Qed.

Lemma Forall_nth_default {A : Type} (P : A -> Prop) (l : list A) d i :
  Forall P l -> (i < length l)%nat -> P (nth i l d).
Proof.
  intros Hl Hi. rewrite Forall_forall in Hl. apply Hl. apply nth_In. exact Hi.
Qed.

(** ** Invariants of the genetic solver *)

Section GAInvariant.
Import GeneticOptimizer.

Variable self : GeneticOptimizer.t.

(** The shape every chromosome of a run has: the optimizer's tank ids, one
    gene per tank, every gene within the capacity left in its tank. *)
Definition chrom_ok (c : Chromosome) : Prop :=
  tank_ids c = self_tank_ids self /\
  length (genes c) = length (tank_ids c) /\
  chromosome_capped self c.

Lemma repair_ok c :
  tank_ids c = self_tank_ids self -> length (genes c) = length (tank_ids c) ->
  chrom_ok (_repair_chromosome self c).
Proof.
  intros Ht Hl. destruct (repair_shape self c) as [H1 H2].
  split; [congruence|]. split; [congruence|]. apply repair_capped.
Qed.

Lemma sprinkle_length cargo left : forall gs remaining r,
  length (fst (sprinkle self cargo left gs remaining r)) = length gs.
Proof.
  induction left as [|left IH]; intros gs remaining r; simpl; auto.
  break_if; auto.
  destruct (randbelow _ r) as [idx r1].
  destruct (nth idx gs empty_gene) as [cid q].
  break_if; [|apply IH].
  destruct (if is_none cid then _ else _) as [sp cq0].
  break_if; rewrite IH; auto. apply set_nth_length.
Qed.

Lemma create_random_shape r :
  tank_ids (fst (_create_random_chromosome self r)) = self_tank_ids self /\
  length (genes (fst (_create_random_chromosome self r)))
    = length (self_tank_ids self).
Proof.
  unfold _create_random_chromosome.
  match goal with
  | |- context [fold_left ?f ?l ?a] =>
      assert (H : length (fst (fold_left f l a)) = length (self_tank_ids self))
  end.
  { apply (fold_left_invariant
             (fun acc : list Gene * Rng => length (fst acc) = length (self_tank_ids self))).
    - intros [gs r0] cargo _ Hlen. simpl in *. rewrite sprinkle_length. exact Hlen.
    - simpl. apply length_map. }
  destruct (fold_left _ _ _) as [gs r']. simpl in *. auto.
Qed.

Lemma initial_population_ok r :
  Forall chrom_ok (fst (create_initial_population self r)).
Proof.
  unfold create_initial_population.
  apply (fold_left_invariant
           (fun acc : list Chromosome * Rng => Forall chrom_ok (fst acc))).
  - intros [pop r0] x _ Hpop. simpl in *.
    destruct (create_random_shape r0) as [Ht Hl].
    destruct (_create_random_chromosome self r0) as [c r1]. simpl in *.
    apply Forall_app. split; auto. constructor; [|constructor].
    apply repair_ok; congruence.
  - simpl. constructor.
Qed.

Lemma tournament_ok population fitness r c r' :
  Forall chrom_ok population ->
  tournament_selection self population fitness r = Some (c, r') ->
  chrom_ok c.
Proof.
  intros Hpop. unfold tournament_selection.
  pose proof (random_sample_In (Nat.min (tournament_size self) (length population))
                (seq 0 (length population)) r) as Hin.
  destruct (random_sample _ _ r) as [idxs r1]. simpl in Hin.
  destruct idxs as [|first rest]; [discriminate|].
  match goal with
  | |- context [fold_left ?f rest ?a] =>
      assert (Hb : In (fst (fold_left f rest a)) (first :: rest))
  end.
  { assert (Hgen : forall l acc,
              (forall x, In x l -> In x (first :: rest)) ->
              In (fst acc) (first :: rest) ->
              In (fst (fold_left
                         (fun '(best_idx, best_fitness) idx =>
                            if Qgtb (nth idx fitness 0) best_fitness
                            then (idx, nth idx fitness 0)
                            else (best_idx, best_fitness)) l acc)) (first :: rest)).
    { induction l as [|x l IH]; intros [bi bf] Hl Hacc; simpl; auto.
      apply IH.
      - intros y Hy. apply Hl. right. exact Hy.
      - destruct (Qgtb (nth x fitness 0) bf); simpl; auto. apply Hl. left. reflexivity. }
    apply Hgen; [intros x Hx; right; exact Hx | left; reflexivity]. }
  destruct (fold_left _ rest _) as [best_idx bf]. simpl in Hb.
  intro E. inversion E; subst.
  apply Forall_nth_default; auto.
  apply Hin in Hb. apply in_seq in Hb. lia.
Qed.

Lemma crossover_ok p1 p2 r :
  chrom_ok p1 -> chrom_ok p2 ->
  let '(o1, o2, _) := two_point_crossover self p1 p2 r in
  chrom_ok o1 /\ chrom_ok o2.
Proof.
  intros H1 H2. unfold two_point_crossover.
  break_if; [split; assumption|].
  match goal with H : Nat.ltb _ 2 = false |- _ => apply Nat.ltb_ge in H; rename H into Hlen end.
  pose proof (randbelow_lt (length (genes p1)) r ltac:(lia)) as Hlt1.
  destruct (randbelow (length (genes p1)) r) as [a r1]. simpl in Hlt1.
  pose proof (randbelow_lt (length (genes p1)) r1 ltac:(lia)) as Hlt2.
  destruct (randbelow (length (genes p1)) r1) as [b r2]. simpl in Hlt2.
  destruct H1 as [Ht1 [Hl1 _]]. destruct H2 as [Ht2 [Hl2 _]].
  assert (Hsame : length (genes p2) = length (genes p1)) by congruence.
  destruct (Nat.ltb b a) eqn:Eab;
    [apply Nat.ltb_lt in Eab | apply Nat.ltb_ge in Eab];
    split; apply repair_ok; simpl; auto;
    rewrite !length_app, !length_firstn, !length_skipn; lia.
Qed.

Lemma set_gene_shape c i g :
  tank_ids (set_gene c i g) = tank_ids c /\
  length (genes (set_gene c i g)) = length (genes c).
Proof. unfold set_gene. simpl. split; auto. apply set_nth_length. Qed.

(** Same tank ids and as many genes. *)
Definition same_shape (c c' : Chromosome) : Prop :=
  tank_ids c' = tank_ids c /\ length (genes c') = length (genes c).

Lemma same_shape_refl c : same_shape c c.
Proof. split; reflexivity. Qed.

Lemma same_shape_set c c' i g : same_shape c c' -> same_shape c (set_gene c' i g).
Proof.
  intros [H1 H2]. destruct (set_gene_shape c' i g) as [H3 H4]. split; congruence.
Qed.

Ltac shape :=
  repeat first
    [ apply same_shape_refl
    | apply same_shape_set
    | match goal with
      | |- context [let '(_, _) := ?x in _] => destruct x
      | |- context [match ?x with Some _ => _ | None => _ end] => destruct x
      | |- context [match ?x with [] => _ | _ :: _ => _ end] => destruct x
      end
    | break_if
    | progress simpl ].

Lemma mutate_swap_shape c r : same_shape c (fst (_mutate_swap c r)).
Proof. unfold _mutate_swap. shape. Qed.

Lemma mutate_transfer_shape c r : same_shape c (fst (_mutate_transfer self c r)).
Proof. unfold _mutate_transfer, random_choice. shape. Qed.

Lemma mutate_shift_shape c r : same_shape c (fst (_mutate_shift self c r)).
Proof. unfold _mutate_shift, random_choice. shape. Qed.

Lemma mutate_ok c r : chrom_ok c -> chrom_ok (fst (mutate self c r)).
Proof.
  intros [Ht [Hl _]]. unfold mutate.
  destruct (random_choice swap _ r) as [ty r1].
  assert (Hs : same_shape c (fst (match ty with
                                  | swap => _mutate_swap c r1
                                  | transfer => _mutate_transfer self c r1
                                  | shift => _mutate_shift self c r1
                                  end))).
  { destruct ty; [apply mutate_swap_shape | apply mutate_transfer_shape
                  | apply mutate_shift_shape]. }
  destruct (match ty with
            | swap => _mutate_swap c r1
            | transfer => _mutate_transfer self c r1
            | shift => _mutate_shift self c r1
            end) as [m r2].
  simpl in *. destruct Hs as [Hs1 Hs2]. apply repair_ok; congruence.
Qed.

Lemma maybe_crossover_ok p1 p2 x r :
  chrom_ok p1 -> chrom_ok p2 ->
  let res := if Qltb x (crossover_rate self) then two_point_crossover self p1 p2 r
             else (p1, p2, r) in
  chrom_ok (fst (fst res)) /\ chrom_ok (snd (fst res)).
Proof.
  intros H1 H2. destruct (Qltb x (crossover_rate self)); simpl; auto.
  pose proof (crossover_ok p1 p2 r H1 H2) as H.
  destruct (two_point_crossover self p1 p2 r) as [[o1 o2] r']. exact H.
Qed.

Lemma maybe_mutate_ok o x r :
  chrom_ok o ->
  chrom_ok (fst (if Qltb x (mutation_rate self) then mutate self o r else (o, r))).
Proof.
  intro H. destruct (Qltb x (mutation_rate self)); simpl; auto. apply mutate_ok. exact H.
Qed.

Lemma breed_ok_bounded population fitness n :
  Forall chrom_ok population ->
  forall slots new_population r np r',
    (slots <= n)%nat ->
    Forall chrom_ok new_population ->
    breed self population fitness slots new_population r = Some (np, r') ->
    Forall chrom_ok np.
Proof.
  intro Hpop. induction n as [|n IH]; intros slots newp r np r' Hle Hnew.
  - assert (slots = 0%nat) by lia. subst. simpl. intro E. inversion E; subst. exact Hnew.
  - destruct slots as [|slots']; simpl.
    + intro E. inversion E; subst. exact Hnew.
    + destruct (tournament_selection self population fitness r) as [[p1 r1]|] eqn:E1;
        [|discriminate].
      destruct (tournament_selection self population fitness r1) as [[p2 r2]|] eqn:E2;
        [|discriminate].
      pose proof (tournament_ok _ _ _ _ _ Hpop E1) as Hp1.
      pose proof (tournament_ok _ _ _ _ _ Hpop E2) as Hp2.
      destruct (random_unit r2) as [x1 ra].
      pose proof (maybe_crossover_ok p1 p2 x1 ra Hp1 Hp2) as Hc. cbv zeta in Hc.
      destruct (if Qltb x1 (crossover_rate self) then _ else _) as [[o1 o2] rb].
      simpl in Hc. destruct Hc as [Ho1 Ho2].
      destruct (random_unit rb) as [x2 rc].
      pose proof (maybe_mutate_ok o1 x2 rc Ho1) as Hm1.
      destruct (if Qltb x2 (mutation_rate self) then _ else _) as [o1' rd].
      destruct (random_unit rd) as [x3 re].
      pose proof (maybe_mutate_ok o2 x3 re Ho2) as Hm2.
      destruct (if Qltb x3 (mutation_rate self) then _ else _) as [o2' rf].
      simpl in Hm1, Hm2.
      destruct slots' as [|slots''].
      * intro E. inversion E; subst. apply Forall_app. split; auto.
      * apply IH; [lia|].
        apply Forall_app. split; [apply Forall_app; split; auto|auto].
Qed.

Lemma breed_ok population fitness slots new_population r np r' :
  Forall chrom_ok population -> Forall chrom_ok new_population ->
  breed self population fitness slots new_population r = Some (np, r') ->
  Forall chrom_ok np.
Proof.
  intros Hpop Hnew. apply (breed_ok_bounded population fitness slots Hpop); auto.
Qed.

Definition loop_ok (s : Loop) : Prop :=
  Forall chrom_ok (l_population s) /\ chrom_ok (l_best_chromosome s).

Lemma evolve_ok generations : forall s s',
  loop_ok s -> evolve self generations s = Some s' -> loop_ok s'.
Proof.
  induction generations as [|g IH]; intros s s' [Hpop Hbest]; simpl.
  - intro E. inversion E; subst. split; auto.
  - set (elites := if use_elitism self then _ else []).
    assert (Hel : Forall chrom_ok elites).
    { unfold elites. destruct (use_elitism self); [|constructor].
      apply Forall_forall. intros c Hc. apply in_map_iff in Hc.
      destruct Hc as [i [Hi Hin]]. subst c.
      apply Forall_nth_default; auto.
      apply In_firstn in Hin. apply sorted_by_In in Hin. apply in_seq in Hin. lia. }
    destruct (breed self (l_population s) (l_fitness_scores s) _ elites (l_rng s))
      as [[np r]|] eqn:Eb; [|discriminate].
    pose proof (breed_ok _ _ _ _ _ _ _ Hpop Hel Eb) as Hnp.
    assert (Hnp' : Forall chrom_ok (firstn (population_size self) np)).
    { apply Forall_forall. intros c Hc. apply In_firstn in Hc.
      rewrite Forall_forall in Hnp. auto. }
    set (np' := firstn (population_size self) np) in *.
    destruct (argmax_index (map (calculate_fitness self) np')) as [idx|] eqn:Ea;
      [|discriminate].
    apply argmax_index_lt in Ea. rewrite length_map in Ea.
    assert (Hb : chrom_ok (fst (if Qgtb (nth idx (map (calculate_fitness self) np') 0)
                                        (l_best_fitness s)
                                then (nth idx np' default_chromosome,
                                      nth idx (map (calculate_fitness self) np') 0)
                                else (l_best_chromosome s, l_best_fitness s)))).
    { destruct (Qgtb _ _); simpl; auto. apply Forall_nth_default; auto. }
    destruct (if Qgtb _ _ then _ else _) as [bc bf]. simpl in Hb.
    destruct (_ && _).
    + intro E. inversion E; subst. split; auto.
    + intro E. eapply IH; [|exact E]. split; auto.
Qed.
End GAInvariant.

(** *** The plans of the genetic solver *)

Section GAPlans.
Import GeneticOptimizer.

Variable shp : Ship.
(** The tanks the optimizer may use. *)
Variable av : list Tank.
Hypothesis Hav : forall t, In t av -> In t (tanks shp).

Definition positive_volumes : Prop := forall t, In t (tanks shp) -> 0 < volume t.

Definition ga_K (tid : string) : Prop := exists t, In t av /\ t_id t = tid.

(** The tank is one the optimizer may use and, on a ship whose tanks have
    positive volumes, the quantity is positive and within a tank of that id. *)
Definition ga_good (tid : string) (q : Q) : Prop :=
  ga_K tid /\
  (positive_volumes ->
   exists t, In t (tanks shp) /\ t_id t = tid /\ 0 < q /\ q <= volume t).

(** An entry of [available_tanks] or [tank_volumes]: never more than the
    volume of a tank of that id. *)
Definition entry_ok (kv : string * Q) : Prop :=
  ga_K (fst kv) /\
  (positive_volumes ->
   exists t, In t (tanks shp) /\ t_id t = fst kv /\ snd kv <= volume t).

Definition ga_assignments_good (l : list (string * TankAssignment)) : Prop :=
  Forall (fun ta : string * TankAssignment =>
            ga_good (fst ta) (quantity_loaded (snd ta))) l.

Lemma ga_add_good p tid a :
  ga_assignments_good (assignments p) -> ga_good tid (quantity_loaded a) ->
  ga_assignments_good (assignments (add_assignment p tid a)).
Proof.
  unfold ga_assignments_good, add_assignment. simpl. intros Hp Hg.
  apply dict_set_Forall; auto.
Qed.

Lemma ga_add_all_good l : forall p,
  ga_assignments_good (assignments p) -> ga_assignments_good l ->
  ga_assignments_good
    (assignments (fold_left (fun p '(tank_id, assignment) =>
                               add_assignment p tank_id assignment) l p)).
Proof.
  induction l as [|[tid a] l IH]; intros p Hp Hl; simpl; auto.
  inversion Hl; subst. apply IH; auto. apply ga_add_good; auto.
Qed.

Lemma dict_sub_entries k q d :
  Forall entry_ok d -> (positive_volumes -> 0 <= q) -> Forall entry_ok (dict_sub k q d).
Proof.
  intros Hd Hq. unfold dict_sub. destruct (dict_get k d) as [v|] eqn:E; auto.
  apply dict_set_Forall; auto.
  apply dict_get_In in E. rewrite Forall_forall in Hd. destruct (Hd _ E) as [HK Hv].
  split; auto. simpl in *. intro Hpos.
  destruct (Hv Hpos) as [t [Hin [Hid Hle]]]. exists t. repeat split; auto.
  specialize (Hq Hpos). lra.
Qed.

Lemma zero_entry_ok tid : ga_K tid -> entry_ok (tid, 0).
Proof.
  intros HK. split; auto. simpl. intro Hpos.
  destruct HK as [t [Hin Hid]]. exists t. repeat split; auto.
  apply Qlt_le_weak. apply Hpos. auto.
Qed.

Definition mandatory_acc_ok
    (acc : list (string * TankAssignment) * list (string * Q) * Q) : Prop :=
  ga_assignments_good (fst (fst acc)) /\ Forall entry_ok (snd (fst acc)).

Lemma place_mandatory_loop_good cargo minu sorted : forall acc acc',
  Forall (fun x : string * Q * option Tank =>
            ga_K (fst (fst x)) /\ snd x = get_tank_by_id shp (fst (fst x))
            /\ eps < snd (fst x)) sorted ->
  mandatory_acc_ok acc ->
  place_mandatory_loop cargo minu sorted acc = Some acc' ->
  mandatory_acc_ok acc'.
Proof.
  induction sorted as [|[[tid vol] ot] sorted IH]; intros acc acc' Hs Hacc; simpl.
  - intro E. inversion E; subst. exact Hacc.
  - inversion Hs as [|? ? [HK [Ht Hvol]] Hrest]; subst. simpl in *.
    destruct acc as [[massign avail] rem].
    destruct (Qltb rem eps) eqn:Er.
    { intro E. inversion E; subst. exact Hacc. }
    apply Qltb_false in Er.
    destruct ot as [t|]; [|apply IH; auto].
    symmetry in Ht. destruct (get_tank_by_id_In _ _ _ Ht) as [Hin Hid].
    destruct (Qeq_bool (volume t) 0); [discriminate|].
    destruct (Qltb (Qmin3 rem vol (volume t) / volume t) minu); [apply IH; auto|].
    apply IH; auto.
    destruct Hacc as [Hm Ha]. simpl in *.
    assert (Hq : positive_volumes -> 0 < Qmin3 rem vol (volume t)).
    { intro Hpos. pose proof eps_pos. apply Qmin3_glb_lt; try lra. apply Hpos. exact Hin. }
    split; simpl.
    + apply dict_set_Forall; auto. split; auto. simpl. intro Hpos.
      exists t. repeat split; auto. apply Qmin3_le_3.
    + assert (Hsub : Forall entry_ok (dict_sub tid (Qmin3 rem vol (volume t)) avail)).
      { apply dict_sub_entries; auto. intro Hpos. apply Qlt_le_weak. auto. }
      destruct (Qltb _ eps); auto.
      apply dict_set_Forall; auto. apply zero_entry_ok. exact HK.
Qed.

Lemma sorted_tanks_Forall (avail : list (string * Q)) :
  Forall entry_ok avail ->
  Forall (fun x : string * Q * option Tank =>
            ga_K (fst (fst x)) /\ snd x = get_tank_by_id shp (fst (fst x))
            /\ eps < snd (fst x))
    (sorted_by (fun x y => Qgtb (snd (fst x)) (snd (fst y)))
       (map (fun '(tid, vol) => (tid, vol, get_tank_by_id shp tid))
            (filter (fun '(tid, vol) => Qgtb vol eps) avail))).
Proof.
  intro Ha. apply Forall_forall. intros [[tid vol] ot] Hin.
  apply sorted_by_In in Hin. apply in_map_iff in Hin.
  destruct Hin as [[k v] [E Hin]]. inversion E; subst.
  apply filter_In in Hin. destruct Hin as [Hin Hgt]. apply Qgtb_gt in Hgt.
  rewrite Forall_forall in Ha. destruct (Ha _ Hin) as [HK _]. simpl in *. auto.
Qed.

Lemma fill_tanks_good cargo minu tks : forall plan rem plan',
  (forall t, In t tks -> In t av) ->
  ga_assignments_good (assignments plan) ->
  fill_tanks cargo minu tks plan rem = Some plan' ->
  ga_assignments_good (assignments plan').
Proof.
  induction tks as [|t tks IH]; intros plan rem plan' Hin Hp; simpl.
  - intro E. inversion E; subst. exact Hp.
  - destruct (Qltb rem eps) eqn:Er.
    { intro E. inversion E; subst. exact Hp. }
    apply Qltb_false in Er.
    destruct (Qeq_bool (volume t) 0); [discriminate|].
    assert (Hrest : forall t', In t' tks -> In t' av) by (intros; apply Hin; right; auto).
    destruct (Qltb _ minu); [apply IH; auto|].
    apply IH; auto. apply ga_add_good; auto. simpl.
    assert (Ht : In t av) by (apply Hin; left; reflexivity).
    split; [exists t; auto|]. intro Hpos. exists t. repeat split; auto.
    + pose proof eps_pos. apply Q.min_glb_lt; [lra | apply Hpos; auto].
    + apply Q.le_min_r.
Qed.

Lemma fill_cargos_good minu empty_tanks remaining_cargos : forall plan plan',
  (forall t, In t empty_tanks -> In t av) ->
  ga_assignments_good (assignments plan) ->
  fill_cargos minu empty_tanks remaining_cargos plan = Some plan' ->
  ga_assignments_good (assignments plan').
Proof.
  induction remaining_cargos as [|[cargo rem] rest IH]; intros plan plan' Hin Hp; simpl.
  - intro E. inversion E; subst. exact Hp.
  - destruct (Qltb rem eps); [apply IH; auto|].
    set (avail_empty := filter _ empty_tanks).
    destruct avail_empty as [|t0 l0] eqn:Eae.
    { intro E. inversion E; subst. exact Hp. }
    destruct (fill_tanks cargo minu _ plan rem) as [plan1|] eqn:Ef; [|discriminate].
    apply IH; auto.
    eapply fill_tanks_good; [| exact Hp | exact Ef].
    intros t Ht. apply sorted_by_In in Ht. rewrite <- Eae in Ht.
    unfold avail_empty in Ht. apply filter_In in Ht. apply Hin. tauto.
Qed.
End GAPlans.

Lemma loaded_genes_spec self gs : forall tids n i tid cid q,
  length gs = length tids ->
  capped_list self gs tids ->
  In (i, tid, cid, q) (GeneticOptimizer.loaded_genes gs tids n) ->
  In tid tids /\ eps < q /\ q <= GeneticOptimizer.tank_volume_of self tid.
Proof.
  induction gs as [|[c0 q0] gs IH]; intros [|t0 tids] n i tid cid q Hlen Hcap;
    simpl in *; try contradiction; try discriminate.
  destruct Hcap as [Hc Hrest].
  assert (Hlen' : length gs = length tids) by lia.
  assert (Htail : In (i, tid, cid, q) (GeneticOptimizer.loaded_genes gs tids (S n)) ->
                  (t0 = tid \/ In tid tids) /\ eps < q
                  /\ q <= GeneticOptimizer.tank_volume_of self tid).
  { intro H. destruct (IH _ _ _ _ _ _ Hlen' Hrest H) as [H1 H2]. auto. }
  destruct c0 as [c|]; auto.
  destruct (Qgtb q0 eps) eqn:Eq; auto.
  intros [H|H]; auto.
  inversion H; subst. apply Qgtb_gt in Eq. pose proof eps_pos.
  split; auto. split; auto. apply Hc; simpl; [discriminate | lra].
Qed.

Lemma same_after_setters self m tv :
  let self' := GeneticOptimizer.set_tank_volumes
                 (GeneticOptimizer.set_mandatory_assignments self m) tv in
  GeneticOptimizer.ship self' = GeneticOptimizer.ship self /\
  GeneticOptimizer.available_tanks self' = GeneticOptimizer.available_tanks self /\
  GeneticOptimizer.self_tank_ids self' = GeneticOptimizer.self_tank_ids self /\
  GeneticOptimizer.mandatory_assignments self' = m /\
  GeneticOptimizer.tank_volumes self' = tv /\
  GeneticOptimizer.excluded_tanks self' = GeneticOptimizer.excluded_tanks self.
Proof. destruct self; simpl; auto 10. Qed.

Section GAPlanOfChromosome.
Import GeneticOptimizer.

Variable self : GeneticOptimizer.t.
Hypothesis Hav : forall t, In t (available_tanks self) -> In t (tanks (ship self)).
Hypothesis Hids : self_tank_ids self = map t_id (available_tanks self).
Hypothesis Htv :
  Forall (entry_ok (ship self) (available_tanks self)) (tank_volumes self).
Hypothesis Hmand :
  ga_assignments_good (ship self) (available_tanks self) (mandatory_assignments self).

Lemma chromosome_to_plan_good e c :
  chrom_ok self c ->
  ga_assignments_good (ship self) (available_tanks self)
    (assignments (_chromosome_to_plan e self c)).
Proof.
  intros [Ht [Hl Hcap]]. unfold _chromosome_to_plan.
  apply (fold_left_invariant
           (fun p => ga_assignments_good (ship self) (available_tanks self) (assignments p))).
  - intros p [[[i tid] cid] q] Hin Hp.
    destruct (loaded_genes_spec self _ _ _ _ _ _ _ Hl Hcap Hin) as [Htid [Hq Hle]].
    break_if; auto.
    destruct (dict_get cid _) as [cargo|]; auto.
    apply ga_add_good; auto. simpl.
    assert (HK : ga_K (available_tanks self) tid).
    { rewrite Ht, Hids in Htid. apply in_map_iff in Htid.
      destruct Htid as [t [Hid Hin']]. exists t. auto. }
    split; auto. intro Hpos. pose proof eps_pos.
    unfold tank_volume_of in Hle.
    destruct (dict_get tid (tank_volumes self)) as [v|] eqn:Ev; simpl in Hle; [|lra].
    apply dict_get_In in Ev. rewrite Forall_forall in Htv.
    destruct (Htv _ Ev) as [_ Hv]. simpl in Hv.
    destruct (Hv Hpos) as [t [Hin' [Hid Hvle]]].
    exists t. repeat split; auto; lra.
  - apply ga_add_all_good; auto. simpl. constructor.
Qed.

Lemma fill_empty_good plan st plan' :
  ga_assignments_good (ship self) (available_tanks self) (assignments plan) ->
  _fill_empty_tanks_with_remaining_cargo self plan st = Some plan' ->
  ga_assignments_good (ship self) (available_tanks self) (assignments plan').
Proof.
  intro Hp. unfold _fill_empty_tanks_with_remaining_cargo.
  set (empty := filter _ (available_tanks self)).
  assert (Hempty : forall t, In t empty -> In t (available_tanks self)).
  { intros t H. unfold empty in H. apply filter_In in H. tauto. }
  destruct empty as [|t0 l0] eqn:Ee.
  { intro E. inversion E; subst. exact Hp. }
  destruct (flat_map _ (regular_cargos self)) as [|rc0 rcs].
  { intro E. inversion E; subst. exact Hp. }
  apply fill_cargos_good; auto.
Qed.
End GAPlanOfChromosome.

Lemma place_mandatory_cargos_good self avail st massign avail' :
  Forall (entry_ok (GeneticOptimizer.ship self) (GeneticOptimizer.available_tanks self))
         avail ->
  (forall t, In t (GeneticOptimizer.available_tanks self) ->
             In t (tanks (GeneticOptimizer.ship self))) ->
  GeneticOptimizer._place_mandatory_cargos self avail st = Some (massign, avail') ->
  ga_assignments_good (GeneticOptimizer.ship self) (GeneticOptimizer.available_tanks self)
                      massign /\
  Forall (entry_ok (GeneticOptimizer.ship self) (GeneticOptimizer.available_tanks self))
         avail'.
Proof.
  intros Ha Hav. unfold GeneticOptimizer._place_mandatory_cargos.
  apply (fold_option_invariant
           (fun acc : list (string * TankAssignment) * list (string * Q) =>
              ga_assignments_good (GeneticOptimizer.ship self)
                                  (GeneticOptimizer.available_tanks self) (fst acc) /\
              Forall (entry_ok (GeneticOptimizer.ship self)
                               (GeneticOptimizer.available_tanks self)) (snd acc))).
  - intros [m a] cargo [m' a'] [Hm Ha0]. simpl in *.
    destruct (GeneticOptimizer.place_mandatory_loop _ _ _ _) as [[[m1 a1] r1]|] eqn:E;
      [|discriminate].
    intro E'. inversion E'; subst.
    assert (H0 : mandatory_acc_ok (GeneticOptimizer.ship self)
                   (GeneticOptimizer.available_tanks self) (m, a, cq cargo))
      by (split; assumption).
    exact (place_mandatory_loop_good _ _ Hav _ _ _ _ _
             (sorted_tanks_Forall _ _ _ Ha0) H0 E).
  - split; simpl; auto. constructor.
Qed.

(** The invariant of a whole genetic run from an optimizer whose data agree
    with its ship. *)
Lemma ga_optimize_good e self r plan :
  (forall t, In t (GeneticOptimizer.available_tanks self) ->
             In t (tanks (GeneticOptimizer.ship self))) ->
  GeneticOptimizer.self_tank_ids self
    = map t_id (GeneticOptimizer.available_tanks self) ->
  Forall (entry_ok (GeneticOptimizer.ship self) (GeneticOptimizer.available_tanks self))
         (GeneticOptimizer.tank_volumes self) ->
  ga_assignments_good (GeneticOptimizer.ship self) (GeneticOptimizer.available_tanks self)
                      (GeneticOptimizer.mandatory_assignments self) ->
  GeneticOptimizer.optimize e self r = Some plan ->
  ga_assignments_good (GeneticOptimizer.ship self) (GeneticOptimizer.available_tanks self)
                      (assignments plan).
Proof.
  intros Hav Hids Htv Hmand. unfold GeneticOptimizer.optimize.
  set (available := fold_left _ (GeneticOptimizer.available_tanks self) []).
  assert (Havail : Forall (entry_ok (GeneticOptimizer.ship self)
                                    (GeneticOptimizer.available_tanks self)) available).
  { unfold available.
    apply (fold_left_invariant
             (Forall (entry_ok (GeneticOptimizer.ship self)
                               (GeneticOptimizer.available_tanks self)))).
    - intros d t Hin Hd. apply dict_set_Forall; auto.
      split; simpl; [exists t; auto|]. intros _. exists t. repeat split; auto.
      apply Qle_refl.
    - constructor. }
  set (placed := match GeneticOptimizer.mandatory_cargos self with
                 | [] => Some (GeneticOptimizer.mandatory_assignments self, available)
                 | _ => GeneticOptimizer._place_mandatory_cargos self available
                          (GeneticOptimizer.settings self)
                 end).
  assert (Hplaced : forall m a, placed = Some (m, a) ->
            ga_assignments_good (GeneticOptimizer.ship self)
                                (GeneticOptimizer.available_tanks self) m /\
            Forall (entry_ok (GeneticOptimizer.ship self)
                             (GeneticOptimizer.available_tanks self)) a).
  { intros m a. unfold placed. destruct (GeneticOptimizer.mandatory_cargos self).
    - intro E. inversion E; subst. auto.
    - apply place_mandatory_cargos_good; auto. }
  destruct placed as [[m a]|]; [|discriminate].
  destruct (Hplaced m a eq_refl) as [Hm Ha].
  cbv zeta.
  replace (GeneticOptimizer.tank_volumes (GeneticOptimizer.set_mandatory_assignments self m))
    with (GeneticOptimizer.tank_volumes self) by (destruct self; reflexivity).
  match goal with
  | |- context [GeneticOptimizer.set_tank_volumes _ (fold_left ?f a ?tv0)] =>
      set (tv := fold_left f a tv0)
  end.
  assert (Htv' : Forall (entry_ok (GeneticOptimizer.ship self)
                                  (GeneticOptimizer.available_tanks self)) tv).
  { unfold tv.
    apply (fold_left_invariant
             (Forall (entry_ok (GeneticOptimizer.ship self)
                               (GeneticOptimizer.available_tanks self)))); auto.
    intros d [tid rem] Hin Hd. break_if; auto.
    apply dict_set_Forall; auto. rewrite Forall_forall in Ha. apply (Ha _ Hin). }
  destruct (same_after_setters self m tv) as [Es [Ea [Ei [Em [Et Ex]]]]].
  set (self' := GeneticOptimizer.set_tank_volumes
                  (GeneticOptimizer.set_mandatory_assignments self m) tv) in *.
  rewrite <- Es, <- Ea.
  assert (Hav' : forall t, In t (GeneticOptimizer.available_tanks self') ->
                           In t (tanks (GeneticOptimizer.ship self')))
    by (rewrite Es, Ea; exact Hav).
  assert (Hids' : GeneticOptimizer.self_tank_ids self'
                  = map t_id (GeneticOptimizer.available_tanks self'))
    by (rewrite Ei, Ea; exact Hids).
  assert (Htv'' : Forall (entry_ok (GeneticOptimizer.ship self')
                                   (GeneticOptimizer.available_tanks self'))
                         (GeneticOptimizer.tank_volumes self'))
    by (rewrite Es, Ea, Et; exact Htv').
  assert (Hm' : ga_assignments_good (GeneticOptimizer.ship self')
                                    (GeneticOptimizer.available_tanks self')
                                    (GeneticOptimizer.mandatory_assignments self'))
    by (rewrite Es, Ea, Em; exact Hm).
  destruct (GeneticOptimizer.regular_cargos self') as [|rc rcs] eqn:Ereg.
  - intro E. injection E as <-. apply ga_add_all_good; auto. simpl. constructor.
  - pose proof (initial_population_ok self' r) as Hpop.
    destruct (GeneticOptimizer.create_initial_population self' r) as [population r1].
    simpl in Hpop.
    destruct (GeneticOptimizer.argmax_index _) as [best_idx|] eqn:Ea0; [|discriminate].
    apply argmax_index_lt in Ea0. rewrite length_map in Ea0.
    destruct (GeneticOptimizer.evolve self' _ _) as [s|] eqn:Eev; [|discriminate].
    apply (evolve_ok self') in Eev.
    + destruct Eev as [_ Hbest]. apply fill_empty_good; auto.
      apply chromosome_to_plan_good; auto.
    + split; simpl; auto. apply Forall_nth_default; auto.
Qed.

(** What [GeneticOptimizer.__init__] builds satisfies the premises. *)
Lemma init_premises ship cargos excluded fixed settings :
  let self := GeneticOptimizer.init ship cargos excluded fixed settings in
  let excl := (or_default [] excluded ++ dict_keys (or_default [] fixed))%list in
  GeneticOptimizer.ship self = ship /\
  GeneticOptimizer.available_tanks self
    = filter (fun tank => negb (str_in (t_id tank) excl)) (tanks ship) /\
  (forall t, In t (GeneticOptimizer.available_tanks self) -> In t (tanks ship)) /\
  GeneticOptimizer.self_tank_ids self
    = map t_id (GeneticOptimizer.available_tanks self) /\
  Forall (entry_ok ship (GeneticOptimizer.available_tanks self))
         (GeneticOptimizer.tank_volumes self) /\
  GeneticOptimizer.mandatory_assignments self = [].
Proof.
  cbv zeta. unfold GeneticOptimizer.init. simpl.
  split; [reflexivity|]. split; [reflexivity|].
  split; [intros t H; apply filter_In in H; tauto|].
  split; [reflexivity|]. split; [|reflexivity].
  apply (fold_left_invariant
           (Forall (entry_ok ship
                      (filter (fun tank =>
                                 negb (str_in (t_id tank)
                                         (or_default [] excluded
                                          ++ dict_keys (or_default [] fixed))%list))
                              (tanks ship))))).
  - intros d t Hin Hd. destruct (str_in (t_id t) _) eqn:E; auto.
    apply dict_set_Forall; auto.
    split; simpl.
    + exists t. split; auto. apply filter_In. split; auto. rewrite E. reflexivity.
    + intros _. exists t. repeat split; auto. apply Qle_refl.
  - constructor.
Qed.

(** ** The plans the two solvers return *)

Lemma initial_available_good ship excluded :
  avail_good (fun tid => ~ In tid excluded)
             (AdvancedStowageOptimizer.initial_available ship excluded).
Proof.
  unfold AdvancedStowageOptimizer.initial_available.
  apply (fold_left_invariant (avail_good (fun tid => ~ In tid excluded))).
  - intros d t _ Hd. destruct (str_in (t_id t) excluded) eqn:E; auto.
    apply dict_set_avail_good; auto.
    intro Hin. apply str_in_In in Hin. congruence.
  - intros tid H. contradiction.
Qed.

(** Every assignment of a plan returned by the phase solver is on a tank that
    is neither excluded nor fixed and, when the minimum utilisation is
    positive, is positive and within a tank of that id. *)
Lemma optimize_advanced_good e ship cargos excluded fixed settings plan :
  AdvancedStowageOptimizer.optimize_advanced e ship cargos excluded fixed settings
    = Some plan ->
  plan_good ship (or_default get_default_settings settings)
            (fun tid => ~ In tid (or_default [] excluded
                                  ++ dict_keys (or_default [] fixed))%list)
            plan.
Proof.
  unfold AdvancedStowageOptimizer.optimize_advanced. cbv zeta.
  set (st := or_default get_default_settings settings).
  set (excl := (or_default [] excluded ++ dict_keys (or_default [] fixed))%list).
  set (plan0 := StowagePlan_new e (s_name ship) (s_id ship) cargos "Yeni Plan").
  assert (H0 : st_good ship st (fun tid => ~ In tid excl)
                       (plan0, AdvancedStowageOptimizer.initial_available ship excl)).
  { split; simpl; [apply new_plan_good | apply initial_available_good]. }
  destruct (filter is_mandatory cargos) as [|m ms].
  - apply cascade_good. exact H0.
  - destruct (AdvancedStowageOptimizer._faz0_mandatory_cargo e plan0 (m :: ms) _ ship st)
      as [[p1 a1]|] eqn:E0; [|discriminate].
    apply cascade_good. eapply faz0_good; eauto.
Qed.

Lemma assignment_key_In {V} tid (a : V) (l : list (string * V)) :
  In (tid, a) l -> In tid (dict_keys l).
Proof. intro H. apply (in_map fst) in H. exact H. Qed.

Lemma key_In_assignment {V} tid (l : list (string * V)) :
  In tid (dict_keys l) -> exists a, In (tid, a) l.
Proof.
  intro H. apply in_map_iff in H. destruct H as [[k a] [E H]]. simpl in E. subst.
  exists a. exact H.
Qed.

Lemma filter_not_excluded t excl (l : list Tank) :
  In t (filter (fun tank => negb (str_in (t_id tank) excl)) l) -> ~ In (t_id t) excl.
Proof.
  intro H. apply filter_In in H. destruct H as [_ H]. apply negb_true_iff in H.
  intro Hin. apply str_in_In in Hin. congruence.
Qed.

(** The same for the genetic solver, on a ship whose tanks have positive
    volumes. *)
Lemma ga_init_optimize_good e ship cargos excluded fixed settings r plan :
  GeneticOptimizer.optimize e (GeneticOptimizer.init ship cargos excluded fixed settings) r
    = Some plan ->
  ga_assignments_good ship
    (filter (fun tank =>
               negb (str_in (t_id tank)
                       (or_default [] excluded ++ dict_keys (or_default [] fixed))%list))
            (tanks ship))
    (assignments plan).
Proof.
  intro H.
  destruct (init_premises ship cargos excluded fixed settings)
    as [Es [Ea [Hav [Hids [Htv Hm]]]]].
  pose proof (ga_optimize_good e
                (GeneticOptimizer.init ship cargos excluded fixed settings) r plan) as G.
  rewrite Es in G. rewrite Hm in G. rewrite <- Ea.
  apply G; auto. constructor.
Qed.

(** C1. The phase solver breaks the claim on an input it can receive. Phase
    1 records an assignment only when [qty > 0.001], and so does the genetic
    solver when it reads a chromosome back; phases 2 to 6 have no such guard
    and rely on [_check_min_utilization], which accepts a share of 0 once
    [min_utilization] is 0 (the settings dialog allows 0%). Cargo A of 100
    fills the first of two tanks of 100; phase 2 then places cargo B of 200 on
    the pair, finds no room left in the first tank and records a share of 0
    there: the returned plan has an assignment of quantity 0 for B under
    [t0], written over A's, and nothing of A is left in the plan. *)
Theorem zero_quantity_assignment_without_min_utilization :
  exists plan a,
    AdvancedStowageOptimizer.optimize_advanced Examples.env0 Examples.ship_one_row
      [Examples.regular "A" 100; Examples.regular "B" 200] None None
      (Some (Examples.with_min_utilization 0)) = Some plan /\
    get_assignment plan "t0" = Some a /\
    unique_id (a_cargo a) = "B"%string /\
    ~ 0 < quantity_loaded a /\
    get_cargo_total_loaded plan "A" == 0.
Proof.
  eexists. eexists. split; [vm_compute; reflexivity|].
  split; [reflexivity|]. split; [reflexivity|].
  split; [vm_compute; discriminate | vm_compute; reflexivity].
Qed.

(** Away from that slip the bounds hold: every assignment of a plan returned
    by [optimize_advanced] under a positive [min_utilization], and every
    assignment of a plan returned by [GeneticOptimizer.optimize] on a ship
    whose tanks have positive volumes, has a strictly positive
    [quantity_loaded] that does not exceed the volume of a tank of the ship
    carrying the assigned id. *)
Theorem assignments_positive_and_within_tank :
  (forall e ship cargos excluded fixed settings plan tid a,
      0 < or_default (65 # 100) (min_utilization (or_default get_default_settings settings)) ->
      AdvancedStowageOptimizer.optimize_advanced e ship cargos excluded fixed settings
        = Some plan ->
      In (tid, a) (assignments plan) ->
      exists t, In t (tanks ship) /\ t_id t = tid /\
                0 < quantity_loaded a /\ quantity_loaded a <= volume t) /\
  (forall e ship cargos excluded fixed settings r plan tid a,
      (forall t, In t (tanks ship) -> 0 < volume t) ->
      GeneticOptimizer.optimize e
        (GeneticOptimizer.init ship cargos excluded fixed settings) r = Some plan ->
      In (tid, a) (assignments plan) ->
      exists t, In t (tanks ship) /\ t_id t = tid /\
                0 < quantity_loaded a /\ quantity_loaded a <= volume t).
Proof.
  split.
  - intros e ship cargos excluded fixed settings plan tid a Hmin Hplan Hin.
    pose proof (optimize_advanced_good _ _ _ _ _ _ _ Hplan) as Hg.
    unfold plan_good in Hg. rewrite Forall_forall in Hg.
    destruct (Hg _ Hin) as [_ Hq]. simpl in Hq. apply Hq. exact Hmin.
  - intros e ship cargos excluded fixed settings r plan tid a Hpos Hplan Hin.
    pose proof (ga_init_optimize_good _ _ _ _ _ _ _ _ Hplan) as Hg.
    unfold ga_assignments_good in Hg. rewrite Forall_forall in Hg.
    destruct (Hg _ Hin) as [_ Hq]. simpl in Hq. apply Hq. exact Hpos.
Qed.

Lemma assignments_positive_and_within_tank_witness :
  (exists plan,
      AdvancedStowageOptimizer.optimize_advanced Examples.env0 Examples.ship_two_rows
        [Examples.regular "A" 100; Examples.regular "B" 98] None None None = Some plan /\
      forall tid a, In (tid, a) (assignments plan) ->
        exists t, In t (tanks Examples.ship_two_rows) /\ t_id t = tid /\
                  0 < quantity_loaded a /\ quantity_loaded a <= volume t) /\
  (exists plan,
      GeneticOptimizer.optimize Examples.env0
        (GeneticOptimizer.init Examples.ship_two_rows
           [Examples.regular "A" 100; Examples.regular "B" 98; Examples.mandatory "M" 50]
           None None (Some Examples.small_ga)) [] = Some plan /\
      forall tid a, In (tid, a) (assignments plan) ->
        exists t, In t (tanks Examples.ship_two_rows) /\ t_id t = tid /\
                  0 < quantity_loaded a /\ quantity_loaded a <= volume t).
Proof.
  split.
  - eexists. split; [vm_compute; reflexivity|].
    intros tid a Hin.
    eapply (proj1 assignments_positive_and_within_tank Examples.env0
              Examples.ship_two_rows
              [Examples.regular "A" 100; Examples.regular "B" 98] None None None).
    + reflexivity.
    + vm_compute. reflexivity.
    + exact Hin.
  - eexists. split; [vm_compute; reflexivity|].
    intros tid a Hin.
    eapply (proj2 assignments_positive_and_within_tank Examples.env0
              Examples.ship_two_rows
              [Examples.regular "A" 100; Examples.regular "B" 98; Examples.mandatory "M" 50]
              None None (Some Examples.small_ga) []).
    + intros t Ht. simpl in Ht.
      destruct Ht as [<- | [<- | [<- | [<- | []]]]]; reflexivity.
    + vm_compute. reflexivity.
    + exact Hin.
Defined.

(** C2. No tank id of [excluded_tanks] and no key of [fixed_assignments] is a
    key of the assignments of a plan returned by [optimize_advanced] or by
    [GeneticOptimizer.optimize]. *)
Theorem excluded_and_fixed_tanks_not_assigned :
  (forall e ship cargos excluded fixed settings plan tid,
      AdvancedStowageOptimizer.optimize_advanced e ship cargos excluded fixed settings
        = Some plan ->
      In tid (dict_keys (assignments plan)) ->
      ~ In tid (or_default [] excluded) /\ ~ In tid (dict_keys (or_default [] fixed))) /\
  (forall e ship cargos excluded fixed settings r plan tid,
      GeneticOptimizer.optimize e
        (GeneticOptimizer.init ship cargos excluded fixed settings) r = Some plan ->
      In tid (dict_keys (assignments plan)) ->
      ~ In tid (or_default [] excluded) /\ ~ In tid (dict_keys (or_default [] fixed))).
Proof.
  split.
  - intros e ship cargos excluded fixed settings plan tid Hplan Hin.
    pose proof (optimize_advanced_good _ _ _ _ _ _ _ Hplan) as Hg.
    unfold plan_good in Hg. rewrite Forall_forall in Hg.
    destruct (key_In_assignment _ _ Hin) as [a Ha].
    destruct (Hg _ Ha) as [HK _]. simpl in HK.
    split; intro H; apply HK; apply in_or_app; auto.
  - intros e ship cargos excluded fixed settings r plan tid Hplan Hin.
    pose proof (ga_init_optimize_good _ _ _ _ _ _ _ _ Hplan) as Hg.
    unfold ga_assignments_good in Hg. rewrite Forall_forall in Hg.
    destruct (key_In_assignment _ _ Hin) as [a Ha].
    destruct (Hg _ Ha) as [[t [Ht Hid]] _]. simpl in Hid.
    apply filter_not_excluded in Ht. rewrite Hid in Ht.
    split; intro H; apply Ht; apply in_or_app; auto.
Qed.

(** With the first tank excluded and the second fixed, both solvers leave
    both out of the plan. *)
Lemma excluded_and_fixed_tanks_not_assigned_witness :
  let fixed := [("t1"%string,
                 mkAssignment "t1" (Examples.regular "F" 60) 60)] in
  (exists plan,
      AdvancedStowageOptimizer.optimize_advanced Examples.env0 Examples.ship_two_rows
        [Examples.regular "A" 100; Examples.regular "B" 98]
        (Some ["t0"%string]) (Some fixed) None = Some plan /\
      forall tid, In tid (dict_keys (assignments plan)) ->
                  ~ In tid ["t0"%string] /\ ~ In tid ["t1"%string]) /\
  (exists plan,
      GeneticOptimizer.optimize Examples.env0
        (GeneticOptimizer.init Examples.ship_two_rows
           [Examples.regular "A" 100; Examples.regular "B" 98]
           (Some ["t0"%string]) (Some fixed) (Some Examples.small_ga)) [] = Some plan /\
      forall tid, In tid (dict_keys (assignments plan)) ->
                  ~ In tid ["t0"%string] /\ ~ In tid ["t1"%string]).
Proof.
  cbv zeta. split.
  - eexists. split; [vm_compute; reflexivity|].
    intros tid Hin.
    apply (proj1 excluded_and_fixed_tanks_not_assigned Examples.env0
             Examples.ship_two_rows
             [Examples.regular "A" 100; Examples.regular "B" 98]
             (Some ["t0"%string])
             (Some [("t1"%string, mkAssignment "t1" (Examples.regular "F" 60) 60)])
             None _ tid ltac:(vm_compute; reflexivity) Hin).
  - eexists. split; [vm_compute; reflexivity|].
    intros tid Hin.
    apply (proj2 excluded_and_fixed_tanks_not_assigned Examples.env0
             Examples.ship_two_rows
             [Examples.regular "A" 100; Examples.regular "B" 98]
             (Some ["t0"%string])
             (Some [("t1"%string, mkAssignment "t1" (Examples.regular "F" 60) 60)])
             (Some Examples.small_ga) [] _ tid ltac:(vm_compute; reflexivity) Hin).
Defined.

(** ** What a plan owes to the environment *)

(** The plan with the identifier and the date another construction would
    have drawn. *)
Definition rebrand (e : Env) (p : StowagePlan) : StowagePlan :=
  mkPlan (ship_name p) (ship_profile_id p) (cargo_requests p) (assignments p)
         (excluded_tanks p) (env_now e) (plan_name p) (notes p) (env_uuid4 e).

(** Every field of a plan but [id] and [created_date]. *)
Definition plan_content (p : StowagePlan)
    : string * string * list Cargo * list (string * TankAssignment)
      * list string * string * option string :=
  (ship_name p, ship_profile_id p, cargo_requests p, assignments p,
   excluded_tanks p, plan_name p, notes p).

Definition lift (e : Env) (st : AdvancedStowageOptimizer.St) : AdvancedStowageOptimizer.St :=
  (rebrand e (fst st), snd st).

Lemma rebrand_content e p : plan_content (rebrand e p) = plan_content p.
Proof. reflexivity. Qed.

Lemma rebrand_stamp e p :
  p_id (rebrand e p) = env_uuid4 e /\ created_date (rebrand e p) = env_now e.
Proof. split; reflexivity. Qed.

Lemma fold_rebrand {A : Type} e (g : StowagePlan -> A -> StowagePlan) (l : list A) :
  (forall p x, g (rebrand e p) x = rebrand e (g p x)) ->
  forall p, fold_left g l (rebrand e p) = rebrand e (fold_left g l p).
Proof.
  intro Hg. induction l as [|x l IH]; intro p; simpl; auto.
  rewrite Hg. apply IH.
Qed.

Lemma fold_lift {A : Type} e
    (f : AdvancedStowageOptimizer.St -> A -> AdvancedStowageOptimizer.St) (l : list A) :
  (forall st x, f (lift e st) x = lift e (f st x)) ->
  forall st, fold_left f l (lift e st) = lift e (fold_left f l st).
Proof.
  intro Hf. induction l as [|x l IH]; intro st; simpl; auto.
  rewrite Hf. apply IH.
Qed.

Section EnvironmentIndependence.
Import AdvancedStowageOptimizer.

Variable e : Env.
Variable ship : Ship.
Variable settings : Settings.

Lemma place_all_lift cargo c : forall st,
  place_all cargo c (lift e st) = lift e (place_all cargo c st).
Proof.
  unfold place_all. apply fold_lift. intros [p a] [tid q]. reflexivity.
Qed.

Lemma faz1_cargo_lift minu tol st cargo :
  faz1_cargo ship minu tol (lift e st) cargo = lift e (faz1_cargo ship minu tol st cargo).
Proof.
  destruct st as [plan avail]. unfold lift, faz1_cargo. cbn [fst snd].
  destruct (fst (faz1_best ship avail (cq cargo) tol minu)) as [best|]; [|reflexivity].
  destruct (String.eqb best ""); [reflexivity|].
  destruct (get_tank_by_id ship best) as [tank|]; [|reflexivity].
  change (_get_tank_available_capacity best (rebrand e plan) avail ship)
    with (_get_tank_available_capacity best plan avail ship).
  change (get_assignment (rebrand e plan) best) with (get_assignment plan best).
  destruct (Qgtb _ eps); [|reflexivity].
  destruct (Qltb _ eps); reflexivity.
Qed.

Lemma faz1_lift plan cargos avail tol :
  _faz1_single_tank (rebrand e plan) cargos avail ship settings tol
  = lift e (_faz1_single_tank plan cargos avail ship settings tol).
Proof.
  unfold _faz1_single_tank.
  apply (fold_lift e _ cargos (faz1_cargo_lift _ _) (plan, avail)).
Qed.

Lemma faz2_cargo_lift minu tol atol st cargo :
  faz2_cargo ship minu tol atol (lift e st) cargo
  = lift e (faz2_cargo ship minu tol atol st cargo).
Proof.
  destruct st as [plan avail]. unfold lift, faz2_cargo. cbn [fst snd].
  change (faz2_best (rebrand e plan) avail ship (cq cargo) minu tol atol)
    with (faz2_best plan avail ship (cq cargo) minu tol atol).
  destruct (fst (fst (faz2_best plan avail ship (cq cargo) minu tol atol)));
    [|reflexivity].
  apply (place_all_lift cargo c (plan, avail)).
Qed.

Lemma faz2_lift plan cargos avail tol :
  _faz2_two_tank (rebrand e plan) cargos avail ship settings tol
  = lift e (_faz2_two_tank plan cargos avail ship settings tol).
Proof.
  unfold _faz2_two_tank.
  apply (fold_lift e _ cargos (faz2_cargo_lift _ _ _) (plan, avail)).
Qed.

Lemma faz3_cargo_lift minu tol st cargo :
  faz3_cargo ship minu tol (lift e st) cargo = lift e (faz3_cargo ship minu tol st cargo).
Proof.
  destruct st as [plan avail]. unfold lift, faz3_cargo. cbn [fst snd].
  change (faz3_best (rebrand e plan) avail ship (cq cargo) minu tol)
    with (faz3_best plan avail ship (cq cargo) minu tol).
  destruct (fst (faz3_best plan avail ship (cq cargo) minu tol)); [|reflexivity].
  apply (place_all_lift cargo c (plan, avail)).
Qed.

Lemma faz3_lift plan cargos avail tol :
  _faz3_three_tank (rebrand e plan) cargos avail ship settings tol
  = lift e (_faz3_three_tank plan cargos avail ship settings tol).
Proof.
  unfold _faz3_three_tank.
  apply (fold_lift e _ cargos (faz3_cargo_lift _ _) (plan, avail)).
Qed.

Lemma faz4_cargo_lift minu tol st cargo :
  faz4_cargo ship minu tol (lift e st) cargo = lift e (faz4_cargo ship minu tol st cargo).
Proof.
  destruct st as [plan avail]. unfold lift, faz4_cargo. cbn [fst snd].
  change (faz4_best (rebrand e plan) avail ship (cq cargo) minu tol)
    with (faz4_best plan avail ship (cq cargo) minu tol).
  destruct (fst (faz4_best plan avail ship (cq cargo) minu tol)); [|reflexivity].
  apply (place_all_lift cargo c (plan, avail)).
Qed.

Lemma faz4_lift plan cargos avail tol :
  _faz4_four_tank (rebrand e plan) cargos avail ship settings tol
  = lift e (_faz4_four_tank plan cargos avail ship settings tol).
Proof.
  unfold _faz4_four_tank.
  apply (fold_lift e _ cargos (faz4_cargo_lift _ _) (plan, avail)).
Qed.

Lemma faz5_cargo_lift minu tol st cargo :
  faz5_cargo ship minu tol (lift e st) cargo = lift e (faz5_cargo ship minu tol st cargo).
Proof.
  destruct st as [plan avail]. unfold lift, faz5_cargo. cbn [fst snd].
  change (faz5_best (rebrand e plan) avail ship (cq cargo) minu tol)
    with (faz5_best plan avail ship (cq cargo) minu tol).
  destruct (fst (faz5_best plan avail ship (cq cargo) minu tol)); [|reflexivity].
  apply (place_all_lift cargo c (plan, avail)).
Qed.

Lemma faz5_lift plan cargos avail tol :
  _faz5_five_tank (rebrand e plan) cargos avail ship settings tol
  = lift e (_faz5_five_tank plan cargos avail ship settings tol).
Proof.
  unfold _faz5_five_tank.
  apply (fold_lift e _ cargos (faz5_cargo_lift _ _) (plan, avail)).
Qed.

Lemma faz6_cargo_lift minu tol st cargo :
  faz6_cargo ship minu tol (lift e st) cargo = lift e (faz6_cargo ship minu tol st cargo).
Proof.
  destruct st as [plan avail]. unfold lift, faz6_cargo. cbn [fst snd].
  change (faz6_best (rebrand e plan) avail ship (cq cargo) minu tol)
    with (faz6_best plan avail ship (cq cargo) minu tol).
  destruct (fst (faz6_best plan avail ship (cq cargo) minu tol)); [|reflexivity].
  apply (place_all_lift cargo c (plan, avail)).
Qed.

Lemma faz6_lift plan cargos avail tol :
  _faz6_six_tank (rebrand e plan) cargos avail ship settings tol
  = lift e (_faz6_six_tank plan cargos avail ship settings tol).
Proof.
  unfold _faz6_six_tank.
  apply (fold_lift e _ cargos (faz6_cargo_lift _ _) (plan, avail)).
Qed.

Lemma faz7_loop_lift cargo minu (l : list (string * Q * option Tank)) :
  forall p a r,
    fold_left
      (fun (acc : StowagePlan * list (string * Q) * Q) '(tank_id, available_vol, otank) =>
         let '(plan, available_tanks, remaining_qty) := acc in
         if Qltb remaining_qty eps then acc else
         match otank with
         | None => acc
         | Some tank =>
             let qty_to_place := Qmin3 remaining_qty available_vol (volume tank) in
             if negb (_check_min_utilization qty_to_place (volume tank) minu) then acc else
             (add_assignment plan tank_id (mkAssignment tank_id cargo qty_to_place),
              dict_sub tank_id qty_to_place available_tanks,
              remaining_qty - qty_to_place)
         end) l (rebrand e p, a, r)
    = (let '(p', a', r') :=
         fold_left
           (fun (acc : StowagePlan * list (string * Q) * Q)
                '(tank_id, available_vol, otank) =>
              let '(plan, available_tanks, remaining_qty) := acc in
              if Qltb remaining_qty eps then acc else
              match otank with
              | None => acc
              | Some tank =>
                  let qty_to_place := Qmin3 remaining_qty available_vol (volume tank) in
                  if negb (_check_min_utilization qty_to_place (volume tank) minu)
                  then acc else
                  (add_assignment plan tank_id (mkAssignment tank_id cargo qty_to_place),
                   dict_sub tank_id qty_to_place available_tanks,
                   remaining_qty - qty_to_place)
              end) l (p, a, r) in
       (rebrand e p', a', r')).
Proof.
  induction l as [|[[tid vol] ot] l IH]; intros p a r; simpl; [reflexivity|].
  destruct (Qltb r eps); [apply IH|].
  destruct ot as [t|]; [|apply IH].
  destruct (negb _); [apply IH|].
  apply (IH (add_assignment p tid (mkAssignment tid cargo (Qmin3 r vol (volume t))))).
Qed.

Lemma faz7_cargo_lift minu st cargo :
  faz7_cargo ship minu (lift e st) cargo = lift e (faz7_cargo ship minu st cargo).
Proof.
  destruct st as [plan avail]. unfold lift, faz7_cargo. cbn [fst snd].
  rewrite faz7_loop_lift.
  destruct (fold_left _ _ (plan, avail, cq cargo)) as [[p' a'] r']. reflexivity.
Qed.

Lemma faz7_lift plan cargos avail :
  _faz7_multi_tank (rebrand e plan) cargos avail ship settings
  = lift e (_faz7_multi_tank plan cargos avail ship settings).
Proof.
  unfold _faz7_multi_tank.
  apply (fold_lift e _ cargos (faz7_cargo_lift _) (plan, avail)).
Qed.

Lemma run_estimated_lift n plan cargos avail tol :
  run_estimated n (rebrand e plan) cargos avail ship settings tol
  = lift e (run_estimated n plan cargos avail ship settings tol).
Proof.
  unfold run_estimated.
  repeat (match goal with |- context [if ?b then _ else _] => destruct b end);
    first [ apply faz1_lift | apply faz2_lift | apply faz3_lift | apply faz4_lift
          | apply faz5_lift | apply faz6_lift | apply faz7_lift ].
Qed.

Lemma call_with_tolerance_lift ph plan cargos avail tol :
  call_with_tolerance ph (rebrand e plan) cargos avail ship settings tol
  = option_map (lift e) (call_with_tolerance ph plan cargos avail ship settings tol).
Proof.
  destruct ph; simpl; try reflexivity;
    first [ rewrite faz1_lift | rewrite faz2_lift | rewrite faz3_lift | rewrite faz4_lift
          | rewrite faz5_lift | rewrite faz6_lift ]; reflexivity.
Qed.

Lemma copy_assignments_lift temp plan :
  copy_assignments (rebrand e temp) (rebrand e plan)
  = rebrand e (copy_assignments temp plan).
Proof.
  unfold copy_assignments. apply fold_rebrand. intros p [tid a]. reflexivity.
Qed.

(** Phase 0 run in environment [e] on a plan stamped by [e], against the
    same run in any environment [e0]. *)
Lemma faz0_attempts_lift e0 cargo inc maxr attempts : forall placed st,
  faz0_attempts e ship settings cargo inc maxr placed (lift e st) attempts
  = (fst (faz0_attempts e0 ship settings cargo inc maxr placed st attempts),
     lift e (snd (faz0_attempts e0 ship settings cargo inc maxr placed st attempts))).
Proof.
  induction attempts as [|a attempts IH]; intros placed [plan avail]; [reflexivity|].
  unfold lift. cbn [fst snd]. simpl faz0_attempts.
  destruct (Qleb (max_of_values avail) 0); [reflexivity|].
  change (StowagePlan_new e (ship_name plan) (ship_profile_id plan) [cargo] "temp")
    with (rebrand e (StowagePlan_new e0 (ship_name plan) (ship_profile_id plan)
                                     [cargo] "temp")).
  rewrite run_estimated_lift.
  destruct (run_estimated _ (StowagePlan_new e0 _ _ _ _) [cargo] avail ship settings _)
    as [tp ta].
  unfold lift. cbn [fst snd].
  change (get_cargo_total_loaded (rebrand e tp) (unique_id cargo))
    with (get_cargo_total_loaded tp (unique_id cargo)).
  change (assigned_tank_ids_of (rebrand e tp) cargo) with (assigned_tank_ids_of tp cargo).
  destruct (Qgeb _ _).
  - destruct (_ && _).
    + apply (IH (Some false) (plan, avail)).
    + rewrite copy_assignments_lift. reflexivity.
  - destruct (Qgeb _ maxr); [reflexivity|]. apply (IH (Some false) (plan, avail)).
Qed.

Lemma faz0_fallback_lift e0 cargo maxr phases : forall st,
  faz0_fallback e ship settings cargo maxr (lift e st) phases
  = option_map (lift e) (faz0_fallback e0 ship settings cargo maxr st phases).
Proof.
  induction phases as [|ph phases IH]; intros [plan avail]; [reflexivity|].
  unfold lift. cbn [fst snd]. simpl faz0_fallback.
  change (StowagePlan_new e (ship_name plan) (ship_profile_id plan) [cargo] "temp")
    with (rebrand e (StowagePlan_new e0 (ship_name plan) (ship_profile_id plan)
                                     [cargo] "temp")).
  rewrite call_with_tolerance_lift.
  destruct (call_with_tolerance ph (StowagePlan_new e0 _ _ _ _) [cargo] avail ship
                                settings maxr) as [[tp ta]|]; [|reflexivity].
  simpl option_map. unfold lift. cbn [fst snd].
  change (get_cargo_total_loaded (rebrand e tp) (unique_id cargo))
    with (get_cargo_total_loaded tp (unique_id cargo)).
  change (assigned_tank_ids_of (rebrand e tp) cargo) with (assigned_tank_ids_of tp cargo).
  destruct (Qgeb _ _).
  - destruct (_ && _).
    + apply (IH (plan, avail)).
    + rewrite copy_assignments_lift. reflexivity.
  - apply (IH (plan, avail)).
Qed.

(** The same on the state of the loop over the mandatory cargos. *)
Definition lift0 (acc : option bool * St) : option bool * St :=
  (fst acc, lift e (snd acc)).

Lemma faz0_cargo_lift e0 inc maxr acc cargo :
  faz0_cargo e ship settings inc maxr (lift0 acc) cargo
  = option_map lift0 (faz0_cargo e0 ship settings inc maxr acc cargo).
Proof.
  destruct acc as [placed0 st]. unfold lift0 at 1. cbn [fst snd].
  unfold faz0_cargo. destruct (Qeq_bool inc 0); [reflexivity|].
  rewrite (faz0_attempts_lift e0).
  destruct (faz0_attempts e0 ship settings cargo inc maxr placed0 st _) as [placed st1].
  cbn [fst snd]. destruct placed as [[|]|]; try reflexivity.
  rewrite (faz0_fallback_lift e0).
  destruct (faz0_fallback e0 ship settings cargo maxr st1 _) as [st2|]; reflexivity.
Qed.

Lemma faz0_lift e0 plan cargos avail :
  _faz0_mandatory_cargo e (rebrand e plan) cargos avail ship settings
  = option_map (lift e) (_faz0_mandatory_cargo e0 plan cargos avail ship settings).
Proof.
  unfold _faz0_mandatory_cargo.
  change (None, (rebrand e plan, avail))
    with (lift0 (@None bool, (plan, avail))).
  assert (G : forall acc,
            fold_option (faz0_cargo e ship settings
                           (or_default (1 # 100) (mandatory_retry_increment settings))
                           (or_default (35 # 100) (mandatory_max_relaxation settings)))
                        cargos (lift0 acc)
            = option_map lift0
                (fold_option (faz0_cargo e0 ship settings
                                (or_default (1 # 100) (mandatory_retry_increment settings))
                                (or_default (35 # 100) (mandatory_max_relaxation settings)))
                             cargos acc)).
  { induction cargos as [|c cargos IH]; intro acc; [reflexivity|].
    cbn [fold_option]. rewrite (faz0_cargo_lift e0).
    destruct (faz0_cargo e0 ship settings _ _ acc c) as [acc1|]; [|reflexivity].
    cbn [option_map]. apply IH. }
  rewrite G.
  destruct (fold_option (faz0_cargo e0 ship settings _ _) cargos (None, (plan, avail)))
    as [[placed st]|]; reflexivity.
Qed.
End EnvironmentIndependence.

(** The phase solver in environment [e2] returns the plan of environment
    [e1] with the identifier and the date of [e2]. *)
Lemma optimize_advanced_rebrand e1 e2 ship cargos excluded fixed settings :
  AdvancedStowageOptimizer.optimize_advanced e2 ship cargos excluded fixed settings
  = option_map (rebrand e2)
      (AdvancedStowageOptimizer.optimize_advanced e1 ship cargos excluded fixed settings).
Proof.
  unfold AdvancedStowageOptimizer.optimize_advanced. cbv zeta.
  set (st := or_default get_default_settings settings).
  set (avail := AdvancedStowageOptimizer.initial_available ship _).
  set (regular := filter (fun c => negb (is_mandatory c)) cargos).
  change (StowagePlan_new e2 (s_name ship) (s_id ship) cargos "Yeni Plan")
    with (rebrand e2 (StowagePlan_new e1 (s_name ship) (s_id ship) cargos "Yeni Plan")).
  set (plan0 := StowagePlan_new e1 (s_name ship) (s_id ship) cargos "Yeni Plan").
  match goal with
  | |- match ?X with Some _ => _ | None => _ end
       = option_map _ (match ?Y with Some _ => _ | None => _ end) =>
      assert (H0 : X = option_map (lift e2) Y);
        [ destruct (filter is_mandatory cargos); [reflexivity | apply faz0_lift]
        | rewrite H0; clear H0; destruct Y as [[p a]|]; [|reflexivity] ]
  end.
  simpl option_map. unfold lift. cbn [fst snd].
  rewrite faz1_lift.
  destruct (AdvancedStowageOptimizer._faz1_single_tank p regular a ship st None)
    as [p1 a1].
  unfold lift. cbn [fst snd].
  change (AdvancedStowageOptimizer.still_remaining (rebrand e2 p1) regular)
    with (AdvancedStowageOptimizer.still_remaining p1 regular).
  rewrite faz2_lift.
  destruct (AdvancedStowageOptimizer._faz2_two_tank p1 _ a1 ship st None) as [p2 a2].
  unfold lift. cbn [fst snd].
  change (AdvancedStowageOptimizer.still_remaining (rebrand e2 p2))
    with (AdvancedStowageOptimizer.still_remaining p2).
  rewrite faz3_lift.
  destruct (AdvancedStowageOptimizer._faz3_three_tank p2 _ a2 ship st None) as [p3 a3].
  unfold lift. cbn [fst snd].
  change (AdvancedStowageOptimizer.still_remaining (rebrand e2 p3))
    with (AdvancedStowageOptimizer.still_remaining p3).
  rewrite faz4_lift.
  destruct (AdvancedStowageOptimizer._faz4_four_tank p3 _ a3 ship st None) as [p4 a4].
  unfold lift. cbn [fst snd].
  change (AdvancedStowageOptimizer.still_remaining (rebrand e2 p4))
    with (AdvancedStowageOptimizer.still_remaining p4).
  rewrite faz5_lift.
  destruct (AdvancedStowageOptimizer._faz5_five_tank p4 _ a4 ship st None) as [p5 a5].
  unfold lift. cbn [fst snd].
  change (AdvancedStowageOptimizer.still_remaining (rebrand e2 p5))
    with (AdvancedStowageOptimizer.still_remaining p5).
  rewrite faz6_lift.
  destruct (AdvancedStowageOptimizer._faz6_six_tank p5 _ a5 ship st None) as [p6 a6].
  unfold lift. cbn [fst snd].
  change (AdvancedStowageOptimizer.still_remaining (rebrand e2 p6))
    with (AdvancedStowageOptimizer.still_remaining p6).
  rewrite faz7_lift.
  destruct (AdvancedStowageOptimizer._faz7_multi_tank p6 _ a6 ship st) as [p7 a7].
  reflexivity.
Qed.

Lemma chromosome_to_plan_rebrand e1 e2 self c :
  GeneticOptimizer._chromosome_to_plan e2 self c
  = rebrand e2 (GeneticOptimizer._chromosome_to_plan e1 self c).
Proof.
  unfold GeneticOptimizer._chromosome_to_plan. cbv zeta.
  change (StowagePlan_new e2 ?a ?b ?c ?d) with (rebrand e2 (StowagePlan_new e1 a b c d)).
  rewrite fold_rebrand by (intros p [tid a]; reflexivity).
  apply fold_rebrand. intros p [[[i tid] cid] q].
  destruct (dict_mem tid _); [reflexivity|].
  destruct (dict_get cid _); reflexivity.
Qed.

Lemma fill_tanks_rebrand e cargo minu tks : forall plan rem,
  GeneticOptimizer.fill_tanks cargo minu tks (rebrand e plan) rem
  = option_map (rebrand e) (GeneticOptimizer.fill_tanks cargo minu tks plan rem).
Proof.
  induction tks as [|t tks IH]; intros plan rem; simpl; [reflexivity|].
  destruct (Qltb rem eps); [reflexivity|].
  destruct (Qeq_bool (volume t) 0); [reflexivity|].
  destruct (Qltb _ minu); [apply IH|].
  apply (IH (add_assignment plan (t_id t) _)).
Qed.

Lemma fill_cargos_rebrand e minu empty rc : forall plan,
  GeneticOptimizer.fill_cargos minu empty rc (rebrand e plan)
  = option_map (rebrand e) (GeneticOptimizer.fill_cargos minu empty rc plan).
Proof.
  induction rc as [|[cargo rem] rc IH]; intro plan; simpl; [reflexivity|].
  destruct (Qltb rem eps); [apply IH|].
  change (fun tank : Tank => match get_assignment (rebrand e plan) (t_id tank) with
                             | Some _ => false | None => true end)
    with (fun tank : Tank => match get_assignment plan (t_id tank) with
                             | Some _ => false | None => true end).
  destruct (filter _ empty) as [|t0 ts]; [reflexivity|].
  rewrite fill_tanks_rebrand.
  destruct (GeneticOptimizer.fill_tanks cargo minu _ plan rem) as [p'|];
    [|reflexivity].
  simpl. apply IH.
Qed.

Lemma fill_empty_rebrand e self plan settings :
  GeneticOptimizer._fill_empty_tanks_with_remaining_cargo self (rebrand e plan) settings
  = option_map (rebrand e)
      (GeneticOptimizer._fill_empty_tanks_with_remaining_cargo self plan settings).
Proof.
  unfold GeneticOptimizer._fill_empty_tanks_with_remaining_cargo. cbv zeta.
  change (fun tank : Tank =>
            negb (str_in (t_id tank) (GeneticOptimizer.excluded_tanks self))
            && match get_assignment (rebrand e plan) (t_id tank) with
               | Some _ => false | None => true end)
    with (fun tank : Tank =>
            negb (str_in (t_id tank) (GeneticOptimizer.excluded_tanks self))
            && match get_assignment plan (t_id tank) with
               | Some _ => false | None => true end).
  destruct (filter _ (GeneticOptimizer.available_tanks self)) as [|t0 ts];
    [reflexivity|].
  change (fun cargo : Cargo =>
            if Qgtb (cq cargo - get_cargo_total_loaded (rebrand e plan) (unique_id cargo)) eps
            then [(cargo, cq cargo - get_cargo_total_loaded (rebrand e plan) (unique_id cargo))]
            else [])
    with (fun cargo : Cargo =>
            if Qgtb (cq cargo - get_cargo_total_loaded plan (unique_id cargo)) eps
            then [(cargo, cq cargo - get_cargo_total_loaded plan (unique_id cargo))]
            else []).
  destruct (flat_map _ (GeneticOptimizer.regular_cargos self)) as [|c0 cs];
    [reflexivity|].
  apply fill_cargos_rebrand.
Qed.

(** The genetic solver in environment [e2], on the same random tape,
    returns the plan of environment [e1] with the identifier and the date
    of [e2]. *)
Lemma ga_optimize_rebrand e1 e2 self r :
  GeneticOptimizer.optimize e2 self r
  = option_map (rebrand e2) (GeneticOptimizer.optimize e1 self r).
Proof.
  unfold GeneticOptimizer.optimize. cbv zeta.
  destruct (match GeneticOptimizer.mandatory_cargos self with
            | [] => _ | _ :: _ => _ end) as [[massign avail]|]; [|reflexivity].
  match goal with
  | |- context [GeneticOptimizer.set_tank_volumes ?s ?tv] =>
      set (self' := GeneticOptimizer.set_tank_volumes s tv)
  end.
  destruct (GeneticOptimizer.regular_cargos self') as [|c0 cs].
  - simpl option_map. f_equal.
    change (StowagePlan_new e2 ?a ?b ?c ?d) with (rebrand e2 (StowagePlan_new e1 a b c d)).
    apply fold_rebrand. intros p [tid a]. reflexivity.
  - destruct (GeneticOptimizer.create_initial_population self' r) as [population r1].
    destruct (GeneticOptimizer.argmax_index _) as [best_idx|]; [|reflexivity].
    destruct (GeneticOptimizer.evolve self' _ _) as [s|]; [|reflexivity].
    rewrite (chromosome_to_plan_rebrand e1 e2). apply fill_empty_rebrand.
Qed.

(** ** Two runs on the same inputs *)

(** C7, as the spec states it, fails. [StowagePlan.__post_init__] draws the
    plan's [id] from [uuid.uuid4()] and its [created_date] from
    [datetime.now()]; neither is an input of the engine and neither reads the
    seeded [random] source. Two runs on the same ship and cargos, the genetic
    one on the same random tape, in two environments that hand out another
    identifier and another time, return plans that differ in both fields. *)
Lemma two_runs_differ_in_id_and_date :
  (exists p0 p1,
      AdvancedStowageOptimizer.optimize_advanced Examples.env0 Examples.ship_two_rows
        [Examples.regular "A" 100; Examples.regular "B" 98] None None None = Some p0 /\
      AdvancedStowageOptimizer.optimize_advanced Examples.env1 Examples.ship_two_rows
        [Examples.regular "A" 100; Examples.regular "B" 98] None None None = Some p1 /\
      p_id p0 <> p_id p1 /\ created_date p0 <> created_date p1 /\ p0 <> p1) /\
  (exists p0 p1,
      GeneticOptimizer.optimize Examples.env0
        (GeneticOptimizer.init Examples.ship_two_rows
           [Examples.regular "A" 100; Examples.regular "B" 98]
           None None (Some Examples.small_ga)) [5; 3; 8; 1]%N = Some p0 /\
      GeneticOptimizer.optimize Examples.env1
        (GeneticOptimizer.init Examples.ship_two_rows
           [Examples.regular "A" 100; Examples.regular "B" 98]
           None None (Some Examples.small_ga)) [5; 3; 8; 1]%N = Some p1 /\
      p_id p0 <> p_id p1 /\ created_date p0 <> created_date p1 /\ p0 <> p1).
Proof.
  split; eexists; eexists;
    (split; [vm_compute; reflexivity|]);
    (split; [vm_compute; reflexivity|]);
    repeat split; vm_compute; discriminate.
Qed.

(** C7, amended. Two runs of the engine on identical inputs (and, for the
    genetic solver, on the same random tape) both fail or both return a plan,
    and the two plans are equal in every field except [id] and
    [created_date]: ship name, ship profile id, cargo requests, assignments
    (keys, order, cargos and quantities), excluded tanks, plan name and notes.
    The plan of the second run is the plan of the first with the identifier
    and the creation date of the second run's environment. *)
Theorem runs_agree_up_to_id_and_date :
  forall e1 e2 ship cargos excluded fixed settings r,
    let advanced e :=
      AdvancedStowageOptimizer.optimize_advanced e ship cargos excluded fixed settings in
    let genetic e :=
      GeneticOptimizer.optimize e
        (GeneticOptimizer.init ship cargos excluded fixed settings) r in
    option_map plan_content (advanced e2) = option_map plan_content (advanced e1) /\
    option_map plan_content (genetic e2) = option_map plan_content (genetic e1) /\
    advanced e2 = option_map (rebrand e2) (advanced e1) /\
    genetic e2 = option_map (rebrand e2) (genetic e1) /\
    option_map p_id (advanced e2) = option_map (fun _ => env_uuid4 e2) (advanced e1) /\
    option_map created_date (advanced e2) = option_map (fun _ => env_now e2) (advanced e1) /\
    option_map p_id (genetic e2) = option_map (fun _ => env_uuid4 e2) (genetic e1) /\
    option_map created_date (genetic e2) = option_map (fun _ => env_now e2) (genetic e1).
Proof.
  intros e1 e2 ship cargos excluded fixed settings r advanced genetic.
  assert (Ha : advanced e2 = option_map (rebrand e2) (advanced e1))
    by apply optimize_advanced_rebrand.
  assert (Hg : genetic e2 = option_map (rebrand e2) (genetic e1))
    by apply ga_optimize_rebrand.
  rewrite Ha, Hg.
  destruct (advanced e1) as [pa|]; destruct (genetic e1) as [pg|];
    repeat split; reflexivity.
Qed.

(** * Further properties of the data model and of the solvers *)

(** ** Dictionaries: lookup after update *)

Lemma dict_get_set_other {V} k k' v (d : list (string * V)) :
  k' <> k -> dict_get k' (dict_set k v d) = dict_get k' d.
Proof.
  intro Hne. induction d as [|[x w] d IH]; simpl.
  - destruct (String.eqb k' k) eqn:E; auto. apply String.eqb_eq in E. contradiction.
  - destruct (String.eqb k x) eqn:E; simpl.
    + apply String.eqb_eq in E. subst x.
      destruct (String.eqb k' k) eqn:E'; auto.
      apply String.eqb_eq in E'. contradiction.
    + destruct (String.eqb k' x); auto.
Qed.

Lemma dict_get_del_other {V} k k' (d : list (string * V)) :
  k' <> k -> dict_get k' (dict_del k d) = dict_get k' d.
Proof.
  intro Hne. induction d as [|[x w] d IH]; simpl; auto.
  destruct (String.eqb k x) eqn:E; simpl.
  - apply String.eqb_eq in E. subst x.
    destruct (String.eqb k' k) eqn:E'; auto.
    apply String.eqb_eq in E'. contradiction.
  - destruct (String.eqb k' x); auto.
Qed.

Lemma dict_get_None_notin {V} k (d : list (string * V)) :
  dict_get k d = None <-> ~ In k (dict_keys d).
Proof.
  induction d as [|[x w] d IH]; simpl.
  - tauto.
  - destruct (String.eqb k x) eqn:E.
    + apply String.eqb_eq in E. subst. split; [discriminate | intro H; exfalso; auto].
    + apply String.eqb_neq in E. rewrite IH. split; intro H.
      * intros [H1 | H1]; [congruence | auto].
      * auto.
Qed.

Lemma dict_del_absent {V} k (d : list (string * V)) :
  dict_get k d = None -> dict_del k d = d.
Proof.
  induction d as [|[x w] d IH]; simpl; auto.
  destruct (String.eqb k x); [discriminate|]. intro H. rewrite IH; auto.
Qed.

Lemma dict_del_keys_incl {V} k (d : list (string * V)) x :
  In x (dict_keys (dict_del k d)) -> In x (dict_keys d).
Proof.
  induction d as [|[y w] d IH]; simpl; auto.
  destruct (String.eqb k y); simpl; auto. intros [H | H]; auto.
Qed.

Lemma dict_get_del_same {V} k (d : list (string * V)) :
  NoDup (dict_keys d) -> dict_get k (dict_del k d) = None.
Proof.
  induction d as [|[x w] d IH]; simpl; auto. intro H. inversion H; subst.
  destruct (String.eqb k x) eqn:E; simpl.
  - apply String.eqb_eq in E. subst. apply dict_get_None_notin. assumption.
  - rewrite E. auto.
Qed.

Lemma dict_set_NoDup {V} k v (d : list (string * V)) :
  NoDup (dict_keys d) -> NoDup (dict_keys (dict_set k v d)).
Proof.
  induction d as [|[x w] d IH]; simpl; intro H.
  - constructor; [simpl; tauto | constructor].
  - inversion H; subst. destruct (String.eqb k x) eqn:E; simpl.
    + constructor; auto.
    + constructor; auto. intro Hin. apply dict_keys_set_incl in Hin.
      destruct Hin as [Hin | Hin]; auto. subst. rewrite String.eqb_refl in E. discriminate.
Qed.

Lemma dict_del_NoDup {V} k (d : list (string * V)) :
  NoDup (dict_keys d) -> NoDup (dict_keys (dict_del k d)).
Proof.
  induction d as [|[x w] d IH]; simpl; intro H; auto.
  inversion H; subst. destruct (String.eqb k x); simpl; auto.
  constructor; auto. intro Hin. apply dict_del_keys_incl in Hin. auto.
Qed.

Lemma dict_del_set_fresh {V} k v (d : list (string * V)) :
  dict_get k d = None -> dict_del k (dict_set k v d) = d.
Proof.
  induction d as [|[x w] d IH]; simpl.
  - rewrite String.eqb_refl. reflexivity.
  - destruct (String.eqb k x) eqn:E; [discriminate|]. intro H. simpl. rewrite E.
    rewrite IH; auto.
Qed.

Lemma set_assignments_same p : set_assignments p (assignments p) = p.
Proof. destruct p; reflexivity. Qed.

(** ** Plans as maps from tanks to assignments *)

(** X1. A plan is a finite map from tank ids to assignments: [get_assignment]
    after [add_assignment] finds the new assignment, [add_assignment] and
    [remove_assignment] leave every other tank as it was, removing a tank
    that has no assignment changes nothing, adding to a free tank and
    removing it again restores the plan, and, the keys of a dictionary being
    distinct, a removed tank has no assignment. *)
Theorem assignment_lookup_after_add_and_remove :
  forall p tid a,
    get_assignment (add_assignment p tid a) tid = Some a /\
    (forall tid', tid' <> tid ->
       get_assignment (add_assignment p tid a) tid' = get_assignment p tid' /\
       get_assignment (remove_assignment p tid) tid' = get_assignment p tid') /\
    (get_assignment p tid = None ->
       remove_assignment p tid = p /\
       remove_assignment (add_assignment p tid a) tid = p) /\
    (NoDup (dict_keys (assignments p)) ->
       get_assignment (remove_assignment p tid) tid = None /\
       NoDup (dict_keys (assignments (add_assignment p tid a))) /\
       NoDup (dict_keys (assignments (remove_assignment p tid)))).
Proof.
  intros p tid a. unfold get_assignment, add_assignment, remove_assignment. simpl.
  split; [apply dict_get_set_same|].
  split.
  - intros tid' Hne. split; [apply dict_get_set_other | apply dict_get_del_other]; auto.
  - split.
    + intro Hnone. split.
      * rewrite dict_del_absent by assumption. apply set_assignments_same.
      * rewrite dict_del_set_fresh by assumption.
        unfold set_assignments. simpl. destruct p; reflexivity.
    + intro Hnd. split; [apply dict_get_del_same; assumption|].
      split; [apply dict_set_NoDup | apply dict_del_NoDup]; assumption.
Qed.

Lemma assignment_lookup_after_add_and_remove_witness :
  let A := Examples.regular "A" 96 in
  let p := add_assignment
             (StowagePlan_new Examples.env0 "single" "s5" [A] "Yeni Plan")
             "t0" (mkAssignment "t0" A 96) in
  get_assignment p "t1" = None /\
  NoDup (dict_keys (assignments p)) /\
  remove_assignment (add_assignment p "t1" (mkAssignment "t1" A 4)) "t1" = p /\
  get_assignment (remove_assignment p "t0") "t0" = None.
Proof.
  cbv zeta.
  assert (Hnd : NoDup (dict_keys (assignments
            (add_assignment
               (StowagePlan_new Examples.env0 "single" "s5"
                                [Examples.regular "A" 96] "Yeni Plan")
               "t0" (mkAssignment "t0" (Examples.regular "A" 96) 96))))).
  { simpl. constructor; [simpl; tauto | constructor]. }
  split; [reflexivity|]. split; [exact Hnd|].
  split.
  - apply (proj1 (proj2 (proj2 (assignment_lookup_after_add_and_remove
             (add_assignment
                (StowagePlan_new Examples.env0 "single" "s5"
                                 [Examples.regular "A" 96] "Yeni Plan")
                "t0" (mkAssignment "t0" (Examples.regular "A" 96) 96))
             "t1"%string (mkAssignment "t1" (Examples.regular "A" 96) 4))))).
    reflexivity.
  - apply (proj2 (proj2 (proj2 (assignment_lookup_after_add_and_remove
             (add_assignment
                (StowagePlan_new Examples.env0 "single" "s5"
                                 [Examples.regular "A" 96] "Yeni Plan")
                "t0" (mkAssignment "t0" (Examples.regular "A" 96) 96))
             "t0"%string (mkAssignment "t0" (Examples.regular "A" 96) 96))))).
    exact Hnd.
Defined.

(** ** Loaded totals *)

Lemma Qsum_nil : Qsum [] == 0.
Proof. reflexivity. Qed.

Lemma Qsum_map_plus {A} (f g : A -> Q) (l : list A) :
  Qsum (map (fun x => f x + g x) l) == Qsum (map f l) + Qsum (map g l).
Proof.
  induction l as [|x l IH]; simpl map.
  - reflexivity.
  - rewrite !Qsum_cons, IH. lra.
Qed.

Lemma Qsum_map_ext {A} (f g : A -> Q) (l : list A) :
  (forall x, In x l -> f x == g x) -> Qsum (map f l) == Qsum (map g l).
Proof.
  induction l as [|x l IH]; intro H; simpl map.
  - reflexivity.
  - rewrite !Qsum_cons. rewrite (H x (or_introl eq_refl)).
    rewrite IH; [reflexivity|]. intros y Hy. apply H. right. exact Hy.
Qed.

Lemma Qsum_map_zero {A} (l : list A) : Qsum (map (fun _ => 0) l) == 0.
Proof.
  induction l as [|x l IH]; simpl map; [reflexivity|]. rewrite Qsum_cons, IH. lra.
Qed.

Lemma contribution_absent (ids : list string) a :
  ~ In (unique_id (a_cargo a)) ids ->
  Qsum (map (fun uid => contribution uid a) ids) == 0.
Proof.
  induction ids as [|uid ids IH]; intro H; simpl map; [reflexivity|].
  rewrite Qsum_cons. rewrite IH by (intro; apply H; right; assumption).
  unfold contribution. destruct (String.eqb _ uid) eqn:E.
  - apply String.eqb_eq in E. exfalso. apply H. left. auto.
  - lra.
Qed.

Lemma contribution_once (ids : list string) a :
  NoDup ids -> In (unique_id (a_cargo a)) ids ->
  Qsum (map (fun uid => contribution uid a) ids) == quantity_loaded a.
Proof.
  induction ids as [|uid ids IH]; intros Hnd Hin; [contradiction|].
  inversion Hnd; subst. simpl map. rewrite Qsum_cons.
  destruct Hin as [Hin | Hin].
  - subst uid. rewrite contribution_absent by assumption.
    unfold contribution. rewrite String.eqb_refl. lra.
  - rewrite IH by assumption. unfold contribution.
    destruct (String.eqb _ uid) eqn:E; [|lra].
    apply String.eqb_eq in E. subst uid. contradiction.
Qed.

Lemma cargo_total_as_fold p uid :
  get_cargo_total_loaded p uid
  = fold_left (loaded_step uid) (dict_values (assignments p)) 0.
Proof. reflexivity. Qed.

Lemma loaded_by_cargo_sums (ids : list string) (l : list TankAssignment) :
  NoDup ids ->
  (forall a, In a l -> In (unique_id (a_cargo a)) ids) ->
  Qsum (map (fun uid => fold_left (loaded_step uid) l 0) ids)
  == Qsum (map quantity_loaded l).
Proof.
  intros Hnd. induction l as [|a l IH]; intro H.
  - simpl. apply Qsum_map_zero.
  - rewrite (Qsum_map_ext _ (fun uid => contribution uid a
                                        + fold_left (loaded_step uid) l 0))
      by (intros; apply loaded_fold_cons).
    rewrite Qsum_map_plus. simpl map. rewrite Qsum_cons.
    rewrite contribution_once; auto.
    + rewrite IH; [reflexivity|]. intros b Hb. apply H. right. exact Hb.
    + apply H. left. reflexivity.
Qed.

(** X2. The loaded total of a plan is the sum of the loaded totals of its
    cargos: for any duplicate-free list of cargo ids that covers the cargos
    of the plan's assignments, adding up [get_cargo_total_loaded] over the
    list gives [get_total_loaded]; and a cargo id that no assignment carries
    has a loaded total of 0. *)
Theorem total_loaded_splits_by_cargo :
  forall p ids,
    NoDup ids ->
    (forall tid a, In (tid, a) (assignments p) -> In (unique_id (a_cargo a)) ids) ->
    Qsum (map (get_cargo_total_loaded p) ids) == get_total_loaded p /\
    (forall uid, ~ In uid ids -> get_cargo_total_loaded p uid == 0).
Proof.
  intros p ids Hnd Hcover.
  assert (Hc : forall a, In a (dict_values (assignments p)) ->
                         In (unique_id (a_cargo a)) ids).
  { intros a Ha. unfold dict_values in Ha. apply in_map_iff in Ha.
    destruct Ha as [[tid a'] [E Hin]]. simpl in E. subst a'. eapply Hcover; eauto. }
  split.
  - unfold get_total_loaded.
    rewrite <- (loaded_by_cargo_sums ids (dict_values (assignments p)) Hnd Hc).
    apply Qsum_map_ext. intros uid _. rewrite cargo_total_as_fold. reflexivity.
  - intros uid Hno. rewrite cargo_total_as_fold.
    revert Hc. generalize (dict_values (assignments p)).
    induction l as [|a l IH]; intro Hc; [reflexivity|].
    rewrite loaded_fold_cons. rewrite IH by (intros b Hb; apply Hc; right; exact Hb).
    unfold contribution. destruct (String.eqb _ uid) eqn:E; [|lra].
    apply String.eqb_eq in E. exfalso. apply Hno. rewrite <- E. apply Hc. left. reflexivity.
Qed.

Lemma total_loaded_splits_by_cargo_witness :
  let A := Examples.regular "A" 96 in
  let B := Examples.regular "B" 3 in
  let p := add_assignment
             (add_assignment
                (StowagePlan_new Examples.env0 "one row" "s3" [A; B] "Yeni Plan")
                "t0" (mkAssignment "t0" A 96))
             "t1" (mkAssignment "t1" B 3) in
  Qsum (map (get_cargo_total_loaded p) ["A"; "B"]%string) == get_total_loaded p /\
  get_total_loaded p == 99.
Proof.
  cbv zeta. split; [|reflexivity].
  apply (total_loaded_splits_by_cargo
           (add_assignment
              (add_assignment
                 (StowagePlan_new Examples.env0 "one row" "s3"
                    [Examples.regular "A" 96; Examples.regular "B" 3] "Yeni Plan")
                 "t0" (mkAssignment "t0" (Examples.regular "A" 96) 96))
              "t1" (mkAssignment "t1" (Examples.regular "B" 3) 3))
           ["A"; "B"]%string).
  - repeat constructor; simpl; intuition discriminate.
  - intros tid a Hin. simpl in Hin.
    destruct Hin as [H | [H | []]]; inversion H; subst; simpl; auto.
Defined.

(** ** The cargo still to be planned *)

Lemma map_receiver_copy (rs : list Receiver) :
  map (fun r => mkReceiver (r_name r)) rs = rs.
Proof.
  induction rs as [|[n] rs IH]; simpl; [reflexivity|]. rewrite IH. reflexivity.
Qed.

(** What the constructor does with a quantity above 0.001: it keeps it. *)
Lemma Cargo_new_remaining e ct q rs uid m ot od :
  eps < q ->
  Cargo_new e ct (Some q) rs uid m ot od
  = mkCargo ct (Some q) rs (if String.eqb uid "" then env_uuid4 e else uid) m ot od.
Proof.
  intro Hq. unfold Cargo_new, Cargo_post_init. simpl.
  assert (Hz : Qeq_bool q 0 = false).
  { destruct (Qeq_bool q 0) eqn:E; auto. apply Qeq_bool_eq in E.
    rewrite E in Hq. vm_compute in Hq. discriminate. }
  rewrite Hz. simpl. destruct ot, od; reflexivity.
Qed.

Lemma remaining_cargos_from_spec envs p fixed : forall l i c',
  In c' (remaining_cargos_from envs i p fixed l) ->
  exists c j,
    In c l /\
    eps < cq c - add_fixed_loaded fixed (unique_id c)
                                  (get_cargo_total_loaded p (unique_id c)) /\
    c' = mkCargo (cargo_type c)
                 (Some (cq c - add_fixed_loaded fixed (unique_id c)
                                 (get_cargo_total_loaded p (unique_id c))))
                 (receivers c)
                 (if String.eqb (unique_id c) "" then env_uuid4 (envs j)
                  else unique_id c)
                 (is_mandatory c) (ton c) (density c).
Proof.
  induction l as [|c l IH]; intros i c' H; simpl in H; [contradiction|].
  destruct (Qgtb _ eps) eqn:E.
  - apply Qgtb_gt in E. destruct H as [H | H].
    + exists c, i. split; [left; reflexivity|]. split; [exact E|].
      rewrite <- H. rewrite Cargo_new_remaining by exact E.
      rewrite map_receiver_copy. reflexivity.
    + destruct (IH _ _ H) as [c0 [j [H1 H2]]]. exists c0, j. split; [right|]; auto.
  - destruct (IH _ _ H) as [c0 [j [H1 H2]]]. exists c0, j. split; [right|]; auto.
Qed.

Lemma remaining_cargos_from_none envs p fixed : forall l i,
  (forall c, In c l ->
     cq c - add_fixed_loaded fixed (unique_id c)
                             (get_cargo_total_loaded p (unique_id c)) <= eps) ->
  remaining_cargos_from envs i p fixed l = [].
Proof.
  induction l as [|c l IH]; intros i H; simpl; [reflexivity|].
  destruct (Qgtb _ eps) eqn:E.
  - apply Qgtb_gt in E. specialize (H c (or_introl eq_refl)). lra.
  - apply IH. intros c0 Hc0. apply H. right. exact Hc0.
Qed.

Lemma add_fixed_loaded_acc fixed uid x :
  add_fixed_loaded fixed uid x == x + add_fixed_loaded fixed uid 0.
Proof.
  unfold add_fixed_loaded. revert x.
  induction fixed as [|[tid a] fixed IH]; intro x; simpl; [lra|].
  rewrite IH. rewrite (IH (if String.eqb _ uid then _ else _)).
  destruct (String.eqb _ uid); lra.
Qed.

(** X3. [get_remaining_cargos] lists, in the order of the requests, a copy
    of every requested cargo of which more than 0.001 is neither loaded in
    the plan nor covered by a fixed assignment, with what is left as its
    quantity and every other field unchanged (a cargo without an id gets a
    fresh one); the loaded and the fixed quantities add up; and when no
    request has more than 0.001 left, the list is empty. *)
Theorem remaining_cargos_are_the_open_requests :
  forall envs p fixed,
    let left c :=
      cq c - add_fixed_loaded (or_default [] fixed) (unique_id c)
                              (get_cargo_total_loaded p (unique_id c)) in
    (forall c', In c' (get_remaining_cargos envs p fixed) ->
       exists c j,
         In c (cargo_requests p) /\ eps < left c /\
         c' = mkCargo (cargo_type c) (Some (left c)) (receivers c)
                      (if String.eqb (unique_id c) "" then env_uuid4 (envs j)
                       else unique_id c)
                      (is_mandatory c) (ton c) (density c)) /\
    (forall c, left c == cq c - get_cargo_total_loaded p (unique_id c)
                         - add_fixed_loaded (or_default [] fixed) (unique_id c) 0) /\
    ((forall c, In c (cargo_requests p) -> left c <= eps) ->
     get_remaining_cargos envs p fixed = []) /\
    (length (get_remaining_cargos envs p fixed) <= length (cargo_requests p))%nat.
Proof.
  intros envs p fixed left. unfold get_remaining_cargos.
  split; [intros c' H; apply (remaining_cargos_from_spec _ _ _ _ _ _ H)|].
  split; [intro c; unfold left; rewrite add_fixed_loaded_acc; lra|].
  split; [apply remaining_cargos_from_none|].
  generalize 0%nat. induction (cargo_requests p) as [|c l IH]; intro i; simpl; [lia|].
  destruct (Qgtb _ eps); simpl; specialize (IH (S i)); lia.
Qed.

(** A plan that holds 60 of a cargo of 100, with 15 more in a fixed
    assignment, has 25 of it left. *)
Lemma remaining_cargos_are_the_open_requests_witness :
  let A := Examples.regular "A" 100 in
  let p := add_assignment
             (StowagePlan_new Examples.env0 "one row" "s3" [A] "Yeni Plan")
             "t0" (mkAssignment "t0" A 60) in
  let fixed := Some [("t1"%string, mkAssignment "t1" A 15)] in
  Forall (fun c' => exists q, quantity c' = Some q /\ q == 25 /\ unique_id c' = "A"%string)
         (get_remaining_cargos (fun _ => Examples.env0) p fixed).
Proof.
  cbv zeta. apply Forall_forall. intros c' H.
  destruct (proj1 (remaining_cargos_are_the_open_requests
                     (fun _ => Examples.env0)
                     (add_assignment
                        (StowagePlan_new Examples.env0 "one row" "s3"
                                         [Examples.regular "A" 100] "Yeni Plan")
                        "t0" (mkAssignment "t0" (Examples.regular "A" 100) 60))
                     (Some [("t1"%string, mkAssignment "t1" (Examples.regular "A" 100) 15)]))
                  c' H) as [c [j [Hc [_ Hc']]]].
  simpl in Hc. destruct Hc as [Hc | []]. subst c. subst c'.
  eexists. split; [reflexivity|]. split; [vm_compute; reflexivity | reflexivity].
Defined.

Lemma unfulfilled_from_spec envs envs' p : forall l i j,
  map (fun c => (cargo_type c, quantity c, receivers c))
      (GreedyOptimizer.unfulfilled_from envs i p l)
  = map (fun c => (cargo_type c, quantity c, receivers c))
        (remaining_cargos_from envs' j p [] l) /\
  Forall (fun c => is_mandatory c = false /\ ton c = None /\ density c = None /\
                   exists k, unique_id c = env_uuid4 (envs k))
         (GreedyOptimizer.unfulfilled_from envs i p l).
Proof.
  induction l as [|c l IH]; intros i j; [split; [reflexivity | constructor]|].
  cbn [GreedyOptimizer.unfulfilled_from remaining_cargos_from].
  change (add_fixed_loaded [] (unique_id c) (get_cargo_total_loaded p (unique_id c)))
    with (get_cargo_total_loaded p (unique_id c)).
  destruct (Qgtb _ eps) eqn:E.
  - apply Qgtb_gt in E. destruct (IH (S i) (S j)) as [H1 H2].
    rewrite !Cargo_new_remaining by exact E. split.
    + cbn [map]. rewrite H1. rewrite map_receiver_copy. reflexivity.
    + constructor; [|exact H2]. simpl. repeat split. exists i. reflexivity.
  - apply IH.
Qed.

(** X4. [StowageOptimizer.get_unfulfilled_cargo] lists the same open
    requests as [get_remaining_cargos] without fixed assignments, with the
    same types, quantities and receivers in the same order, but its copies do
    not keep the identity of the request: each gets a fresh [unique_id], is
    not mandatory and has neither ton nor density. *)
Theorem unfulfilled_cargo_does_not_keep_identity :
  forall envs envs' p,
    map (fun c => (cargo_type c, quantity c, receivers c))
        (GreedyOptimizer.get_unfulfilled_cargo envs p)
    = map (fun c => (cargo_type c, quantity c, receivers c))
          (get_remaining_cargos envs' p None) /\
    Forall (fun c => is_mandatory c = false /\ ton c = None /\ density c = None /\
                     exists k, unique_id c = env_uuid4 (envs k))
           (GreedyOptimizer.get_unfulfilled_cargo envs p).
Proof.
  intros envs envs' p. apply unfulfilled_from_spec.
Qed.

(** ** The tanks still to be planned *)

Lemma existsb_app_str k (l1 l2 : list string) :
  str_in k (l1 ++ l2) = str_in k l1 || str_in k l2.
Proof. unfold str_in. apply existsb_app. Qed.

Lemma initial_available_keys ship excluded tid :
  In tid (dict_keys (AdvancedStowageOptimizer.initial_available ship excluded)) <->
  exists t, In t (tanks ship) /\ t_id t = tid /\ str_in tid excluded = false.
Proof.
  unfold AdvancedStowageOptimizer.initial_available.
  assert (G : forall l d,
    In tid (dict_keys (fold_left
      (fun available_tanks tank =>
         if str_in (t_id tank) excluded then available_tanks
         else dict_set (t_id tank) (volume tank) available_tanks) l d)) <->
    In tid (dict_keys d) \/
    exists t, In t l /\ t_id t = tid /\ str_in tid excluded = false).
  { induction l as [|t l IH]; intro d; simpl.
    - split; [auto | intros [H | [t [[] _]]]; auto].
    - rewrite IH. destruct (str_in (t_id t) excluded) eqn:E.
      + split.
        * intros [H | [t0 [H1 H2]]]; auto. right. exists t0. auto.
        * intros [H | [t0 [[H1 | H1] [H2 H3]]]]; auto.
          -- subst. congruence.
          -- right. exists t0. auto.
      + split.
        * intros [H | [t0 [H1 H2]]].
          -- apply dict_keys_set_incl in H. destruct H as [H | H]; auto.
             right. exists t. subst. auto.
          -- right. exists t0. auto.
        * intros [H | [t0 [[H1 | H1] [H2 H3]]]].
          -- left. clear - H. induction d as [|[x w] d IHd]; simpl in *; [contradiction|].
             destruct (String.eqb (t_id t) x); simpl; destruct H; auto.
          -- subst. left. clear.
             induction d as [|[x w] d IHd]; simpl; auto.
             destruct (String.eqb (t_id t0) x) eqn:E; simpl; auto.
             left. apply String.eqb_eq in E. auto.
          -- right. exists t0. auto. }
  rewrite G. simpl. split; [intros [[] | H]; auto | auto].
Qed.

(** X5. Both engines start from the tanks that
    [StowagePlan.get_remaining_tanks] lists: the tanks of the ship that are
    neither excluded nor the tank of a fixed assignment, whatever the plan
    already assigns. *)
Theorem engines_start_from_the_remaining_tanks :
  forall p ship cargos excluded fixed settings,
    GeneticOptimizer.available_tanks
      (GeneticOptimizer.init ship cargos excluded fixed settings)
    = get_remaining_tanks p ship fixed excluded /\
    (forall tid,
       In tid (dict_keys (AdvancedStowageOptimizer.initial_available ship
                            (or_default [] excluded ++ dict_keys (or_default [] fixed)))) <->
       In tid (map t_id (get_remaining_tanks p ship fixed excluded))) /\
    (forall t, In t (get_remaining_tanks p ship fixed excluded) <->
       In t (tanks ship) /\ ~ In (t_id t) (or_default [] excluded) /\
       ~ In (t_id t) (dict_keys (or_default [] fixed))) /\
    (forall tid a,
       get_remaining_tanks (add_assignment p tid a) ship fixed excluded
       = get_remaining_tanks p ship fixed excluded).
Proof.
  intros p ship cargos excluded fixed settings.
  assert (F : forall t,
    In t (get_remaining_tanks p ship fixed excluded) <->
    In t (tanks ship) /\ ~ In (t_id t) (or_default [] excluded) /\
    ~ In (t_id t) (dict_keys (or_default [] fixed))).
  { intro t. unfold get_remaining_tanks. rewrite filter_In.
    rewrite andb_true_iff, !negb_true_iff.
    split; intros [H1 [H2 H3]]; (split; [exact H1|]).
    - split; intro H; apply str_in_In in H; congruence.
    - split.
      + destruct (str_in (t_id t) (dict_keys (or_default [] fixed))) eqn:E; auto.
        apply str_in_In in E. contradiction.
      + destruct (str_in (t_id t) (or_default [] excluded)) eqn:E; auto.
        apply str_in_In in E. contradiction. }
  split.
  - unfold GeneticOptimizer.init, get_remaining_tanks. simpl.
    apply filter_ext. intro t. rewrite existsb_app_str.
    destruct (str_in (t_id t) (or_default [] excluded));
      destruct (str_in (t_id t) (dict_keys (or_default [] fixed))); reflexivity.
  - split; [|split; [exact F | reflexivity]].
    intro tid. rewrite initial_available_keys. rewrite in_map_iff. split.
    + intros [t [H1 [H2 H3]]]. exists t. split; [exact H2|]. apply F.
      rewrite existsb_app_str in H3. apply orb_false_iff in H3. destruct H3 as [H3 H4].
      split; [exact H1|]. split; intro H; apply str_in_In in H; congruence.
    + intros [t [H1 H2]]. apply F in H2. destruct H2 as [H2 [H3 H4]].
      exists t. split; [exact H2|]. split; [exact H1|].
      rewrite existsb_app_str. apply orb_false_iff. subst tid.
      split.
      * destruct (str_in (t_id t) (or_default [] excluded)) eqn:E; auto.
        apply str_in_In in E. contradiction.
      * destruct (str_in (t_id t) (dict_keys (or_default [] fixed))) eqn:E; auto.
        apply str_in_In in E. contradiction.
Qed.

(** ** Serialisation round trips *)

Lemma Cargo_round_trip_post_init e c q :
  quantity c = Some q ->
  Cargo_from_dict e (Cargo_to_dict c) = Some (Cargo_post_init e c).
Proof.
  intro Hq. unfold Cargo_to_dict, Cargo_from_dict. simpl.
  rewrite receivers_round_trip.
  unfold jnum_field, jget. simpl. rewrite Hq. simpl.
  destruct c as [ct oq rs uid m ot od]. simpl in *. subst oq.
  destruct ot as [t|]; destruct od as [d|]; reflexivity.
Qed.

Lemma Cargo_post_init_stable e c q :
  quantity c = Some q -> ~ q == 0 -> unique_id c <> ""%string ->
  Cargo_post_init e c = c.
Proof.
  intros Hq Hnz Hid. destruct c as [ct oq rs uid m ot od]. simpl in *. subst oq.
  unfold Cargo_post_init. simpl.
  assert (E : String.eqb uid "" = false) by (apply String.eqb_neq; exact Hid).
  rewrite E.
  assert (Hz : Qeq_bool q 0 = false).
  { destruct (Qeq_bool q 0) eqn:Ez; auto. apply Qeq_bool_eq in Ez. contradiction. }
  rewrite Hz. simpl. destruct ot, od; reflexivity.
Qed.

Lemma TankAssignment_from_to e a :
  TankAssignment_from_dict e (TankAssignment_to_dict a)
  = match Cargo_from_dict e (Cargo_to_dict (a_cargo a)) with
    | Some cargo => Some (mkAssignment (a_tank_id a) cargo (quantity_loaded a))
    | None => None
    end.
Proof. reflexivity. Qed.

(** X6. Reading back what [to_dict] wrote runs the constructor again:
    [Cargo.from_dict(c.to_dict())] is [c] after [__post_init__], for a cargo
    whose quantity is a number. So a cargo with an id and a quantity that is
    not zero, and a tank assignment of such a cargo, come back unchanged. *)
Theorem cargo_and_assignment_round_trip :
  (forall e c q,
      quantity c = Some q ->
      Cargo_from_dict e (Cargo_to_dict c) = Some (Cargo_post_init e c)) /\
  (forall e c q,
      quantity c = Some q -> ~ q == 0 -> unique_id c <> ""%string ->
      Cargo_from_dict e (Cargo_to_dict c) = Some c) /\
  (forall e a q,
      quantity (a_cargo a) = Some q -> ~ q == 0 -> unique_id (a_cargo a) <> ""%string ->
      TankAssignment_from_dict e (TankAssignment_to_dict a) = Some a).
Proof.
  split; [intros; eapply Cargo_round_trip_post_init; eauto|].
  split.
  - intros e c q Hq Hnz Hid. rewrite (Cargo_round_trip_post_init e c q Hq).
    rewrite (Cargo_post_init_stable e c q); auto.
  - intros e a q Hq Hnz Hid. rewrite TankAssignment_from_to.
    rewrite (Cargo_round_trip_post_init e _ q Hq).
    rewrite (Cargo_post_init_stable e _ q); auto. destruct a; reflexivity.
Qed.

Lemma cargo_and_assignment_round_trip_witness :
  let c := mkCargo "oil" (Some 7) [mkReceiver "R1"] "c1" true (Some 12) (Some (3 # 2)) in
  TankAssignment_from_dict Examples.env0
    (TankAssignment_to_dict (mkAssignment "t0" c 7)) = Some (mkAssignment "t0" c 7).
Proof.
  cbv zeta.
  apply (proj2 (proj2 cargo_and_assignment_round_trip) Examples.env0
           (mkAssignment "t0"
              (mkCargo "oil" (Some 7) [mkReceiver "R1"] "c1" true (Some 12) (Some (3 # 2)))
              7) 7).
  - reflexivity.
  - intro H. discriminate H.
  - simpl. discriminate.
Defined.

(** ** Receivers of a cargo *)

Lemma Receiver_eqb_eq a b : Receiver_eqb a b = true <-> a = b.
Proof.
  destruct a as [x], b as [y]. unfold Receiver_eqb. simpl. rewrite String.eqb_eq.
  split; intro H; [subst; reflexivity | inversion H; reflexivity].
Qed.

Lemma receiver_known rs r :
  existsb (fun x => Receiver_eqb x r) rs = true <-> In r rs.
Proof.
  rewrite existsb_exists. split.
  - intros [x [H1 H2]]. apply Receiver_eqb_eq in H2. subst. exact H1.
  - intro H. exists r. split; [exact H|]. apply Receiver_eqb_eq. reflexivity.
Qed.

(** X7. [Cargo.add_receiver] keeps the receivers a set kept in order of
    arrival: the receiver is present afterwards, the receivers already
    present keep their places, adding a receiver a second time changes
    nothing, and no duplicate is ever created. *)
Theorem add_receiver_adds_once :
  forall c r,
    In r (receivers (add_receiver c r)) /\
    (exists tail, receivers (add_receiver c r) = (receivers c ++ tail)%list) /\
    add_receiver (add_receiver c r) r = add_receiver c r /\
    (In r (receivers c) -> add_receiver c r = c) /\
    (NoDup (receivers c) -> NoDup (receivers (add_receiver c r))).
Proof.
  intros c r. unfold add_receiver.
  destruct (existsb (fun x => Receiver_eqb x r) (receivers c)) eqn:E.
  - assert (Hin : In r (receivers c)) by (apply receiver_known; exact E).
    split; [exact Hin|]. split; [exists []; rewrite app_nil_r; reflexivity|].
    rewrite E. repeat split; auto.
  - assert (Hin : ~ In r (receivers c)).
    { intro H. apply receiver_known in H. congruence. }
    simpl. split; [apply in_or_app; right; left; reflexivity|].
    split; [exists [r]; reflexivity|].
    split.
    + assert (E2 : existsb (fun x => Receiver_eqb x r) (receivers c ++ [r]) = true).
      { apply receiver_known. apply in_or_app. right. left. reflexivity. }
      rewrite E2. reflexivity.
    + split; [intro; contradiction|].
      intro Hnd. apply NoDup_app; auto.
      * constructor; [simpl; tauto | constructor].
      * intros x Hx [Hx' | []]. subst. contradiction.
Qed.

Lemma add_receiver_adds_once_witness :
  let c := mkCargo "oil" (Some 7) [mkReceiver "R1"] "c1" false None None in
  receivers (add_receiver (add_receiver c (mkReceiver "R2")) (mkReceiver "R1"))
    = [mkReceiver "R1"; mkReceiver "R2"] /\
  NoDup (receivers (add_receiver c (mkReceiver "R2"))).
Proof.
  cbv zeta. split; [reflexivity|].
  apply (proj2 (proj2 (proj2 (proj2 (add_receiver_adds_once
           (mkCargo "oil" (Some 7) [mkReceiver "R1"] "c1" false None None)
           (mkReceiver "R2")))))).
  constructor; [simpl; tauto | constructor].
Defined.

(** ** Tanks and their positions *)

Lemma index_of_spec tid : forall l i k,
  index_of tid l i = Some k ->
  exists j t, k = (i + j)%nat /\ nth_error l j = Some t /\ t_id t = tid /\
              find (fun t => String.eqb (t_id t) tid) l = Some t /\
              forall j' t', (j' < j)%nat -> nth_error l j' = Some t' -> t_id t' <> tid.
Proof.
  induction l as [|t l IH]; intros i k H; simpl in H; [discriminate|].
  destruct (String.eqb (t_id t) tid) eqn:E.
  - inversion H; subst. exists 0%nat, t. simpl. rewrite E.
    apply String.eqb_eq in E. repeat split; auto; try lia.
  - destruct (IH _ _ H) as [j [t0 [Hk [Hn [Hid [Hf Hmin]]]]]].
    exists (S j), t0. simpl. rewrite E. repeat split; auto; try lia.
    intros j' t' Hj Hn'. destruct j' as [|j']; simpl in Hn'.
    + inversion Hn'; subst. apply String.eqb_neq. exact E.
    + apply (Hmin j' t'); auto. lia.
Qed.

Lemma index_of_none tid : forall l i,
  index_of tid l i = None <-> ~ In tid (map t_id l).
Proof.
  induction l as [|t l IH]; intro i; simpl; [tauto|].
  destruct (String.eqb (t_id t) tid) eqn:E.
  - apply String.eqb_eq in E. split; [discriminate | intro H; exfalso; auto].
  - apply String.eqb_neq in E. rewrite IH. tauto.
Qed.

Lemma find_tank_none tid : forall l,
  find (fun t => String.eqb (t_id t) tid) l = None <-> ~ In tid (map t_id l).
Proof.
  induction l as [|t l IH]; simpl; [tauto|].
  destruct (String.eqb (t_id t) tid) eqn:E.
  - apply String.eqb_eq in E. split; [discriminate | intro H; exfalso; auto].
  - apply String.eqb_neq in E. rewrite IH. tauto.
Qed.

Lemma row_within_total i n : (i < n)%nat -> (i / 2 + 1 <= (n + 1) / 2)%nat.
Proof.
  intro H. replace (i / 2 + 1)%nat with ((i + 1 * 2) / 2)%nat
    by (rewrite Nat.div_add; lia).
  apply Nat.Div0.div_le_mono. lia.
Qed.

Lemma position_info_none s tid :
  get_tank_position_info s tid = None <-> ~ In tid (map t_id (tanks s)).
Proof.
  unfold get_tank_position_info, get_tank_by_id.
  destruct (find _ (tanks s)) eqn:F.
  - destruct (index_of tid (tanks s) 0) eqn:I.
    + split; [discriminate|]. intro H.
      apply (proj2 (index_of_none tid (tanks s) 0%nat)) in H. congruence.
    + split; [intros _; apply (index_of_none tid (tanks s) 0%nat); exact I | reflexivity].
  - split; [intros _; apply find_tank_none; exact F | reflexivity].
Qed.

Lemma Some_eq {A : Type} (x y : A) : Some x = Some y -> x = y.
Proof. intro H. inversion H. reflexivity. Qed.

Lemma position_info_found s tid t :
  get_tank_by_id s tid = Some t ->
  get_tank_position_info s tid
  = match index_of tid (tanks s) 0 with
    | None => None
    | Some k =>
        Some (mkPos (k / 2 + 1) (if Nat.even k then port else starboard)
                    (if Nat.eqb (k / 2 + 1) 1 then bow
                     else if Nat.eqb (k / 2 + 1) (total_rows_of s) then stern else mid)
                    k)
    end.
Proof. unfold get_tank_position_info. intros ->. reflexivity. Qed.

(** X8. [Ship.get_tank_position_info] reads the position off the place of
    the tank in the list: it answers [None] exactly for an id no tank has;
    otherwise the index is that of the first tank with the id, the one
    [get_tank_by_id] returns, the row is [index // 2 + 1] and lies between 1
    and the number of rows, the side is port on even indices and starboard
    on odd ones, the position is bow exactly in row 1 and stern exactly in
    the last row when that is not row 1. *)
Theorem tank_position_is_read_off_the_index :
  forall s tid,
    (get_tank_position_info s tid = None <-> ~ In tid (map t_id (tanks s))) /\
    (forall info, get_tank_position_info s tid = Some info ->
       (exists t, nth_error (tanks s) (index info) = Some t /\ t_id t = tid /\
                  get_tank_by_id s tid = Some t) /\
       (forall j t, (j < index info)%nat -> nth_error (tanks s) j = Some t ->
                    t_id t <> tid) /\
       row_number info = (index info / 2 + 1)%nat /\
       (1 <= row_number info <= total_rows_of s)%nat /\
       side info = (if Nat.even (index info) then port else starboard) /\
       (position info = bow <-> row_number info = 1%nat) /\
       (position info = stern <->
        row_number info = total_rows_of s /\ row_number info <> 1%nat)).
Proof.
  intros s tid. split; [apply position_info_none|].
  intros info H.
  destruct (get_tank_by_id s tid) as [t0|] eqn:F;
    [|unfold get_tank_position_info in H; rewrite F in H; discriminate].
  rewrite (position_info_found _ _ _ F) in H.
  destruct (index_of tid (tanks s) 0) as [k|] eqn:I; [|discriminate].
  apply Some_eq in H. subst info. cbn [row_number side position index].
  destruct (index_of_spec _ _ _ _ I) as [j [t [Hk [Hn [Hid [Hf Hmin]]]]]].
  simpl in Hk. subst k.
  assert (Hlt : (j < length (tanks s))%nat).
  { apply nth_error_Some. congruence. }
  assert (t0 = t) by (unfold get_tank_by_id in F; congruence). subst t0.
  split; [exists t; repeat split; auto|].
  split; [exact Hmin|]. split; [reflexivity|].
  split; [split; [lia | apply row_within_total; exact Hlt]|].
  split; [reflexivity|].
  destruct (Nat.eqb (j / 2 + 1) 1) eqn:E1.
  - apply Nat.eqb_eq in E1. split; [split; auto|].
    split; [discriminate | intros [_ H]; contradiction].
  - apply Nat.eqb_neq in E1. destruct (Nat.eqb (j / 2 + 1) (total_rows_of s)) eqn:E2.
    + apply Nat.eqb_eq in E2.
      split; [split; [discriminate | intro; contradiction] | split; auto].
    + apply Nat.eqb_neq in E2.
      split; [split; [discriminate | intro; contradiction]|].
      split; [discriminate | intros [H _]; contradiction].
Qed.

Lemma tank_position_is_read_off_the_index_witness :
  exists info,
    get_tank_position_info Examples.ship_two_rows "t3" = Some info /\
    row_number info = 2%nat /\ side info = starboard /\
    (position info = stern <->
     row_number info = total_rows_of Examples.ship_two_rows /\ row_number info <> 1%nat).
Proof.
  eexists. split; [reflexivity|]. split; [reflexivity|]. split; [reflexivity|].
  apply (proj2 (tank_position_is_read_off_the_index Examples.ship_two_rows "t3")).
  reflexivity.
Defined.

(** X9. [Ship.is_bow_tank] and [Ship.is_stern_tank] answer [None] for an
    unknown tank and are never both true; a bow tank is one of the first two
    tanks of the list; and because row 1 is tested first, a ship of one row
    (one or two tanks) has bow tanks only and no stern tank. *)
Theorem bow_and_stern_are_exclusive :
  forall s tid,
    (is_bow_tank s tid = None <-> ~ In tid (map t_id (tanks s))) /\
    (is_stern_tank s tid = None <-> ~ In tid (map t_id (tanks s))) /\
    ~ (is_bow_tank s tid = Some true /\ is_stern_tank s tid = Some true) /\
    (forall info, get_tank_position_info s tid = Some info ->
       is_bow_tank s tid = Some (Nat.ltb (index info) 2)) /\
    ((length (tanks s) <= 2)%nat -> In tid (map t_id (tanks s)) ->
     is_bow_tank s tid = Some true /\ is_stern_tank s tid = Some false).
Proof.
  intros s tid.
  pose proof (tank_position_facts := position_info_none s tid).
  unfold is_bow_tank, is_stern_tank.
  destruct (get_tank_position_info s tid) as [info|] eqn:P.
  - assert (Hin : In tid (map t_id (tanks s))).
    { destruct (in_dec string_dec tid (map t_id (tanks s))) as [H | H]; auto.
      apply tank_position_facts in H. discriminate. }
    destruct (get_tank_by_id s tid) as [t0|] eqn:F;
      [|unfold get_tank_position_info in P; rewrite F in P; discriminate].
    rewrite (position_info_found _ _ _ F) in P.
    destruct (index_of tid (tanks s) 0) as [k|] eqn:I; [|discriminate].
    apply Some_eq in P. subst info. cbn [row_number side position index].
    destruct (index_of_spec _ _ _ _ I) as [j [t [Hk [Hn _]]]]. simpl in Hk. subst k.
    assert (Hlt : (j < length (tanks s))%nat) by (apply nth_error_Some; congruence).
    split; [split; [discriminate | intro; contradiction]|].
    split; [split; [discriminate | intro; contradiction]|].
    assert (Hrow : (j / 2 + 1 = 1 <-> j < 2)%nat).
    { split; intro H.
      - destruct (Nat.lt_ge_cases j 2) as [|Hge]; auto.
        pose proof (Nat.Div0.div_le_mono 2 j 2 Hge) as Hd.
        change (2 / 2)%nat with 1%nat in Hd. lia.
      - rewrite Nat.div_small by lia. lia. }
    split.
    + destruct (Nat.eqb (j / 2 + 1) 1).
      * intro H. destruct H as [_ H]. cbv in H. discriminate H.
      * destruct (Nat.eqb (j / 2 + 1) (total_rows_of s));
          intro H; destruct H as [H _]; cbv in H; discriminate H.
    + split.
      * intros info' H'. apply Some_eq in H'. subst info'.
        cbn [row_number side position index]. f_equal.
        destruct (Nat.eqb (j / 2 + 1) 1) eqn:E1.
        -- apply Nat.eqb_eq in E1. apply Hrow in E1. symmetry. apply Nat.ltb_lt. exact E1.
        -- apply Nat.eqb_neq in E1.
           assert (~ (j < 2)%nat) by (intro Hj; apply E1; apply Hrow; exact Hj).
           destruct (Nat.eqb (j / 2 + 1) (total_rows_of s)); cbn [Position_eqb];
             symmetry; apply Nat.ltb_ge; lia.
      * intros Hlen _.
        assert (E1 : Nat.eqb (j / 2 + 1) 1 = true).
        { apply Nat.eqb_eq. apply Hrow. lia. }
        rewrite E1. cbn [Position_eqb]. auto.
  - assert (Hno : ~ In tid (map t_id (tanks s))) by (apply tank_position_facts; reflexivity).
    split; [tauto|]. split; [tauto|]. split; [intros [H _]; discriminate H|].
    split; [intros info H; discriminate H | intros _ H; contradiction].
Qed.

Lemma bow_and_stern_are_exclusive_witness :
  is_bow_tank Examples.ship_one_row "t1" = Some true /\
  is_stern_tank Examples.ship_one_row "t1" = Some false.
Proof.
  apply (proj2 (proj2 (proj2 (proj2
           (bow_and_stern_are_exclusive Examples.ship_one_row "t1"))))).
  - simpl. lia.
  - simpl. auto.
Defined.

(** ** Port and starboard pairs *)

(** The rows the first loop of [get_tank_pairs] builds from row [k] on. *)
Fixpoint rows_from (k : nat) (l : list Tank) : list (nat * RowGroup) :=
  match l with
  | p :: s :: r => (k, (Some p, Some s)) :: rows_from (S k) r
  | [p] => [(k, (Some p, None))]
  | [] => []
  end.

Lemma groups_get_absent row v (g : list (nat * RowGroup)) :
  (forall x, In x (map fst g) -> x <> row) ->
  groups_get row g = None /\ groups_set row v g = (g ++ [(row, v)])%list.
Proof.
  induction g as [|[x w] g IH]; intro H; simpl; [auto|].
  destruct (Nat.eqb row x) eqn:E.
  - apply Nat.eqb_eq in E. exfalso. apply (H x); simpl; auto.
  - destruct IH as [H1 H2]; [intros y Hy; apply H; simpl; auto|].
    rewrite H1, H2. auto.
Qed.

Lemma groups_get_last row v w (g : list (nat * RowGroup)) :
  (forall x, In x (map fst g) -> x <> row) ->
  groups_get row (g ++ [(row, v)]) = Some v /\
  groups_set row w (g ++ [(row, v)]) = (g ++ [(row, w)])%list.
Proof.
  induction g as [|[x u] g IH]; intro H; simpl.
  - rewrite Nat.eqb_refl. auto.
  - destruct (Nat.eqb row x) eqn:E.
    + apply Nat.eqb_eq in E. exfalso. apply (H x); simpl; auto.
    + destruct IH as [H1 H2]; [intros y Hy; apply H; simpl; auto|].
      rewrite H1, H2. auto.
Qed.

Lemma even_double k : Nat.even (2 * k) = true.
Proof. rewrite Nat.even_mul. reflexivity. Qed.

Lemma even_double_succ k : Nat.even (S (2 * k)) = false.
Proof. rewrite Nat.even_succ. rewrite <- Nat.negb_even, even_double. reflexivity. Qed.

Lemma half_double k : (2 * k / 2 = k)%nat.
Proof. rewrite Nat.mul_comm. apply Nat.div_mul. discriminate. Qed.

Lemma half_double_succ k : (S (2 * k) / 2 = k)%nat.
Proof.
  replace (S (2 * k)) with (1 + k * 2)%nat by lia.
  rewrite Nat.div_add by discriminate. reflexivity.
Qed.

Lemma rows_from_keys : forall n l k, (length l <= n)%nat ->
  forall x, In x (map fst (rows_from k l)) -> (k <= x)%nat.
Proof.
  induction n as [|n IH]; intros l k Hlen x H.
  - destruct l; [contradiction | simpl in Hlen; lia].
  - destruct l as [|p [|s r]]; simpl in H; try contradiction.
    + destruct H as [H | []]. lia.
    + destruct H as [H | H]; [lia|].
      assert (Hr : (length r <= n)%nat) by (simpl in Hlen; lia).
      specialize (IH r (S k) Hr x H). lia.
Qed.

(** The body of the first loop of [get_tank_pairs]. *)
Definition group_step (st : list (nat * RowGroup) * nat) (tank : Tank)
    : list (nat * RowGroup) * nat :=
  let '(tank_groups, idx) := st in
  let row_number := (idx / 2 + 1)%nat in
  let tank_groups :=
    match groups_get row_number tank_groups with
    | None => groups_set row_number (None, None) tank_groups
    | Some _ => tank_groups
    end in
  let '(p, sb) := or_default (None, None) (groups_get row_number tank_groups) in
  let group := if Nat.even idx then (Some tank, sb) else (p, Some tank) in
  (groups_set row_number group tank_groups, S idx).

Lemma group_step_port g k p :
  (forall x, In x (map fst g) -> x <> (k + 1)%nat) ->
  group_step (g, (2 * k)%nat) p = ((g ++ [((k + 1)%nat, (Some p, None))])%list, S (2 * k)).
Proof.
  intro Hfresh. unfold group_step. cbv beta iota zeta.
  rewrite half_double, even_double.
  destruct (groups_get_absent (k + 1) (None, None) g Hfresh) as [H1 H2].
  rewrite H1, H2.
  destruct (groups_get_last (k + 1) (None, None) (Some p, None) g Hfresh) as [H3 H4].
  rewrite H3. cbn [or_default]. rewrite H4. reflexivity.
Qed.

Lemma group_step_starboard g k p s :
  (forall x, In x (map fst g) -> x <> (k + 1)%nat) ->
  group_step ((g ++ [((k + 1)%nat, (Some p, None))])%list, S (2 * k)) s
  = ((g ++ [((k + 1)%nat, (Some p, Some s))])%list, (2 * (k + 1))%nat).
Proof.
  intro Hfresh. unfold group_step. cbv beta iota zeta.
  rewrite half_double_succ, even_double_succ.
  destruct (groups_get_last (k + 1) (Some p, None) (Some p, Some s) g Hfresh)
    as [H5 H6].
  unfold RowGroup in *. rewrite H5. cbn [or_default]. rewrite H5.
  cbn [or_default]. rewrite H6. f_equal. lia.
Qed.

(** The state of the first loop after the tanks [l], entered at an even
    index [2 * k] with the rows before [k + 1] in [g]. *)
Lemma tank_groups_fold : forall n l k g, (length l <= n)%nat ->
  (forall x, In x (map fst g) -> (x <= k)%nat) ->
  fst (fold_left group_step l (g, (2 * k)%nat)) = (g ++ rows_from (k + 1) l)%list.
Proof.
  induction n as [|n IH]; intros l k g Hlen Hg.
  - destruct l; [simpl; rewrite app_nil_r; reflexivity | simpl in Hlen; lia].
  - assert (Hfresh : forall x, In x (map fst g) -> x <> (k + 1)%nat).
    { intros x Hx. specialize (Hg x Hx). lia. }
    destruct l as [|p [|s r]].
    + simpl. rewrite app_nil_r. reflexivity.
    + cbn [fold_left rows_from]. rewrite group_step_port by exact Hfresh. reflexivity.
    + cbn [fold_left rows_from]. rewrite group_step_port by exact Hfresh.
      rewrite group_step_starboard by exact Hfresh.
      rewrite IH.
      * rewrite <- app_assoc. replace (k + 1 + 1)%nat with (S (k + 1)) by lia. reflexivity.
      * simpl in Hlen. lia.
      * intros x Hx. rewrite map_app in Hx. apply in_app_or in Hx.
        destruct Hx as [Hx | [Hx | []]]; [specialize (Hg x Hx); lia | simpl in Hx; lia].
Qed.

Lemma fold_left_pointwise {A B : Type} (f g : A -> B -> A) :
  (forall a b, f a b = g a b) ->
  forall l a, fold_left f l a = fold_left g l a.
Proof.
  intros H l. induction l as [|b l IH]; intro a; simpl; [reflexivity|].
  rewrite H. apply IH.
Qed.

Lemma tank_groups_of_rows l : tank_groups_of l = rows_from 1 l.
Proof.
  unfold tank_groups_of.
  rewrite (fold_left_pointwise _ group_step) by (intros [g i] t; reflexivity).
  apply (tank_groups_fold (length l) l 0 [] (le_n _)). intros x [].
Qed.

Lemma insert_sorted_last (x : nat) (acc : list nat) :
  (forall y, In y acc -> (y < x)%nat) ->
  insert_sorted Nat.ltb x acc = (acc ++ [x])%list.
Proof.
  induction acc as [|y acc IH]; intro H; simpl; [reflexivity|].
  assert (Hy : (y < x)%nat) by (apply H; left; reflexivity).
  destruct (Nat.ltb x y) eqn:E; [apply Nat.ltb_lt in E; lia|].
  rewrite IH; auto. intros z Hz. apply H. right. exact Hz.
Qed.

(** Strictly increasing, from [k] on. *)
Fixpoint increasing_from (k : nat) (l : list nat) : Prop :=
  match l with
  | [] => True
  | x :: r => (k <= x)%nat /\ increasing_from (S x) r
  end.

Lemma sorted_by_increasing : forall (l : list nat) k (acc : list nat),
  (forall y, In y acc -> (y < k)%nat) ->
  increasing_from k l ->
  fold_left (fun acc x => insert_sorted Nat.ltb x acc) l acc = (acc ++ l)%list.
Proof.
  induction l as [|x l IH]; intros k acc Hacc Hs; simpl; [rewrite app_nil_r; reflexivity|].
  destruct Hs as [Hk Hs].
  rewrite insert_sorted_last by (intros y Hy; specialize (Hacc y Hy); lia).
  rewrite (IH (S x)); auto.
  - rewrite <- app_assoc. reflexivity.
  - intros y Hy. apply in_app_or in Hy. destruct Hy as [Hy | [Hy | []]].
    + specialize (Hacc y Hy). lia.
    + lia.
Qed.

Lemma rows_from_increasing : forall n l k, (length l <= n)%nat ->
  increasing_from k (map fst (rows_from k l)).
Proof.
  induction n as [|n IH]; intros l k Hlen.
  - destruct l; [exact I | simpl in Hlen; lia].
  - destruct l as [|p [|s r]]; simpl.
    + exact I.
    + split; [lia | exact I].
    + split; [lia|]. apply IH. simpl in Hlen. lia.
Qed.

Lemma pairs_from_rows : forall n l k keys g, (length l <= n)%nat ->
  (forall x, In x keys -> (k <= x)%nat) ->
  (forall x, (k <= x)%nat -> groups_get x g = groups_get x (rows_from k l)) ->
  keys = map fst (rows_from k l) ->
  flat_map (fun row_number =>
              match groups_get row_number g with
              | Some (Some p, Some sb) => [(p, sb)]
              | _ => []
              end) keys
  = pairs_of l.
Proof.
  induction n as [|n IH]; intros l k keys g Hlen Hk Hg E.
  - destruct l; [subst; reflexivity | simpl in Hlen; lia].
  - destruct l as [|p [|s r]]; simpl in E; subst keys.
    + reflexivity.
    + simpl. rewrite Hg by lia. simpl. rewrite Nat.eqb_refl. reflexivity.
    + cbn [flat_map map fst pairs_of]. rewrite Hg by lia. simpl groups_get.
      rewrite Nat.eqb_refl. simpl app. f_equal.
      assert (Hr : (length r <= n)%nat) by (simpl in Hlen; lia).
      apply (IH r (S k)); auto.
      * intros x Hx. apply (rows_from_keys n r (S k) Hr x Hx).
      * intros x Hx. rewrite Hg by lia. simpl.
        destruct (Nat.eqb x k) eqn:Ex; [apply Nat.eqb_eq in Ex; lia | reflexivity].
Qed.

(** X10. [Ship.get_tank_pairs], followed statement by statement (the rows
    grouped in a dictionary, the keys sorted), returns the tanks at the list
    positions (0, 1), (2, 3), ... in that order: every pair is a port tank at
    an even position with the starboard tank that follows it, there are
    [len(tanks) // 2] pairs, and the last tank of a ship with an odd number
    of tanks is in no pair. *)
Theorem tank_pairs_are_consecutive_tanks :
  forall s,
    get_tank_pairs_by_rows s = get_tank_pairs s /\
    length (get_tank_pairs_by_rows s) = (length (tanks s) / 2)%nat /\
    (forall i p sb, nth_error (get_tank_pairs_by_rows s) i = Some (p, sb) ->
       nth_error (tanks s) (2 * i) = Some p /\
       nth_error (tanks s) (2 * i + 1) = Some sb).
Proof.
  intro s.
  assert (E : get_tank_pairs_by_rows s = get_tank_pairs s).
  { unfold get_tank_pairs_by_rows, get_tank_pairs. cbv zeta.
    rewrite tank_groups_of_rows. unfold sorted_by.
    rewrite (sorted_by_increasing _ 1);
      [|intros y [] | apply (rows_from_increasing (length (tanks s))); apply le_n].
    simpl app.
    apply (pairs_from_rows (length (tanks s)) (tanks s) 1); auto.
    intros x Hx. apply (rows_from_keys (length (tanks s)) (tanks s) 1 (le_n _) x Hx). }
  rewrite E. unfold get_tank_pairs. split; [reflexivity|].
  assert (G : forall n l, (length l <= n)%nat ->
            length (pairs_of l) = (length l / 2)%nat /\
            forall i p sb, nth_error (pairs_of l) i = Some (p, sb) ->
              nth_error l (2 * i) = Some p /\ nth_error l (2 * i + 1) = Some sb).
  { induction n as [|n IH]; intros l Hlen.
    - destruct l; [|simpl in Hlen; lia]. split; [reflexivity|].
      intros i p sb H. destruct i; discriminate H.
    - destruct l as [|x [|y r]].
      + split; [reflexivity|]. intros i p sb H. destruct i; discriminate H.
      + split; [reflexivity|]. intros i p sb H. destruct i; discriminate H.
      + assert (Hr : (length r <= n)%nat) by (simpl in Hlen; lia).
        destruct (IH r Hr) as [H1 H2]. split.
        * cbn [pairs_of length]. rewrite H1.
          replace (S (S (length r))) with (length r + 1 * 2)%nat by lia.
          rewrite Nat.div_add by discriminate. lia.
        * intros i p sb H. destruct i as [|i].
          -- simpl in H. inversion H; subst. auto.
          -- cbn [pairs_of nth_error] in H. destruct (H2 _ _ _ H) as [H3 H4].
             replace (2 * S i)%nat with (S (S (2 * i))) by lia.
             replace (S (S (2 * i)) + 1)%nat with (S (S (2 * i + 1))) by lia.
             simpl nth_error. auto. }
  apply (G (length (tanks s)) (tanks s) (le_n _)).
Qed.

Lemma tank_pairs_are_consecutive_tanks_witness :
  nth_error (tanks Examples.ship_two_rows) 2 = Some (Examples.tank "t2" 50) /\
  nth_error (tanks Examples.ship_two_rows) 3 = Some (Examples.tank "t3" 50).
Proof.
  apply (proj2 (proj2 (tank_pairs_are_consecutive_tanks Examples.ship_two_rows)) 1%nat).
  reflexivity.
Defined.

(** ** The acceptance tests of the phases *)

Lemma Qdiv_le_iff a b c : 0 < c -> (a / c <= b <-> a <= b * c).
Proof.
  intro Hc. split; intro H.
  - assert (E : a == a / c * c) by (field; lra).
    rewrite E. apply Qmult_le_compat_r; lra.
  - apply Qle_shift_div_r; assumption.
Qed.

Lemma Qle_div_iff a b c : 0 < c -> (b <= a / c <-> b * c <= a).
Proof.
  intro Hc. split; intro H.
  - assert (E : a == a / c * c) by (field; lra).
    rewrite E. apply Qmult_le_compat_r; lra.
  - apply Qle_shift_div_l; assumption.
Qed.

(** X11. The two acceptance tests every phase applies to a candidate. The
    tolerance test [deviation > tolerance] lets a quantity through exactly
    when the capacity is positive and the quantity lies within
    [capacity * (1 - tolerance), capacity * (1 + tolerance)]; the deviation
    of a positive capacity is never negative and is 0 exactly for a perfect
    fit; a capacity of 0 or less has an infinite deviation and passes no
    tolerance. [_check_min_utilization] holds exactly when the tank volume
    is positive and the quantity is at least [min_util * volume]. *)
Theorem tolerance_and_utilisation_tests :
  forall q cap tol minu,
    (AdvancedStowageOptimizer.dev_gt
       (AdvancedStowageOptimizer._calculate_tolerance_deviation q cap) tol = false <->
     0 < cap /\ cap * (1 - tol) <= q /\ q <= cap * (1 + tol)) /\
    (cap <= 0 ->
     AdvancedStowageOptimizer._calculate_tolerance_deviation q cap
     = AdvancedStowageOptimizer.Inf) /\
    (0 < cap ->
     exists d, AdvancedStowageOptimizer._calculate_tolerance_deviation q cap
               = AdvancedStowageOptimizer.Fin d /\
               0 <= d /\ (d == 0 <-> q == cap)) /\
    (AdvancedStowageOptimizer._check_min_utilization q cap minu = true <->
     0 < cap /\ minu * cap <= q).
Proof.
  intros q cap tol minu.
  unfold AdvancedStowageOptimizer._calculate_tolerance_deviation,
         AdvancedStowageOptimizer._check_min_utilization.
  destruct (Qleb cap 0) eqn:E.
  - apply Qleb_le in E. simpl.
    split; [split; [intro H; discriminate H | intros [H _]; lra]|].
    split; [reflexivity|].
    split; [intro; lra | split; [intro H; discriminate H | intros [H _]; lra]].
  - apply Qleb_false in E. cbv beta iota.
    assert (Habs : forall t, Qabs (q - cap) / cap <= t <->
                             cap * (1 - t) <= q /\ q <= cap * (1 + t)).
    { intro t. rewrite (Qdiv_le_iff _ _ _ E). rewrite Qabs_Qle_condition.
      split; intros [H1 H2]; split; lra. }
    split.
    + unfold AdvancedStowageOptimizer.dev_gt.
      destruct (Qgtb (Qabs (q - cap) / cap) tol) eqn:G.
      * apply Qgtb_gt in G. split; [intro H; discriminate H|].
        intros [_ H]. apply Habs in H. lra.
      * unfold Qgtb in G. apply Qltb_false in G. split; [|reflexivity].
        intros _. split; [exact E|]. apply Habs. exact G.
    + split; [intro; lra|]. split.
      * intros _. eexists. split; [reflexivity|]. split.
        -- apply Qle_shift_div_l; [exact E|]. rewrite Qmult_0_l. apply Qabs_nonneg.
        -- split; intro H.
           ++ assert (H0 : Qabs (q - cap) / cap <= 0) by (rewrite H; lra).
              apply Habs in H0. lra.
           ++ assert (H0 : Qabs (q - cap) / cap <= 0) by (apply Habs; lra).
              assert (H1 : 0 <= Qabs (q - cap) / cap).
              { apply Qle_shift_div_l; [exact E|]. rewrite Qmult_0_l. apply Qabs_nonneg. }
              lra.
      * rewrite Qgeb_ge. rewrite (Qle_div_iff _ _ _ E). tauto.
Qed.

(** 98 in a tank of 100 passes a tolerance of 5% and a minimum utilisation
    of 65%. *)
Lemma tolerance_and_utilisation_tests_witness :
  AdvancedStowageOptimizer.dev_gt
    (AdvancedStowageOptimizer._calculate_tolerance_deviation 98 100) (5 # 100) = false /\
  AdvancedStowageOptimizer._check_min_utilization 98 100 (65 # 100) = true /\
  exists d, AdvancedStowageOptimizer._calculate_tolerance_deviation 98 100
            = AdvancedStowageOptimizer.Fin d /\ 0 <= d.
Proof.
  destruct (tolerance_and_utilisation_tests 98 100 (5 # 100) (65 # 100))
    as [H1 [_ [H3 H4]]].
  split; [apply H1; repeat split; vm_compute; discriminate|].
  split; [apply H4; split; [reflexivity | vm_compute; discriminate]|].
  destruct (H3 eq_refl) as [d [Hd [Hpos _]]]. exists d. split; assumption.
Defined.

(** ** Rows of the ship *)

(** X12. [_get_mid_section_rows]: on a ship of three rows or more the
    middle section is a non-empty range of rows that leaves out the first and
    the last row; on a ship of at most two rows it is the whole ship. *)
Theorem mid_section_is_inside_the_ship :
  forall ship,
    let total_rows := total_rows_of ship in
    let '(start_row, end_row) := AdvancedStowageOptimizer._get_mid_section_rows ship in
    ((total_rows <= 2)%nat -> start_row = 1%nat /\ end_row = total_rows) /\
    ((3 <= total_rows)%nat ->
     (2 <= start_row)%nat /\ (start_row <= end_row)%nat /\ (end_row <= total_rows - 1)%nat /\
     (total_rows / 3 < start_row)%nat /\ (end_row <= 2 * total_rows / 3 + 1)%nat).
Proof.
  intro ship. cbv zeta. unfold AdvancedStowageOptimizer._get_mid_section_rows.
  generalize (total_rows_of ship). intro t.
  destruct (Nat.leb t 2) eqn:E.
  - apply Nat.leb_le in E. split; [auto | lia].
  - apply Nat.leb_gt in E. split; [lia|]. intros _.
    assert (H1 : (t / 3 <= t * 2 / 3)%nat) by (apply Nat.Div0.div_le_mono; lia).
    assert (H2 : (1 <= t * 2 / 3)%nat).
    { apply Nat.div_le_lower_bound; lia. }
    assert (H3 : (t / 3 <= t - 2)%nat).
    { apply Nat.Div0.div_le_upper_bound. lia. }
    replace (2 * t)%nat with (t * 2)%nat by lia.
    repeat split; lia.
Qed.

Lemma mid_section_is_inside_the_ship_witness :
  AdvancedStowageOptimizer._get_mid_section_rows Examples.ship_four_rows = (2%nat, 3%nat) /\
  (2 <= 2)%nat /\ (2 <= 3)%nat /\ (3 <= total_rows_of Examples.ship_four_rows - 1)%nat.
Proof.
  split; [reflexivity|].
  pose proof (mid_section_is_inside_the_ship Examples.ship_four_rows) as H.
  cbv zeta in H.
  change (AdvancedStowageOptimizer._get_mid_section_rows Examples.ship_four_rows)
    with (2%nat, 3%nat) in H.
  destruct H as [_ H]. destruct H as [H1 [H2 [H3 _]]]; [vm_compute; lia|].
  repeat split; assumption.
Defined.

(** ** The bow and stern rule *)

(** The tank is known and its row satisfies [P]. *)
Definition row_satisfies (ship : Ship) (P : nat -> Prop) (tank_id : string) : Prop :=
  exists info, get_tank_position_info ship tank_id = Some info /\ P (row_number info).

Lemma position_row_bounds ship tid info :
  get_tank_position_info ship tid = Some info ->
  (1 <= row_number info <= total_rows_of ship)%nat.
Proof.
  intro H.
  destruct (get_tank_by_id ship tid) as [t0|] eqn:F;
    [|unfold get_tank_position_info in H; rewrite F in H; discriminate].
  rewrite (position_info_found _ _ _ F) in H.
  destruct (index_of tid (tanks ship) 0) as [k|] eqn:I; [|discriminate].
  apply Some_eq in H. subst info. cbn [row_number].
  destruct (index_of_spec _ _ _ _ I) as [j [t [Hk [Hn _]]]]. simpl in Hk. subst k.
  assert (Hlt : (j < length (tanks ship))%nat) by (apply nth_error_Some; congruence).
  split; [lia | apply row_within_total; exact Hlt].
Qed.

(** The counting loop of [_is_bow_or_stern_only]. *)
Definition count_step (ship : Ship) (acc : nat * nat * nat) (tank_id : string)
    : nat * nat * nat :=
  let '(b, s, m) := acc in
  let total_rows := total_rows_of ship in
  match get_tank_position_info ship tank_id with
  | Some pos_info =>
      let row_num := row_number pos_info in
      if AdvancedStowageOptimizer.in_range 1 (Nat.min 4 (total_rows + 1)) row_num
      then (S b, s, m)
      else if AdvancedStowageOptimizer.in_range (Nat.max 1 (total_rows - 2))
                                                (total_rows + 1) row_num
      then (b, S s, m)
      else (b, s, S m)
  | None => (b, s, m)
  end.

Lemma count_step_cases ship b s m tid :
  let P_bow := fun r => (r <= 3)%nat in
  let P_stern := fun r => (3 < r)%nat /\ (total_rows_of ship <= r + 2)%nat in
  (row_satisfies ship P_bow tid /\ count_step ship (b, s, m) tid = (S b, s, m)) \/
  (row_satisfies ship P_stern tid /\ count_step ship (b, s, m) tid = (b, S s, m)) \/
  (~ row_satisfies ship P_bow tid /\ ~ row_satisfies ship P_stern tid /\
   exists m', count_step ship (b, s, m) tid = (b, s, m')).
Proof.
  cbv zeta. unfold count_step, row_satisfies.
  destruct (get_tank_position_info ship tid) as [info|] eqn:P.
  - pose proof (position_row_bounds _ _ _ P) as [Hlo Hhi].
    unfold AdvancedStowageOptimizer.in_range.
    destruct (Nat.leb 1 (row_number info) && Nat.ltb (row_number info) _) eqn:E1.
    + left. split; [|reflexivity]. exists info. split; [reflexivity|].
      apply andb_true_iff in E1. destruct E1 as [_ E1]. apply Nat.ltb_lt in E1. lia.
    + assert (Hnb : ~ (row_number info <= 3)%nat).
      { intro H. apply andb_false_iff in E1. destruct E1 as [E1 | E1].
        - apply Nat.leb_gt in E1. lia.
        - apply Nat.ltb_ge in E1. lia. }
      destruct (Nat.leb (Nat.max 1 (total_rows_of ship - 2)) (row_number info)
                && Nat.ltb (row_number info) (total_rows_of ship + 1)) eqn:E2.
      * right. left. split; [|reflexivity]. exists info. split; [reflexivity|].
        apply andb_true_iff in E2. destruct E2 as [E2 _]. apply Nat.leb_le in E2. lia.
      * right. right. split; [intros [i [Hi H]]; inversion Hi; subst; contradiction|].
        split; [|eexists; reflexivity].
        intros [i [Hi [H1 H2]]]. inversion Hi; subst.
        apply andb_false_iff in E2. destruct E2 as [E2 | E2].
        -- apply Nat.leb_gt in E2. lia.
        -- apply Nat.ltb_ge in E2. lia.
  - right. right. split; [intros [i [Hi _]]; discriminate Hi|].
    split; [intros [i [Hi _]]; discriminate Hi | eexists; reflexivity].
Qed.

Lemma count_fold ship P_bow P_stern :
  P_bow = (fun r => (r <= 3)%nat) ->
  P_stern = (fun r => (3 < r)%nat /\ (total_rows_of ship <= r + 2)%nat) ->
  forall l b s m b' s' m',
    fold_left (count_step ship) l (b, s, m) = (b', s', m') ->
    (b <= b' <= b + length l)%nat /\ (s <= s' <= s + length l)%nat /\
    (b' = (b + length l)%nat <-> Forall (row_satisfies ship P_bow) l) /\
    (s' = (s + length l)%nat <-> Forall (row_satisfies ship P_stern) l).
Proof.
  intros EB ES. induction l as [|tid l IH]; intros b s m b' s' m' H;
    cbn [fold_left] in H.
  - inversion H; subst. simpl. repeat split; try lia; constructor.
  - pose proof (count_step_cases ship b s m tid) as C. cbv zeta in C.
    rewrite <- EB, <- ES in C. simpl length.
    destruct C as [[Hb E] | [[Hs E] | [Hnb [Hns [m0 E]]]]]; rewrite E in H;
      destruct (IH _ _ _ _ _ _ H) as [H1 [H2 [H3 H4]]].
    + split; [lia|]. split; [lia|]. split.
      * split; intro G.
        -- constructor; [exact Hb|]. apply H3. lia.
        -- inversion G; subst. assert (b' = (S b + length l)%nat) by (apply H3; assumption).
           lia.
      * split; intro G; [lia|]. inversion G as [|? ? G1 G2]; subst.
        exfalso. destruct Hb as [i [Hi Hr]]. destruct G1 as [i' [Hi' [Hr' _]]].
        rewrite Hi in Hi'. inversion Hi'; subst. lia.
    + split; [lia|]. split; [lia|]. split.
      * split; intro G; [lia|]. inversion G as [|? ? G1 G2]; subst.
        exfalso. destruct Hs as [i [Hi [Hr _]]]. destruct G1 as [i' [Hi' Hr']].
        rewrite Hi in Hi'. inversion Hi'; subst. lia.
      * split; intro G.
        -- constructor; [exact Hs|]. apply H4. lia.
        -- inversion G; subst. assert (s' = (S s + length l)%nat) by (apply H4; assumption).
           lia.
    + split; [lia|]. split; [lia|]. split.
      * split; intro G; [lia|]. inversion G; subst. contradiction.
      * split; intro G; [lia|]. inversion G; subst. contradiction.
Qed.

(** X13. [_is_bow_or_stern_only] answers [True] exactly when the list is
    not empty and either every tank is known and lies in rows 1 to 3, or
    every tank is known and lies in one of the last three rows that is not
    one of rows 1 to 3. A row that is both among the first three and the
    last three counts as bow only, so on a ship of at most five rows tanks
    that all lie in the last three rows are not recognised as stern-only
    unless they avoid rows 1 to 3. *)
Theorem bow_or_stern_only_counts_overlap_as_bow :
  forall tank_ids ship,
    AdvancedStowageOptimizer._is_bow_or_stern_only tank_ids ship = true <->
    tank_ids <> [] /\
    (Forall (row_satisfies ship (fun r => (r <= 3)%nat)) tank_ids \/
     Forall (row_satisfies ship
               (fun r => (3 < r)%nat /\ (total_rows_of ship <= r + 2)%nat)) tank_ids).
Proof.
  intros tank_ids ship. unfold AdvancedStowageOptimizer._is_bow_or_stern_only.
  destruct tank_ids as [|tid rest].
  - split; [intro H; discriminate H | intros [H _]; contradiction].
  - set (l := tid :: rest). cbv zeta.
    rewrite (fold_left_pointwise _ (count_step ship))
      by (intros [[b s] m] x; reflexivity).
    destruct (fold_left (count_step ship) l (0, 0, 0)%nat) as [[b' s'] m'] eqn:F.
    destruct (count_fold ship _ _ eq_refl eq_refl _ _ _ _ _ _ _ F) as [_ [_ [H3 H4]]].
    change (0 + length l)%nat with (length l) in H3, H4.
    rewrite orb_true_iff, !Nat.eqb_eq.
    split.
    + intros [H | H]; (split; [discriminate|]);
        [left; apply H3 | right; apply H4]; exact H.
    + intros [_ [H | H]]; [left; apply H3 | right; apply H4]; exact H.
Qed.

(** ** Scores *)

Lemma Qsum_nonneg (l : list Q) : Forall (fun x => 0 <= x) l -> 0 <= Qsum l.
Proof.
  induction l as [|x l IH]; intro H.
  - unfold Qsum. simpl. lra.
  - inversion H; subst. rewrite Qsum_cons. specialize (IH H3). lra.
Qed.

Lemma Qdiv_nonneg a b : 0 <= a -> 0 < b -> 0 <= a / b.
Proof.
  intros Ha Hb. apply Qle_shift_div_l; [exact Hb|]. lra.
Qed.

(** [x / y * 100 if y > 0 else 0], the shape of every rate of the scorers. *)
Definition rate (x y : Q) : Q := if Qgtb y 0 then x / y * 100 else 0.

Lemma rate_nonneg x y : 0 <= x -> 0 <= rate x y.
Proof.
  intro Hx. unfold rate. destruct (Qgtb y 0) eqn:E; [|lra].
  apply Qgtb_gt in E. pose proof (Qdiv_nonneg x y Hx E). lra.
Qed.

Lemma rate_zero x y : x == 0 -> rate x y == 0.
Proof.
  intro Hx. unfold rate. destruct (Qgtb y 0) eqn:E; [|lra].
  apply Qgtb_gt in E. rewrite Hx. field. lra.
Qed.

Lemma total_loaded_nonneg plan :
  (forall tid a, In (tid, a) (assignments plan) -> 0 <= quantity_loaded a) ->
  0 <= get_total_loaded plan.
Proof.
  intro H. unfold get_total_loaded. apply Qsum_nonneg.
  apply Forall_forall. intros x Hx. apply in_map_iff in Hx.
  destruct Hx as [a [E Ha]]. subst x. unfold dict_values in Ha.
  apply in_map_iff in Ha. destruct Ha as [[tid a'] [E Hin]]. simpl in E. subst a'.
  eapply H; eauto.
Qed.

Lemma count_ratio_bounds (e n : nat) :
  (e <= n)%nat -> (0 < n)%nat ->
  0 <= inject_Z (Z.of_nat e) / inject_Z (Z.of_nat n) <= 1.
Proof.
  intros He Hn.
  assert (Hn' : 0 < inject_Z (Z.of_nat n)).
  { change 0 with (inject_Z 0). rewrite <- Zlt_Qlt. lia. }
  assert (He' : 0 <= inject_Z (Z.of_nat e)).
  { change 0 with (inject_Z 0). rewrite <- Zle_Qle. lia. }
  split; [apply Qdiv_nonneg; assumption|].
  apply Qdiv_le_iff; [exact Hn'|]. rewrite Qmult_1_l. rewrite <- Zle_Qle. lia.
Qed.

Lemma flat_map_all_nil {A B : Type} (f : A -> list B) (l : list A) :
  (forall x, f x = []) -> flat_map f l = [].
Proof.
  intro H. induction l as [|x l IH]; simpl; [reflexivity|]. rewrite H, IH. reflexivity.
Qed.

Lemma filter_all_true {A : Type} (f : A -> bool) (l : list A) :
  (forall x, f x = true) -> filter f l = l.
Proof.
  intro H. induction l as [|x l IH]; simpl; [reflexivity|]. rewrite H, IH. reflexivity.
Qed.

Lemma score_plan_unfold plan ship :
  tanks ship <> [] ->
  exists fill_rates empty_tanks,
    StowageOptimizer.score_plan plan ship
    = Qmin (rate (get_total_loaded plan) (Qsum (map cq (cargo_requests plan))) * (4 # 10)
            + rate (get_total_loaded plan) (get_total_capacity ship) * (3 # 10)
            + match fill_rates with
              | [] => 0
              | _ => Qsum fill_rates / inject_Z (Z.of_nat (length fill_rates))
              end * (2 # 10)
            + (10 - inject_Z (Z.of_nat empty_tanks)
                    / inject_Z (Z.of_nat (length (tanks ship))) * 100 * (1 # 10)))
           100 /\
    (empty_tanks <= length (tanks ship))%nat /\
    (assignments plan = [] ->
     fill_rates = [] /\ empty_tanks = length (tanks ship)) /\
    ((forall tid a, In (tid, a) (assignments plan) -> 0 <= quantity_loaded a) ->
     Forall (fun x => 0 <= x) fill_rates).
Proof.
  intro Hne. unfold StowageOptimizer.score_plan.
  destruct (Nat.eqb (length (tanks ship)) 0) eqn:E.
  { apply Nat.eqb_eq in E. destruct (tanks ship); [contradiction | discriminate]. }
  eexists. eexists. split; [reflexivity|]. split; [apply filter_length_le|]. split.
  - intro Hempty. unfold get_assignment. rewrite Hempty. split.
    + apply flat_map_all_nil. reflexivity.
    + rewrite filter_all_true; reflexivity.
  - intro Hq. apply Forall_forall. intros x Hx. apply in_flat_map in Hx.
    destruct Hx as [t [Ht Hx]].
    destruct (get_assignment plan (t_id t)) as [a|] eqn:G; [|contradiction].
    destruct Hx as [Hx | []]. subst x.
    unfold get_assignment in G. apply dict_get_In in G.
    change (0 <= rate (quantity_loaded a) (volume t)). apply rate_nonneg. eauto.
Qed.

(** X14. Both scores are capped at 100, the score of a ship without tanks
    is 0, a plan without assignments scores 0 in both, and when no
    assignment carries a negative quantity neither score is negative. *)
Theorem scores_lie_between_0_and_100 :
  forall plan ship,
    StowageOptimizer.score_plan plan ship <= 100 /\
    AdvancedStowageOptimizer._calculate_simple_score plan ship <= 100 /\
    (tanks ship = [] -> StowageOptimizer.score_plan plan ship = 0) /\
    (assignments plan = [] ->
     StowageOptimizer.score_plan plan ship == 0 /\
     AdvancedStowageOptimizer._calculate_simple_score plan ship == 0) /\
    ((forall tid a, In (tid, a) (assignments plan) -> 0 <= quantity_loaded a) ->
     0 <= StowageOptimizer.score_plan plan ship /\
     0 <= AdvancedStowageOptimizer._calculate_simple_score plan ship).
Proof.
  intros plan ship.
  assert (Hsimple : AdvancedStowageOptimizer._calculate_simple_score plan ship
            = Qmin (rate (get_total_loaded plan) (Qsum (map cq (cargo_requests plan)))
                    * (6 # 10)
                    + rate (get_total_loaded plan) (get_total_capacity ship) * (4 # 10))
                   100) by reflexivity.
  split.
  { unfold StowageOptimizer.score_plan.
    destruct (Nat.eqb _ 0); [vm_compute; discriminate | apply Q.le_min_r]. }
  split; [rewrite Hsimple; apply Q.le_min_r|].
  split.
  { intro H. unfold StowageOptimizer.score_plan. rewrite H. reflexivity. }
  split.
  - intro Hempty.
    assert (Hzero : get_total_loaded plan == 0).
    { unfold get_total_loaded. rewrite Hempty. reflexivity. }
    split.
    + destruct (tanks ship) as [|t0 ts] eqn:Et.
      * unfold StowageOptimizer.score_plan. rewrite Et. reflexivity.
      * assert (Hne : tanks ship <> []) by (rewrite Et; discriminate).
        destruct (score_plan_unfold plan ship Hne) as [fr [et [E [_ [H2 _]]]]].
        destruct (H2 Hempty) as [Hfr Het]. subst fr et. rewrite E.
        rewrite !(rate_zero _ _ Hzero).
        assert (Hone : inject_Z (Z.of_nat (length (tanks ship)))
                       / inject_Z (Z.of_nat (length (tanks ship))) == 1).
        { field. rewrite Et. intro H.
          unfold Qeq in H. cbn [Qnum Qden inject_Z length] in H. lia. }
        rewrite Hone. rewrite Q.min_l by lra. lra.
    + rewrite Hsimple. rewrite !(rate_zero _ _ Hzero). rewrite Q.min_l by lra. lra.
  - intro Hq. pose proof (total_loaded_nonneg plan Hq) as Hl.
    pose proof (rate_nonneg _ (Qsum (map cq (cargo_requests plan))) Hl) as Hr1.
    pose proof (rate_nonneg _ (get_total_capacity ship) Hl) as Hr2.
    split.
    + destruct (tanks ship) as [|t0 ts] eqn:Et.
      * unfold StowageOptimizer.score_plan. rewrite Et. simpl. lra.
      * assert (Hne : tanks ship <> []) by (rewrite Et; discriminate).
        destruct (score_plan_unfold plan ship Hne) as [fr [et [E [H1 [_ H3]]]]].
        specialize (H3 Hq). rewrite E. apply Q.min_glb; [|lra].
        assert (Hfill : 0 <= match fr with
                             | [] => 0
                             | _ => Qsum fr / inject_Z (Z.of_nat (length fr))
                             end).
        { destruct fr as [|x fr']; [lra|]. apply Qdiv_nonneg.
          - apply Qsum_nonneg. exact H3.
          - change 0 with (inject_Z 0). rewrite <- Zlt_Qlt. simpl length. lia. }
        assert (Hpos : (0 < length (tanks ship))%nat) by (rewrite Et; simpl; lia).
        pose proof (count_ratio_bounds et (length (tanks ship)) H1 Hpos) as [_ Hc].
        rewrite Et in *. lra.
    + rewrite Hsimple. apply Q.min_glb; lra.
Qed.

Lemma scores_lie_between_0_and_100_witness :
  let A := Examples.regular "A" 96 in
  let p := add_assignment
             (StowagePlan_new Examples.env0 "single" "s5" [A] "Yeni Plan")
             "t0" (mkAssignment "t0" A 96) in
  0 <= StowageOptimizer.score_plan p Examples.ship_single /\
  StowageOptimizer.score_plan
    (StowagePlan_new Examples.env0 "single" "s5" [A] "Yeni Plan") Examples.ship_single == 0.
Proof.
  cbv zeta. split.
  - apply (proj2 (proj2 (proj2 (proj2 (scores_lie_between_0_and_100
             (add_assignment
                (StowagePlan_new Examples.env0 "single" "s5"
                                 [Examples.regular "A" 96] "Yeni Plan")
                "t0" (mkAssignment "t0" (Examples.regular "A" 96) 96))
             Examples.ship_single))))).
    intros tid a [H | []]. inversion H; subst. simpl. vm_compute. discriminate.
  - apply (proj1 (proj2 (proj2 (proj2 (scores_lie_between_0_and_100
             (StowagePlan_new Examples.env0 "single" "s5"
                              [Examples.regular "A" 96] "Yeni Plan")
             Examples.ship_single))))).
    reflexivity.
Defined.

(** ** What the phases do to a plan: they only add assignments *)

Section PlanClosure.
Import AdvancedStowageOptimizer.

(** Any property of plans kept by adding an assignment of a cargo among
    [C], keyed by the assignment's own tank id. *)
Variable C : Cargo -> Prop.
Variable P : StowagePlan -> Prop.
Hypothesis P_add : forall p tid cargo q,
  C cargo -> P p -> P (add_assignment p tid (mkAssignment tid cargo q)).

Variable ship : Ship.
Variable settings : Settings.

Lemma place_all_closed cargo c : C cargo ->
  forall st, P (fst st) -> P (fst (place_all cargo c st)).
Proof.
  intro Hc. unfold place_all. induction c as [|[tid q] c IH]; intros [p a] H; simpl; auto.
  apply IH. simpl. apply P_add; assumption.
Qed.

Lemma fold_closed (f : St -> Cargo -> St) (l : list Cargo) :
  (forall st x, C x -> P (fst st) -> P (fst (f st x))) ->
  Forall C l ->
  forall st, P (fst st) -> P (fst (fold_left f l st)).
Proof.
  intros Hf Hl. induction l as [|x l IH]; intros st H; simpl; auto.
  inversion Hl; subst. auto.
Qed.

Lemma faz1_cargo_closed minu tol st cargo :
  C cargo -> P (fst st) -> P (fst (faz1_cargo ship minu tol st cargo)).
Proof.
  destruct st as [plan avail]. unfold faz1_cargo. cbn [fst]. intros Hc H.
  destruct (fst (faz1_best ship avail (cq cargo) tol minu)) as [best|]; [|exact H].
  destruct (String.eqb best ""); [exact H|].
  destruct (get_tank_by_id ship best) as [tank|]; [|exact H].
  destruct (Qgtb _ eps); [|exact H]. cbn [fst]. apply P_add; assumption.
Qed.

Lemma faz2_cargo_closed minu tol atol st cargo :
  C cargo -> P (fst st) -> P (fst (faz2_cargo ship minu tol atol st cargo)).
Proof.
  destruct st as [plan avail]. unfold faz2_cargo. intros Hc H.
  destruct (fst (fst (faz2_best plan avail ship (cq cargo) minu tol atol)));
    [apply place_all_closed|]; assumption.
Qed.

Lemma faz3_cargo_closed minu tol st cargo :
  C cargo -> P (fst st) -> P (fst (faz3_cargo ship minu tol st cargo)).
Proof.
  destruct st as [plan avail]. unfold faz3_cargo. intros Hc H.
  destruct (fst (faz3_best plan avail ship (cq cargo) minu tol));
    [apply place_all_closed|]; assumption.
Qed.

Lemma faz4_cargo_closed minu tol st cargo :
  C cargo -> P (fst st) -> P (fst (faz4_cargo ship minu tol st cargo)).
Proof.
  destruct st as [plan avail]. unfold faz4_cargo. intros Hc H.
  destruct (fst (faz4_best plan avail ship (cq cargo) minu tol));
    [apply place_all_closed|]; assumption.
Qed.

Lemma faz5_cargo_closed minu tol st cargo :
  C cargo -> P (fst st) -> P (fst (faz5_cargo ship minu tol st cargo)).
Proof.
  destruct st as [plan avail]. unfold faz5_cargo. intros Hc H.
  destruct (fst (faz5_best plan avail ship (cq cargo) minu tol));
    [apply place_all_closed|]; assumption.
Qed.

Lemma faz6_cargo_closed minu tol st cargo :
  C cargo -> P (fst st) -> P (fst (faz6_cargo ship minu tol st cargo)).
Proof.
  destruct st as [plan avail]. unfold faz6_cargo. intros Hc H.
  destruct (fst (faz6_best plan avail ship (cq cargo) minu tol));
    [apply place_all_closed|]; assumption.
Qed.

Lemma faz7_cargo_closed minu st cargo :
  C cargo -> P (fst st) -> P (fst (faz7_cargo ship minu st cargo)).
Proof.
  destruct st as [plan avail]. unfold faz7_cargo. intros Hc H.
  match goal with
  | |- context [fold_left ?f ?l (plan, avail, cq cargo)] =>
      assert (G : P (fst (fst (fold_left f l (plan, avail, cq cargo)))));
        [|destruct (fold_left f l (plan, avail, cq cargo)) as [[p' a'] r']; exact G]
  end.
  apply (fold_left_invariant (fun acc : StowagePlan * list (string * Q) * Q =>
                                P (fst (fst acc)))); [|exact H].
  intros [[p a] r] [[tid vol] ot] _ Hp. cbn [fst] in *.
  destruct (Qltb r eps); [exact Hp|]. destruct ot as [t|]; [|exact Hp].
  destruct (negb _); [exact Hp|]. cbn [fst]. apply P_add; assumption.
Qed.

Lemma faz1_closed plan cargos avail tol :
  Forall C cargos -> P plan -> P (fst (_faz1_single_tank plan cargos avail ship settings tol)).
Proof.
  intros Hl H. unfold _faz1_single_tank.
  apply (fold_closed _ cargos (fun st x => faz1_cargo_closed _ _ st x) Hl (plan, avail) H).
Qed.

Lemma faz2_closed plan cargos avail tol :
  Forall C cargos -> P plan -> P (fst (_faz2_two_tank plan cargos avail ship settings tol)).
Proof.
  intros Hl H. unfold _faz2_two_tank.
  apply (fold_closed _ cargos (fun st x => faz2_cargo_closed _ _ _ st x) Hl (plan, avail) H).
Qed.

Lemma faz3_closed plan cargos avail tol :
  Forall C cargos -> P plan -> P (fst (_faz3_three_tank plan cargos avail ship settings tol)).
Proof.
  intros Hl H. unfold _faz3_three_tank.
  apply (fold_closed _ cargos (fun st x => faz3_cargo_closed _ _ st x) Hl (plan, avail) H).
Qed.

Lemma faz4_closed plan cargos avail tol :
  Forall C cargos -> P plan -> P (fst (_faz4_four_tank plan cargos avail ship settings tol)).
Proof.
  intros Hl H. unfold _faz4_four_tank.
  apply (fold_closed _ cargos (fun st x => faz4_cargo_closed _ _ st x) Hl (plan, avail) H).
Qed.

Lemma faz5_closed plan cargos avail tol :
  Forall C cargos -> P plan -> P (fst (_faz5_five_tank plan cargos avail ship settings tol)).
Proof.
  intros Hl H. unfold _faz5_five_tank.
  apply (fold_closed _ cargos (fun st x => faz5_cargo_closed _ _ st x) Hl (plan, avail) H).
Qed.

Lemma faz6_closed plan cargos avail tol :
  Forall C cargos -> P plan -> P (fst (_faz6_six_tank plan cargos avail ship settings tol)).
Proof.
  intros Hl H. unfold _faz6_six_tank.
  apply (fold_closed _ cargos (fun st x => faz6_cargo_closed _ _ st x) Hl (plan, avail) H).
Qed.

Lemma faz7_closed plan cargos avail :
  Forall C cargos -> P plan -> P (fst (_faz7_multi_tank plan cargos avail ship settings)).
Proof.
  intros Hl H. unfold _faz7_multi_tank.
  apply (fold_closed _ cargos (fun st x => faz7_cargo_closed _ st x) Hl (plan, avail) H).
Qed.

Lemma run_estimated_closed n plan cargos avail tol :
  Forall C cargos -> P plan ->
  P (fst (run_estimated n plan cargos avail ship settings tol)).
Proof.
  intros Hl H. unfold run_estimated.
  repeat (match goal with |- context [if ?b then _ else _] => destruct b end);
    first [ apply faz1_closed | apply faz2_closed | apply faz3_closed
          | apply faz4_closed | apply faz5_closed | apply faz6_closed
          | apply faz7_closed ]; assumption.
Qed.

Lemma call_with_tolerance_closed ph plan cargos avail tol st :
  Forall C cargos -> P plan ->
  call_with_tolerance ph plan cargos avail ship settings tol = Some st ->
  P (fst st).
Proof.
  intros Hl H E. destruct ph; simpl in E; inversion E; subst;
    first [ apply faz1_closed | apply faz2_closed | apply faz3_closed
          | apply faz4_closed | apply faz5_closed | apply faz6_closed ]; assumption.
Qed.
End PlanClosure.


(** Phase 0 builds a temporary plan for one cargo and copies it: [T] is what
    holds of the temporary plans, [P] of the plan being built. *)
Section PlanClosureWithCopies.
Import AdvancedStowageOptimizer.

Variable C : Cargo -> Prop.
Variable P T : StowagePlan -> Prop.
Hypothesis P_add : forall p tid cargo q,
  C cargo -> P p -> P (add_assignment p tid (mkAssignment tid cargo q)).
Hypothesis T_add : forall p tid cargo q,
  C cargo -> T p -> T (add_assignment p tid (mkAssignment tid cargo q)).
Hypothesis T_new : forall e name profile cargo,
  C cargo -> T (StowagePlan_new e name profile [cargo] "temp").
Hypothesis P_copy : forall temp p, T temp -> P p -> P (copy_assignments temp p).

Variable ship : Ship.
Variable settings : Settings.

Lemma faz0_attempts_closed e cargo inc maxr attempts : C cargo -> forall placed st,
  P (fst st) ->
  P (fst (snd (faz0_attempts e ship settings cargo inc maxr placed st attempts))).
Proof.
  intro Hc. induction attempts as [|a attempts IH]; intros placed [plan avail] H;
    [exact H|].
  simpl faz0_attempts.
  destruct (Qleb (max_of_values avail) 0); [exact H|].
  match goal with
  | |- context [run_estimated ?n ?tp0 [cargo] avail ship settings ?tol] =>
      pose proof (run_estimated_closed C T T_add ship settings n tp0 [cargo] avail tol
                    (Forall_cons _ Hc (Forall_nil _)) (T_new _ _ _ _ Hc)) as Ht;
      destruct (run_estimated n tp0 [cargo] avail ship settings tol) as [tp ta]
  end.
  cbn [fst] in Ht.
  destruct (Qgeb _ _).
  - destruct (_ && _); [apply (IH (Some false) (plan, avail) H)|].
    cbn [fst snd]. apply P_copy; assumption.
  - destruct (Qgeb _ maxr); [exact H | apply (IH (Some false) (plan, avail) H)].
Qed.

Lemma faz0_fallback_closed e cargo maxr phases : C cargo -> forall st st',
  P (fst st) -> faz0_fallback e ship settings cargo maxr st phases = Some st' ->
  P (fst st').
Proof.
  intro Hc. induction phases as [|ph phases IH]; intros [plan avail] st' H E.
  - simpl in E. inversion E; subst. exact H.
  - simpl faz0_fallback in E.
    match type of E with
    | context [call_with_tolerance ph ?tp0 [cargo] avail ship settings maxr] =>
        pose proof (call_with_tolerance_closed C T T_add ship settings ph tp0 [cargo]
                      avail maxr) as Ht;
        destruct (call_with_tolerance ph tp0 [cargo] avail ship settings maxr)
          as [[tp ta]|]; [|discriminate];
        specialize (Ht (tp, ta) (Forall_cons _ Hc (Forall_nil _)) (T_new _ _ _ _ Hc)
                       eq_refl)
    end.
    cbn [fst] in Ht.
    destruct (Qgeb _ _).
    + destruct (_ && _); [apply (IH (plan, avail) st' H E)|].
      inversion E; subst. cbn [fst]. apply P_copy; assumption.
    + apply (IH (plan, avail) st' H E).
Qed.

Lemma faz0_cargo_closed e inc maxr acc cargo acc' :
  C cargo -> P (fst (snd acc)) ->
  faz0_cargo e ship settings inc maxr acc cargo = Some acc' -> P (fst (snd acc')).
Proof.
  destruct acc as [placed0 st]. cbn [snd].
  intros Hc H E. unfold faz0_cargo in E.
  destruct (Qeq_bool inc 0); [discriminate|].
  pose proof (faz0_attempts_closed e cargo inc maxr
                (seq 0 (Z.to_nat (py_int (maxr / inc) + 1))) Hc placed0 st H) as G.
  destruct (faz0_attempts e ship settings cargo inc maxr placed0 st _) as [placed st1].
  cbn [fst snd] in G. destruct placed as [[|]|]; [| |discriminate].
  - inversion E; subst. exact G.
  - destruct (faz0_fallback e ship settings cargo maxr st1 _) as [st2|] eqn:Ef;
      [|discriminate].
    inversion E; subst. cbn [snd]. eapply faz0_fallback_closed; eauto.
Qed.

Lemma fold_option_closed {S : Type} (Q : S -> Prop) (f : S -> Cargo -> option S)
    (l : list Cargo) :
  (forall s x s', C x -> Q s -> f s x = Some s' -> Q s') ->
  Forall C l ->
  forall s s', Q s -> fold_option f l s = Some s' -> Q s'.
Proof.
  intros Hf Hl. induction l as [|x l IH]; intros s s' Hs; simpl.
  - intro E. inversion E; subst. exact Hs.
  - inversion Hl; subst. destruct (f s x) as [s1|] eqn:E1; [|discriminate].
    apply IH; auto. eapply Hf; eauto.
Qed.

Lemma faz0_closed e plan cargos avail st' :
  Forall C cargos -> P plan ->
  _faz0_mandatory_cargo e plan cargos avail ship settings = Some st' ->
  P (fst st').
Proof.
  intros Hl H E. unfold _faz0_mandatory_cargo in E. cbv zeta in E.
  match type of E with
  | match fold_option ?f cargos ?s0 with _ => _ end = _ =>
      destruct (fold_option f cargos s0) as [[placed st]|] eqn:Ef; [|discriminate]
  end.
  inversion E; subst.
  apply (fold_option_closed (fun acc : option bool * St => P (fst (snd acc))) _ cargos
           (fun s x s' Hx Hs Es => faz0_cargo_closed e _ _ s x s' Hx Hs Es)
           Hl (None, (plan, avail)) (placed, st') H Ef).
Qed.

Lemma still_remaining_closed plan l : Forall C l -> Forall C (still_remaining plan l).
Proof.
  intro H. unfold still_remaining. apply Forall_forall. intros x Hx.
  apply filter_In in Hx. rewrite Forall_forall in H. apply H. tauto.
Qed.

Lemma optimize_advanced_closed e shp cargos excluded fixed stg plan :
  ship = shp -> settings = or_default get_default_settings stg ->
  Forall C cargos ->
  P (StowagePlan_new e (s_name shp) (s_id shp) cargos "Yeni Plan") ->
  optimize_advanced e shp cargos excluded fixed stg = Some plan ->
  P plan.
Proof.
  intros <- Est HC H0. unfold optimize_advanced. cbv zeta. rewrite <- Est.
  set (avail := initial_available ship _).
  set (regular := filter (fun c => negb (is_mandatory c)) cargos).
  set (plan0 := StowagePlan_new e (s_name ship) (s_id ship) cargos "Yeni Plan") in *.
  assert (Hreg : Forall C regular).
  { apply Forall_forall. intros x Hx. apply filter_In in Hx.
    rewrite Forall_forall in HC. apply HC. tauto. }
  assert (Hman : Forall C (filter is_mandatory cargos)).
  { apply Forall_forall. intros x Hx. apply filter_In in Hx.
    rewrite Forall_forall in HC. apply HC. tauto. }
  match goal with
  | |- match ?X with Some _ => _ | None => _ end = _ -> _ =>
      assert (G : forall p a, X = Some (p, a) -> P p);
        [|destruct X as [[p a]|]; [specialize (G p a eq_refl)|discriminate]]
  end.
  { intros p a E. destruct (filter is_mandatory cargos) eqn:Em.
    - inversion E; subst. exact H0.
    - apply (faz0_closed e plan0 _ avail (p, a) Hman H0 E). }
  pose proof (faz1_closed C P P_add ship settings p regular a None Hreg G) as H1.
  destruct (_faz1_single_tank p regular a ship settings None) as [p1 a1].
  assert (Hr1 := still_remaining_closed p1 _ Hreg).
  pose proof (faz2_closed C P P_add ship settings p1 _ a1 None Hr1 H1) as H2.
  destruct (_faz2_two_tank p1 _ a1 ship settings None) as [p2 a2].
  assert (Hr2 := still_remaining_closed p2 _ Hr1).
  pose proof (faz3_closed C P P_add ship settings p2 _ a2 None Hr2 H2) as H3.
  destruct (_faz3_three_tank p2 _ a2 ship settings None) as [p3 a3].
  assert (Hr3 := still_remaining_closed p3 _ Hr2).
  pose proof (faz4_closed C P P_add ship settings p3 _ a3 None Hr3 H3) as H4.
  destruct (_faz4_four_tank p3 _ a3 ship settings None) as [p4 a4].
  assert (Hr4 := still_remaining_closed p4 _ Hr3).
  pose proof (faz5_closed C P P_add ship settings p4 _ a4 None Hr4 H4) as H5.
  destruct (_faz5_five_tank p4 _ a4 ship settings None) as [p5 a5].
  assert (Hr5 := still_remaining_closed p5 _ Hr4).
  pose proof (faz6_closed C P P_add ship settings p5 _ a5 None Hr5 H5) as H6.
  destruct (_faz6_six_tank p5 _ a5 ship settings None) as [p6 a6].
  assert (Hr6 := still_remaining_closed p6 _ Hr5).
  pose proof (faz7_closed C P P_add ship settings p6 _ a6 Hr6 H6) as H7.
  destruct (_faz7_multi_tank p6 _ a6 ship settings) as [p7 a7].
  intro E. injection E as <-. exact H7.
Qed.
End PlanClosureWithCopies.

(** ** What the genetic solver does to a plan *)

Lemma fold_option_invariant_in {A S : Type} (P : S -> Prop) (f : S -> A -> option S)
    (l : list A) :
  (forall s x s', In x l -> P s -> f s x = Some s' -> P s') ->
  forall s s', P s -> AdvancedStowageOptimizer.fold_option f l s = Some s' -> P s'.
Proof.
  induction l as [|x l IH]; intros Hf s s' Hs; simpl.
  - intro E. inversion E; subst. exact Hs.
  - destruct (f s x) as [s1|] eqn:E1; [|discriminate].
    apply IH; [intros s0 y s0' Hy; apply Hf; right; exact Hy|].
    apply (Hf s x s1 (or_introl eq_refl) Hs E1).
Qed.

Section GAClosure.
Import GeneticOptimizer.

Variable self : GeneticOptimizer.t.
Variable P : StowagePlan -> Prop.

(** An assignment keyed by its own tank id, of a requested cargo. *)
Definition well_keyed (reqs : list Cargo) (ta : string * TankAssignment) : Prop :=
  a_tank_id (snd ta) = fst ta /\ In (a_cargo (snd ta)) reqs.

Hypothesis P_add : forall p tid a,
  well_keyed (cargo_requests self) (tid, a) -> P p -> P (add_assignment p tid a).
Hypothesis mandatory_requested :
  forall c, In c (mandatory_cargos self) -> In c (cargo_requests self).
Hypothesis regular_requested :
  forall c, In c (regular_cargos self) -> In c (cargo_requests self).

Lemma place_mandatory_loop_keyed cargo minu sorted : forall acc acc',
  In cargo (cargo_requests self) ->
  Forall (well_keyed (cargo_requests self)) (fst (fst acc)) ->
  place_mandatory_loop cargo minu sorted acc = Some acc' ->
  Forall (well_keyed (cargo_requests self)) (fst (fst acc')).
Proof.
  induction sorted as [|[[tid vol] ot] sorted IH]; intros acc acc' Hc Hacc; simpl.
  - intro E. inversion E; subst. exact Hacc.
  - destruct acc as [[massign avail] rem].
    destruct (Qltb rem eps); [intro E; inversion E; subst; exact Hacc|].
    destruct ot as [t|]; [|apply IH; auto].
    destruct (Qeq_bool (volume t) 0); [discriminate|].
    destruct (Qltb _ minu); [apply IH; auto|].
    apply IH; auto. cbn [fst]. apply dict_set_Forall; [exact Hacc|].
    split; [reflexivity | exact Hc].
Qed.

Lemma place_mandatory_cargos_keyed avail st massign avail' :
  _place_mandatory_cargos self avail st = Some (massign, avail') ->
  Forall (well_keyed (cargo_requests self)) massign.
Proof.
  unfold _place_mandatory_cargos. intro E.
  apply (fold_option_invariant_in
           (fun acc : list (string * TankAssignment) * list (string * Q) =>
              Forall (well_keyed (cargo_requests self)) (fst acc))
           _ _) with (s := ([], avail)) (s' := (massign, avail')) in E;
    [exact E | | constructor].
  intros [m a] c acc' Hc Hm. cbv zeta.
  destruct (place_mandatory_loop c _ _ (m, a, cq c)) as [[[m1 a1] r1]|] eqn:E1;
    [|discriminate].
  intro E'. inversion E'; subst. cbn [fst].
  apply (place_mandatory_loop_keyed c _ _ (m, a, cq c) (m1, a1, r1)
           (mandatory_requested c Hc) Hm E1).
Qed.

Lemma add_all_closed (l : list (string * TankAssignment)) : forall p,
  Forall (well_keyed (cargo_requests self)) l -> P p ->
  P (fold_left (fun p '(tank_id, assignment) => add_assignment p tank_id assignment) l p).
Proof.
  induction l as [|[tid a] l IH]; intros p Hl Hp; simpl; auto.
  inversion Hl; subst. apply IH; auto.
Qed.

Lemma cargo_map_values (l : list Cargo) : forall m cid cargo,
  (forall c, In c l -> In c (cargo_requests self)) ->
  Forall (fun kv : string * Cargo => In (snd kv) (cargo_requests self)) m ->
  dict_get cid (fold_left (fun m cargo => dict_set (unique_id cargo) cargo m) l m)
    = Some cargo ->
  In cargo (cargo_requests self).
Proof.
  induction l as [|c l IH]; intros m cid cargo Hl Hm; simpl.
  - intro E. apply dict_get_In in E. rewrite Forall_forall in Hm. apply (Hm _ E).
  - apply IH; [intros; apply Hl; right; assumption|].
    apply dict_set_Forall; [exact Hm|]. apply Hl. left. reflexivity.
Qed.

Lemma fill_tanks_closed cargo minu tks : forall plan rem plan',
  In cargo (cargo_requests self) -> P plan ->
  fill_tanks cargo minu tks plan rem = Some plan' -> P plan'.
Proof.
  induction tks as [|t tks IH]; intros plan rem plan' Hc Hp; simpl.
  - intro E. inversion E; subst. exact Hp.
  - destruct (Qltb rem eps); [intro E; inversion E; subst; exact Hp|].
    destruct (Qeq_bool (volume t) 0); [discriminate|].
    destruct (Qltb _ minu); [apply IH; auto|].
    apply IH; auto. apply P_add; [split; [reflexivity | exact Hc] | exact Hp].
Qed.

Lemma fill_cargos_closed minu empty rc : forall plan plan',
  (forall x, In x rc -> In (fst x) (cargo_requests self)) -> P plan ->
  fill_cargos minu empty rc plan = Some plan' -> P plan'.
Proof.
  induction rc as [|[cargo rem] rc IH]; intros plan plan' Hrc Hp; simpl.
  - intro E. inversion E; subst. exact Hp.
  - assert (Hrest : forall x, In x rc -> In (fst x) (cargo_requests self))
      by (intros; apply Hrc; right; assumption).
    destruct (Qltb rem eps); [apply IH; auto|].
    destruct (filter _ empty) as [|t0 ts]; [intro E; inversion E; subst; exact Hp|].
    destruct (fill_tanks cargo minu _ plan rem) as [p1|] eqn:Ef; [|discriminate].
    apply IH; auto.
    apply (fill_tanks_closed _ _ _ _ _ _ (Hrc (cargo, rem) (or_introl eq_refl)) Hp Ef).
Qed.

Lemma fill_empty_closed plan st plan' :
  P plan -> _fill_empty_tanks_with_remaining_cargo self plan st = Some plan' -> P plan'.
Proof.
  intro Hp. unfold _fill_empty_tanks_with_remaining_cargo. cbv zeta.
  destruct (filter _ (available_tanks self)) as [|t0 ts];
    [intro E; inversion E; subst; exact Hp|].
  match goal with
  | |- context [flat_map ?f (regular_cargos self)] =>
      assert (Hrc : forall x, In x (flat_map f (regular_cargos self)) ->
                              In (fst x) (cargo_requests self));
        [|destruct (flat_map f (regular_cargos self)) as [|c0 cs] eqn:Efm;
          [intro E; inversion E; subst; exact Hp|]]
  end.
  { intros [c q] Hx. apply in_flat_map in Hx. destruct Hx as [c' [Hc' Hx]].
    destruct (Qgtb _ eps); [|contradiction].
    destruct Hx as [Hx | []]. inversion Hx; subst. simpl. apply regular_requested. exact Hc'. }
  apply fill_cargos_closed; [|exact Hp].
  intros x Hx. apply sorted_by_In in Hx. apply Hrc. exact Hx.
Qed.
End GAClosure.

Lemma setters_keep_requests self m tv :
  let self' := GeneticOptimizer.set_tank_volumes
                 (GeneticOptimizer.set_mandatory_assignments self m) tv in
  GeneticOptimizer.cargo_requests self' = GeneticOptimizer.cargo_requests self /\
  GeneticOptimizer.regular_cargos self' = GeneticOptimizer.regular_cargos self /\
  GeneticOptimizer.mandatory_cargos self' = GeneticOptimizer.mandatory_cargos self /\
  GeneticOptimizer.settings self' = GeneticOptimizer.settings self.
Proof. destruct self; simpl; auto. Qed.

Lemma ga_optimize_closed (P : StowagePlan -> Prop) self e r plan :
  (forall p tid a,
     well_keyed (GeneticOptimizer.cargo_requests self) (tid, a) -> P p ->
     P (add_assignment p tid a)) ->
  (forall c, In c (GeneticOptimizer.mandatory_cargos self) ->
             In c (GeneticOptimizer.cargo_requests self)) ->
  (forall c, In c (GeneticOptimizer.regular_cargos self) ->
             In c (GeneticOptimizer.cargo_requests self)) ->
  Forall (well_keyed (GeneticOptimizer.cargo_requests self))
         (GeneticOptimizer.mandatory_assignments self) ->
  P (StowagePlan_new e (s_name (GeneticOptimizer.ship self))
                     (s_id (GeneticOptimizer.ship self))
                     (GeneticOptimizer.cargo_requests self) "Genetik Algoritma Planı") ->
  GeneticOptimizer.optimize e self r = Some plan ->
  P plan.
Proof.
  intros P_add Hman Hreg Hm0 H0. unfold GeneticOptimizer.optimize. cbv zeta.
  match goal with
  | |- match ?X with Some _ => _ | None => _ end = _ -> _ =>
      assert (G : forall m a, X = Some (m, a) ->
                  Forall (well_keyed (GeneticOptimizer.cargo_requests self)) m);
        [|destruct X as [[m a]|]; [specialize (G m a eq_refl)|discriminate]]
  end.
  { intros m a. destruct (GeneticOptimizer.mandatory_cargos self) eqn:Em.
    - intro E. inversion E; subst. exact Hm0.
    - rewrite <- Em in Hman. apply place_mandatory_cargos_keyed. exact Hman. }
  match goal with
  | |- context [GeneticOptimizer.set_tank_volumes ?s ?tv] =>
      set (self' := GeneticOptimizer.set_tank_volumes s tv);
      destruct (same_after_setters self m tv) as [Es [_ [_ [Emm _]]]];
      destruct (setters_keep_requests self m tv) as [Er [Eg [_ Est]]]
  end.
  fold self' in Es, Emm, Er, Eg, Est.
  assert (P_add' : forall p tid a,
            well_keyed (GeneticOptimizer.cargo_requests self') (tid, a) -> P p ->
            P (add_assignment p tid a)) by (rewrite Er; exact P_add).
  assert (Hreg' : forall c, In c (GeneticOptimizer.regular_cargos self') ->
                            In c (GeneticOptimizer.cargo_requests self')).
  { rewrite Eg, Er. exact Hreg. }
  pose proof (fill_empty_closed self' P P_add' Hreg') as Hfill.
  clear Hreg' Eg.
  destruct (GeneticOptimizer.regular_cargos self') as [|c0 cs] eqn:Ereg.
  - intro E. apply Some_eq in E. rewrite <- E. rewrite Es, Er, Emm.
    apply (add_all_closed self P P_add); assumption.
  - destruct (GeneticOptimizer.create_initial_population self' r) as [population r1].
    destruct (GeneticOptimizer.argmax_index _) as [best_idx|]; [|discriminate].
    destruct (GeneticOptimizer.evolve self' _ _) as [s|]; [|discriminate].
    apply Hfill.
    unfold GeneticOptimizer._chromosome_to_plan. cbv zeta.
    apply (fold_left_invariant P).
    + intros p [[[i tid] cid] q] _ Hp.
      destruct (dict_mem tid _); [exact Hp|].
      destruct (dict_get cid _) as [cargo|] eqn:Ec; [|exact Hp].
      apply P_add'; [|exact Hp]. split; [reflexivity|]. simpl.
      apply (cargo_map_values self' (GeneticOptimizer.cargo_requests self') [] cid cargo);
        [auto | constructor | exact Ec].
    + rewrite Es, Er, Emm. apply (add_all_closed self P P_add); assumption.
Qed.

(** ** The plans the engines return, beyond their quantities *)

(** X15. A plan returned by either engine carries the ship's name and
    profile id, the requested cargos in the order given, the engine's plan
    name, no notes and an empty list of excluded tanks (the engine never
    records the exclusions in the plan); every assignment is stored under its
    own tank id and carries one of the requested cargos. *)
Theorem returned_plans_describe_the_request :
  (forall e ship cargos excluded fixed settings plan,
      AdvancedStowageOptimizer.optimize_advanced e ship cargos excluded fixed settings
        = Some plan ->
      ship_name plan = s_name ship /\ ship_profile_id plan = s_id ship /\
      cargo_requests plan = cargos /\ plan_name plan = "Yeni Plan"%string /\
      notes plan = None /\ excluded_tanks plan = [] /\
      forall tid a, In (tid, a) (assignments plan) ->
                    a_tank_id a = tid /\ In (a_cargo a) cargos) /\
  (forall e ship cargos excluded fixed settings r plan,
      GeneticOptimizer.optimize e
        (GeneticOptimizer.init ship cargos excluded fixed settings) r = Some plan ->
      ship_name plan = s_name ship /\ ship_profile_id plan = s_id ship /\
      cargo_requests plan = cargos /\
      plan_name plan = "Genetik Algoritma Planı"%string /\
      notes plan = None /\ excluded_tanks plan = [] /\
      forall tid a, In (tid, a) (assignments plan) ->
                    a_tank_id a = tid /\ In (a_cargo a) cargos).
Proof.
  split.
  - intros e ship cargos excluded fixed settings plan H.
    set (Inv := fun p : StowagePlan =>
      ship_name p = s_name ship /\ ship_profile_id p = s_id ship /\
      cargo_requests p = cargos /\ plan_name p = "Yeni Plan"%string /\
      notes p = None /\ excluded_tanks p = [] /\
      Forall (well_keyed cargos) (assignments p)).
    set (Tmp := fun p : StowagePlan => Forall (well_keyed cargos) (assignments p)).
    assert (HInv : Inv plan).
    { apply (optimize_advanced_closed (fun c => In c cargos) Inv Tmp) with
        (ship := ship) (settings := or_default get_default_settings settings)
        (e := e) (shp := ship) (cargos := cargos) (excluded := excluded)
        (fixed := fixed) (stg := settings); auto.
      - intros p tid cargo q Hc [H1 [H2 [H3 [H4 [H5 [H6 H7]]]]]].
        unfold Inv. simpl. repeat split; auto.
        apply dict_set_Forall; [exact H7 | split; [reflexivity | exact Hc]].
      - intros p tid cargo q Hc H7. unfold Tmp. simpl.
        apply dict_set_Forall; [exact H7 | split; [reflexivity | exact Hc]].
      - intros. unfold Tmp. simpl. constructor.
      - intros temp p Ht [H1 [H2 [H3 [H4 [H5 [H6 H7]]]]]].
        unfold AdvancedStowageOptimizer.copy_assignments.
        apply (fold_left_invariant Inv).
        + intros p0 [tid a] Hin [G1 [G2 [G3 [G4 [G5 [G6 G7]]]]]].
          unfold Inv. simpl. repeat split; auto.
          apply dict_set_Forall; [exact G7|].
          unfold Tmp in Ht. rewrite Forall_forall in Ht. apply (Ht _ Hin).
        + unfold Inv. repeat split; auto.
      - apply Forall_forall. auto.
      - unfold Inv. simpl. repeat split; auto. }
    destruct HInv as [H1 [H2 [H3 [H4 [H5 [H6 H7]]]]]]. repeat split; auto;
      rewrite Forall_forall in H7; apply (H7 _ H0).
  - intros e ship cargos excluded fixed settings r plan H.
    set (self := GeneticOptimizer.init ship cargos excluded fixed settings) in *.
    set (Inv := fun p : StowagePlan =>
      ship_name p = s_name ship /\ ship_profile_id p = s_id ship /\
      cargo_requests p = cargos /\ plan_name p = "Genetik Algoritma Planı"%string /\
      notes p = None /\ excluded_tanks p = [] /\
      Forall (well_keyed cargos) (assignments p)).
    assert (HInv : Inv plan).
    { apply (ga_optimize_closed Inv self e r plan); auto.
      - intros p tid a Hk [H1 [H2 [H3 [H4 [H5 [H6 H7]]]]]].
        unfold Inv. simpl. repeat split; auto.
        apply dict_set_Forall; [exact H7 | exact Hk].
      - intros c Hc. simpl in *. apply filter_In in Hc. tauto.
      - intros c Hc. simpl in *. apply filter_In in Hc. tauto.
      - unfold Inv. simpl. repeat split; auto. }
    destruct HInv as [H1 [H2 [H3 [H4 [H5 [H6 H7]]]]]]. repeat split; auto;
      rewrite Forall_forall in H7; apply (H7 _ H0).
Qed.

(** On the two-row ship both engines return a plan that describes the
    request. *)
Lemma returned_plans_describe_the_request_witness :
  let cargos := [Examples.regular "A" 100; Examples.regular "B" 98] in
  let withm := cargos ++ [Examples.mandatory "M" 50] in
  (exists plan,
      AdvancedStowageOptimizer.optimize_advanced Examples.env0 Examples.ship_two_rows
        cargos (Some ["t3"%string]) None None = Some plan /\
      cargo_requests plan = cargos /\ excluded_tanks plan = [] /\
      forall tid a, In (tid, a) (assignments plan) ->
                    a_tank_id a = tid /\ In (a_cargo a) cargos) /\
  (exists plan,
      GeneticOptimizer.optimize Examples.env0
        (GeneticOptimizer.init Examples.ship_two_rows withm None None
           (Some Examples.small_ga)) [] = Some plan /\
      cargo_requests plan = withm /\
      plan_name plan = "Genetik Algoritma Planı"%string /\
      forall tid a, In (tid, a) (assignments plan) ->
                    a_tank_id a = tid /\ In (a_cargo a) withm).
Proof.
  intros cargos withm.
  destruct returned_plans_describe_the_request as [Hadv Hga].
  split.
  - eexists. split; [vm_compute; reflexivity|].
    destruct (Hadv Examples.env0 Examples.ship_two_rows cargos (Some ["t3"%string])
                None None _ ltac:(vm_compute; reflexivity))
      as [_ [_ [H3 [_ [_ [H6 H7]]]]]].
    split; [exact H3|]. split; [exact H6 | exact H7].
  - eexists. split; [vm_compute; reflexivity|].
    destruct (Hga Examples.env0 Examples.ship_two_rows withm None None
                (Some Examples.small_ga) [] _ ltac:(vm_compute; reflexivity))
      as [_ [_ [H3 [H4 [_ [_ H7]]]]]].
    split; [exact H3|]. split; [exact H4 | exact H7].
Defined.

(** ** The greedy solver *)

Lemma dict_set_restore {V} k (v w : V) (d : list (string * V)) :
  dict_get k d = Some v -> dict_set k v (dict_set k w d) = d.
Proof.
  induction d as [|[k' v'] d IH]; simpl; [discriminate|].
  destruct (String.eqb k k') eqn:E; simpl; rewrite E.
  - intro H. apply Some_eq in H. subst. reflexivity.
  - intro H. rewrite (IH H). reflexivity.
Qed.

Lemma dict_keys_sub k q d : dict_keys (dict_sub k q d) = dict_keys d.
Proof.
  unfold dict_sub. destruct (dict_get k d) eqn:E; auto.
  apply (dict_keys_set_present _ _ _ _ E).
Qed.

Lemma dict_get_key_In {V} k (d : list (string * V)) :
  In k (dict_keys d) -> exists v, dict_get k d = Some v.
Proof.
  intro H. destruct (dict_get k d) eqn:E; [eauto|].
  apply dict_get_None_notin in E. contradiction.
Qed.




Section Greedy.
Import GreedyOptimizer.

Variable ship : Ship.

(** Every key of the dictionary of free volumes is the id of a tank. *)
Definition keys_known (av : list (string * Q)) : Prop :=
  forall k, In k (dict_keys av) -> get_tank_by_id ship k <> None.

(** What [_find_optimal_tank] promises about the tank it names. *)
Definition fits (quantity : Q) (av : list (string * Q)) (tid : string) : Prop :=
  exists v tank, In (tid, v) av /\ quantity <= v /\
                 get_tank_by_id ship tid = Some tank /\
                 0 < volume tank /\ (65 # 100) * volume tank <= quantity.

Lemma find_optimal_fits quantity av prefer tid :
  fst (_find_optimal_tank quantity av ship prefer) = Some tid -> fits quantity av tid.
Proof.
  unfold _find_optimal_tank. cbv zeta.
  match goal with
  | |- context [fold_left ?f av ?i] =>
      assert (G : forall l s, (forall x, In x l -> In x av) ->
                (forall t, fst (fst s) = Some t -> fits quantity av t) ->
                forall t, fst (fst (fold_left f l s)) = Some t -> fits quantity av t);
        [|pose proof (G av i (fun x H => H)) as G';
          destruct (fold_left f av i) as [[b s] w]; cbn [fst] in *;
          intro H; apply G'; [discriminate | exact H]]
  end.
  induction l as [|[k v] l IH]; intros s Hl Hs; [exact Hs|].
  cbn [fold_left]. apply IH; [intros x Hx; apply Hl; right; exact Hx|].
  destruct s as [[b sc] w]. cbv beta iota.
  destruct (Qltb v quantity) eqn:Ev; [exact Hs|].
  destruct (get_tank_by_id ship k) as [tank|] eqn:Et; [|exact Hs].
  cbv zeta.
  destruct (Qltb _ (65 # 100)) eqn:Eu; [exact Hs|].
  match goal with
  | |- forall t, fst (fst (if ?c then _ else _)) = _ -> _ => destruct c
  end; [|exact Hs].
  cbn [fst]. intros t Ht. apply Some_eq in Ht. subst t.
  exists v, tank. split; [apply Hl; left; reflexivity|].
  apply Qltb_false in Ev. split; [exact Ev|]. split; [exact Et|].
  apply Qltb_false in Eu.
  destruct (Qgtb (volume tank) 0) eqn:Ep.
  - apply Qgtb_gt in Ep. split; [exact Ep|].
    apply (Qle_div_iff _ _ _ Ep). exact Eu.
  - exfalso. revert Eu. apply Qlt_not_le. reflexivity.
Qed.

Lemma find_largest_In av tid :
  _find_largest_available_tank av ship = Some tid -> In tid (dict_keys av).
Proof.
  unfold _find_largest_available_tank.
  assert (G : forall l s, (forall x, In x l -> In x av) ->
            (forall t, fst s = Some t -> In t (dict_keys av)) ->
            forall t,
              fst (fold_left
                     (fun '(best_tank_id, max_volume) '(tank_id, available_volume) =>
                        if Qgtb available_volume max_volume && Qgtb available_volume eps
                        then (Some tank_id, available_volume)
                        else (best_tank_id, max_volume)) l s) = Some t ->
              In t (dict_keys av)).
  { induction l as [|[k v] l IH]; intros s Hl Hs; [exact Hs|].
    cbn [fold_left]. apply IH; [intros x Hx; apply Hl; right; exact Hx|].
    destruct s as [b m]. cbv beta iota.
    destruct (Qgtb v m && Qgtb v eps); [|exact Hs].
    cbn [fst]. intros t Ht. apply Some_eq in Ht. subst t.
    apply (in_map fst) with (x := (k, v)). apply Hl. left. reflexivity. }
  apply G; [auto | discriminate].
Qed.

(** What one pass through the body of the [while] loop does. *)
Definition step_ok (cargo : Cargo) (plan : StowagePlan) (av : list (string * Q))
    (rem : Q) (s : Step) : Prop :=
  match s with
  | Raise => False
  | Break av' => av' = av
  | Continue plan' av' rem' =>
      exists tid a tank,
        dict_get tid av = Some a /\ get_tank_by_id ship tid = Some tank /\
        0 < volume tank /\ (65 # 100) * volume tank <= Qmin rem a /\
        plan' = add_assignment plan tid (mkAssignment tid cargo (Qmin rem a)) /\
        av' = dict_sub tid (Qmin rem a) av /\ rem' = rem - Qmin rem a
  end.

Lemma load_or_break_ok cargo plan av rem tid a tank :
  dict_get tid av = Some a -> get_tank_by_id ship tid = Some tank ->
  step_ok cargo plan av rem
    (load_or_break cargo plan av rem tid (Qmin rem a)
       (if Qgtb (volume tank) 0 then Qmin rem a / volume tank else 0)).
Proof.
  intros Ha Ht. unfold load_or_break.
  destruct (Qgeb _ (65 # 100)) eqn:E; [|reflexivity].
  cbv zeta. cbn [step_ok]. exists tid, a, tank.
  apply Qgeb_ge in E.
  destruct (Qgtb (volume tank) 0) eqn:Ep.
  - apply Qgtb_gt in Ep. repeat split; auto.
    apply (Qle_div_iff _ _ _ Ep). exact E.
  - exfalso. revert E. apply Qlt_not_le. reflexivity.
Qed.

Lemma loop_body_ok cargo plan av rem :
  keys_known av -> step_ok cargo plan av rem (loop_body ship cargo plan av rem).
Proof.
  intro Hk. unfold loop_body.
  destruct (_find_optimal_tank rem av ship true) as [b1 w1] eqn:E1.
  assert (H1 : forall t, b1 = Some t -> In t (dict_keys av)).
  { intros t Ht. destruct (find_optimal_fits rem av true t) as [v [tk [Hin _]]].
    - rewrite E1. exact Ht.
    - apply (in_map fst) in Hin. exact Hin. }
  cbv zeta.
  match goal with
  | |- step_ok _ _ _ _ (match ?B with None => _ | Some _ => _ end) =>
      assert (H3 : forall t, B = Some t -> In t (dict_keys av));
        [|destruct B as [best|]; [specialize (H3 best eq_refl)|reflexivity]]
  end.
  { intros t. destruct b1 as [t1|]; [apply H1|].
    destruct (fst (_find_optimal_tank rem av ship false)) as [t2|] eqn:E2.
    - intro Ht. apply Some_eq in Ht. subst t2.
      destruct (find_optimal_fits rem av false t E2) as [v [tk [Hin _]]].
      apply (in_map fst) in Hin. exact Hin.
    - apply find_largest_In. }
  clear H1 E1.
  destruct (dict_get_key_In _ _ H3) as [a Ha]. rewrite Ha.
  destruct (get_tank_by_id ship best) as [tank|] eqn:Et;
    [|exfalso; apply (Hk _ H3); exact Et].
  destruct (Qltb _ (65 # 100)) eqn:Eu; [|apply load_or_break_ok; assumption].
  rewrite (dict_set_restore _ _ _ _ Ha).
  destruct (fst (_find_optimal_tank rem (dict_set best 0 av) ship false))
    as [alt|] eqn:Ealt; [|reflexivity].
  destruct (String.eqb alt "") eqn:Ee; [reflexivity|].
  destruct (find_optimal_fits _ _ _ _ Ealt) as [v [tk [Hin [_ [Htk _]]]]].
  apply (in_map fst) in Hin. cbn [fst] in Hin.
  fold (dict_keys (dict_set best 0 av)) in Hin.
  rewrite (dict_keys_set_present _ _ _ _ Ha) in Hin.
  destruct (dict_get_key_In _ _ Hin) as [a' Ha']. rewrite Ha', Htk.
  apply load_or_break_ok; assumption.
Qed.





Lemma available_of_entries excluded :
  Forall (fun kv : string * Q =>
            exists t, In t (tanks ship) /\ t_id t = fst kv /\ snd kv = volume t /\
                      ~ In (fst kv) excluded)
         (available_of ship excluded).
Proof.
  unfold available_of. apply fold_left_invariant; [|constructor].
  intros av t Ht Hav. destruct (str_in (t_id t) excluded) eqn:E; [exact Hav|].
  apply dict_set_Forall; [exact Hav|]. exists t. repeat split; auto.
  cbn [fst]. intro Hin. apply str_in_In in Hin. congruence.
Qed.


Lemma known_of_entries (P : string * Q -> Prop) av :
  Forall (fun kv : string * Q => exists t, In t (tanks ship) /\ t_id t = fst kv /\ P kv) av ->
  keys_known av.
Proof.
  intros H k Hin. apply in_map_iff in Hin. destruct Hin as [[k' v] [Ek Hin]].
  cbn [fst] in Ek. subst k'. rewrite Forall_forall in H.
  destruct (H _ Hin) as [t [Ht [Hid _]]]. cbn [fst] in Hid.
  unfold get_tank_by_id. intro Hnone.
  apply (find_none _ _ Hnone) in Ht. rewrite Hid, String.eqb_refl in Ht. discriminate.
Qed.

Lemma available_of_known excluded : keys_known (available_of ship excluded).
Proof.
  apply (known_of_entries (fun _ => True)).
  eapply Forall_impl; [|apply available_of_entries].
  intros kv [t [Ht [Hid _]]]. exists t. auto.
Qed.
End Greedy.



(** ** What the greedy solver puts into a plan *)

Lemma insert_sorted_perm {A : Type} (before : A -> A -> bool) x (l : list A) :
  Permutation (insert_sorted before x l) (x :: l).
Proof.
  induction l as [|y l IH]; cbn [insert_sorted]; [reflexivity|].
  destruct (before x y); [reflexivity|].
  rewrite IH. apply perm_swap.
Qed.

Lemma sorted_by_perm {A : Type} (before : A -> A -> bool) (l : list A) :
  Permutation (sorted_by before l) l.
Proof.
  unfold sorted_by.
  assert (G : forall acc,
            Permutation (fold_left (fun acc x => insert_sorted before x acc) l acc)
                        (l ++ acc)).
  { induction l as [|x l IH]; intro acc; cbn [fold_left app]; [reflexivity|].
    rewrite IH, insert_sorted_perm. symmetry. apply Permutation_middle. }
  rewrite G, app_nil_r. reflexivity.
Qed.

Lemma loaded_after_add uid tid b (d : list (string * TankAssignment)) :
  Forall (fun ta => 0 <= quantity_loaded (snd ta)) d ->
  fold_left (loaded_step uid) (dict_values (dict_set tid b d)) 0
  <= fold_left (loaded_step uid) (dict_values d) 0 + contribution uid b.
Proof.
  unfold dict_values.
  induction d as [|[k v] d IH]; intro H.
  - cbn [dict_set map snd]. rewrite loaded_fold_cons. cbn [fold_left]. lra.
  - inversion H as [|x y Hv Hd]; subst. cbn [snd] in Hv. cbn [dict_set].
    destruct (String.eqb tid k).
    + cbn [map snd]. rewrite !loaded_fold_cons.
      assert (0 <= contribution uid v)
        by (unfold contribution; destruct (String.eqb _ uid); lra).
      lra.
    + cbn [map snd]. rewrite !loaded_fold_cons. specialize (IH Hd). lra.
Qed.

Lemma same_id_same_tank (l : list Tank) t t' :
  NoDup (map t_id l) -> In t l -> In t' l -> t_id t = t_id t' -> t = t'.
Proof.
  induction l as [|x l IH]; intros Hnd Ht Ht' E; [contradiction|].
  cbn [map] in Hnd. inversion Hnd as [|y ys Hx Hl]; subst.
  destruct Ht as [Ht|Ht], Ht' as [Ht'|Ht']; subst; auto.
  - exfalso. apply Hx. rewrite E. apply in_map. exact Ht'.
  - exfalso. apply Hx. rewrite <- E. apply in_map. exact Ht.
Qed.

Section GreedyPlans.
Import GreedyOptimizer.

Variable ship : Ship.

(** The loop of one cargo keeps whatever every loading pass keeps. *)
Lemma load_cargo_invariant cargo (I : StowagePlan -> list (string * Q) -> Q -> Prop) :
  (forall plan av rem tid a tank,
      I plan av rem -> eps < rem ->
      dict_get tid av = Some a -> get_tank_by_id ship tid = Some tank ->
      0 < volume tank -> (65 # 100) * volume tank <= Qmin rem a ->
      I (add_assignment plan tid (mkAssignment tid cargo (Qmin rem a)))
        (dict_sub tid (Qmin rem a) av) (rem - Qmin rem a)) ->
  forall fuel plan av rem plan' av',
    keys_known ship av -> I plan av rem ->
    load_cargo fuel ship cargo plan av rem = Returned (plan', av') ->
    keys_known ship av' /\ exists rem', I plan' av' rem'.
Proof.
  intro Hstep. induction fuel as [|fuel IH]; intros plan av rem plan' av' Hk HI;
    cbn [load_cargo]; destruct (Qgtb rem eps) eqn:Er; try discriminate;
    try (intro E; inversion E; subst; split; [exact Hk | eauto]).
  pose proof (loop_body_ok ship cargo plan av rem Hk) as Hs.
  destruct (loop_body ship cargo plan av rem) as [plan1 av1 rem1|av1|];
    cbn [step_ok] in Hs; [| | contradiction].
  - destruct Hs as [tid [a [tank [Ha [Ht [Hv [Hu [Hp [Hav Hrem]]]]]]]]].
    apply IH.
    + intros k Hin. subst av1. rewrite dict_keys_sub in Hin. apply Hk. exact Hin.
    + subst. apply (Hstep plan av rem tid a tank); auto. apply Qgtb_gt. exact Er.
  - subst av1. intro E. inversion E; subst. split; [exact Hk | eauto].
Qed.

Section Entries.
Variable cargos : list Cargo.
Variable excluded : list string.

(** A free volume belongs to a tank that is not excluded and is no more than
    the volume of a tank with that id. *)
Definition free_volume_ok (kv : string * Q) : Prop :=
  exists t, In t (tanks ship) /\ t_id t = fst kv /\ snd kv <= volume t /\
            ~ In (fst kv) excluded.

Definition loaded_entry_ok (ta : string * TankAssignment) : Prop :=
  a_tank_id (snd ta) = fst ta /\ In (a_cargo (snd ta)) cargos /\
  ~ In (fst ta) excluded /\
  quantity_loaded (snd ta) <= cq (a_cargo (snd ta)) /\
  exists tank, get_tank_by_id ship (fst ta) = Some tank /\ 0 < volume tank /\
               (65 # 100) * volume tank <= quantity_loaded (snd ta) /\
               exists t, In t (tanks ship) /\ t_id t = fst ta /\
                         quantity_loaded (snd ta) <= volume t.

Lemma load_cargo_entries cargo fuel plan av plan' av' :
  In cargo cargos -> keys_known ship av ->
  Forall free_volume_ok av -> Forall loaded_entry_ok (assignments plan) ->
  load_cargo fuel ship cargo plan av (cq cargo) = Returned (plan', av') ->
  keys_known ship av' /\ Forall free_volume_ok av' /\ Forall loaded_entry_ok (assignments plan').
Proof.
  intros Hc Hk Hav Hplan E.
  destruct (load_cargo_invariant cargo
              (fun p a r => r <= cq cargo /\ Forall free_volume_ok a /\
                            Forall loaded_entry_ok (assignments p)))
    with (fuel := fuel) (plan := plan) (av := av) (rem := cq cargo)
         (plan' := plan') (av' := av') as [Hk' [r [_ [H1 H2]]]]; auto.
  - clear E Hk Hav Hplan. intros p a r tid v tank [Hr [Ha Hp]] Hpos Hget Ht Hv Hu.
    assert (Hfree : free_volume_ok (tid, v)).
    { rewrite Forall_forall in Ha. apply Ha. apply dict_get_In. exact Hget. }
    assert (Hq : 0 < Qmin r v) by nra.
    pose proof (Q.le_min_l r v) as Hl. pose proof (Q.le_min_r r v) as Hr'.
    split; [lra|]. split.
    + unfold dict_sub. rewrite Hget. apply dict_set_Forall; [exact Ha|].
      destruct Hfree as [t [Ht1 [Ht2 [Ht3 Ht4]]]]. exists t.
      cbn [fst snd] in *. repeat split; auto. lra.
    + cbn [add_assignment set_assignments assignments].
      apply dict_set_Forall; [exact Hp|].
      destruct Hfree as [t [Ht1 [Ht2 [Ht3 Ht4]]]]. cbn [fst snd] in *.
      unfold loaded_entry_ok. cbn [fst snd a_tank_id a_cargo quantity_loaded].
      split; [reflexivity|]. split; [exact Hc|]. split; [exact Ht4|].
      split; [lra|]. exists tank. split; [exact Ht|]. split; [exact Hv|].
      split; [exact Hu|]. exists t. repeat split; auto. lra.
  - split; [lra|]. split; assumption.
Qed.

Lemma load_cargos_entries fuel : forall todo plan av plan',
  (forall c, In c todo -> In c cargos) -> keys_known ship av ->
  Forall free_volume_ok av -> Forall loaded_entry_ok (assignments plan) ->
  load_cargos fuel ship todo plan av = Returned plan' ->
  Forall loaded_entry_ok (assignments plan').
Proof.
  induction todo as [|c todo IH]; intros plan av plan' Hin Hk Hav Hplan;
    cbn [load_cargos].
  - intro E. inversion E; subst. exact Hplan.
  - destruct (load_cargo fuel ship c plan av (cq c)) as [[p1 av1]| |] eqn:E1;
      try discriminate.
    destruct (load_cargo_entries c fuel plan av p1 av1) as [Hk1 [Hav1 Hp1]]; auto.
    { apply Hin. left. reflexivity. }
    apply IH; auto. intros c' Hc'. apply Hin. right. exact Hc'.
Qed.
End Entries.

(** The loaded total of every cargo id, before and after the loop of one
    cargo. *)
Lemma load_cargo_totals cargo fuel plan av plan' av' :
  keys_known ship av ->
  Forall (fun ta => 0 <= quantity_loaded (snd ta)) (assignments plan) ->
  load_cargo fuel ship cargo plan av (cq cargo) = Returned (plan', av') ->
  keys_known ship av' /\
  Forall (fun ta => 0 <= quantity_loaded (snd ta)) (assignments plan') /\
  get_cargo_total_loaded plan' (unique_id cargo)
    <= get_cargo_total_loaded plan (unique_id cargo) + Qmax 0 (cq cargo) /\
  forall uid, uid <> unique_id cargo ->
    get_cargo_total_loaded plan' uid <= get_cargo_total_loaded plan uid.
Proof.
  intros Hk Hplan E.
  destruct (load_cargo_invariant cargo
              (fun p a r =>
                 Forall (fun ta => 0 <= quantity_loaded (snd ta)) (assignments p) /\
                 get_cargo_total_loaded p (unique_id cargo) + Qmax 0 r
                   <= get_cargo_total_loaded plan (unique_id cargo) + Qmax 0 (cq cargo) /\
                 forall uid, uid <> unique_id cargo ->
                   get_cargo_total_loaded p uid <= get_cargo_total_loaded plan uid))
    with (fuel := fuel) (plan := plan) (av := av) (rem := cq cargo)
         (plan' := plan') (av' := av') as [Hk' [r [H1 [H2 H3]]]]; auto.
  - clear. intros p a r tid v tank [Hp [Hsum Hoth]] Hpos Hget Ht Hv Hu.
    assert (Hq : 0 < Qmin r v) by nra.
    pose proof (Q.le_min_l r v) as Hl.
    split; [|split].
    + cbn [add_assignment set_assignments assignments].
      apply dict_set_Forall; [exact Hp|]. cbn [snd quantity_loaded]. lra.
    + rewrite cargo_total_as_fold. cbn [add_assignment set_assignments assignments].
      pose proof (loaded_after_add (unique_id cargo) tid
                    (mkAssignment tid cargo (Qmin r v)) (assignments p) Hp) as Hadd.
      unfold contribution in Hadd. cbn [a_cargo quantity_loaded] in Hadd.
      rewrite String.eqb_refl in Hadd.
      rewrite cargo_total_as_fold in Hsum.
      pose proof eps_pos.
      rewrite (Q.max_r 0 r) in Hsum by lra.
      rewrite (Q.max_r 0 (r - Qmin r v)) by lra. lra.
    + intros uid Hne. specialize (Hoth uid Hne).
      rewrite cargo_total_as_fold in *.
      cbn [add_assignment set_assignments assignments].
      pose proof (loaded_after_add uid tid
                    (mkAssignment tid cargo (Qmin r v)) (assignments p) Hp) as Hadd.
      unfold contribution in Hadd. cbn [a_cargo quantity_loaded] in Hadd.
      replace (String.eqb (unique_id cargo) uid) with false in Hadd
        by (symmetry; apply String.eqb_neq; congruence).
      lra.
  - split; [exact Hplan|]. split; [lra|]. intros; lra.
  - split; [exact Hk'|]. split; [exact H1|]. split; [|exact H3].
    pose proof (Q.le_max_l 0 r). lra.
Qed.

Lemma load_cargos_totals fuel : forall todo plan av plan',
  NoDup (map unique_id todo) -> keys_known ship av ->
  Forall (fun ta => 0 <= quantity_loaded (snd ta)) (assignments plan) ->
  (forall c, In c todo -> get_cargo_total_loaded plan (unique_id c) <= 0) ->
  load_cargos fuel ship todo plan av = Returned plan' ->
  (forall c, In c todo ->
     get_cargo_total_loaded plan' (unique_id c) <= Qmax 0 (cq c)) /\
  (forall uid, ~ In uid (map unique_id todo) ->
     get_cargo_total_loaded plan' uid <= get_cargo_total_loaded plan uid).
Proof.
  induction todo as [|c todo IH]; intros plan av plan' Hnd Hk Hplan Hzero;
    cbn [load_cargos].
  - intro E. inversion E; subst. split; [intros c []|]. intros; lra.
  - destruct (load_cargo fuel ship c plan av (cq c)) as [[p1 av1]| |] eqn:E1;
      try discriminate.
    destruct (load_cargo_totals c fuel plan av p1 av1 Hk Hplan E1)
      as [Hk1 [Hp1 [Hc1 Ho1]]].
    cbn [map] in Hnd. inversion Hnd as [|x xs Hx Hnd']; subst.
    intro E.
    destruct (IH p1 av1 plan' Hnd' Hk1 Hp1) as [G1 G2]; auto.
    { intros c' Hc'. assert (Hne : unique_id c' <> unique_id c).
      { intro Heq. apply Hx. rewrite <- Heq. apply in_map. exact Hc'. }
      specialize (Ho1 _ Hne). specialize (Hzero c' (or_intror Hc')). lra. }
    split.
    + intros c' [Hc'|Hc']; [subst c'|apply G1; exact Hc'].
      specialize (G2 _ Hx). specialize (Hzero c (or_introl eq_refl)). lra.
    + intros uid Hn. assert (Hne : uid <> unique_id c)
        by (intro Heq; apply Hn; left; auto).
      specialize (Ho1 _ Hne).
      assert (Hn' : ~ In uid (map unique_id todo))
        by (intro Hin; apply Hn; right; exact Hin).
      specialize (G2 _ Hn'). lra.
Qed.
End GreedyPlans.

Lemma available_of_free ship excluded :
  Forall (free_volume_ok ship excluded) (GreedyOptimizer.available_of ship excluded).
Proof.
  eapply Forall_impl; [|apply available_of_entries].
  intros kv [t [Ht [Hid [Hv Hex]]]]. exists t. repeat split; auto. rewrite Hv. lra.
Qed.

(** X17. Every assignment of a plan of the greedy solver is stored under its
    own tank id, carries one of the requested cargos and no more than that
    cargo's quantity, sits in a tank of the ship that is not excluded, and
    fills at least 65% of that tank's positive volume; when the tank ids of
    the ship are distinct it does not exceed the tank's volume either. *)
Theorem greedy_assignments_fill_their_tank :
  forall fuel e ship cargos before excluded plan tid a,
    GreedyOptimizer.optimize_with_sort fuel e ship cargos before excluded
      = Returned plan ->
    In (tid, a) (assignments plan) ->
    a_tank_id a = tid /\ In (a_cargo a) cargos /\
    ~ In tid (or_default [] excluded) /\
    quantity_loaded a <= cq (a_cargo a) /\
    exists tank,
      get_tank_by_id ship tid = Some tank /\ 0 < volume tank /\
      (65 # 100) * volume tank <= quantity_loaded a /\
      (NoDup (map t_id (tanks ship)) -> quantity_loaded a <= volume tank).
Proof.
  intros fuel e ship cargos before excluded plan tid a E Hin.
  unfold GreedyOptimizer.optimize_with_sort in E. cbv zeta in E.
  apply (load_cargos_entries ship cargos (or_default [] excluded)) in E.
  - rewrite Forall_forall in E.
    destruct (E _ Hin) as [H1 [H2 [H3 [H4 [tank [H5 [H6 [H7 [t [H8 [H9 H10]]]]]]]]]]].
    cbn [fst snd] in *. repeat split; auto.
    exists tank. repeat split; auto. intro Hnd.
    destruct (get_tank_by_id_In _ _ _ H5) as [Hin' Hid].
    rewrite (same_id_same_tank (tanks ship) tank t Hnd Hin' H8) by congruence.
    exact H10.
  - intros c Hc. apply sorted_by_In in Hc. exact Hc.
  - apply available_of_known.
  - apply available_of_free.
  - constructor.
Qed.

(** On the two-row ship the greedy solver places A in the first tank and
    leaves B, which would fill no tank to 65%, out. *)
Lemma greedy_assignments_fill_their_tank_witness :
  let cargos := [Examples.regular "B" 30; Examples.regular "A" 100] in
  exists plan,
    GreedyOptimizer.optimize 5 Examples.env0 Examples.ship_two_rows cargos
      (Some ["t1"%string]) = Returned plan /\
    dict_keys (assignments plan) = ["t0"%string] /\
    forall tid a, In (tid, a) (assignments plan) ->
      a_tank_id a = tid /\ In (a_cargo a) cargos /\ ~ In tid ["t1"%string] /\
      quantity_loaded a <= cq (a_cargo a) /\
      exists tank,
        get_tank_by_id Examples.ship_two_rows tid = Some tank /\ 0 < volume tank /\
        (65 # 100) * volume tank <= quantity_loaded a /\
        quantity_loaded a <= volume tank.
Proof.
  intro cargos. eexists. split; [vm_compute; reflexivity|].
  split; [reflexivity|]. intros tid a Hin.
  destruct (greedy_assignments_fill_their_tank 5 Examples.env0 Examples.ship_two_rows
              cargos GreedyOptimizer.default_before (Some ["t1"%string]) _ tid a
              ltac:(vm_compute; reflexivity) Hin)
    as [H1 [H2 [H3 [H4 [tank [H5 [H6 [H7 H8]]]]]]]].
  repeat split; auto. exists tank. repeat split; auto.
  apply H8. repeat constructor; simpl; intuition discriminate.
Defined.

(** X18. The greedy solver never loads more of a cargo than was asked for:
    when the requested cargos have distinct ids, the loaded total of each in
    the returned plan is at most its quantity (and 0 for a quantity that is
    not positive). *)
Theorem greedy_never_loads_more_than_requested :
  forall fuel e ship cargos before excluded plan c,
    NoDup (map unique_id cargos) ->
    GreedyOptimizer.optimize_with_sort fuel e ship cargos before excluded
      = Returned plan ->
    In c cargos ->
    get_cargo_total_loaded plan (unique_id c) <= Qmax 0 (cq c).
Proof.
  intros fuel e ship cargos before excluded plan c Hnd E Hc.
  unfold GreedyOptimizer.optimize_with_sort in E. cbv zeta in E.
  pose proof (sorted_by_perm before cargos) as Hperm.
  apply load_cargos_totals in E.
  - destruct E as [G _]. apply G.
    apply (Permutation_in _ (Permutation_sym Hperm)). exact Hc.
  - apply (Permutation_NoDup (Permutation_sym (Permutation_map unique_id Hperm))).
    exact Hnd.
  - apply available_of_known.
  - constructor.
  - intros c' _. unfold get_cargo_total_loaded. cbn. lra.
Qed.

(** On the two-row ship the 150 of A go to the tank of 100 and a tank of 50,
    the 50 of B to the other tank of 50: neither total exceeds its request. *)
Lemma greedy_never_loads_more_than_requested_witness :
  let A := Examples.regular "A" 150 in
  let B := Examples.regular "B" 50 in
  exists plan,
    GreedyOptimizer.optimize 5 Examples.env0 Examples.ship_two_rows [A; B] None
      = Returned plan /\
    get_cargo_total_loaded plan "A" <= 150 /\
    get_cargo_total_loaded plan "B" <= 50.
Proof.
  intros A B. eexists. split; [vm_compute; reflexivity|].
  assert (Hnd : NoDup (map unique_id [A; B]))
    by (repeat constructor; simpl; intuition discriminate).
  split.
  - apply (greedy_never_loads_more_than_requested 5 Examples.env0
             Examples.ship_two_rows [A; B] GreedyOptimizer.default_before None _ A Hnd
             ltac:(vm_compute; reflexivity)).
    left. reflexivity.
  - apply (greedy_never_loads_more_than_requested 5 Examples.env0
             Examples.ship_two_rows [A; B] GreedyOptimizer.default_before None _ B Hnd
             ltac:(vm_compute; reflexivity)).
    right. left. reflexivity.
Defined.

(** ** How the greedy solver picks a tank *)

(** The test [_find_optimal_tank] applies to an entry of the dictionary of
    free volumes before it scores it. *)
Definition qualifies (ship : Ship) (quantity : Q) (kv : string * Q) : bool :=
  negb (Qltb (snd kv) quantity)
  && match get_tank_by_id ship (fst kv) with
     | None => false
     | Some tank =>
         negb (Qltb (if Qgtb (volume tank) 0 then quantity / volume tank else 0)
                    (65 # 100))
     end.

Lemma find_optimal_none quantity av ship prefer :
  fst (GreedyOptimizer._find_optimal_tank quantity av ship prefer) = None <->
  forall kv, In kv av -> qualifies ship quantity kv = false.
Proof.
  unfold GreedyOptimizer._find_optimal_tank. cbv zeta.
  match goal with
  | |- context [fold_left ?f av ?i] =>
      assert (G : forall l s,
                (fst (fst s) = None <-> snd (fst s) = None) ->
                (fst (fst (fold_left f l s)) = None <->
                 fst (fst s) = None /\
                 forall kv, In kv l -> qualifies ship quantity kv = false));
        [|specialize (G av i); destruct (fold_left f av i) as [[b s] w];
          cbn [fst snd] in *; rewrite G by tauto; tauto]
  end.
  induction l as [|[k v] l IH]; intros s Hs.
  - cbn [fold_left]. split; [intro H; split; [exact H | intros kv []] | tauto].
  - cbn [fold_left]. rewrite IH; clear IH.
    + destruct s as [[b sc] w]. cbn [fst snd] in Hs. cbv beta iota.
      unfold qualifies at 2. 
      assert (Hcons : forall (P : string * Q -> Prop),
                (forall kv, In kv ((k, v) :: l) -> P kv) <->
                P (k, v) /\ forall kv, In kv l -> P kv).
      { intro P. split.
        - intro H. split; [apply H; left; reflexivity | intros kv Hkv; apply H; right; exact Hkv].
        - intros [H1 H2] kv [<-|Hkv]; auto. }
      rewrite (Hcons (fun kv => qualifies ship quantity kv = false)).
      unfold qualifies at 2. cbn [fst snd].
      destruct (Qltb v quantity); cbn [negb andb fst]; [tauto|].
      destruct (get_tank_by_id ship k) as [tank|]; [|tauto].
      cbv zeta.
      destruct (Qltb _ (65 # 100)); cbn [negb fst]; [tauto|].
      destruct sc as [best|].
      * assert (b <> None) by (intro Hb; apply Hs in Hb; discriminate).
        destruct (Qltb _ best); cbn [fst]; split; try tauto;
          intros [H1 _]; try discriminate; contradiction.
      * cbn [fst]. split; [intros [H _]; discriminate H | intros [_ [H _]]; discriminate H].
    + destruct s as [[b sc] w]. cbn [fst snd] in Hs. cbv beta iota.
      destruct (Qltb v quantity); [exact Hs|].
      destruct (get_tank_by_id ship k) as [tank|]; [|exact Hs].
      cbv zeta. destruct (Qltb _ (65 # 100)); [exact Hs|].
      destruct sc as [best|]; [destruct (Qltb _ best); [|exact Hs]|];
        cbn [fst snd]; split; discriminate.
Qed.

Lemma find_largest_spec av ship :
  match GreedyOptimizer._find_largest_available_tank av ship with
  | None => forall kv, In kv av -> snd kv <= eps
  | Some tid =>
      exists v, In (tid, v) av /\ eps < v /\ forall kv, In kv av -> snd kv <= v
  end.
Proof.
  unfold GreedyOptimizer._find_largest_available_tank.
  set (f := fun '(best_tank_id, max_volume) '(tank_id, available_volume) =>
              if Qgtb available_volume max_volume && Qgtb available_volume eps
              then (Some tank_id, available_volume)
              else (best_tank_id, max_volume)).
  set (ok := fun (seen : list (string * Q)) (s : option string * Q) =>
               match fst s with
               | None => snd s == 0 /\ forall kv, In kv seen -> snd kv <= eps
               | Some tid => In (tid, snd s) seen /\ eps < snd s /\
                             forall kv, In kv seen -> snd kv <= snd s
               end).
  assert (G : forall l seen s, ok seen s -> ok (seen ++ l) (fold_left f l s)).
  { induction l as [|[k v] l IH]; intros seen s Hs.
    - rewrite app_nil_r. exact Hs.
    - cbn [fold_left].
      replace (seen ++ (k, v) :: l) with ((seen ++ [(k, v)]) ++ l)
        by (rewrite <- app_assoc; reflexivity).
      apply IH. destruct s as [b m]. unfold ok in *. cbn [fst snd] in *.
      unfold f. pose proof eps_pos as He.
      destruct (Qgtb v m) eqn:E1; [destruct (Qgtb v eps) eqn:E2|]; cbn [andb fst snd].
      + apply Qgtb_gt in E1, E2. split; [apply in_or_app; right; left; reflexivity|].
        split; [exact E2|]. intros kv Hkv. apply in_app_or in Hkv.
        destruct Hkv as [Hkv|[<-|[]]]; [|cbn [snd]; lra].
        destruct b as [t|]; [destruct Hs as [_ [_ Hs]] | destruct Hs as [_ Hs]];
          specialize (Hs _ Hkv); lra.
      + apply Qgtb_gt in E1. apply Qltb_false in E2.
        destruct b as [t|].
        * destruct Hs as [_ [Hs _]]. lra.
        * destruct Hs as [H0 Hs]. split; [exact H0|]. intros kv Hkv.
          apply in_app_or in Hkv. destruct Hkv as [Hkv|[<-|[]]]; auto.
      + apply Qltb_false in E1. destruct b as [t|].
        * destruct Hs as [H1 [H2 H3]]. split; [apply in_or_app; left; exact H1|].
          split; [exact H2|]. intros kv Hkv.
          apply in_app_or in Hkv. destruct Hkv as [Hkv|[<-|[]]]; auto.
        * destruct Hs as [H0 Hs]. split; [exact H0|]. intros kv Hkv.
          apply in_app_or in Hkv. destruct Hkv as [Hkv|[<-|[]]]; auto.
          cbn [snd]. lra. }
  specialize (G av [] (None, 0)). cbn [app] in G.
  assert (H0 : ok [] (None, 0)) by (unfold ok; cbn [fst snd]; split; [reflexivity | intros kv []]).
  specialize (G H0). unfold ok in G.
  destruct (fold_left f av (None, 0)) as [b m]. cbn [fst snd] in *.
  destruct b as [t|]; [exists m; exact G | tauto].
Qed.

(** X19. The three tank searches of the greedy solver. [_find_optimal_tank]
    names a tank only if its free volume holds the quantity and the quantity
    fills at least 65% of the tank's positive volume, and it names none, with
    a waste ratio of 1, exactly when no entry passes that test.
    [_find_largest_available_tank] names a tank with the greatest free
    volume, which is above 0.001, and names none exactly when no free volume
    is above 0.001. *)
Theorem greedy_tank_searches :
  forall ship av,
    (forall quantity prefer tid,
       fst (GreedyOptimizer._find_optimal_tank quantity av ship prefer) = Some tid ->
       exists v tank, In (tid, v) av /\ quantity <= v /\
                      get_tank_by_id ship tid = Some tank /\ 0 < volume tank /\
                      (65 # 100) * volume tank <= quantity) /\
    (forall quantity prefer,
       (forall kv, In kv av -> qualifies ship quantity kv = false) <->
       GreedyOptimizer._find_optimal_tank quantity av ship prefer = (None, 1)) /\
    (forall tid,
       GreedyOptimizer._find_largest_available_tank av ship = Some tid ->
       exists v, In (tid, v) av /\ eps < v /\ forall kv, In kv av -> snd kv <= v) /\
    ((forall kv, In kv av -> snd kv <= eps) <->
     GreedyOptimizer._find_largest_available_tank av ship = None).
Proof.
  intros ship av. split; [|split; [|split]].
  - intros quantity prefer tid H. apply (find_optimal_fits ship _ _ _ _ H).
  - intros quantity prefer. rewrite <- (find_optimal_none quantity av ship prefer).
    split; [|intros ->; reflexivity].
    unfold GreedyOptimizer._find_optimal_tank. cbv zeta.
    match goal with
    | |- context [fold_left ?f av ?i] =>
        assert (G : forall l s,
                  (fst (fst s) = None -> snd s = 1) ->
                  fst (fst (fold_left f l s)) = None -> snd (fold_left f l s) = 1);
          [|specialize (G av i); destruct (fold_left f av i) as [[b s] w];
            cbn [fst snd] in *; intro H; rewrite H in *; rewrite G; auto]
    end.
    induction l as [|[k v] l IH]; intros s Hs; [exact Hs|].
    cbn [fold_left]. apply IH. destruct s as [[b sc] w]. cbn [fst snd] in Hs.
    cbv beta iota.
    destruct (Qltb v quantity); [exact Hs|].
    destruct (get_tank_by_id ship k) as [tank|]; [|exact Hs].
    cbv zeta. destruct (Qltb _ (65 # 100)); [exact Hs|].
    match goal with
    | |- fst (fst (if ?c then _ else _)) = _ -> _ => destruct c
    end; [discriminate | exact Hs].
  - intros tid H. pose proof (find_largest_spec av ship) as G. rewrite H in G. exact G.
  - pose proof (find_largest_spec av ship) as G.
    destruct (GreedyOptimizer._find_largest_available_tank av ship) as [t|].
    + split; [|discriminate]. intro H. destruct G as [v [Hin [Hv _]]].
      specialize (H _ Hin). cbn [snd] in H. lra.
    + tauto.
Qed.

(** With 30 to place, no tank of the two-row ship passes the test, and the
    largest free tank is the first one. *)
Lemma greedy_tank_searches_witness :
  let av := GreedyOptimizer.available_of Examples.ship_two_rows [] in
  GreedyOptimizer._find_optimal_tank 30 av Examples.ship_two_rows true = (None, 1) /\
  exists v, In ("t0"%string, v) av /\ eps < v /\ forall kv, In kv av -> snd kv <= v.
Proof.
  intro av.
  destruct (greedy_tank_searches Examples.ship_two_rows av) as [_ [H2 [H3 _]]].
  split.
  - apply H2. intros kv Hkv. simpl in Hkv.
    destruct Hkv as [<-|[<-|[<-|[<-|[]]]]]; vm_compute; reflexivity.
  - apply H3. vm_compute. reflexivity.
Defined.

(** ** The best chromosome of the genetic solver *)

Lemma argmax_index_spec (scores : list Q) i :
  GeneticOptimizer.argmax_index scores = Some i ->
  (i < length scores)%nat /\ forall x, In x scores -> x <= nth i scores 0.
Proof.
  unfold GeneticOptimizer.argmax_index. destruct scores as [|s0 rest]; [discriminate|].
  intro H. apply Some_eq in H.
  set (f := fun '(best_i, best_s, i) (s : Q) =>
              if Qgtb s best_s then (i, s, S i) else (best_i, best_s, S i)) in H.
  assert (G : forall l seen bi bs,
            nth bi (seen ++ l) 0 = bs -> (bi < length seen)%nat ->
            (forall x, In x seen -> x <= bs) ->
            let r := fold_left f l (bi, bs, length seen) in
            nth (fst (fst r)) (seen ++ l) 0 = snd (fst r) /\
            (fst (fst r) < length (seen ++ l))%nat /\
            forall x, In x (seen ++ l) -> x <= snd (fst r)).
  { induction l as [|s l IH]; intros seen bi bs Hn Hb Hle; cbv zeta.
    - cbn [fold_left fst snd]. rewrite app_nil_r in *. auto.
    - cbn [fold_left].
      assert (Ef : f (bi, bs, length seen) s
                   = if Qgtb s bs then (length seen, s, S (length seen))
                     else (bi, bs, S (length seen))) by reflexivity.
      rewrite Ef. clear Ef.
      replace (seen ++ s :: l) with ((seen ++ [s]) ++ l)
        by (rewrite <- app_assoc; reflexivity).
      replace (S (length seen)) with (length (seen ++ [s]))
        by (rewrite length_app; cbn [length]; lia).
      destruct (Qgtb s bs) eqn:E.
      + apply Qgtb_gt in E. apply IH.
        * rewrite app_nth1 by (rewrite length_app; cbn [length]; lia).
          rewrite app_nth2 by lia. rewrite Nat.sub_diag. reflexivity.
        * rewrite length_app. cbn [length]. lia.
        * intros x Hx. apply in_app_or in Hx. destruct Hx as [Hx|[<-|[]]]; [|lra].
          specialize (Hle _ Hx). lra.
      + apply Qltb_false in E. apply IH.
        * rewrite <- Hn. rewrite <- app_assoc. reflexivity.
        * rewrite length_app. cbn [length]. lia.
        * intros x Hx. apply in_app_or in Hx. destruct Hx as [Hx|[<-|[]]]; auto. }
  specialize (G rest [s0] 0%nat s0 eq_refl ltac:(cbn; lia)).
  cbv zeta in G. cbn [length app] in G. rewrite H in G.
  destruct G as [G1 [G2 G3]].
  - intros x [<-|[]]. lra.
  - split; [exact G2|]. intros x Hx. rewrite G1. apply G3. exact Hx.
Qed.

(** The loop state is sound: the best fitness is that of the best
    chromosome and bounds the scores of the generation last evaluated. *)
Definition best_tracked (self : GeneticOptimizer.t) (s : GeneticOptimizer.Loop) : Prop :=
  GeneticOptimizer.l_best_fitness s
    = GeneticOptimizer.calculate_fitness self (GeneticOptimizer.l_best_chromosome s) /\
  forall x, In x (GeneticOptimizer.l_fitness_scores s) ->
            x <= GeneticOptimizer.l_best_fitness s.

Lemma evolve_best_tracked self : forall generations s s',
  best_tracked self s ->
  GeneticOptimizer.evolve self generations s = Some s' ->
  best_tracked self s' /\
  GeneticOptimizer.l_best_fitness s <= GeneticOptimizer.l_best_fitness s'.
Proof.
  induction generations as [|g IH]; intros s s' Hs; cbn [GeneticOptimizer.evolve].
  - intro E. apply Some_eq in E. subst s'. split; [exact Hs | lra].
  - cbv zeta.
    destruct (GeneticOptimizer.breed _ _ _ _ _ _) as [[np r]|]; [|discriminate].
    destruct (GeneticOptimizer.argmax_index _) as [idx|] eqn:Ea; [|discriminate].
    destruct (argmax_index_spec _ _ Ea) as [Hi Hmax].
    set (pop := firstn (GeneticOptimizer.population_size self) np) in *.
    set (scores := map (GeneticOptimizer.calculate_fitness self) pop) in *.
    assert (Hnth : nth idx scores 0
                   = GeneticOptimizer.calculate_fitness self
                       (nth idx pop GeneticOptimizer.default_chromosome)).
    { unfold scores in *. rewrite length_map in Hi.
      rewrite (nth_indep _ 0 (GeneticOptimizer.calculate_fitness self
                                GeneticOptimizer.default_chromosome))
        by (rewrite length_map; exact Hi).
      apply map_nth. }
    destruct Hs as [Hs1 Hs2].
    match goal with
    | |- (let '(_, _) := ?X in _) = _ -> _ =>
        assert (Hb : best_tracked self
                       (GeneticOptimizer.mkLoop pop scores (fst X) (snd X)
                          (GeneticOptimizer.l_history s ++ [snd X]) r) /\
                     GeneticOptimizer.l_best_fitness s <= snd X);
          [|destruct X as [bc bf]; cbn [fst snd] in Hb]
    end.
    { destruct (Qgtb (nth idx scores 0) (GeneticOptimizer.l_best_fitness s)) eqn:E;
        cbn [fst snd]; unfold best_tracked;
        cbn [GeneticOptimizer.l_best_fitness GeneticOptimizer.l_best_chromosome
             GeneticOptimizer.l_fitness_scores].
      - apply Qgtb_gt in E. split; [split; [exact Hnth | exact Hmax] | lra].
      - apply Qltb_false in E. split; [split; [exact Hs1|] | lra].
        intros x Hx. specialize (Hmax _ Hx). lra. }
    destruct Hb as [Hb Hle].
    match goal with
    | |- (if ?c then _ else _) = _ -> _ => destruct c
    end.
    + intro E. apply Some_eq in E. subst s'. split; [exact Hb | exact Hle].
    + intro E. destruct (IH _ _ Hb E) as [H1 H2]. split; [exact H1|].
      cbn [GeneticOptimizer.l_best_fitness] in H2. lra.
Qed.

(** X20. The genetic solver decodes the fittest chromosome it has seen: the
    main loop, started as [optimize] starts it on a population, ends with a
    best chromosome whose fitness is the recorded best fitness, and that
    fitness is at least the fitness of every chromosome of the initial
    population and at least every score of the generation evaluated last. *)
Theorem genetic_loop_keeps_the_fittest :
  forall self population r best_idx generations s',
    let fitness_scores := map (GeneticOptimizer.calculate_fitness self) population in
    GeneticOptimizer.argmax_index fitness_scores = Some best_idx ->
    GeneticOptimizer.evolve self generations
      (GeneticOptimizer.mkLoop population fitness_scores
         (nth best_idx population GeneticOptimizer.default_chromosome)
         (nth best_idx fitness_scores 0) [nth best_idx fitness_scores 0] r) = Some s' ->
    GeneticOptimizer.l_best_fitness s'
      = GeneticOptimizer.calculate_fitness self (GeneticOptimizer.l_best_chromosome s') /\
    (forall c, In c population ->
       GeneticOptimizer.calculate_fitness self c <= GeneticOptimizer.l_best_fitness s') /\
    (forall x, In x (GeneticOptimizer.l_fitness_scores s') ->
       x <= GeneticOptimizer.l_best_fitness s').
Proof.
  intros self population r best_idx generations s' fitness_scores Ha E.
  destruct (argmax_index_spec _ _ Ha) as [Hi Hmax].
  apply evolve_best_tracked in E.
  - destruct E as [[H1 H2] H3]. cbn [GeneticOptimizer.l_best_fitness] in H3.
    split; [exact H1|]. split; [|exact H2].
    intros c Hc. assert (Hin : In (GeneticOptimizer.calculate_fitness self c) fitness_scores)
      by (apply in_map; exact Hc).
    specialize (Hmax _ Hin). lra.
  - split; cbn [GeneticOptimizer.l_best_fitness GeneticOptimizer.l_best_chromosome
                GeneticOptimizer.l_fitness_scores]; [|exact Hmax].
    unfold fitness_scores in *. rewrite length_map in Hi.
    rewrite (nth_indep _ 0 (GeneticOptimizer.calculate_fitness self
                              GeneticOptimizer.default_chromosome))
      by (rewrite length_map; exact Hi).
    apply map_nth.
Qed.

(** Two generations of four chromosomes on the two-row ship: the second
    chromosome of the initial population is the fittest, and the best
    fitness after the loop is at least the fitness of all four. *)
Lemma genetic_loop_keeps_the_fittest_witness :
  let self := GeneticOptimizer.init Examples.ship_two_rows
                [Examples.regular "A" 100; Examples.regular "B" 98] None None
                (Some Examples.small_ga) in
  let draws := [7; 2; 9; 4; 1; 8; 3; 5; 6; 0; 11; 13; 17; 19; 23; 29; 31; 37]%N in
  let population := fst (GeneticOptimizer.create_initial_population self draws) in
  let fitness_scores := map (GeneticOptimizer.calculate_fitness self) population in
  exists s',
    GeneticOptimizer.argmax_index fitness_scores = Some 1%nat /\
    GeneticOptimizer.evolve self 2
      (GeneticOptimizer.mkLoop population fitness_scores
         (nth 1 population GeneticOptimizer.default_chromosome)
         (nth 1 fitness_scores 0) [nth 1 fitness_scores 0] []) = Some s' /\
    forall c, In c population ->
      GeneticOptimizer.calculate_fitness self c <= GeneticOptimizer.l_best_fitness s'.
Proof.
  intros self draws population fitness_scores.
  eexists. split; [vm_compute; reflexivity|].
  split; [vm_compute; reflexivity|].
  refine (proj1 (proj2 (genetic_loop_keeps_the_fittest self population [] 1%nat 2%nat
                          _ _ _))).
  - vm_compute. reflexivity.
  - vm_compute. reflexivity.
Defined.

(** ** What phase 0 has done with the mandatory cargos when it returns *)

Lemma dict_set_absent {V} k v (d : list (string * V)) :
  ~ In k (dict_keys d) -> dict_set k v d = (d ++ [(k, v)])%list.
Proof.
  induction d as [|[x w] d IH]; cbn [dict_set dict_keys map fst app]; intro H.
  - reflexivity.
  - destruct (String.eqb k x) eqn:E.
    + apply String.eqb_eq in E. subst. exfalso. apply H. left. reflexivity.
    + rewrite IH; [reflexivity|]. intro Hin. apply H. right. exact Hin.
Qed.



Section Copies.
Import AdvancedStowageOptimizer.



Lemma copy_into_empty temp plan :
  NoDup (dict_keys (assignments temp)) -> assignments plan = [] ->
  assignments (copy_assignments temp plan) = assignments temp.
Proof.
  unfold copy_assignments. intros Hnd He.
  assert (G : forall l p, NoDup (dict_keys (assignments p ++ l)) ->
            assignments (fold_left (fun p '(tank_id, assignment) =>
                                      add_assignment p tank_id assignment) l p)
            = (assignments p ++ l)%list).
  { induction l as [|[tid a] l IH]; intros p Hp; cbn [fold_left].
    - rewrite app_nil_r. reflexivity.
    - assert (Hfresh : ~ In tid (dict_keys (assignments p))).
      { unfold dict_keys in *. rewrite map_app in Hp. cbn [map fst] in Hp.
        apply NoDup_remove_2 in Hp. intro Hin. apply Hp. apply in_or_app. left. exact Hin. }
      rewrite IH; cbn [add_assignment set_assignments assignments];
        rewrite (dict_set_absent _ _ _ Hfresh), <- app_assoc; [reflexivity | exact Hp]. }
  rewrite G; rewrite He; [reflexivity | exact Hnd].
Qed.

Variable ship : Ship.
Variable settings : Settings.
Variable e : Env.
Variable cargo : Cargo.










End Copies.






(** ** Reading and writing the genes of a chromosome *)

Lemma set_nth_same {A : Type} (d x : A) (l : list A) : forall i,
  (i < length l)%nat -> nth i (set_nth i x l) d = x.
Proof.
  induction l as [|y l IH]; intros [|i] H; cbn [length] in H; try lia;
    cbn [set_nth nth]; [reflexivity|].
  apply IH. lia.
Qed.

Lemma set_nth_other {A : Type} (d x : A) (l : list A) : forall i j,
  i <> j -> nth j (set_nth i x l) d = nth j l d.
Proof.
  induction l as [|y l IH]; intros [|i] [|j] H; cbn [set_nth nth]; try reflexivity;
    try contradiction.
  apply IH. congruence.
Qed.

(** X22. A chromosome is read and written by index like an array with a
    guard: inside [0, len(genes)) a write is read back, leaves every other
    gene, the number of genes and the tank ids alone; outside, and that
    includes every negative index, a write changes nothing and a read gives
    the empty gene [(None, 0.0)]. *)
Theorem chromosome_reads_back_what_was_written :
  forall c i j cargo_id quantity,
    let c' := set_tank_assignment c i cargo_id quantity in
    let inside := (0 <= i /\ i < Z.of_nat (length (genes c)))%Z in
    length (genes c') = length (genes c) /\
    tank_ids c' = tank_ids c /\
    (inside -> get_tank_assignment c' i = (cargo_id, quantity)) /\
    (i <> j -> get_tank_assignment c' j = get_tank_assignment c j) /\
    (~ inside -> c' = c /\ get_tank_assignment c i = (None, 0)).
Proof.
  intros c i j cargo_id quantity c' inside. subst c' inside.
  unfold set_tank_assignment, get_tank_assignment.
  destruct ((0 <=? i)%Z && (i <? Z.of_nat (length (genes c)))%Z) eqn:E.
  - apply andb_true_iff in E. destruct E as [E1 E2].
    apply Z.leb_le in E1. apply Z.ltb_lt in E2.
    cbn [genes tank_ids]. rewrite set_nth_length.
    split; [reflexivity|]. split; [reflexivity|]. split; [|split].
    + intros _.
      replace ((0 <=? i)%Z && (i <? Z.of_nat (length (genes c)))%Z) with true
        by (symmetry; apply andb_true_iff; split; [apply Z.leb_le | apply Z.ltb_lt]; lia).
      apply set_nth_same. lia.
    + intro Hne.
      destruct ((0 <=? j)%Z && (j <? Z.of_nat (length (genes c)))%Z) eqn:Ej;
        [|reflexivity].
      apply andb_true_iff in Ej. destruct Ej as [Ej1 Ej2].
      apply Z.leb_le in Ej1. apply set_nth_other. intro Heq. apply Hne.
      apply Z2Nat.inj; assumption.
    + intro H. exfalso. apply H. split; assumption.
  - split; [reflexivity|]. split; [reflexivity|]. split; [|split].
    + intros [H1 H2]. exfalso.
      assert ((0 <=? i)%Z && (i <? Z.of_nat (length (genes c)))%Z = true)
        by (apply andb_true_iff; split; [apply Z.leb_le | apply Z.ltb_lt]; assumption).
      congruence.
    + reflexivity.
    + intros _. split; reflexivity.
Qed.

(** Writing at index 1 of the two-gene chromosome is read back; index -1 is
    outside. *)
Lemma chromosome_reads_back_what_was_written_witness :
  get_tank_assignment
    (set_tank_assignment Examples.chromosome_B 1 (Some "A"%string) 7) 1
  = (Some "A"%string, 7) /\
  set_tank_assignment Examples.chromosome_B (-1) (Some "A"%string) 7
  = Examples.chromosome_B.
Proof.
  split.
  - apply (chromosome_reads_back_what_was_written Examples.chromosome_B 1 0
             (Some "A"%string) 7). simpl. lia.
  - apply (chromosome_reads_back_what_was_written Examples.chromosome_B (-1) 0
             (Some "A"%string) 7). simpl. lia.
Defined.

(** ** The swap mutation *)

Lemma set_nth_put_perm {A : Type} (d : A) (l : list A) : forall i a,
  (i < length l)%nat -> Permutation (nth i l d :: set_nth i a l) (a :: l).
Proof.
  induction l as [|b l IH]; intros [|i] a H; cbn [length] in H; try lia;
    cbn [nth set_nth].
  - apply perm_swap.
  - rewrite perm_swap. rewrite (IH i a) by lia. apply perm_swap.
Qed.

Lemma swap_perm {A : Type} (d : A) (l : list A) : forall i j,
  (i < length l)%nat -> (j < length l)%nat ->
  Permutation (set_nth j (nth i l d) (set_nth i (nth j l d) l)) l.
Proof.
  induction l as [|a l IH]; intros [|i] [|j] Hi Hj; cbn [length] in Hi, Hj; try lia;
    cbn [nth set_nth].
  - reflexivity.
  - apply set_nth_put_perm. lia.
  - apply set_nth_put_perm. lia.
  - apply perm_skip. apply IH; lia.
Qed.

Lemma sampled_index_in_range n k r i :
  (0 < n)%nat -> (nth i (fst (random_sample (seq 0 n) k r)) 0 < n)%nat.
Proof.
  intro Hn.
  destruct (nth_in_or_default i (fst (random_sample (seq 0 n) k r)) 0%nat) as [H|H].
  - apply random_sample_In in H. apply in_seq in H. lia.
  - rewrite H. exact Hn.
Qed.

(** X23. The swap mutation only reorders: the genes of the mutated
    chromosome are a permutation of the genes it was given, so every cargo
    keeps the quantities it had, and the tank ids are untouched; a chromosome
    of fewer than two genes comes back as it is, with no random draw used. *)
Theorem swap_mutation_permutes_the_genes :
  forall chromosome r,
    let result := GeneticOptimizer._mutate_swap chromosome r in
    Permutation (genes (fst result)) (genes chromosome) /\
    tank_ids (fst result) = tank_ids chromosome /\
    ((length (genes chromosome) < 2)%nat -> result = (chromosome, r)).
Proof.
  intros chromosome r. cbv zeta. unfold GeneticOptimizer._mutate_swap.
  destruct (Nat.ltb (length (genes chromosome)) 2) eqn:E.
  - cbn [fst]. repeat split; reflexivity.
  - apply Nat.ltb_ge in E.
    pose proof (sampled_index_in_range (length (genes chromosome)) 2 r 0 ltac:(lia)) as H0.
    pose proof (sampled_index_in_range (length (genes chromosome)) 2 r 1 ltac:(lia)) as H1.
    destruct (random_sample (seq 0 (length (genes chromosome))) 2 r) as [idxs r1].
    cbn [fst] in *. cbv zeta. unfold GeneticOptimizer.set_gene. cbn [genes tank_ids fst].
    split; [apply swap_perm; assumption|]. split; [reflexivity|]. intro H. lia.
Qed.

(** A chromosome of one gene is not touched; the two genes of another one
    are exchanged. *)
Lemma swap_mutation_permutes_the_genes_witness :
  let single := mkChromosome [(Some "A"%string, 5)] ["t0"%string] in
  GeneticOptimizer._mutate_swap single [3%N] = (single, [3%N]) /\
  Permutation (genes (fst (GeneticOptimizer._mutate_swap Examples.chromosome_B [1%N; 0%N])))
              (genes Examples.chromosome_B).
Proof.
  intro single. split.
  - apply (proj2 (proj2 (swap_mutation_permutes_the_genes single [3%N]))).
    simpl. lia.
  - apply (proj1 (swap_mutation_permutes_the_genes Examples.chromosome_B [1%N; 0%N])).
Defined.

(** ** Saving and loading a ship *)

Lemma Tank_from_to e t :
  Tank_from_dict e (Tank_to_dict t) = Some (Tank_post_init e t).
Proof. destruct t; reflexivity. Qed.

Lemma tanks_from_to envs (l : list Tank) : forall i,
  tanks_from_dicts envs i (map Tank_to_dict l)
  = Some (map (fun it => Tank_post_init (envs (fst it)) (snd it))
              (combine (seq i (length l)) l)).
Proof.
  induction l as [|t l IH]; intro i; [reflexivity|].
  cbn [map tanks_from_dicts length seq combine fst snd].
  rewrite Tank_from_to, IH. reflexivity.
Qed.

Lemma Ship_from_to e envs s :
  Ship_from_dict e envs (Ship_to_dict s)
  = Some (Ship_post_init e
            (mkShip (s_name s)
                    (map (fun it => Tank_post_init (envs (fst it)) (snd it))
                         (combine (seq 0 (length (tanks s))) (tanks s)))
                    (s_id s))).
Proof.
  unfold Ship_from_dict, Ship_to_dict.
  change (dict_get "tanks" _) with (Some (JList (map Tank_to_dict (tanks s)))).
  cbv beta iota zeta. rewrite tanks_from_to. reflexivity.
Qed.

Lemma Tank_post_init_fields e t :
  t_name (Tank_post_init e t) = t_name t /\
  volume (Tank_post_init e t) = volume t /\
  (t_id t <> ""%string -> Tank_post_init e t = t).
Proof.
  unfold Tank_post_init. destruct (String.eqb (t_id t) "") eqn:E.
  - apply String.eqb_eq in E. repeat split; auto. intro H. contradiction.
  - repeat split; reflexivity.
Qed.

Lemma post_init_tanks_fields envs (l : list Tank) : forall i,
  let l' := map (fun it => Tank_post_init (envs (fst it)) (snd it))
                (combine (seq i (length l)) l) in
  map t_name l' = map t_name l /\ map volume l' = map volume l /\
  (Forall (fun t => t_id t <> ""%string) l -> l' = l).
Proof.
  induction l as [|t l IH]; intro i; cbv zeta; [repeat split; reflexivity|].
  cbn [length seq combine map fst snd].
  destruct (IH (S i)) as [H1 [H2 H3]]. cbv zeta in H1, H2, H3.
  destruct (Tank_post_init_fields (envs i) t) as [G1 [G2 G3]].
  rewrite H1, H2, G1, G2.
  split; [reflexivity|]. split; [reflexivity|]. intro H.
  inversion H as [|x y Hx Hy]; subst. rewrite (H3 Hy), (G3 Hx). reflexivity.
Qed.

(** X25. A ship written by [to_dict] is always read back by [from_dict], with
    its name and the names and volumes of its tanks in order; an empty id, of
    the ship or of a tank, is replaced by a fresh one, so a ship that has an
    id and whose tanks all have one comes back unchanged. A dictionary
    without a name cannot be read. *)
Theorem ship_round_trip :
  forall e envs s,
    (exists s',
       Ship_from_dict e envs (Ship_to_dict s) = Some s' /\
       s_name s' = s_name s /\
       map t_name (tanks s') = map t_name (tanks s) /\
       map volume (tanks s') = map volume (tanks s) /\
       s_id s' = (if String.eqb (s_id s) "" then env_uuid4 e else s_id s)) /\
    (s_id s <> ""%string -> Forall (fun t => t_id t <> ""%string) (tanks s) ->
     Ship_from_dict e envs (Ship_to_dict s) = Some s) /\
    (forall data, dict_get "name" data = None ->
                  Ship_from_dict e envs (JDict data) = None).
Proof.
  intros e envs s.
  destruct (post_init_tanks_fields envs (tanks s) 0) as [H1 [H2 H3]]. cbv zeta in *.
  split; [|split].
  - eexists. split; [apply Ship_from_to|]. unfold Ship_post_init. cbn [s_id].
    destruct (String.eqb (s_id s) ""); cbn [s_name tanks s_id]; auto.
  - intros Hid Hall. rewrite Ship_from_to, (H3 Hall). unfold Ship_post_init. cbn [s_id].
    replace (String.eqb (s_id s) "") with false
      by (symmetry; apply String.eqb_neq; exact Hid).
    destruct s; reflexivity.
  - intros data Hn. unfold Ship_from_dict. rewrite Hn. cbv zeta.
    destruct (dict_get "tanks" data) as [[]|]; try reflexivity;
      destruct (tanks_from_dicts envs 0 _); try reflexivity;
      destruct (jid_field data); reflexivity.
Qed.

(** The two-row ship comes back as it was saved. *)
Lemma ship_round_trip_witness :
  Ship_from_dict Examples.env0 (fun _ => Examples.env1)
    (Ship_to_dict Examples.ship_two_rows) = Some Examples.ship_two_rows.
Proof.
  apply (proj1 (proj2 (ship_round_trip Examples.env0 (fun _ => Examples.env1)
                         Examples.ship_two_rows))).
  - discriminate.
  - repeat constructor; discriminate.
Defined.

(** ** Tournament selection *)

Lemma random_sample_nil pool k r :
  fst (random_sample pool k r) = [] <-> k = 0%nat \/ pool = [].
Proof.
  destruct k as [|k]; cbn [random_sample].
  - split; auto.
  - destruct pool as [|p pool].
    + split; auto.
    + destruct (randbelow (length (p :: pool)) r) as [i r1].
      destruct (random_sample (remove_nth i (p :: pool)) k r1) as [xs r2].
      cbn [fst]. split; [discriminate | intros [H|H]; discriminate H].
Qed.

Lemma tournament_fold (fitness : list Q) (rest : list nat) : forall seen bi,
  In bi seen -> (forall j, In j seen -> nth j fitness 0 <= nth bi fitness 0) ->
  let best :=
    fst (fold_left
           (fun '(best_idx, best_fitness) idx =>
              if Qgtb (nth idx fitness 0) best_fitness
              then (idx, nth idx fitness 0)
              else (best_idx, best_fitness))
           rest (bi, nth bi fitness 0)) in
  In best (seen ++ rest) /\
  forall j, In j (seen ++ rest) -> nth j fitness 0 <= nth best fitness 0.
Proof.
  induction rest as [|x rest IH]; intros seen bi Hin Hmax; cbv zeta.
  - cbn [fold_left fst]. rewrite app_nil_r. auto.
  - cbn [fold_left].
    replace (seen ++ x :: rest) with ((seen ++ [x]) ++ rest)
      by (rewrite <- app_assoc; reflexivity).
    destruct (Qgtb (nth x fitness 0) (nth bi fitness 0)) eqn:E.
    + apply Qgtb_gt in E. apply IH.
      * apply in_or_app. right. left. reflexivity.
      * intros j Hj. apply in_app_or in Hj. destruct Hj as [Hj|[<-|[]]]; [|lra].
        specialize (Hmax _ Hj). lra.
    + apply Qltb_false in E. apply IH.
      * apply in_or_app. left. exact Hin.
      * intros j Hj. apply in_app_or in Hj. destruct Hj as [Hj|[<-|[]]]; auto.
Qed.

(** X24. Tournament selection draws [min(tournament_size, len(population))]
    positions and returns the chromosome at a drawn position whose score is
    the greatest of the drawn ones; it raises exactly when nothing is drawn,
    that is for an empty population or a tournament size of 0. *)
Theorem tournament_returns_the_fittest_drawn :
  forall self population fitness_scores r,
    length fitness_scores = length population ->
    let drawn :=
      fst (random_sample (seq 0 (length population))
             (Nat.min (GeneticOptimizer.tournament_size self) (length population)) r) in
    (forall c r',
       GeneticOptimizer.tournament_selection self population fitness_scores r
         = Some (c, r') ->
       exists idx,
         In idx drawn /\ (idx < length population)%nat /\
         c = nth idx population GeneticOptimizer.default_chromosome /\
         forall j, In j drawn -> nth j fitness_scores 0 <= nth idx fitness_scores 0) /\
    (GeneticOptimizer.tournament_selection self population fitness_scores r = None <->
     population = [] \/ GeneticOptimizer.tournament_size self = 0%nat).
Proof.
  intros self population fitness r _ drawn. subst drawn.
  unfold GeneticOptimizer.tournament_selection.
  pose proof (random_sample_In
                (Nat.min (GeneticOptimizer.tournament_size self) (length population))
                (seq 0 (length population)) r) as Hin.
  pose proof (random_sample_nil (seq 0 (length population))
                (Nat.min (GeneticOptimizer.tournament_size self) (length population)) r)
    as Hnil.
  destruct (random_sample _ _ r) as [idxs r1]. cbn [fst] in *.
  assert (Hiff : idxs = [] <->
                 population = [] \/ GeneticOptimizer.tournament_size self = 0%nat).
  { rewrite Hnil. split.
    - intros [H|H].
      + destruct population; [left; reflexivity|]. cbn [length] in H. right. lia.
      + destruct population; [left; reflexivity|]. discriminate H.
    - intros [->|H]; [right; reflexivity | left; rewrite H; reflexivity]. }
  destruct idxs as [|first rest].
  - split; [discriminate|]. rewrite <- Hiff. tauto.
  - split.
    + pose proof (tournament_fold fitness rest [first] first (or_introl eq_refl)) as G.
      cbv zeta in G. cbn [app] in G.
      destruct (fold_left _ rest _) as [best bf]. cbn [fst] in G.
      intros c r' E. apply Some_eq in E. inversion E; subst.
      destruct G as [G1 G2]; [intros j [<-|[]]; lra|].
      exists best. split; [exact G1|]. split; [|split; [reflexivity | exact G2]].
      apply Hin in G1. apply in_seq in G1. lia.
    + destruct (fold_left _ rest _) as [best bf].
      split; [discriminate|]. intro H. apply Hiff in H. discriminate H.
Qed.

(** A tournament of two among four scored chromosomes. *)
Lemma tournament_returns_the_fittest_drawn_witness :
  let self := GeneticOptimizer.init Examples.ship_one_row
                [Examples.regular "A" 100; Examples.regular "B" 50] None None
                (Some Examples.small_ga) in
  let c (q : Q) := mkChromosome [(Some "B"%string, q); (None, 0)] ["t0"; "t1"]%string in
  let population := [c 10; c 20; c 30; c 40] in
  exists chosen r',
    GeneticOptimizer.tournament_selection self population [1; 4; 2; 3] [2%N; 0%N; 5%N]
      = Some (chosen, r') /\
    In chosen population.
Proof.
  intros self c population. eexists. eexists. split; [vm_compute; reflexivity|].
  destruct (proj1 (tournament_returns_the_fittest_drawn self population [1; 4; 2; 3]
                     [2%N; 0%N; 5%N] eq_refl) _ _ ltac:(vm_compute; reflexivity))
    as [idx [_ [Hlt [-> _]]]].
  apply nth_In. exact Hlt.
Defined.

(** ** Repair and the upper tolerance of a cargo *)

Lemma cargo_total_cons c q gs uid :
  GeneticOptimizer.cargo_total ((c, q) :: gs) uid
  == (if is_cargo c uid then q else 0) + GeneticOptimizer.cargo_total gs uid.
Proof.
  unfold GeneticOptimizer.cargo_total. cbn [filter fst].
  destruct (is_cargo c uid); cbn [map snd]; [apply Qsum_cons | lra].
Qed.

Lemma is_cargo_other c a b :
  a <> b -> is_cargo c a = true -> is_cargo c b = false.
Proof.
  destruct c as [s|]; cbn [is_cargo]; [|discriminate].
  intros Hne H. apply String.eqb_eq in H. subst s. apply String.eqb_neq. exact Hne.
Qed.

Section RepairTotals.
Import GeneticOptimizer.

Variable self : GeneticOptimizer.t.

Lemma remove_from_unchanged uid gs : forall rem,
  rem <= eps -> remove_from uid gs rem = gs.
Proof.
  induction gs as [|[c q] gs IH]; intros rem H; cbn [remove_from]; [reflexivity|].
  replace (Qgtb rem eps) with false by (symmetry; apply Qltb_false; exact H).
  rewrite andb_false_r, (IH rem H). reflexivity.
Qed.

(** Removing: what is left is at most what was there less the excess, to
    within 0.001, and never below nothing. *)
Lemma remove_from_total uid gs : forall rem,
  eps < rem ->
  cargo_total (remove_from uid gs rem) uid <= Qmax 0 (cargo_total gs uid - rem + eps).
Proof.
  induction gs as [|[c q] gs IH]; intros rem Hrem.
  - cbn [remove_from]. unfold cargo_total. cbn. apply Q.le_max_l.
  - cbn [remove_from].
    replace (Qgtb rem eps) with true by (symmetry; apply Qgtb_gt; exact Hrem).
    rewrite andb_true_r. destruct (is_cargo c uid) eqn:Ec.
    + cbv zeta. rewrite (cargo_total_cons c q gs uid), Ec.
      pose proof (Q.le_min_l rem q) as Hl. pose proof (Q.le_min_r rem q) as Hr.
      assert (Hhead : forall rest,
                cargo_total ((if Qltb (q - Qmin rem q) eps then empty_gene
                              else (Some uid, q - Qmin rem q)) :: rest) uid
                <= (q - Qmin rem q) + cargo_total rest uid).
      { intro rest. destruct (Qltb (q - Qmin rem q) eps).
        - unfold empty_gene. rewrite cargo_total_cons. cbn [is_cargo]. lra.
        - rewrite cargo_total_cons. cbn [is_cargo]. rewrite String.eqb_refl. lra. }
      destruct (Qlt_le_dec eps (rem - Qmin rem q)) as [Hgo|Hstop].
      * assert (Hq : Qmin rem q == q).
        { destruct (Q.min_spec rem q) as [[_ H]|[_ H]]; [|exact H].
          rewrite H in Hgo. pose proof eps_pos. lra. }
        specialize (IH _ Hgo). specialize (Hhead (remove_from uid gs (rem - Qmin rem q))).
        assert (Hmono : Qmax 0 (cargo_total gs uid - (rem - Qmin rem q) + eps)
                        <= Qmax 0 (q + cargo_total gs uid - rem + eps)).
        { apply Q.max_le_compat_l. lra. }
        lra.
      * rewrite (remove_from_unchanged uid gs _ Hstop).
        specialize (Hhead gs).
        pose proof (Q.le_max_r 0 (q + cargo_total gs uid - rem + eps)). lra.
    + rewrite !cargo_total_cons, Ec. specialize (IH _ Hrem).
      assert (Hmono : Qmax 0 (cargo_total gs uid - rem + eps)
                      <= Qmax 0 (0 + cargo_total gs uid - rem + eps)).
      { apply Q.max_le_compat_l. lra. }
      lra.
Qed.

Lemma remove_from_other uid uid' gs : forall rem,
  uid <> uid' ->
  cargo_total (remove_from uid gs rem) uid' == cargo_total gs uid'.
Proof.
  induction gs as [|[c q] gs IH]; intros rem Hne; cbn [remove_from]; [reflexivity|].
  destruct (is_cargo c uid && Qgtb rem eps) eqn:E.
  - apply andb_true_iff in E. destruct E as [Ec _].
    cbv zeta. rewrite (cargo_total_cons c q gs uid'), (is_cargo_other c uid uid' Hne Ec).
    destruct (Qltb _ eps).
    + unfold empty_gene. rewrite cargo_total_cons. cbn [is_cargo]. rewrite IH by exact Hne.
      reflexivity.
    + rewrite cargo_total_cons. cbn [is_cargo].
      replace (String.eqb uid uid') with false by (symmetry; apply String.eqb_neq; exact Hne).
      rewrite IH by exact Hne. reflexivity.
  - rewrite !cargo_total_cons, IH by exact Hne. reflexivity.
Qed.

(** Adding to the tanks that hold the cargo: the total grows by what was
    asked for less what remains, and nothing negative remains. *)
Lemma add_to_same_total uid gs : forall tids rem,
  0 <= rem ->
  0 <= snd (add_to_same self uid gs tids rem) /\
  cargo_total (fst (add_to_same self uid gs tids rem)) uid
    + snd (add_to_same self uid gs tids rem) == cargo_total gs uid + rem.
Proof.
  induction gs as [|[c q] gs IH]; intros [|tid tids] rem Hrem; cbn [add_to_same];
    try (cbn [fst snd]; split; [exact Hrem | reflexivity]).
  pose proof eps_pos as He. cbv zeta.
  set (to_add := Qmin rem (tank_volume_of self tid - q)).
  assert (Hle : to_add <= rem) by apply Q.le_min_l.
  destruct (is_cargo c uid && Qgtb rem eps) eqn:E;
    [destruct (Qgtb to_add eps) eqn:Et|].
  - apply andb_true_iff in E. destruct E as [Ec _].
    apply Qgtb_gt in Et.
    destruct (IH tids (rem - to_add) ltac:(lra)) as [H1 H2].
    destruct (add_to_same self uid gs tids (rem - to_add)) as [gs2 r2].
    cbn [fst snd] in *. split; [exact H1|].
    rewrite !cargo_total_cons, Ec. cbn [is_cargo]. rewrite String.eqb_refl. lra.
  - destruct (IH tids rem Hrem) as [H1 H2].
    destruct (add_to_same self uid gs tids rem) as [gs2 r2].
    cbn [fst snd] in *. split; [exact H1|].
    rewrite !cargo_total_cons. lra.
  - destruct (IH tids rem Hrem) as [H1 H2].
    destruct (add_to_same self uid gs tids rem) as [gs2 r2].
    cbn [fst snd] in *. split; [exact H1|].
    rewrite !cargo_total_cons. lra.
Qed.

Lemma add_to_empty_total uid gs : forall tids rem,
  0 <= rem ->
  0 <= snd (add_to_empty self uid gs tids rem) /\
  cargo_total (fst (add_to_empty self uid gs tids rem)) uid
    + snd (add_to_empty self uid gs tids rem) == cargo_total gs uid + rem.
Proof.
  induction gs as [|[c q] gs IH]; intros [|tid tids] rem Hrem; cbn [add_to_empty];
    try (cbn [fst snd]; split; [exact Hrem | reflexivity]).
  pose proof eps_pos as He. cbv zeta.
  set (to_add := Qmin rem (tank_volume_of self tid)).
  assert (Hle : to_add <= rem) by apply Q.le_min_l.
  destruct (is_none c && Qgtb rem eps) eqn:E;
    [destruct (Qgtb to_add eps) eqn:Et|].
  - apply andb_true_iff in E. destruct E as [Ec _].
    apply Qgtb_gt in Et.
    destruct (IH tids (rem - to_add) ltac:(lra)) as [H1 H2].
    destruct (add_to_empty self uid gs tids (rem - to_add)) as [gs2 r2].
    cbn [fst snd] in *. split; [exact H1|].
    rewrite !cargo_total_cons. cbn [is_cargo]. rewrite String.eqb_refl.
    destruct c; [discriminate Ec|]. cbn [is_cargo]. lra.
  - destruct (IH tids rem Hrem) as [H1 H2].
    destruct (add_to_empty self uid gs tids rem) as [gs2 r2].
    cbn [fst snd] in *. split; [exact H1|].
    rewrite !cargo_total_cons. lra.
  - destruct (IH tids rem Hrem) as [H1 H2].
    destruct (add_to_empty self uid gs tids rem) as [gs2 r2].
    cbn [fst snd] in *. split; [exact H1|].
    rewrite !cargo_total_cons. lra.
Qed.

Lemma add_to_same_other uid uid' gs : forall tids rem,
  uid <> uid' ->
  cargo_total (fst (add_to_same self uid gs tids rem)) uid' == cargo_total gs uid'.
Proof.
  induction gs as [|[c q] gs IH]; intros [|tid tids] rem Hne; cbn [add_to_same];
    try reflexivity.
  assert (Hhead : forall x, is_cargo c uid = true ->
            cargo_total ((Some uid, x) :: fst (add_to_same self uid gs tids
                           (rem - Qmin rem (tank_volume_of self tid - q)))) uid'
            == cargo_total ((c, q) :: gs) uid').
  { intros x Ec. rewrite !cargo_total_cons, (is_cargo_other c uid uid' Hne Ec).
    cbn [is_cargo].
    replace (String.eqb uid uid') with false by (symmetry; apply String.eqb_neq; exact Hne).
    rewrite IH by exact Hne. reflexivity. }
  cbv zeta.
  destruct (is_cargo c uid && Qgtb rem eps) eqn:E;
    [destruct (Qgtb (Qmin rem (tank_volume_of self tid - q)) eps) eqn:Et|].
  - apply andb_true_iff in E. destruct E as [Ec _].
    specialize (Hhead (q + Qmin rem (tank_volume_of self tid - q)) Ec).
    destruct (add_to_same self uid gs tids _) as [gs2 r2]. cbn [fst] in *. exact Hhead.
  - specialize (IH tids rem Hne).
    destruct (add_to_same self uid gs tids rem) as [gs2 r2]. cbn [fst] in *.
    rewrite !cargo_total_cons, IH. reflexivity.
  - specialize (IH tids rem Hne).
    destruct (add_to_same self uid gs tids rem) as [gs2 r2]. cbn [fst] in *.
    rewrite !cargo_total_cons, IH. reflexivity.
Qed.

Lemma add_to_empty_other uid uid' gs : forall tids rem,
  uid <> uid' ->
  cargo_total (fst (add_to_empty self uid gs tids rem)) uid' == cargo_total gs uid'.
Proof.
  induction gs as [|[c q] gs IH]; intros [|tid tids] rem Hne; cbn [add_to_empty];
    try reflexivity.
  cbv zeta.
  destruct (is_none c && Qgtb rem eps) eqn:E;
    [destruct (Qgtb (Qmin rem (tank_volume_of self tid)) eps) eqn:Et|].
  - apply andb_true_iff in E. destruct E as [Ec _].
    specialize (IH tids (rem - Qmin rem (tank_volume_of self tid)) Hne).
    destruct (add_to_empty self uid gs tids _) as [gs2 r2]. cbn [fst] in *.
    rewrite !cargo_total_cons, IH. cbn [is_cargo].
    replace (String.eqb uid uid') with false by (symmetry; apply String.eqb_neq; exact Hne).
    destruct c; [discriminate Ec|]. reflexivity.
  - specialize (IH tids rem Hne).
    destruct (add_to_empty self uid gs tids rem) as [gs2 r2]. cbn [fst] in *.
    rewrite !cargo_total_cons, IH. reflexivity.
  - specialize (IH tids rem Hne).
    destruct (add_to_empty self uid gs tids rem) as [gs2 r2]. cbn [fst] in *.
    rewrite !cargo_total_cons, IH. reflexivity.
Qed.

Lemma repair_cargo_other c cargo uid' :
  unique_id cargo <> uid' ->
  cargo_total (genes (repair_cargo self c cargo)) uid' == cargo_total (genes c) uid'.
Proof.
  intro Hne. unfold repair_cargo. cbv zeta.
  destruct (Qltb _ _).
  - unfold _add_cargo_to_chromosome.
    pose proof (add_to_same_other (unique_id cargo) uid' (genes c) (tank_ids c)
                  (cq cargo * (1 - receiver_tolerance self)
                   - cargo_total (genes c) (unique_id cargo)) Hne) as H1.
    destruct (add_to_same self (unique_id cargo) (genes c) (tank_ids c) _) as [gs1 r1].
    pose proof (add_to_empty_other (unique_id cargo) uid' gs1 (tank_ids c) r1 Hne) as H2.
    destruct (add_to_empty self (unique_id cargo) gs1 (tank_ids c) r1) as [gs2 r2].
    cbn [fst genes] in *. rewrite H2, H1. reflexivity.
  - destruct (Qgtb _ _); [|reflexivity].
    unfold _remove_cargo_from_chromosome. cbn [genes].
    apply remove_from_other. exact Hne.
Qed.

(** One cargo of the repair loop ends within its upper tolerance. *)
Lemma repair_cargo_upper c cargo :
  0 <= receiver_tolerance self -> 0 <= cq cargo ->
  cargo_total (genes (repair_cargo self c cargo)) (unique_id cargo)
  <= cq cargo * (1 + receiver_tolerance self) + eps.
Proof.
  intros Htol Hq. unfold repair_cargo. cbv zeta. pose proof eps_pos as He.
  assert (Hprod : 0 <= cq cargo * receiver_tolerance self)
    by (apply Qmult_le_0_compat; assumption).
  destruct (Qltb _ _) eqn:E1.
  - apply Qltb_lt in E1. unfold _add_cargo_to_chromosome.
    destruct (add_to_same_total (unique_id cargo) (genes c) (tank_ids c)
                (cq cargo * (1 - receiver_tolerance self)
                 - cargo_total (genes c) (unique_id cargo)) ltac:(lra)) as [H1 H2].
    destruct (add_to_same self (unique_id cargo) (genes c) (tank_ids c) _) as [gs1 r1].
    cbn [fst snd] in H1, H2.
    destruct (add_to_empty_total (unique_id cargo) gs1 (tank_ids c) r1 H1) as [H3 H4].
    destruct (add_to_empty self (unique_id cargo) gs1 (tank_ids c) r1) as [gs2 r2].
    cbn [fst snd genes] in *. lra.
  - apply Qltb_false in E1. destruct (Qgtb _ _) eqn:E2.
    + apply Qgtb_gt in E2. unfold _remove_cargo_from_chromosome. cbn [genes].
      set (excess := cargo_total (genes c) (unique_id cargo)
                     - cq cargo * (1 + receiver_tolerance self)) in *.
      destruct (Qlt_le_dec eps excess) as [Hbig|Hsmall].
      * pose proof (remove_from_total (unique_id cargo) (genes c) excess Hbig) as H.
        assert (Hmax : Qmax 0 (cargo_total (genes c) (unique_id cargo) - excess + eps)
                       <= cq cargo * (1 + receiver_tolerance self) + eps).
        { apply Q.max_lub; unfold excess; lra. }
        lra.
      * rewrite (remove_from_unchanged _ _ _ Hsmall). unfold excess in Hsmall. lra.
    + apply Qltb_false in E2. lra.
Qed.

Lemma repair_fold_other uid' cargos : forall c,
  ~ In uid' (map unique_id cargos) ->
  cargo_total (genes (fold_left (repair_cargo self) cargos c)) uid'
  == cargo_total (genes c) uid'.
Proof.
  induction cargos as [|x cargos IH]; intros c Hn; cbn [fold_left]; [reflexivity|].
  rewrite IH by (intro H; apply Hn; right; exact H).
  apply repair_cargo_other. intro H. apply Hn. left. exact H.
Qed.

Lemma repair_fold_upper cargos : forall c cargo,
  NoDup (map unique_id cargos) -> In cargo cargos ->
  0 <= receiver_tolerance self -> 0 <= cq cargo ->
  cargo_total (genes (fold_left (repair_cargo self) cargos c)) (unique_id cargo)
  <= cq cargo * (1 + receiver_tolerance self) + eps.
Proof.
  induction cargos as [|x cargos IH]; intros c cargo Hnd Hin Htol Hq; [contradiction|].
  cbn [map] in Hnd. inversion Hnd as [|y ys Hx Hnd']; subst.
  cbn [fold_left]. destruct Hin as [->|Hin].
  - rewrite (repair_fold_other _ _ _ Hx). apply repair_cargo_upper; assumption.
  - apply IH; assumption.
Qed.
End RepairTotals.

(** X26. Repair enforces the upper tolerance: when the regular cargos have
    distinct ids and the receiver tolerance is not negative, every regular
    cargo with a non-negative quantity totals at most
    [quantity * (1 + tolerance)] plus 0.001 in the repaired chromosome,
    whatever chromosome went in. (The 0.001 is the excess that
    [_remove_cargo_from_chromosome] no longer removes.) *)
Theorem repair_enforces_the_upper_tolerance :
  forall self chromosome cargo,
    NoDup (map unique_id (GeneticOptimizer.regular_cargos self)) ->
    0 <= GeneticOptimizer.receiver_tolerance self ->
    In cargo (GeneticOptimizer.regular_cargos self) -> 0 <= cq cargo ->
    GeneticOptimizer.cargo_total
      (genes (GeneticOptimizer._repair_chromosome self chromosome)) (unique_id cargo)
    <= cq cargo * (1 + GeneticOptimizer.receiver_tolerance self) + eps.
Proof.
  intros self chromosome cargo Hnd Htol Hin Hq.
  unfold GeneticOptimizer._repair_chromosome. cbv zeta.
  apply repair_fold_upper; assumption.
Qed.

(** A chromosome that holds 100 of B where 50 are asked for is cut back to
    51.5, the 50 with the tolerance of 3%. *)
Lemma repair_enforces_the_upper_tolerance_witness :
  GeneticOptimizer.cargo_total
    (genes (GeneticOptimizer._repair_chromosome Examples.ga_one_row Examples.chromosome_B))
    "B"
  <= 50 * (1 + (3 # 100)) + eps.
Proof.
  apply (repair_enforces_the_upper_tolerance Examples.ga_one_row Examples.chromosome_B
           (Examples.regular "B" 50)).
  - repeat constructor; simpl; intuition discriminate.
  - vm_compute. discriminate.
  - right. left. reflexivity.
  - vm_compute. discriminate.
Defined.

(** ** Fitness and its penalties *)

Section Penalties.
Import GeneticOptimizer.

Variable self : GeneticOptimizer.t.
Variable chromosome : Chromosome.

Lemma operational_penalty_nonneg :
  0 <= operational_penalty_coef self ->
  0 <= _calculate_operational_penalty self chromosome.
Proof.
  intro Hc. unfold _calculate_operational_penalty. cbv zeta.
  apply (fold_left_invariant (fun p : Q => 0 <= p)); [|lra].
  intros p [cid idxs] _ Hp. cbv beta iota zeta.
  destruct (Nat.ltb 1 (length idxs)); [|exact Hp].
  assert (0 <= inject_Z (Z.of_nat ((length idxs - 1) * (length idxs - 1))))
    by (change 0 with (inject_Z 0); rewrite <- Zle_Qle; apply Nat2Z.is_nonneg).
  assert (0 <= operational_penalty_coef self
               * inject_Z (Z.of_nat ((length idxs - 1) * (length idxs - 1))))
    by (apply Qmult_le_0_compat; assumption).
  lra.
Qed.

Lemma operational_penalty_zero :
  operational_penalty_coef self == 0 ->
  _calculate_operational_penalty self chromosome == 0.
Proof.
  intro Hc. unfold _calculate_operational_penalty. cbv zeta.
  apply (fold_left_invariant (fun p : Q => p == 0)); [|reflexivity].
  intros p [cid idxs] _ Hp. cbv beta iota zeta.
  destruct (Nat.ltb 1 (length idxs)); [|exact Hp].
  rewrite Hp, Hc. lra.
Qed.

Lemma trim_penalty_nonneg :
  0 <= trim_penalty_coef self -> 0 <= _calculate_trim_penalty self chromosome.
Proof.
  intro Hc. unfold _calculate_trim_penalty.
  destruct (Nat.eqb _ 0); [lra|].
  destruct (fold_left _ _ (0, 0)) as [tw wp]. cbv zeta.
  destruct (Qltb tw eps); [lra|].
  apply Qmult_le_0_compat; [exact Hc|].
  destruct (Nat.ltb 0 (total_rows self)) eqn:E; [|lra].
  apply Nat.ltb_lt in E. apply Qdiv_nonneg; [apply Qabs_nonneg|].
  change 0 with (inject_Z 0). rewrite <- Zlt_Qlt. lia.
Qed.

Lemma trim_penalty_zero :
  trim_penalty_coef self == 0 -> _calculate_trim_penalty self chromosome == 0.
Proof.
  intro Hc. unfold _calculate_trim_penalty.
  destruct (Nat.eqb _ 0); [reflexivity|].
  destruct (fold_left _ _ (0, 0)) as [tw wp]. cbv zeta.
  destruct (Qltb tw eps); [reflexivity|].
  rewrite Hc. lra.
Qed.

Lemma symmetry_penalty_nonneg :
  0 <= symmetry_penalty_coef self ->
  0 <= _calculate_symmetry_penalty self chromosome.
Proof.
  intro Hc. unfold _calculate_symmetry_penalty. cbv zeta.
  apply (fold_left_invariant (fun p : Q => 0 <= p)).
  - intros p [pt st] _ Hp. cbv beta iota.
    destruct (list_index (t_id pt) _ 0) as [pi|]; [|exact Hp].
    destruct (list_index (t_id st) _ 0) as [si|]; [|exact Hp].
    cbv zeta. destruct (Qgtb _ eps); [|exact Hp].
    destruct (Qgtb _ (1 # 10)) eqn:E; [|exact Hp].
    apply Qgtb_gt in E.
    match type of E with
    | _ < ?x => assert (0 <= symmetry_penalty_coef self * x)
                  by (apply Qmult_le_0_compat; lra)
    end.
    lra.
  - apply (fold_left_invariant (fun p : Q => 0 <= p)); [|lra].
    intros p [cid tids] _ Hp. cbv beta iota.
    destruct (_ && _); [|exact Hp].
    assert (0 <= inject_Z (Z.of_nat (length tids)))
      by (change 0 with (inject_Z 0); rewrite <- Zle_Qle; apply Nat2Z.is_nonneg).
    assert (0 <= symmetry_penalty_coef self * inject_Z (Z.of_nat (length tids)))
      by (apply Qmult_le_0_compat; assumption).
    lra.
Qed.

Lemma symmetry_penalty_zero :
  symmetry_penalty_coef self == 0 ->
  _calculate_symmetry_penalty self chromosome == 0.
Proof.
  intro Hc. unfold _calculate_symmetry_penalty. cbv zeta.
  apply (fold_left_invariant (fun p : Q => p == 0)).
  - intros p [pt st] _ Hp. cbv beta iota.
    destruct (list_index (t_id pt) _ 0) as [pi|]; [|exact Hp].
    destruct (list_index (t_id st) _ 0) as [si|]; [|exact Hp].
    cbv zeta. destruct (Qgtb _ eps); [|exact Hp].
    destruct (Qgtb _ (1 # 10)); [|exact Hp].
    rewrite Hp, Hc. lra.
  - apply (fold_left_invariant (fun p : Q => p == 0)); [|reflexivity].
    intros p [cid tids] _ Hp. cbv beta iota.
    destruct (_ && _); [|exact Hp].
    rewrite Hp, Hc. lra.
Qed.
End Penalties.

(** X27. With penalty coefficients that are not negative, none of the three
    penalties is negative, so the fitness of a chromosome is at most the sum
    of its gene quantities; with all three coefficients 0 the fitness is that
    sum. *)
Theorem penalties_only_lower_the_fitness :
  forall self chromosome,
    let total_loaded := Qsum (map snd (genes chromosome)) in
    (0 <= GeneticOptimizer.symmetry_penalty_coef self ->
     0 <= GeneticOptimizer.trim_penalty_coef self ->
     0 <= GeneticOptimizer.operational_penalty_coef self ->
     0 <= GeneticOptimizer._calculate_symmetry_penalty self chromosome /\
     0 <= GeneticOptimizer._calculate_trim_penalty self chromosome /\
     0 <= GeneticOptimizer._calculate_operational_penalty self chromosome /\
     GeneticOptimizer.calculate_fitness self chromosome <= total_loaded) /\
    (GeneticOptimizer.symmetry_penalty_coef self == 0 ->
     GeneticOptimizer.trim_penalty_coef self == 0 ->
     GeneticOptimizer.operational_penalty_coef self == 0 ->
     GeneticOptimizer.calculate_fitness self chromosome == total_loaded).
Proof.
  intros self chromosome total_loaded. subst total_loaded.
  unfold GeneticOptimizer.calculate_fitness. cbv zeta. split.
  - intros H1 H2 H3.
    pose proof (symmetry_penalty_nonneg self chromosome H1).
    pose proof (trim_penalty_nonneg self chromosome H2).
    pose proof (operational_penalty_nonneg self chromosome H3).
    repeat split; try assumption. lra.
  - intros H1 H2 H3.
    rewrite (symmetry_penalty_zero self chromosome H1),
            (trim_penalty_zero self chromosome H2),
            (operational_penalty_zero self chromosome H3). lra.
Qed.

(** With the default coefficients the chromosome that puts 40 and 60 of B
    side by side scores at most the 100 it holds. *)
Lemma penalties_only_lower_the_fitness_witness :
  GeneticOptimizer.calculate_fitness Examples.ga_one_row Examples.chromosome_B
  <= Qsum (map snd (genes Examples.chromosome_B)).
Proof.
  apply (proj1 (penalties_only_lower_the_fitness Examples.ga_one_row
                  Examples.chromosome_B)); vm_compute; discriminate.
Defined.

(** ** The initial population *)

Lemma capped_list_nth self : forall gs tids i cid q tid,
  capped_list self gs tids ->
  nth_error gs i = Some (Some cid, q) -> nth_error tids i = Some tid -> 0 < q ->
  q <= GeneticOptimizer.tank_volume_of self tid.
Proof.
  induction gs as [|g gs IH]; intros [|t tids] [|i] cid q tid H Hg Ht Hq;
    cbn [nth_error] in Hg, Ht; try discriminate.
  - apply Some_eq in Hg. apply Some_eq in Ht. subst. destruct H as [H _].
    apply H; [discriminate | exact Hq].
  - destruct H as [_ H]. apply (IH tids i cid q tid H Hg Ht Hq).
Qed.

Lemma initial_population_length self r :
  length (fst (GeneticOptimizer.create_initial_population self r))
  = GeneticOptimizer.population_size self.
Proof.
  unfold GeneticOptimizer.create_initial_population.
  assert (G : forall l acc,
            length (fst (fold_left
                      (fun '(population, r) (_ : nat) =>
                         let '(chromosome, r) :=
                           GeneticOptimizer._create_random_chromosome self r in
                         ((population ++
                           [GeneticOptimizer._repair_chromosome self chromosome])%list, r))
                      l acc))
            = (length (fst acc) + length l)%nat).
  { induction l as [|x l IH]; intros [pop r0]; cbn [fold_left length fst]; [lia|].
    rewrite IH. destruct (GeneticOptimizer._create_random_chromosome self r0) as [c r1].
    cbn [fst]. rewrite length_app. cbn [length]. lia. }
  rewrite G. cbn [fst length]. apply length_seq.
Qed.

Lemma initial_population_repaired self r c :
  In c (fst (GeneticOptimizer.create_initial_population self r)) ->
  exists c0, c = GeneticOptimizer._repair_chromosome self c0.
Proof.
  unfold GeneticOptimizer.create_initial_population.
  apply (fold_left_invariant
           (fun acc : list Chromosome * Rng =>
              In c (fst acc) -> exists c0, c = GeneticOptimizer._repair_chromosome self c0)).
  - intros [pop r0] x _ Hpop. cbv beta iota.
    destruct (GeneticOptimizer._create_random_chromosome self r0) as [c1 r1].
    cbn [fst] in *. intro Hin. apply in_app_or in Hin.
    destruct Hin as [Hin|[<-|[]]]; [apply Hpop; exact Hin | eauto].
  - intros [].
Qed.

(** X28. [create_initial_population] returns [population_size] chromosomes,
    each over the tanks of the optimizer with one gene per tank; no loaded
    gene exceeds the volume recorded for its tank, and, for regular cargos
    with distinct ids and a tolerance that is not negative, no regular cargo
    with a non-negative quantity totals more than
    [quantity * (1 + tolerance)] plus 0.001. *)
Theorem initial_population_is_repaired :
  forall self r,
    let population := fst (GeneticOptimizer.create_initial_population self r) in
    length population = GeneticOptimizer.population_size self /\
    forall c, In c population ->
      tank_ids c = GeneticOptimizer.self_tank_ids self /\
      length (genes c) = length (tank_ids c) /\
      (forall i cid q tid,
         nth_error (genes c) i = Some (Some cid, q) ->
         nth_error (tank_ids c) i = Some tid -> 0 < q ->
         q <= GeneticOptimizer.tank_volume_of self tid) /\
      (NoDup (map unique_id (GeneticOptimizer.regular_cargos self)) ->
       0 <= GeneticOptimizer.receiver_tolerance self ->
       forall cargo, In cargo (GeneticOptimizer.regular_cargos self) -> 0 <= cq cargo ->
         GeneticOptimizer.cargo_total (genes c) (unique_id cargo)
         <= cq cargo * (1 + GeneticOptimizer.receiver_tolerance self) + eps).
Proof.
  intros self r population. subst population.
  split; [apply initial_population_length|].
  intros c Hc.
  pose proof (initial_population_ok self r) as Hok. rewrite Forall_forall in Hok.
  destruct (Hok c Hc) as [H1 [H2 H3]].
  split; [exact H1|]. split; [exact H2|]. split.
  - intros i cid q tid Hg Ht Hq. apply (capped_list_nth self _ _ i cid q tid H3 Hg Ht Hq).
  - intros Hnd Htol cargo Hin Hq.
    destruct (initial_population_repaired self r c Hc) as [c0 ->].
    unfold GeneticOptimizer._repair_chromosome. cbv zeta.
    apply repair_fold_upper; assumption.
Qed.

(** Four chromosomes for the small run on the two-row ship. *)
Lemma initial_population_is_repaired_witness :
  let self := GeneticOptimizer.init Examples.ship_two_rows
                [Examples.regular "A" 100; Examples.regular "B" 98] None None
                (Some Examples.small_ga) in
  let population := fst (GeneticOptimizer.create_initial_population self [7%N; 2%N; 9%N]) in
  length population = 4%nat /\
  Forall (fun c => GeneticOptimizer.cargo_total (genes c) "A" <= 100 * (1 + (3 # 100)) + eps)
         population.
Proof.
  intros self population.
  destruct (initial_population_is_repaired self [7%N; 2%N; 9%N]) as [H1 H2].
  split; [exact H1|]. apply Forall_forall. intros c Hc.
  destruct (H2 c Hc) as [_ [_ [_ H]]].
  apply (H ltac:(repeat constructor; simpl; intuition discriminate)
           ltac:(vm_compute; discriminate) (Examples.regular "A" 100)
           ltac:(left; reflexivity) ltac:(vm_compute; discriminate)).
Defined.

(** ** Tanks on one side of the ship *)

Lemma Side_eqb_eq a b : Side_eqb a b = true <-> a = b.
Proof. destruct a, b; cbn; split; intro H; try reflexivity; discriminate H. Qed.

(** The side of a known tank. *)
Definition on_side (ship : Ship) (s : Side) (tank_id : string) : Prop :=
  exists info, get_tank_position_info ship tank_id = Some info /\ side info = s.

(** X29. [_is_all_same_side] answers [True] exactly when the list is not
    empty, every tank of it is known to the ship and all lie on the same
    side; the genetic solver's [_all_tanks_same_side] is the same test on
    its own ship. So a single known tank is on one side, and a list with an
    unknown tank never is. *)
Theorem same_side_means_one_side_for_all :
  forall tank_ids ship,
    (AdvancedStowageOptimizer._is_all_same_side tank_ids ship = true <->
     tank_ids <> [] /\ exists s, forall tid, In tid tank_ids -> on_side ship s tid) /\
    (forall self, GeneticOptimizer.ship self = ship ->
       GeneticOptimizer._all_tanks_same_side self tank_ids
       = AdvancedStowageOptimizer._is_all_same_side tank_ids ship) /\
    (forall tid, In tid tank_ids -> get_tank_position_info ship tid = None ->
       AdvancedStowageOptimizer._is_all_same_side tank_ids ship = false).
Proof.
  intros tank_ids ship.
  assert (Hiff : AdvancedStowageOptimizer._is_all_same_side tank_ids ship = true <->
                 tank_ids <> [] /\
                 exists s, forall tid, In tid tank_ids -> on_side ship s tid).
  { unfold AdvancedStowageOptimizer._is_all_same_side.
    destruct tank_ids as [|first rest].
    - split; [discriminate | intros [H _]; contradiction].
    - destruct (get_tank_position_info ship first) as [fp|] eqn:Ef.
      + rewrite forallb_forall. split.
        * intro H. split; [discriminate|]. exists (side fp).
          intros tid [<-|Hin]; [exists fp; auto|].
          specialize (H tid Hin).
          destruct (get_tank_position_info ship tid) as [p|] eqn:Ep; [|discriminate].
          exists p. split; [exact Ep | apply Side_eqb_eq; exact H].
        * intros [_ [s Hs]] tid Hin.
          destruct (Hs first (or_introl eq_refl)) as [i1 [E1 S1]].
          destruct (Hs tid (or_intror Hin)) as [i2 [E2 S2]].
          rewrite E2. rewrite Ef in E1. apply Some_eq in E1. subst i1.
          apply Side_eqb_eq. congruence.
      + split; [discriminate|]. intros [_ [s Hs]].
        destruct (Hs first (or_introl eq_refl)) as [i1 [E1 _]]. congruence. }
  split; [exact Hiff|]. split.
  - intros self <-. reflexivity.
  - intros tid Hin Hnone.
    apply not_true_is_false. intro E. apply Hiff in E. destruct E as [_ [s Hs]].
    destruct (Hs tid Hin) as [i [Ei _]]. congruence.
Qed.

(** On the two-row ship the two port tanks are on one side; with the unknown
    tank "zz" the answer is no. *)
Lemma same_side_means_one_side_for_all_witness :
  (exists s, forall tid, In tid ["t0"; "t2"]%string ->
             on_side Examples.ship_two_rows s tid) /\
  AdvancedStowageOptimizer._is_all_same_side ["t0"; "zz"]%string Examples.ship_two_rows
  = false.
Proof.
  split.
  - apply (proj1 (proj1 (same_side_means_one_side_for_all ["t0"; "t2"]%string
                           Examples.ship_two_rows)) eq_refl).
  - apply (proj2 (proj2 (same_side_means_one_side_for_all ["t0"; "zz"]%string
                           Examples.ship_two_rows)) "zz"%string);
      [right; left; reflexivity | reflexivity].
Defined.

(** ** Mandatory placements in the plan of the genetic solver *)

Section KeptAssignments.
Import GeneticOptimizer.

Variable self : GeneticOptimizer.t.
Variable tid : string.
Variable a : TankAssignment.

Lemma fill_tanks_keeps cargo minu tks : forall plan rem plan',
  (forall t, In t tks -> t_id t <> tid) ->
  get_assignment plan tid = Some a ->
  fill_tanks cargo minu tks plan rem = Some plan' ->
  get_assignment plan' tid = Some a.
Proof.
  induction tks as [|t tks IH]; intros plan rem plan' Hne Hp; cbn [fill_tanks].
  - intro E. apply Some_eq in E. subst. exact Hp.
  - assert (Hrest : forall t', In t' tks -> t_id t' <> tid)
      by (intros; apply Hne; right; assumption).
    destruct (Qltb rem eps); [intro E; apply Some_eq in E; subst; exact Hp|].
    cbv zeta. destruct (Qeq_bool (volume t) 0); [discriminate|].
    destruct (Qltb _ minu); [apply IH; assumption|].
    apply IH; [exact Hrest|].
    unfold get_assignment, add_assignment. cbn [set_assignments assignments].
    rewrite dict_get_set_other; [exact Hp|].
    intro Heq. apply (Hne t (or_introl eq_refl)). symmetry. exact Heq.
Qed.

Lemma fill_cargos_keeps minu empty rc : forall plan plan',
  get_assignment plan tid = Some a ->
  fill_cargos minu empty rc plan = Some plan' ->
  get_assignment plan' tid = Some a.
Proof.
  induction rc as [|[cargo rem] rc IH]; intros plan plan' Hp; cbn [fill_cargos].
  - intro E. apply Some_eq in E. subst. exact Hp.
  - destruct (Qltb rem eps); [apply IH; exact Hp|]. cbv zeta.
    match goal with
    | |- context [filter ?f empty] =>
        assert (Hf : forall t, In t (filter f empty) -> t_id t <> tid);
          [|destruct (filter f empty) as [|t0 ts] eqn:Ef;
            [intro E; apply Some_eq in E; subst; exact Hp|]]
    end.
    { intros t Ht. apply filter_In in Ht. destruct Ht as [_ Ht].
      intro Heq. rewrite Heq, Hp in Ht. discriminate Ht. }
    destruct (fill_tanks cargo minu _ plan rem) as [p1|] eqn:E1; [|discriminate].
    apply IH. apply (fill_tanks_keeps _ _ _ _ _ _ (fun t Ht => Hf t (sorted_by_In _ _ _ Ht))
                       Hp E1).
Qed.

Lemma fill_empty_keeps plan st plan' :
  get_assignment plan tid = Some a ->
  _fill_empty_tanks_with_remaining_cargo self plan st = Some plan' ->
  get_assignment plan' tid = Some a.
Proof.
  intro Hp. unfold _fill_empty_tanks_with_remaining_cargo. cbv zeta.
  destruct (filter _ (available_tanks self)) as [|t0 ts];
    [intro E; apply Some_eq in E; subst; exact Hp|].
  destruct (flat_map _ (regular_cargos self)) as [|c0 cs];
    [intro E; apply Some_eq in E; subst; exact Hp|].
  apply fill_cargos_keeps. exact Hp.
Qed.

Lemma chromosome_to_plan_keeps e c :
  NoDup (dict_keys (mandatory_assignments self)) ->
  dict_get tid (mandatory_assignments self) = Some a ->
  get_assignment (_chromosome_to_plan e self c) tid = Some a.
Proof.
  intros Hnd Hm. unfold _chromosome_to_plan. cbv zeta.
  apply (fold_left_invariant (fun p => get_assignment p tid = Some a)).
  - intros p [[[i tk] cid] q] _ Hp. cbv beta iota.
    destruct (dict_mem tk (mandatory_assignments self)) eqn:Em; [exact Hp|].
    destruct (dict_get cid _) as [cargo|]; [|exact Hp].
    unfold get_assignment, add_assignment. cbn [set_assignments assignments].
    rewrite dict_get_set_other; [exact Hp|].
    intro Heq. subst tk. unfold dict_mem in Em. rewrite Hm in Em. discriminate Em.
  - set (p0 := StowagePlan_new e (s_name (ship self)) (s_id (ship self))
                               (cargo_requests self) "Genetik Algoritma Planı").
    pose proof (copy_into_empty (set_assignments p0 (mandatory_assignments self)) p0
                  Hnd eq_refl) as Hcopy.
    unfold AdvancedStowageOptimizer.copy_assignments in Hcopy.
    cbn [set_assignments assignments] in Hcopy.
    unfold get_assignment. rewrite Hcopy. exact Hm.
Qed.
End KeptAssignments.

Lemma place_mandatory_loop_NoDup cargo minu sorted : forall acc acc',
  NoDup (dict_keys (fst (fst acc))) ->
  GeneticOptimizer.place_mandatory_loop cargo minu sorted acc = Some acc' ->
  NoDup (dict_keys (fst (fst acc'))).
Proof.
  induction sorted as [|[[tk vol] ot] sorted IH]; intros acc acc' Hacc;
    cbn [GeneticOptimizer.place_mandatory_loop].
  - intro E. apply Some_eq in E. subst. exact Hacc.
  - destruct acc as [[massign avail] rem].
    destruct (Qltb rem eps); [intro E; apply Some_eq in E; subst; exact Hacc|].
    destruct ot as [t|]; [|apply IH; exact Hacc].
    cbv zeta. destruct (Qeq_bool (volume t) 0); [discriminate|].
    destruct (Qltb _ minu); [apply IH; exact Hacc|].
    apply IH. cbn [fst] in *. apply dict_set_NoDup. exact Hacc.
Qed.

Lemma place_mandatory_cargos_NoDup self avail st massign avail' :
  GeneticOptimizer._place_mandatory_cargos self avail st = Some (massign, avail') ->
  NoDup (dict_keys massign).
Proof.
  unfold GeneticOptimizer._place_mandatory_cargos. intro E.
  apply (fold_option_invariant_in
           (fun acc : list (string * TankAssignment) * list (string * Q) =>
              NoDup (dict_keys (fst acc)))
           _ _) with (s := ([], avail)) (s' := (massign, avail')) in E;
    [exact E | | constructor].
  intros [m av] c acc' _ Hm. cbv zeta.
  destruct (GeneticOptimizer.place_mandatory_loop c _ _ (m, av, cq c))
    as [[[m1 a1] r1]|] eqn:E1; [|discriminate].
  intro E'. apply Some_eq in E'. subst acc'. cbn [fst].
  apply (place_mandatory_loop_NoDup c _ _ (m, av, cq c) (m1, a1, r1) Hm E1).
Qed.

(** X30. The genetic solver never overwrites a mandatory placement: the
    post-fill keeps every assignment of the plan it is given, decoding a
    chromosome keeps every mandatory assignment, and so every assignment
    that [_place_mandatory_cargos] made is in the plan [optimize] returns,
    whatever the chromosome holds for that tank. *)
Theorem genetic_solver_keeps_mandatory_placements :
  (forall self plan st plan' tid a,
     GeneticOptimizer._fill_empty_tanks_with_remaining_cargo self plan st = Some plan' ->
     get_assignment plan tid = Some a -> get_assignment plan' tid = Some a) /\
  (forall e self chromosome tid a,
     NoDup (dict_keys (GeneticOptimizer.mandatory_assignments self)) ->
     dict_get tid (GeneticOptimizer.mandatory_assignments self) = Some a ->
     get_assignment (GeneticOptimizer._chromosome_to_plan e self chromosome) tid = Some a) /\
  (forall e self r plan massign available tid a,
     GeneticOptimizer.mandatory_cargos self <> [] ->
     GeneticOptimizer._place_mandatory_cargos self
       (fold_left (fun d tank => dict_set (t_id tank) (volume tank) d)
                  (GeneticOptimizer.available_tanks self) [])
       (GeneticOptimizer.settings self) = Some (massign, available) ->
     GeneticOptimizer.optimize e self r = Some plan ->
     dict_get tid massign = Some a ->
     get_assignment plan tid = Some a).
Proof.
  split; [|split].
  - intros self plan st plan' tid a E Hp. apply (fill_empty_keeps self tid a plan st plan' Hp E).
  - intros e self c tid a Hnd Hm. apply chromosome_to_plan_keeps; assumption.
  - intros e self r plan massign available tid a Hne Hplace Hopt Hm.
    pose proof (place_mandatory_cargos_NoDup _ _ _ _ _ Hplace) as Hnd.
    unfold GeneticOptimizer.optimize in Hopt. cbv zeta in Hopt.
    destruct (GeneticOptimizer.mandatory_cargos self) as [|m0 ms] eqn:Emc;
      [contradiction|].
    rewrite Hplace in Hopt.
    match type of Hopt with
    | context [GeneticOptimizer.set_tank_volumes ?s ?tv] =>
        set (self' := GeneticOptimizer.set_tank_volumes s tv) in Hopt;
        destruct (same_after_setters self massign tv) as [_ [_ [_ [Emm _]]]]
    end.
    fold self' in Emm.
    assert (Hm' : dict_get tid (GeneticOptimizer.mandatory_assignments self') = Some a)
      by (rewrite Emm; exact Hm).
    assert (Hnd' : NoDup (dict_keys (GeneticOptimizer.mandatory_assignments self')))
      by (rewrite Emm; exact Hnd).
    destruct (GeneticOptimizer.regular_cargos self') as [|c0 cs].
    + apply Some_eq in Hopt. subst plan.
      set (p0 := StowagePlan_new e (s_name (GeneticOptimizer.ship self'))
                                 (s_id (GeneticOptimizer.ship self'))
                                 (GeneticOptimizer.cargo_requests self')
                                 "Genetik Algoritma Planı").
      pose proof (copy_into_empty
                    (set_assignments p0 (GeneticOptimizer.mandatory_assignments self')) p0
                    Hnd' eq_refl) as Hcopy.
      unfold AdvancedStowageOptimizer.copy_assignments in Hcopy.
      cbn [set_assignments assignments] in Hcopy.
      unfold get_assignment. rewrite Hcopy. exact Hm'.
    + destruct (GeneticOptimizer.create_initial_population self' r) as [population r1].
      destruct (GeneticOptimizer.argmax_index _) as [best_idx|]; [|discriminate].
      destruct (GeneticOptimizer.evolve self' _ _) as [s|]; [|discriminate].
      apply (fill_empty_keeps self' tid a _ _ _
               (chromosome_to_plan_keeps self' tid a e _ Hnd' Hm') Hopt).
Qed.

(** The mandatory cargo M keeps its tank in the plan of the small run. *)
Lemma genetic_solver_keeps_mandatory_placements_witness :
  let self := GeneticOptimizer.init Examples.ship_two_rows
                [Examples.regular "A" 100; Examples.regular "B" 98;
                 Examples.mandatory "M" 50]
                None None (Some Examples.small_ga) in
  exists plan,
    GeneticOptimizer.optimize Examples.env0 self [] = Some plan /\
    get_assignment plan "t1" = Some (mkAssignment "t1" (Examples.mandatory "M" 50) 50).
Proof.
  intro self. eexists. split; [vm_compute; reflexivity|].
  eapply (proj2 (proj2 genetic_solver_keeps_mandatory_placements) Examples.env0 self []).
  - discriminate.
  - vm_compute. reflexivity.
  - vm_compute. reflexivity.
  - vm_compute. reflexivity.
Defined.
